(** * Guizhang platform detection: a shallow embedding and its properties

    The development follows the TypeScript sources of the platform
    detector: the rule manager ([rule-manager.ts]), the cache manager
    ([cache.ts]), the content type classifier
    ([content-analyzer/classifier.ts]), the strategy decider
    ([content-analyzer/strategy-decider.ts]) and the service that composes
    them ([platform-detector/index.ts]).

    JavaScript strings are sequences of UTF-16 code units; numbers that the
    code uses as counters, sizes, priorities and millisecond clocks are
    integers ([Z]); confidences are rationals ([Q]). *)

From Stdlib Require Import ZArith NArith QArith List String Ascii Bool Lia.
From Stdlib Require Import Permutation Sorted.
Import ListNotations.

Local Open Scope Z_scope.

(* ================================================================== *)
(** * Part I. Definitions *)
(* ================================================================== *)

(** ** JavaScript strings *)

(** A string is its list of UTF-16 code units. *)
Definition jsstring : Type := list N.

Module Js.

(** Literal with code units below 256, written as a Rocq string. *)
Definition lit (s : string) : jsstring :=
  List.map N_of_ascii (list_ascii_of_string s).

Fixpoint eqb (a b : jsstring) : bool :=
  match a, b with
  | [], [] => true
  | x :: a', y :: b' => N.eqb x y && eqb a' b'
  | _, _ => false
  end.

Definition in_range (lo hi c : N) : bool := (N.leb lo c && N.leb c hi)%bool.

Definition is_upper (c : N) : bool := in_range 65 90 c.
Definition is_lower (c : N) : bool := in_range 97 122 c.
Definition is_digit (c : N) : bool := in_range 48 57 c.
Definition is_alpha (c : N) : bool := (is_upper c || is_lower c)%bool.
Definition is_alnum (c : N) : bool := (is_alpha c || is_digit c)%bool.

Definition ascii_lower (c : N) : N := if is_upper c then (c + 32)%N else c.
Definition ascii_upper (c : N) : N := if is_lower c then (c - 32)%N else c.

(** ECMAScript WhiteSpace and LineTerminator code points, the set that
    [String.prototype.trim] removes at both ends. *)
Definition is_white_space (c : N) : bool :=
  (in_range 9 13 c || N.eqb c 32 || N.eqb c 160 || N.eqb c 5760
   || in_range 8192 8202 c || N.eqb c 8232 || N.eqb c 8233
   || N.eqb c 8239 || N.eqb c 8287 || N.eqb c 12288 || N.eqb c 65279)%bool.

Fixpoint trimStart (s : jsstring) : jsstring :=
  match s with
  | c :: s' => if is_white_space c then trimStart s' else s
  | [] => []
  end.

Definition trimEnd (s : jsstring) : jsstring := rev (trimStart (rev s)).

(** [String.prototype.trim] *)
Definition trim (s : jsstring) : jsstring := trimEnd (trimStart s).

Fixpoint startsWith (p s : jsstring) : bool :=
  match p, s with
  | [], _ => true
  | x :: p', y :: s' => N.eqb x y && startsWith p' s'
  | _ :: _, [] => false
  end.

(** [String.prototype.includes]: [sub] occurs in [s] as a run of code
    units. *)
Fixpoint includes (sub s : jsstring) : bool :=
  startsWith sub s ||
  match s with
  | [] => false
  | _ :: s' => includes sub s'
  end.

(** [s.length === 0], the only falsy string. *)
Definition is_empty (s : jsstring) : bool :=
  match s with [] => true | _ => false end.

(** A truthy optional string: present and not empty. *)
Definition truthy (s : option jsstring) : option jsstring :=
  match s with
  | Some v => if is_empty v then None else Some v
  | None => None
  end.

End Js.

(** ** A model of [RegExp] for the syntax of the built-in rule tables

    The tables of the rule manager and of the classifier only use: literal
    characters, escaped punctuation, [\d], [\w], [.], the start anchor,
    groups with alternatives, character classes with ranges and negation,
    and the quantifiers [?], [+], [*] and [{n}].  The matcher backtracks in
    the order of the ECMAScript one, so that the captures of the first
    successful match are the ones [exec] and [String.prototype.match]
    report.  Pattern characters are ASCII; subjects are arbitrary.  A
    capture under a quantifier keeps the value of its last iteration and is
    not reset when a later iteration skips it; the quantified groups of the
    tables ([(?:www\.)?]) hold no capture, so the difference does not
    show. *)

Module Regex.

Inductive citem : Type :=
| CChar (c : N)
| CRange (lo hi : N)
| CDigit
| CWord.

Inductive regex : Type :=
| Empty
| Bol
| Chr (c : N)
| Any
| Class (negated : bool) (items : list citem)
| Seq (r1 r2 : regex)
| Alt (r1 r2 : regex)
| Star (r : regex)
| Plus (r : regex)
| Repeat (n : nat) (r : regex)
| Group (capture : option nat) (r : regex).

Definition ch (a : ascii) : N := N_of_ascii a.

Definition is_ch (a : ascii) (c : N) : bool := N.eqb c (ch a).

(** Word characters of [\w] without the [u] flag. *)
Definition is_word (c : N) : bool := (Js.is_alnum c || N.eqb c 95)%bool.

(** Syntax characters that cannot stand for themselves in a pattern. *)
Definition is_syntax (c : N) : bool :=
  (is_ch "^" c || is_ch "$" c || is_ch "\" c || is_ch "." c || is_ch "*" c
   || is_ch "+" c || is_ch "?" c || is_ch "(" c || is_ch ")" c
   || is_ch "[" c || is_ch "]" c || is_ch "{" c || is_ch "}" c
   || is_ch "|" c)%bool.

(** *** Parsing a pattern *)

(** An escape outside or inside a class: [\d], [\w], or an escaped
    punctuation character.  Other escapes are outside the modelled
    syntax. *)
Definition parse_escape (c : N) : option citem :=
  if is_ch "d" c then Some CDigit
  else if is_ch "w" c then Some CWord
  else if (is_word c || N.leb 128 c)%bool then None
  else Some (CChar c).

(** Items of a character class, up to the closing bracket. *)
Fixpoint parse_class_items (s : list N) (acc : list citem)
  : option (list citem * list N) :=
  match s with
  | [] => None
  | c :: t =>
      if is_ch "]" c then Some (rev acc, t)
      else if N.leb 128 c then None
      else if is_ch "\" c then
        match t with
        | e :: t' =>
            match parse_escape e with
            | Some it => parse_class_items t' (it :: acc)
            | None => None
            end
        | [] => None
        end
      else
        match t with
        | d :: t' =>
            if is_ch "-" d then
              match t' with
              | hi :: t'' =>
                  if is_ch "]" hi then parse_class_items t (CChar c :: acc)
                  else if (is_ch "\" hi || N.leb 128 hi)%bool then None
                  else if N.leb c hi
                       then parse_class_items t'' (CRange c hi :: acc)
                       else None
              | [] => None
              end
            else parse_class_items t (CChar c :: acc)
        | [] => None
        end
  end.

Definition parse_class (s : list N) : option (regex * list N) :=
  match s with
  | c :: t =>
      if is_ch "^" c then
        match parse_class_items t [] with
        | Some (items, rest) => Some (Class true items, rest)
        | None => None
        end
      else
        match parse_class_items s [] with
        | Some (items, rest) => Some (Class false items, rest)
        | None => None
        end
  | [] => None
  end.

(** Decimal digits of a [{n}] quantifier. *)
Fixpoint parse_digits (s : list N) (acc : nat) : nat * list N :=
  match s with
  | c :: t =>
      if Js.is_digit c
      then parse_digits t (10 * acc + N.to_nat (c - 48))%nat
      else (acc, s)
  | [] => (acc, s)
  end.

(** The quantifier, if any, that follows an atom. *)
Definition parse_quantifier (r : regex) (s : list N)
  : option (regex * list N) :=
  match s with
  | c :: t =>
      if is_ch "*" c then Some (Star r, t)
      else if is_ch "+" c then Some (Plus r, t)
      else if is_ch "?" c then Some (Alt r Empty, t)
      else if is_ch "{" c then
        match t with
        | d :: _ =>
            if Js.is_digit d then
              match parse_digits t 0 with
              | (n, e :: rest) =>
                  if is_ch "}" e then Some (Repeat n r, rest) else None
              | (_, []) => None
              end
            else None
        | [] => None
        end
      else Some (r, s)
  | [] => Some (r, s)
  end.

(** Disjunction, alternative and term of the ECMAScript pattern grammar. *)
Fixpoint parse_disjunction (fuel : nat) (s : list N) {struct fuel}
  : option (regex * list N) :=
  match fuel with
  | O => None
  | S f =>
      match parse_alternative f s with
      | Some (r, c :: t) =>
          if is_ch "|" c then
            match parse_disjunction f t with
            | Some (r', rest) => Some (Alt r r', rest)
            | None => None
            end
          else Some (r, c :: t)
      | other => other
      end
  end
with parse_alternative (fuel : nat) (s : list N) {struct fuel}
  : option (regex * list N) :=
  match fuel with
  | O => None
  | S f =>
      match s with
      | [] => Some (Empty, [])
      | c :: _ =>
          if (is_ch "|" c || is_ch ")" c)%bool then Some (Empty, s)
          else
            match parse_term f s with
            | Some (r, rest) =>
                match parse_alternative f rest with
                | Some (r', rest') => Some (Seq r r', rest')
                | None => None
                end
            | None => None
            end
      end
  end
with parse_term (fuel : nat) (s : list N) {struct fuel}
  : option (regex * list N) :=
  match fuel with
  | O => None
  | S f =>
      match s with
      | [] => None
      | c :: t =>
          if is_ch "(" c then
            let '(capturing, body) :=
              match t with
              | q :: k :: t' =>
                  if (is_ch "?" q && is_ch ":" k)%bool
                  then (false, t') else (true, t)
              | _ => (true, t)
              end in
            match parse_disjunction f body with
            | Some (r, e :: rest) =>
                if is_ch ")" e
                then parse_quantifier
                       (Group (if capturing then Some O else None) r) rest
                else None
            | _ => None
            end
          else if is_ch "[" c then
            match parse_class t with
            | Some (r, rest) => parse_quantifier r rest
            | None => None
            end
          else if is_ch "\" c then
            match t with
            | e :: rest =>
                match parse_escape e with
                | Some (CChar x) => parse_quantifier (Chr x) rest
                | Some it => parse_quantifier (Class false [it]) rest
                | None => None
                end
            | [] => None
            end
          else if is_ch "^" c then Some (Bol, t)
          else if is_ch "." c then parse_quantifier Any t
          else if (is_syntax c || N.leb 128 c)%bool then None
          else parse_quantifier (Chr c) t
      end
  end.

(** Capturing groups are numbered from 1 by their opening parenthesis,
    left to right. *)
Fixpoint number (r : regex) (next : nat) : regex * nat :=
  match r with
  | Seq r1 r2 =>
      let '(r1', n1) := number r1 next in
      let '(r2', n2) := number r2 n1 in
      (Seq r1' r2', n2)
  | Alt r1 r2 =>
      let '(r1', n1) := number r1 next in
      let '(r2', n2) := number r2 n1 in
      (Alt r1' r2', n2)
  | Star r1 => let '(r1', n1) := number r1 next in (Star r1', n1)
  | Plus r1 => let '(r1', n1) := number r1 next in (Plus r1', n1)
  | Repeat n r1 => let '(r1', n1) := number r1 next in (Repeat n r1', n1)
  | Group (Some _) r1 =>
      let '(r1', n1) := number r1 (S next) in (Group (Some next) r1', n1)
  | Group None r1 =>
      let '(r1', n1) := number r1 next in (Group None r1', n1)
  | other => (other, next)
  end.

(** The pattern of a [RegExp]: [None] stands for the [SyntaxError] of
    the constructor (here also for syntax outside the model).  The second
    component is the number of capturing groups. *)
Definition compile (pattern : jsstring) : option (regex * nat) :=
  match parse_disjunction (4 * List.length pattern + 4) pattern with
  | Some (r, []) =>
      let '(r', next) := number r 1 in Some (r', (next - 1)%nat)
  | _ => None
  end.

(** *** Matching *)

Definition is_line_terminator (c : N) : bool :=
  (N.eqb c 10 || N.eqb c 13 || N.eqb c 8232 || N.eqb c 8233)%bool.

Definition item_mem (it : citem) (c : N) : bool :=
  match it with
  | CChar x => N.eqb x c
  | CRange lo hi => Js.in_range lo hi c
  | CDigit => Js.is_digit c
  | CWord => is_word c
  end.

(** Membership in a class.  Under the [i] flag, some member of the class
    has the same canonical form as the input character. *)
Definition class_mem (ignoreCase : bool) (items : list citem) (c : N)
  : bool :=
  existsb (fun it =>
             (item_mem it c ||
              (ignoreCase && (item_mem it (Js.ascii_upper c)
                              || item_mem it (Js.ascii_lower c))))%bool)
          items.

Definition char_eq (ignoreCase : bool) (p c : N) : bool :=
  if ignoreCase then N.eqb (Js.ascii_upper p) (Js.ascii_upper c)
  else N.eqb p c.

(** The captures of a match: the substring of each numbered group, when
    the group took part in the match. *)
Definition captures : Type := list (nat * jsstring).

Definition or_else {A} (a : option A) (b : option A) : option A :=
  match a with Some _ => a | None => b end.

(** [rmatch i r bol s caps k]: backtracking search in the order of the
    ECMAScript matcher (left alternative first, quantifiers greedy).
    Some prefix of [s] matches [r] and the continuation [k] accepts what
    follows; [bol] tells whether [s] starts at index 0 of the subject. *)
Fixpoint rmatch (i : bool) (r : regex) (bol : bool) (s : list N)
         (caps : captures)
         (k : bool -> list N -> captures -> option captures) {struct r}
  : option captures :=
  match r with
  | Empty => k bol s caps
  | Bol => if bol then k bol s caps else None
  | Chr c =>
      match s with
      | x :: s' => if char_eq i c x then k false s' caps else None
      | [] => None
      end
  | Any =>
      match s with
      | x :: s' => if is_line_terminator x then None else k false s' caps
      | [] => None
      end
  | Class neg items =>
      match s with
      | x :: s' =>
          if xorb neg (class_mem i items x) then k false s' caps else None
      | [] => None
      end
  | Seq r1 r2 =>
      rmatch i r1 bol s caps (fun b s' c' => rmatch i r2 b s' c' k)
  | Alt r1 r2 =>
      or_else (rmatch i r1 bol s caps k) (rmatch i r2 bol s caps k)
  | Star r1 =>
      (fix loop (n : nat) (b : bool) (s : list N) (caps : captures)
           {struct n} : option captures :=
         or_else
           match n with
           | O => None
           | S n' =>
               rmatch i r1 b s caps
                 (fun b' s' c' =>
                    if Nat.ltb (List.length s') (List.length s)
                    then loop n' b' s' c' else None)
           end
           (k b s caps)) (List.length s) bol s caps
  | Plus r1 =>
      rmatch i r1 bol s caps
        ((fix loop (n : nat) (b : bool) (s : list N) (caps : captures)
              {struct n} : option captures :=
            or_else
              match n with
              | O => None
              | S n' =>
                  rmatch i r1 b s caps
                    (fun b' s' c' =>
                       if Nat.ltb (List.length s') (List.length s)
                       then loop n' b' s' c' else None)
              end
              (k b s caps)) (List.length s))
  | Repeat n r1 =>
      (fix rep (n : nat) (b : bool) (s : list N) (caps : captures)
           {struct n} : option captures :=
         match n with
         | O => k b s caps
         | S n' => rmatch i r1 b s caps (fun b' s' c' => rep n' b' s' c')
         end) n bol s caps
  | Group g r1 =>
      rmatch i r1 bol s caps
        (fun b s' c' =>
           match g with
           | Some n =>
               k b s' ((n, firstn (List.length s - List.length s') s) :: c')
           | None => k b s' c'
           end)
  end.

(** A match starting at the leftmost possible index of the subject. *)
Fixpoint search (i : bool) (r : regex) (bol : bool) (s : list N)
  : option captures :=
  or_else (rmatch i r bol s [] (fun _ _ c => Some c))
    match s with
    | [] => None
    | _ :: s' => search i r false s'
    end.

Fixpoint lookup (n : nat) (caps : captures) : option jsstring :=
  match caps with
  | [] => None
  | (m, v) :: rest => if Nat.eqb m n then Some v else lookup n rest
  end.

(** [regex.exec(subject)] for a pattern without the [g] and [y] flags:
    outer [None] is the constructor's [SyntaxError], inner [None] is
    [null], and a match gives the captures [match[1]], [match[2]], ... *)
Definition exec (pattern : jsstring) (ignoreCase : bool)
           (subject : jsstring)
  : option (option (list (option jsstring))) :=
  match compile pattern with
  | Some (r, groups) =>
      Some match search ignoreCase r true subject with
           | Some caps =>
               Some (List.map (fun n => lookup n caps) (seq 1 groups))
           | None => None
           end
  | None => None
  end.

End Regex.

(** ** The host: what the code takes from the JavaScript runtime

    [RegExp], [URL], [URLSearchParams] and [String.prototype.toLowerCase]
    are provided by the runtime.  The code is embedded over this interface;
    [ModelHost] below is an instance for the inputs of the scenarios. *)

Class Host : Type := {
  (** [new RegExp(pattern, flags).exec(subject)] with flags [''] or ['i'];
      [None] when the constructor throws, [Some None] for [null], and the
      captures [match[1]], [match[2]], ... of a match otherwise. *)
  RegExp_exec : jsstring -> bool -> jsstring
                -> option (option (list (option jsstring)));
  toLowerCase : jsstring -> jsstring;
  URL : Type;
  (** [new URL(input)]: [None] when the constructor throws. *)
  URL_new : jsstring -> option URL;
  URL_protocol : URL -> jsstring;
  URL_hostname : URL -> jsstring;
  URL_search : URL -> jsstring;
  URL_set_hash : jsstring -> URL -> URL;
  URL_set_protocol : jsstring -> URL -> URL;
  URL_set_hostname : jsstring -> URL -> URL;
  URL_set_search : jsstring -> URL -> URL;
  URL_toString : URL -> jsstring;
  URLSearchParams : Type;
  URLSearchParams_new : jsstring -> URLSearchParams;
  URLSearchParams_delete : jsstring -> URLSearchParams -> URLSearchParams;
  URLSearchParams_toString : URLSearchParams -> jsstring
}.

(** ** A model of the URL API for plain [http] and [https] URLs

    [parse] follows the URL Standard on inputs of the form
    [scheme://host/path?query#fragment] where the scheme is [http] or
    [https], the host is a domain name of ASCII letters, digits, [-] and
    [.] whose last label starts with a letter, and path, query and fragment
    consist of characters that the parser neither escapes nor rewrites.  An
    input without a scheme is rejected, as the Standard does when there is
    no base URL.  Other inputs (other schemes, ports, credentials, escapes,
    dot segments) are outside the model and are reported as rejected. *)

Module WebURL.

Record t : Type := {
  scheme : jsstring;
  host : jsstring;
  path : jsstring;
  query : option jsstring;
  fragment : option jsstring
}.

Definition is_c0_or_space (c : N) : bool := N.leb c 32.
Definition is_tab_or_newline (c : N) : bool :=
  (N.eqb c 9 || N.eqb c 10 || N.eqb c 13)%bool.

Fixpoint strip_leading (s : jsstring) : jsstring :=
  match s with
  | c :: s' => if is_c0_or_space c then strip_leading s' else s
  | [] => []
  end.

(** Leading and trailing C0 controls and spaces are removed, then every
    tab and newline. *)
Definition preprocess (s : jsstring) : jsstring :=
  filter (fun c => negb (is_tab_or_newline c))
         (rev (strip_leading (rev (strip_leading s)))).

(** [span p s]: the longest prefix of [s] whose characters satisfy [p],
    and the rest. *)
Fixpoint span (p : N -> bool) (s : jsstring) : jsstring * jsstring :=
  match s with
  | c :: s' =>
      if p c then let '(a, b) := span p s' in (c :: a, b) else ([], s)
  | [] => ([], [])
  end.

Definition is_scheme_char (c : N) : bool :=
  (Js.is_alnum c || N.eqb c 43 || N.eqb c 45 || N.eqb c 46)%bool.

(** Scheme start state and scheme state: a letter, then letters, digits,
    [+], [-], [.], then a colon.  The scheme is lower-cased. *)
Definition parse_scheme (s : jsstring) : option (jsstring * jsstring) :=
  match s with
  | c :: _ =>
      if Js.is_alpha c then
        match span is_scheme_char s with
        | (sch, d :: rest) =>
            if N.eqb d 58 then Some (List.map Js.ascii_lower sch, rest)
            else None
        | (_, []) => None
        end
      else None
  | [] => None
  end.

Definition http : jsstring := Js.lit "http".
Definition https : jsstring := Js.lit "https".

Definition is_special (sch : jsstring) : bool :=
  (Js.eqb sch http || Js.eqb sch https || Js.eqb sch (Js.lit "ftp")
   || Js.eqb sch (Js.lit "ws") || Js.eqb sch (Js.lit "wss")
   || Js.eqb sch (Js.lit "file"))%bool.

Definition is_host_char (c : N) : bool :=
  (Js.is_alnum c || N.eqb c 45 || N.eqb c 46)%bool.

(** The last label of a host: what follows its last dot. *)
Fixpoint last_label (h acc : jsstring) : jsstring :=
  match h with
  | c :: h' =>
      if N.eqb c 46 then last_label h' [] else last_label h' (acc ++ [c])
  | [] => acc
  end.

Definition host_ok (h : jsstring) : bool :=
  (forallb is_host_char h
   && match last_label h [] with c :: _ => Js.is_alpha c | [] => false end
   && negb (Js.includes (Js.lit "xn--") (List.map Js.ascii_lower h)))%bool.

Definition is_path_char (c : N) : bool :=
  (Js.is_alnum c || N.eqb c 47 || N.eqb c 45 || N.eqb c 95 || N.eqb c 126
   || N.eqb c 64 || N.eqb c 61 || N.eqb c 43 || N.eqb c 44 || N.eqb c 59
   || N.eqb c 58 || N.eqb c 33 || N.eqb c 36 || N.eqb c 38 || N.eqb c 40
   || N.eqb c 41 || N.eqb c 42)%bool.

Definition is_query_char (c : N) : bool :=
  (Js.is_alnum c || N.eqb c 61 || N.eqb c 38 || N.eqb c 45 || N.eqb c 95
   || N.eqb c 46 || N.eqb c 42)%bool.

Definition is_fragment_char (c : N) : bool :=
  (Js.in_range 33 126 c
   && negb (N.eqb c 34 || N.eqb c 60 || N.eqb c 62 || N.eqb c 96))%bool.

Definition is_authority_end (c : N) : bool :=
  (N.eqb c 47 || N.eqb c 63 || N.eqb c 35 || N.eqb c 92)%bool.

(** What follows the path: an optional query and an optional fragment. *)
Definition parse_tail (s : jsstring)
  : option (option jsstring * option jsstring) :=
  let parse_fragment (s : jsstring) : option (option jsstring) :=
    match s with
    | [] => Some None
    | _ :: f => if forallb is_fragment_char f then Some (Some f) else None
    end in
  match s with
  | c :: s' =>
      if N.eqb c 63 then
        let '(q, rest) := span (fun c => negb (N.eqb c 35)) s' in
        if forallb is_query_char q then
          match parse_fragment rest with
          | Some f => Some (Some q, f)
          | None => None
          end
        else None
      else
        match parse_fragment s with
        | Some f => Some (None, f)
        | None => None
        end
  | [] => Some (None, None)
  end.

Definition parse (input : jsstring) : option t :=
  match parse_scheme (preprocess input) with
  | Some (sch, rest) =>
      if (Js.eqb sch http || Js.eqb sch https)%bool then
        match rest with
        | a :: b :: rest' =>
            if (N.eqb a 47 && N.eqb b 47)%bool then
              let '(h, rest'') :=
                span (fun c => negb (is_authority_end c)) rest' in
              let '(p, tail) :=
                span (fun c => negb (N.eqb c 63 || N.eqb c 35)) rest'' in
              if (host_ok h && forallb is_path_char p)%bool then
                match parse_tail tail with
                | Some (q, f) =>
                    Some {| scheme := sch;
                            host := List.map Js.ascii_lower h;
                            path := match p with [] => [47%N] | _ => p end;
                            query := q;
                            fragment := f |}
                | None => None
                end
              else None
            else None
        | _ => None
        end
      else None
  | None => None
  end.

Definition protocol (u : t) : jsstring := scheme u ++ [58%N].
Definition hostname (u : t) : jsstring := host u.

Definition search (u : t) : jsstring :=
  match query u with
  | None | Some [] => []
  | Some q => 63%N :: q
  end.

Definition with_scheme (v : jsstring) (u : t) : t :=
  {| scheme := v; host := host u; path := path u;
     query := query u; fragment := fragment u |}.
Definition with_host (v : jsstring) (u : t) : t :=
  {| scheme := scheme u; host := v; path := path u;
     query := query u; fragment := fragment u |}.
Definition with_query (v : option jsstring) (u : t) : t :=
  {| scheme := scheme u; host := host u; path := path u;
     query := v; fragment := fragment u |}.
Definition with_fragment (v : option jsstring) (u : t) : t :=
  {| scheme := scheme u; host := host u; path := path u;
     query := query u; fragment := v |}.

(** The [hash] setter: the empty string removes the fragment. *)
Definition set_hash (v : jsstring) (u : t) : t :=
  match v with
  | [] => with_fragment None u
  | c :: v' => with_fragment (Some (if N.eqb c 35 then v' else v)) u
  end.

(** The [protocol] setter: a special scheme replaces a special scheme;
    anything else leaves the URL unchanged. *)
Definition set_protocol (v : jsstring) (u : t) : t :=
  match parse_scheme (v ++ [58%N]) with
  | Some (sch, _) =>
      if (is_special sch && is_special (scheme u))%bool
      then with_scheme sch u else u
  | None => u
  end.

(** The [hostname] setter: the value up to a delimiter is parsed as a
    host; a rejected host leaves the URL unchanged. *)
Definition set_hostname (v : jsstring) (u : t) : t :=
  let '(h, _) :=
    span (fun c => negb (is_authority_end c || N.eqb c 58)) v in
  if host_ok h then with_host (List.map Js.ascii_lower h) u else u.

(** The [search] setter: the empty string removes the query. *)
Definition set_search (v : jsstring) (u : t) : t :=
  match v with
  | [] => with_query None u
  | c :: v' => with_query (Some (if N.eqb c 63 then v' else v)) u
  end.

(** The URL serializer. *)
Definition href (u : t) : jsstring :=
  scheme u ++ Js.lit "://" ++ host u ++ path u
  ++ match query u with Some q => 63%N :: q | None => [] end
  ++ match fragment u with Some f => 35%N :: f | None => [] end.

(** *** [URLSearchParams]: a list of name-value pairs *)

Fixpoint split_on (sep : N) (s acc : jsstring) : list jsstring :=
  match s with
  | c :: s' =>
      if N.eqb c sep then rev acc :: split_on sep s' []
      else split_on sep s' (c :: acc)
  | [] => [rev acc]
  end.

Definition hex_value (c : N) : option N :=
  if Js.is_digit c then Some (c - 48)%N
  else if Js.in_range 65 70 c then Some (c - 55)%N
  else if Js.in_range 97 102 c then Some (c - 87)%N
  else None.

(** Form decoding: [+] is a space and [%XX] is the byte [XX] (bytes
    below 128 only; UTF-8 sequences are outside the model). *)
Fixpoint form_decode (s : jsstring) : jsstring :=
  match s with
  | c :: s' =>
      if N.eqb c 43 then 32%N :: form_decode s'
      else if N.eqb c 37 then
        match s' with
        | a :: ((b :: s'') as t) =>
            match hex_value a, hex_value b with
            | Some x, Some y =>
                if N.ltb (16 * x + y) 128
                then (16 * x + y)%N :: form_decode s''
                else c :: a :: form_decode t
            | _, _ => c :: a :: form_decode t
            end
        | _ => c :: form_decode s'
        end
      else c :: form_decode s'
  | [] => []
  end.

Definition hex_digit (n : N) : N :=
  if N.ltb n 10 then (n + 48)%N else (n + 55)%N.

(** Form encoding: letters, digits, [*], [-], [.] and [_] stand for
    themselves, a space is [+], and any other byte is [%XX]. *)
Definition form_encode (s : jsstring) : jsstring :=
  flat_map (fun c =>
              if (Js.is_alnum c || N.eqb c 42 || N.eqb c 45 || N.eqb c 46
                  || N.eqb c 95)%bool then [c]
              else if N.eqb c 32 then [43%N]
              else [37%N; hex_digit (c / 16); hex_digit (c mod 16)]) s.

Definition params : Type := list (jsstring * jsstring).

Definition parse_pair (s : jsstring) : jsstring * jsstring :=
  let '(n, rest) := span (fun c => negb (N.eqb c 61)) s in
  (form_decode n, form_decode (match rest with _ :: v => v | [] => [] end)).

(** [new URLSearchParams(search)]: a leading question mark is dropped,
    the rest is split at every ampersand, and empty parts are skipped. *)
Definition params_new (s : jsstring) : params :=
  let body := match s with
              | c :: s' => if N.eqb c 63 then s' else s
              | [] => []
              end in
  List.map parse_pair
    (filter (fun part => negb (Js.is_empty part)) (split_on 38 body [])).

(** [params.delete(name)] removes every pair with that name. *)
Definition params_delete (name : jsstring) (ps : params) : params :=
  filter (fun nv => negb (Js.eqb (fst nv) name)) ps.

Fixpoint params_toString (ps : params) : jsstring :=
  match ps with
  | [] => []
  | [(n, v)] => form_encode n ++ [61%N] ++ form_encode v
  | (n, v) :: rest =>
      form_encode n ++ [61%N] ++ form_encode v ++ [38%N]
      ++ params_toString rest
  end.

End WebURL.

#[export] Instance ModelHost : Host := {|
  RegExp_exec := Regex.exec;
  toLowerCase := List.map Js.ascii_lower;
  URL := WebURL.t;
  URL_new := WebURL.parse;
  URL_protocol := WebURL.protocol;
  URL_hostname := WebURL.hostname;
  URL_search := WebURL.search;
  URL_set_hash := WebURL.set_hash;
  URL_set_protocol := WebURL.set_protocol;
  URL_set_hostname := WebURL.set_hostname;
  URL_set_search := WebURL.set_search;
  URL_toString := WebURL.href;
  URLSearchParams := WebURL.params;
  URLSearchParams_new := WebURL.params_new;
  URLSearchParams_delete := WebURL.params_delete;
  URLSearchParams_toString := WebURL.params_toString
|}.

(** ** Types of the platform detector ([types/index.ts]) *)

Module PlatformType.
Inductive t : Type :=
| youtube | bilibili | twitter | medium | zhihu | github | weibo
| tiktok | reddit | stackoverflow | devto | hackernews | generic.

Definition eqb (a b : t) : bool :=
  match a, b with
  | youtube, youtube | bilibili, bilibili | twitter, twitter
  | medium, medium | zhihu, zhihu | github, github | weibo, weibo
  | tiktok, tiktok | reddit, reddit | stackoverflow, stackoverflow
  | devto, devto | hackernews, hackernews | generic, generic => true
  | _, _ => false
  end.

(** The values of the type. *)
Definition all : list t :=
  [ youtube; bilibili; twitter; medium; zhihu; github; weibo; tiktok;
    reddit; stackoverflow; devto; hackernews; generic ].
End PlatformType.

Module ContentType.
Inductive t : Type :=
| article | video | image_gallery | tweet | code_repository
| documentation | discussion | generic.

Definition eqb (a b : t) : bool :=
  match a, b with
  | article, article | video, video | image_gallery, image_gallery
  | tweet, tweet | code_repository, code_repository
  | documentation, documentation | discussion, discussion
  | generic, generic => true
  | _, _ => false
  end.

(** The string a template literal interpolates. *)
Definition to_string (c : t) : jsstring :=
  match c with
  | article => Js.lit "article"
  | video => Js.lit "video"
  | image_gallery => Js.lit "image_gallery"
  | tweet => Js.lit "tweet"
  | code_repository => Js.lit "code_repository"
  | documentation => Js.lit "documentation"
  | discussion => Js.lit "discussion"
  | generic => Js.lit "generic"
  end.
End ContentType.

Module ProcessingStrategy.
Inductive t : Type := clip | watch_later | bookmark | ignore.

Definition eqb (a b : t) : bool :=
  match a, b with
  | clip, clip | watch_later, watch_later | bookmark, bookmark
  | ignore, ignore => true
  | _, _ => false
  end.

Definition to_string (s : t) : jsstring :=
  match s with
  | clip => Js.lit "clip"
  | watch_later => Js.lit "watch_later"
  | bookmark => Js.lit "bookmark"
  | ignore => Js.lit "ignore"
  end.
End ProcessingStrategy.

(** [PlatformMetadata]: every field is optional.  [rawData] is a bag of
    string-keyed values; [wordCount] is read by the classifier. *)
Module PlatformMetadata.
Record t : Type := {
  platformId : option jsstring;
  title : option jsstring;
  description : option jsstring;
  thumbnail : option jsstring;
  duration : option Z;
  author : option jsstring;
  publishedAt : option jsstring;
  viewCount : option Z;
  likeCount : option Z;
  commentCount : option Z;
  tags : option (list jsstring);
  language : option jsstring;
  isLive : option bool;
  isPremium : option bool;
  rawData : option (list (jsstring * jsstring));
  wordCount : option Z
}.

(** The object literal [{}]. *)
Definition empty : t :=
  {| platformId := None; title := None; description := None;
     thumbnail := None; duration := None; author := None;
     publishedAt := None; viewCount := None; likeCount := None;
     commentCount := None; tags := None; language := None;
     isLive := None; isPremium := None; rawData := None;
     wordCount := None |}.

Fixpoint bag_get (key : jsstring) (bag : list (jsstring * jsstring))
  : option jsstring :=
  match bag with
  | [] => None
  | (k, v) :: rest => if Js.eqb k key then Some v else bag_get key rest
  end.

(** [metadata.rawData?.url] *)
Definition rawData_url (m : t) : option jsstring :=
  match rawData m with
  | Some bag => bag_get (Js.lit "url") bag
  | None => None
  end.
End PlatformMetadata.

Module PlatformDetectionResult.
Record t : Type := {
  platform : PlatformType.t;
  contentType : ContentType.t;
  confidence : Q;
  matchedPattern : option jsstring;
  metadata : option PlatformMetadata.t;
  processingStrategy : option ProcessingStrategy.t;
  error : option jsstring;
  warnings : option (list jsstring)
}.
End PlatformDetectionResult.

Module PlatformRule.
Record t : Type := {
  platform : PlatformType.t;
  patterns : list jsstring;
  contentType : ContentType.t;
  metadataExtractor : option jsstring;
  priority : Z;
  enabled : bool;
  description : option jsstring
}.

(** [Partial<Omit<PlatformRule, 'platform'>>] *)
Record updates : Type := {
  u_patterns : option (list jsstring);
  u_contentType : option ContentType.t;
  u_metadataExtractor : option jsstring;
  u_priority : option Z;
  u_enabled : option bool;
  u_description : option jsstring
}.

Definition no_updates : updates :=
  {| u_patterns := None; u_contentType := None;
     u_metadataExtractor := None; u_priority := None;
     u_enabled := None; u_description := None |}.

Definition or_old {A} (new : option A) (old : A) : A :=
  match new with Some v => v | None => old end.

(** The object spread [{ ...rule, ...updates }]. *)
Definition spread (r : t) (u : updates) : t :=
  {| platform := platform r;
     patterns := or_old (u_patterns u) (patterns r);
     contentType := or_old (u_contentType u) (contentType r);
     metadataExtractor :=
       match u_metadataExtractor u with
       | Some v => Some v
       | None => metadataExtractor r
       end;
     priority := or_old (u_priority u) (priority r);
     enabled := or_old (u_enabled u) (enabled r);
     description :=
       match u_description u with
       | Some v => Some v
       | None => description r
       end |}.
End PlatformRule.

(** ** Arrays *)

Module JsArray.

Section Sort.
Context {A : Type}.
(** The comparator: negative when its first argument goes first. *)
Variable compareFn : A -> A -> Z.

Fixpoint insert (x : A) (l : list A) : list A :=
  match l with
  | [] => [x]
  | y :: l' =>
      if compareFn x y <=? 0 then x :: l else y :: insert x l'
  end.

(** [Array.prototype.sort(compareFn)].  The sort is stable, so with a
    consistent comparator its result is determined: an element goes
    before the elements it does not have to follow. *)
Definition sort (l : list A) : list A := fold_right insert [] l.
End Sort.

(** [array.slice(i, j)] for [0 <= i <= j]. *)
Definition slice {A} (i j : nat) (l : list A) : list A :=
  firstn (j - i) (skipn i l).

(** [array.findIndex(p)], [None] for [-1]. *)
Fixpoint findIndex {A} (p : A -> bool) (l : list A) : option nat :=
  match l with
  | [] => None
  | x :: l' =>
      if p x then Some O
      else match findIndex p l' with Some i => Some (S i) | None => None end
  end.

(** [array[i] = f(array[i])] for an index within bounds. *)
Fixpoint update_at {A} (i : nat) (f : A -> A) (l : list A) : list A :=
  match l, i with
  | [], _ => []
  | x :: l', O => f x :: l'
  | x :: l', S i' => x :: update_at i' f l'
  end.

End JsArray.

(** ** The rule manager ([rule-manager.ts]) *)

Module RuleManager.

Module Intermediate.
(** [PlatformDetectionIntermediate] *)
Record t : Type := {
  platform : PlatformType.t;
  confidence : Q;
  matchedPattern : option jsstring;
  extractedId : option jsstring
}.
End Intermediate.

(** [RuleManagerConfig], every field optional. *)
Record RuleManagerConfig : Type := {
  cfg_rules : option (list PlatformRule.t);
  cfg_enableDynamicLoading : option bool;
  cfg_rulesPath : option jsstring
}.

Definition default_config : RuleManagerConfig :=
  {| cfg_rules := None; cfg_enableDynamicLoading := None;
     cfg_rulesPath := None |}.

(** The manager: its array of rules and the configuration it keeps
    ([config.rules] is only read by the constructor). *)
Record t : Type := {
  rules : list PlatformRule.t;
  enableDynamicLoading : bool;
  rulesPath : jsstring
}.

Definition with_rules (rs : list PlatformRule.t) (m : t) : t :=
  {| rules := rs;
     enableDynamicLoading := enableDynamicLoading m;
     rulesPath := rulesPath m |}.

Definition rule (p : PlatformType.t) (pats : list string)
           (c : ContentType.t) (extractor : option string) (prio : Z)
           (descr : jsstring) : PlatformRule.t :=
  {| PlatformRule.platform := p;
     PlatformRule.patterns := List.map Js.lit pats;
     PlatformRule.contentType := c;
     PlatformRule.metadataExtractor := option_map Js.lit extractor;
     PlatformRule.priority := prio;
     PlatformRule.enabled := true;
     PlatformRule.description := Some descr |}.

(** The tail shared by the descriptions: "detection rule". *)
Definition detection_rule : jsstring := [26816; 27979; 35268; 21017]%N.

Definition getBuiltinRules : list PlatformRule.t :=
  [ rule PlatformType.youtube
      [ "^https://(?:www\.)?youtube\.com/watch\?v=[\w-]{11}";
        "^https://youtu\.be/[\w-]{11}";
        "^https://(?:www\.)?youtube\.com/shorts/[\w-]+";
        "^https://(?:www\.)?youtube\.com/playlist\?list=[\w-]+" ]%string
      ContentType.video (Some "youtube"%string) 100
      (Js.lit "YouTube" ++ [35270; 39057]%N ++ detection_rule);
    rule PlatformType.bilibili
      [ "^https://www\.bilibili\.com/video/[A-Za-z0-9]+";
        "^https://www\.bilibili\.com/bangumi/play/[a-z0-9]+";
        "^https://b23\.tv/[A-Za-z0-9]+";
        "^https://(?:www\.)?bilibili\.com/read/[a-z0-9]+" ]%string
      ContentType.video (Some "bilibili"%string) 95
      (Js.lit "B" ++ [31449; 35270; 39057]%N ++ detection_rule);
    rule PlatformType.twitter
      [ "^https://(?:twitter\.com|x\.com)/[\w_]+/status/\d+";
        "^https://(?:twitter\.com|x\.com)/[\w_]+" ]%string
      ContentType.tweet (Some "twitter"%string) 90
      (Js.lit "Twitter/X" ++ [25512; 25991]%N ++ detection_rule);
    rule PlatformType.medium
      [ "^https://medium\.com/@[\w.-]+/[\w-]+";
        "^https://[\w-]+\.medium\.com/[\w-]+" ]%string
      ContentType.article (Some "medium"%string) 85
      (Js.lit "Medium" ++ [25991; 31456]%N ++ detection_rule);
    rule PlatformType.zhihu
      [ "^https://www\.zhihu\.com/question/\d+";
        "^https://zhuanlan\.zhihu\.com/p/\d+";
        "^https://www\.zhihu\.com/answer/\d+";
        "^https://www\.zhihu\.com/zvideo/\d+" ]%string
      ContentType.article (Some "zhihu"%string) 80
      ([30693; 20046; 20869; 23481]%N ++ detection_rule);
    rule PlatformType.github
      [ "^https://github\.com/[\w.-]+/[\w.-]+";
        "^https://github\.com/[\w.-]+/[\w.-]+/issues/\d+";
        "^https://github\.com/[\w.-]+/[\w.-]+/pull/\d+";
        "^https://github\.com/[\w.-]+/[\w.-]+/blob/";
        "^https://github\.com/[\w.-]+/[\w.-]+/tree/" ]%string
      ContentType.code_repository (Some "github"%string) 75
      (Js.lit "GitHub" ++ [20179; 24211]%N ++ detection_rule);
    rule PlatformType.weibo
      [ "^https://weibo\.com/\d+/[A-Za-z0-9]+";
        "^https://m\.weibo\.cn/status/\d+" ]%string
      ContentType.tweet (Some "weibo"%string) 70
      ([24494; 21338; 20869; 23481]%N ++ detection_rule);
    rule PlatformType.tiktok
      [ "^https://www\.tiktok\.com/@[\w.-]+/video/\d+";
        "^https://vt\.tiktok\.com/[A-Za-z0-9]+" ]%string
      ContentType.video (Some "tiktok"%string) 65
      (Js.lit "TikTok" ++ [35270; 39057]%N ++ detection_rule);
    rule PlatformType.reddit
      [ "^https://www\.reddit\.com/r/[\w]+/comments/[\w]+";
        "^https://old\.reddit\.com/r/[\w]+/comments/[\w]+" ]%string
      ContentType.discussion (Some "reddit"%string) 60
      (Js.lit "Reddit" ++ [35752; 35770]%N ++ detection_rule);
    rule PlatformType.stackoverflow
      [ "^https://stackoverflow\.com/questions/\d+/";
        "^https://stackoverflow\.com/a/\d+" ]%string
      ContentType.discussion (Some "stackoverflow"%string) 55
      (Js.lit "Stack Overflow" ++ [38382; 31572]%N ++ detection_rule);
    rule PlatformType.devto
      [ "^https://dev\.to/[\w.-]+/[\w-]+" ]%string
      ContentType.article (Some "devto"%string) 50
      (Js.lit "dev.to" ++ [25991; 31456]%N ++ detection_rule);
    rule PlatformType.hackernews
      [ "^https://news\.ycombinator\.com/item\?id=\d+" ]%string
      ContentType.discussion (Some "hackernews"%string) 45
      (Js.lit "Hacker News" ++ [35752; 35770]%N ++ detection_rule);
    rule PlatformType.generic
      [ "^https?://[^/]+/blog/[^/]+";
        "^https?://[^/]+/article/[^/]+";
        "^https?://[^/]+/post/[^/]+";
        "^https?://[^/]+/news/[^/]+" ]%string
      ContentType.article None 10
      ([36890; 29992; 21338; 23458]%N ++ Js.lit "/" ++ [25991; 31456]%N
       ++ detection_rule) ].

(** The comparator [(a, b) => b.priority - a.priority]. *)
Definition by_priority (a b : PlatformRule.t) : Z :=
  PlatformRule.priority b - PlatformRule.priority a.

(** The constructor, with [initializeRules]: the rules of the
    configuration when it has any, the built-in rules otherwise, sorted
    by priority. *)
Definition new (config : RuleManagerConfig) : t :=
  let cfg := match cfg_rules config with Some rs => rs | None => [] end in
  {| rules := JsArray.sort by_priority
                (match cfg with [] => getBuiltinRules | _ :: _ => cfg end);
     enableDynamicLoading :=
       match cfg_enableDynamicLoading config with
       | Some b => b
       | None => false
       end;
     rulesPath :=
       match cfg_rulesPath config with
       | Some p => p
       | None => Js.lit "/config/platform-rules.json"
       end |}.

Definition getRules (m : t) : list PlatformRule.t := rules m.

Definition addRule (r : PlatformRule.t) (m : t) : t :=
  with_rules (JsArray.sort by_priority (rules m ++ [r])) m.

Definition updateRule (platform : PlatformType.t)
           (updates : PlatformRule.updates) (m : t) : bool * t :=
  match JsArray.findIndex
          (fun r => PlatformType.eqb (PlatformRule.platform r) platform)
          (rules m) with
  | Some index =>
      (true,
       with_rules
         (JsArray.update_at index
            (fun r => PlatformRule.spread r updates) (rules m)) m)
  | None => (false, m)
  end.

Definition setRuleEnabled (platform : PlatformType.t) (enabled : bool)
           (m : t) : bool * t :=
  updateRule platform
    {| PlatformRule.u_patterns := None;
       PlatformRule.u_contentType := None;
       PlatformRule.u_metadataExtractor := None;
       PlatformRule.u_priority := None;
       PlatformRule.u_enabled := Some enabled;
       PlatformRule.u_description := None |} m.

(** [loadRulesFromFile]: logs, and loads nothing. *)
Definition loadRulesFromFile (path : option jsstring) (m : t) : t := m.

(** [loadRulesFromUrl].  [fetched] is what the request produced: the
    array of rules of the response, or [None] when the request failed,
    the status was not ok, or the body was not an array. *)
Definition loadRulesFromUrl (fetched : option (list PlatformRule.t))
           (m : t) : t :=
  if enableDynamicLoading m then
    match fetched with
    | Some rs => with_rules (JsArray.sort by_priority rs) m
    | None => m
    end
  else m.

Section Matching.
Context {H : Host}.

(** [url.match(literal)] for a regular expression literal without
    flags.  A literal is compiled when the module loads, so the call
    itself cannot throw. *)
Definition String_match (literal url : jsstring)
  : option (list (option jsstring)) :=
  match RegExp_exec literal false url with
  | Some m => m
  | None => None
  end.

(** A truthy capture: [match[n]] is a non-empty string. *)
Definition capture (n : nat) (m : list (option jsstring))
  : option jsstring :=
  match nth_error m (n - 1) with
  | Some (Some s) => if Js.is_empty s then None else Some s
  | _ => None
  end.

(** The loop of the id extractors: the first pattern whose first group
    captured something. *)
Fixpoint first_capture (patterns : list jsstring) (url : jsstring)
  : option jsstring :=
  match patterns with
  | [] => None
  | pattern :: rest =>
      match String_match pattern url with
      | Some m =>
          match capture 1 m with
          | Some id => Some id
          | None => first_capture rest url
          end
      | None => first_capture rest url
      end
  end.

Definition extractYouTubeId (url : jsstring) : option jsstring :=
  first_capture
    (List.map Js.lit
       [ "youtube\.com\/watch\?v=([\w-]{11})";
         "youtu\.be\/([\w-]{11})";
         "youtube\.com\/shorts\/([\w-]+)";
         "youtube\.com\/playlist\?list=([\w-]+)" ]%string) url.

Definition extractBilibiliId (url : jsstring) : option jsstring :=
  first_capture
    (List.map Js.lit
       [ "bilibili\.com\/video\/([A-Za-z0-9]+)";
         "bilibili\.com\/bangumi\/play\/([a-z0-9]+)";
         "b23\.tv\/([A-Za-z0-9]+)";
         "bilibili\.com\/read\/([a-z0-9]+)" ]%string) url.

Definition extractTwitterId (url : jsstring) : option jsstring :=
  first_capture
    (List.map Js.lit
       [ "(?:twitter\.com|x\.com)\/\w+\/status\/(\d+)";
         "(?:twitter\.com|x\.com)\/(\w+)" ]%string) url.

Definition extractGitHubId (url : jsstring) : option jsstring :=
  match String_match (Js.lit "github\.com\/([\w.-]+)\/([\w.-]+)") url with
  | Some m =>
      match capture 1 m, capture 2 m with
      | Some user, Some repo => Some (user ++ Js.lit "/" ++ repo)
      | _, _ => None
      end
  | None => None
  end.

(** The [switch] on the platform of the matching rule. *)
Definition extractId (platform : PlatformType.t) (url : jsstring)
  : option jsstring :=
  match platform with
  | PlatformType.youtube => extractYouTubeId url
  | PlatformType.bilibili => extractBilibiliId url
  | PlatformType.twitter => extractTwitterId url
  | PlatformType.github => extractGitHubId url
  | _ => None
  end.

(** The inner loop of [detectPlatform] over the patterns of one rule.
    A pattern that the [RegExp] constructor rejects is logged and
    skipped. *)
Fixpoint match_patterns (r : PlatformRule.t) (patterns : list jsstring)
         (normalizedUrl : jsstring) : option Intermediate.t :=
  match patterns with
  | [] => None
  | pattern :: rest =>
      match RegExp_exec pattern true normalizedUrl with
      | Some (Some _) =>
          Some {| Intermediate.platform := PlatformRule.platform r;
                  Intermediate.confidence := 9 # 10;
                  Intermediate.matchedPattern :=
                    if Js.is_empty pattern then None else Some pattern;
                  Intermediate.extractedId :=
                    extractId (PlatformRule.platform r) normalizedUrl |}
      | Some None => match_patterns r rest normalizedUrl
      | None => match_patterns r rest normalizedUrl
      end
  end.

(** The outer loop over the rules, in the order of the array. *)
Fixpoint match_rules (rs : list PlatformRule.t)
         (normalizedUrl : jsstring) : option Intermediate.t :=
  match rs with
  | [] => None
  | r :: rest =>
      if PlatformRule.enabled r then
        match match_patterns r (PlatformRule.patterns r) normalizedUrl with
        | Some result => Some result
        | None => match_rules rest normalizedUrl
        end
      else match_rules rest normalizedUrl
  end.

Definition detectPlatform (m : t) (url : jsstring) : Intermediate.t :=
  let normalizedUrl := Js.trim url in
  match match_rules (rules m) normalizedUrl with
  | Some result => result
  | None =>
      {| Intermediate.platform := PlatformType.generic;
         Intermediate.confidence := 1 # 10;
         Intermediate.matchedPattern := None;
         Intermediate.extractedId := None |}
  end.

(** A rule matches a URL when it is enabled and one of its patterns
    matches the trimmed URL. *)
Definition pattern_matches (url pattern : jsstring) : bool :=
  match RegExp_exec pattern true (Js.trim url) with
  | Some (Some _) => true
  | _ => false
  end.

Definition rule_matches (url : jsstring) (r : PlatformRule.t) : bool :=
  PlatformRule.enabled r
  && existsb (pattern_matches url) (PlatformRule.patterns r).

End Matching.

End RuleManager.

(** ** The cache manager ([cache.ts]) *)

Module CacheManager.

Record CacheItem : Type := {
  result : PlatformDetectionResult.t;
  timestamp : Z;
  expiresAt : Z;
  accessCount : Z
}.

Record CacheManagerConfig : Type := {
  enabled : bool;
  duration : Z;
  maxSize : Z;
  cleanupInterval : option Z
}.

(** A [Map] keeps its entries in insertion order, one per key. *)
Definition entries : Type := list (jsstring * CacheItem).

Record t : Type := {
  cache : entries;
  hits : Z;
  misses : Z;
  lastCleanup : Z;
  config : CacheManagerConfig
}.

(** *** [Map] operations *)

Fixpoint Map_get (key : jsstring) (m : entries) : option CacheItem :=
  match m with
  | [] => None
  | (k, v) :: m' => if Js.eqb k key then Some v else Map_get key m'
  end.

(** [map.set(key, value)]: an existing key keeps its place. *)
Fixpoint Map_set (key : jsstring) (value : CacheItem) (m : entries)
  : entries :=
  match m with
  | [] => [(key, value)]
  | (k, v) :: m' =>
      if Js.eqb k key then (k, value) :: m'
      else (k, v) :: Map_set key value m'
  end.

Fixpoint Map_delete (key : jsstring) (m : entries) : entries :=
  match m with
  | [] => []
  | (k, v) :: m' =>
      if Js.eqb k key then m' else (k, v) :: Map_delete key m'
  end.

Definition Map_has (key : jsstring) (m : entries) : bool :=
  match Map_get key m with Some _ => true | None => false end.

Definition size (c : t) : Z := Z.of_nat (List.length (cache c)).

Definition with_cache (m : entries) (c : t) : t :=
  {| cache := m; hits := hits c; misses := misses c;
     lastCleanup := lastCleanup c; config := config c |}.

Definition miss (c : t) : t :=
  {| cache := cache c; hits := hits c; misses := misses c + 1;
     lastCleanup := lastCleanup c; config := config c |}.

Definition hit (c : t) : t :=
  {| cache := cache c; hits := hits c + 1; misses := misses c;
     lastCleanup := lastCleanup c; config := config c |}.

(** The constructor.  [now] is the reading of the clock; the cleanup
    timer it starts shows as calls of [cleanup]. *)
Definition new (cfg : CacheManagerConfig) (now : Z) : t :=
  {| cache := []; hits := 0; misses := 0; lastCleanup := now;
     config :=
       {| enabled := enabled cfg; duration := duration cfg;
          maxSize := maxSize cfg;
          cleanupInterval :=
            match cleanupInterval cfg with
            | Some i => Some i
            | None => Some (5 * 60 * 1000)
            end |} |}.

(** [get(key)] at clock reading [now]: the result or [null], and the
    manager afterwards. *)
Definition get (key : jsstring) (now : Z) (c : t)
  : option PlatformDetectionResult.t * t :=
  if negb (enabled (config c)) then (None, miss c)
  else
    match Map_get key (cache c) with
    | None => (None, miss c)
    | Some item =>
        if now >? expiresAt item
        then (None, miss (with_cache (Map_delete key (cache c)) c))
        else
          (Some (result item),
           hit (with_cache
                  (Map_set key
                     {| result := result item;
                        timestamp := timestamp item;
                        expiresAt := expiresAt item;
                        accessCount := accessCount item + 1 |}
                     (cache c)) c))
    end.

(** The comparator [(a, b) => a[1].timestamp - b[1].timestamp]. *)
Definition by_timestamp (a b : jsstring * CacheItem) : Z :=
  timestamp (snd a) - timestamp (snd b).

(** The comparator
    [(a, b) => (a[1].accessCount || 0) - (b[1].accessCount || 0)]. *)
Definition by_accessCount (a b : jsstring * CacheItem) : Z :=
  accessCount (snd a) - accessCount (snd b).

(** The loop shared by the two evictions: the first [count] entries of
    the sorted array are deleted, an entry with a falsy key excepted. *)
Fixpoint evict_loop (victims : list (jsstring * CacheItem)) (m : entries)
         (removedCount : Z) : Z * entries :=
  match victims with
  | [] => (removedCount, m)
  | entry :: rest =>
      if Js.is_empty (fst entry) then evict_loop rest m removedCount
      else evict_loop rest (Map_delete (fst entry) m) (removedCount + 1)
  end.

Definition evict (compareFn : jsstring * CacheItem
                              -> jsstring * CacheItem -> Z)
           (count : Z) (c : t) : Z * t :=
  if size c <=? count then (size c, with_cache [] c)
  else
    let sorted := JsArray.sort compareFn (cache c) in
    let '(removedCount, m) :=
      evict_loop (firstn (Z.to_nat count) sorted) (cache c) 0 in
    (removedCount, with_cache m c).

Definition evictLeastUsed (count : Z) (c : t) : Z * t :=
  evict by_accessCount count c.

Definition evictOldestItems (count : Z) (c : t) : Z * t :=
  evict by_timestamp count c.

(** [set(key, result, duration?)] at clock reading [now]. *)
Definition set (key : jsstring) (r : PlatformDetectionResult.t)
           (custom : option Z) (now : Z) (c : t) : t :=
  if negb (enabled (config c)) then c
  else
    let c1 := if size c >=? maxSize (config c)
              then snd (evictOldestItems 10 c) else c in
    let cacheDuration :=
      match custom with
      | Some d => if d =? 0 then duration (config c) else d
      | None => duration (config c)
      end in
    with_cache
      (Map_set key
         {| result := r; timestamp := now;
            expiresAt := now + cacheDuration; accessCount := 0 |}
         (cache c1)) c1.

Definition delete (key : jsstring) (c : t) : bool * t :=
  (Map_has key (cache c), with_cache (Map_delete key (cache c)) c).

Definition clear (now : Z) (c : t) : t :=
  {| cache := []; hits := 0; misses := 0; lastCleanup := now;
     config := config c |}.

Definition getKeys (c : t) : list jsstring := List.map fst (cache c).

Definition has (key : jsstring) (now : Z) (c : t) : bool :=
  if negb (enabled (config c)) then false
  else
    match Map_get key (cache c) with
    | None => false
    | Some item => now <=? expiresAt item
    end.

Definition refresh (key : jsstring) (custom : option Z) (now : Z) (c : t)
  : bool * t :=
  match Map_get key (cache c) with
  | None => (false, c)
  | Some item =>
      let newDuration :=
        match custom with
        | Some d => if d =? 0 then duration (config c) else d
        | None => duration (config c)
        end in
      (true,
       with_cache
         (Map_set key
            {| result := result item; timestamp := timestamp item;
               expiresAt := now + newDuration;
               accessCount := accessCount item |}
            (cache c)) c)
  end.

(** [cleanup()]: every expired entry is deleted. *)
Definition cleanup (now : Z) (c : t) : Z * t :=
  let kept := filter (fun e => negb (now >? expiresAt (snd e))) (cache c) in
  (Z.of_nat (List.length (cache c)) - Z.of_nat (List.length kept),
   {| cache := kept; hits := hits c; misses := misses c;
      lastCleanup := now; config := config c |}).

(** [CacheStats] *)
Record CacheStats : Type := {
  stats_size : Z;
  stats_hits : Z;
  stats_misses : Z;
  hitRate : Q;
  oldestItemAge : Z;
  newestItemAge : Z;
  memoryUsage : Z
}.

(** [getStats()] at clock reading [now].  [JSON_stringify] is the
    serializer of the runtime, of which only the length of the output is
    used. *)
Definition getStats (JSON_stringify : PlatformDetectionResult.t -> jsstring)
           (now : Z) (c : t) : CacheStats :=
  let timestamps := List.map (fun e => timestamp (snd e)) (cache c) in
  let ages :=
    match timestamps with
    | [] => (0, 0)
    | first :: rest =>
        (now - fold_left Z.min rest first, now - fold_left Z.max rest first)
    end in
  let totalAccesses := hits c + misses c in
  {| stats_size := size c;
     stats_hits := hits c;
     stats_misses := misses c;
     hitRate :=
       if totalAccesses >? 0
       then (inject_Z (hits c) / inject_Z totalAccesses)%Q
       else 0%Q;
     oldestItemAge := fst ages;
     newestItemAge := snd ages;
     memoryUsage :=
       fold_left
         (fun acc e =>
            acc + Z.of_nat (List.length (fst e)) * 2
            + Z.of_nat (List.length (JSON_stringify (result (snd e)))) * 2
            + 100)
         (cache c) 0 |}.

(** The calls a client or the timer can make. *)
Inductive call : Type :=
| CallGet (key : jsstring) (now : Z)
| CallSet (key : jsstring) (r : PlatformDetectionResult.t)
      (custom : option Z) (now : Z)
| CallDelete (key : jsstring)
| CallClear (now : Z)
| CallRefresh (key : jsstring) (custom : option Z) (now : Z)
| CallCleanup (now : Z)
| CallEvictLeastUsed (count : Z)
| CallEvictOldestItems (count : Z).

Definition step (c : t) (op : call) : t :=
  match op with
  | CallGet key now => snd (get key now c)
  | CallSet key r custom now => set key r custom now c
  | CallDelete key => snd (delete key c)
  | CallClear now => clear now c
  | CallRefresh key custom now => snd (refresh key custom now c)
  | CallCleanup now => snd (cleanup now c)
  | CallEvictLeastUsed count => snd (evictLeastUsed count c)
  | CallEvictOldestItems count => snd (evictOldestItems count c)
  end.

(** The manager after a sequence of calls. *)
Definition run (calls : list call) (c : t) : t := fold_left step calls c.

End CacheManager.

(** ** The content type classifier ([content-analyzer/classifier.ts]) *)

Module ContentTypeClassifier.

Record MetadataPatterns : Type := {
  mp_title : option (list jsstring);
  mp_description : option (list jsstring)
}.

Record ClassificationRule : Type := {
  platform : PlatformType.t;
  patterns : option (list jsstring);
  metadataPatterns : option MetadataPatterns;
  contentType : ContentType.t;
  confidence : Q;
  priority : Z
}.

(** [ClassifierConfig], every field optional. *)
Record ClassifierConfig : Type := {
  cfg_enableHeuristicRules : option bool;
  cfg_enableMLClassification : option bool;
  cfg_confidenceThreshold : option Q
}.

Definition default_config : ClassifierConfig :=
  {| cfg_enableHeuristicRules := None;
     cfg_enableMLClassification := None;
     cfg_confidenceThreshold := None |}.

Record t : Type := {
  enableHeuristicRules : bool;
  enableMLClassification : bool;
  confidenceThreshold : Q;
  rules : list ClassificationRule
}.

Definition rule (p : PlatformType.t) (pats : list string)
           (c : ContentType.t) (conf : Q) (prio : Z) : ClassificationRule :=
  {| platform := p; patterns := Some (List.map Js.lit pats);
     metadataPatterns := None; contentType := c; confidence := conf;
     priority := prio |}.

Definition getDefaultRules : list ClassificationRule :=
  [ rule PlatformType.youtube
      [ "youtube\.com/watch"; "youtu\.be/"; "youtube\.com/shorts" ]%string
      ContentType.video (95 # 100) 100;
    rule PlatformType.youtube [ "youtube\.com/playlist" ]%string
      ContentType.video (9 # 10) 90;
    rule PlatformType.bilibili [ "bilibili\.com/video" ]%string
      ContentType.video (95 # 100) 100;
    rule PlatformType.bilibili [ "bilibili\.com/read" ]%string
      ContentType.article (9 # 10) 90;
    rule PlatformType.twitter
      [ "twitter\.com/.*/status"; "x\.com/.*/status" ]%string
      ContentType.tweet (95 # 100) 100;
    rule PlatformType.medium [ "medium\.com" ]%string
      ContentType.article (9 # 10) 100;
    rule PlatformType.zhihu [ "zhihu\.com/question" ]%string
      ContentType.discussion (9 # 10) 100;
    rule PlatformType.zhihu [ "zhuanlan\.zhihu\.com" ]%string
      ContentType.article (9 # 10) 90;
    rule PlatformType.zhihu [ "zhihu\.com/zvideo" ]%string
      ContentType.video (9 # 10) 80;
    rule PlatformType.github [ "github\.com/.*/.*" ]%string
      ContentType.code_repository (9 # 10) 100;
    rule PlatformType.github
      [ "github\.com/.*/issues"; "github\.com/.*/pull" ]%string
      ContentType.discussion (8 # 10) 90;
    rule PlatformType.weibo [ "weibo\.com" ]%string
      ContentType.tweet (9 # 10) 100;
    rule PlatformType.tiktok [ "tiktok\.com/.*/video" ]%string
      ContentType.video (95 # 100) 100;
    rule PlatformType.reddit [ "reddit\.com/r/.*/comments" ]%string
      ContentType.discussion (9 # 10) 100;
    rule PlatformType.stackoverflow
      [ "stackoverflow\.com/questions"; "stackoverflow\.com/a/" ]%string
      ContentType.discussion (95 # 100) 100;
    rule PlatformType.devto [ "dev\.to" ]%string
      ContentType.article (9 # 10) 100;
    rule PlatformType.hackernews [ "news\.ycombinator\.com" ]%string
      ContentType.discussion (9 # 10) 100 ].

Definition new (config : ClassifierConfig) : t :=
  {| enableHeuristicRules :=
       match cfg_enableHeuristicRules config with
       | Some b => b
       | None => true
       end;
     enableMLClassification :=
       match cfg_enableMLClassification config with
       | Some b => b
       | None => false
       end;
     confidenceThreshold :=
       match cfg_confidenceThreshold config with
       | Some q => q
       | None => 6 # 10
       end;
     rules := getDefaultRules |}.

(** The comparator [(a, b) => b.priority - a.priority]. *)
Definition by_priority (a b : ClassificationRule) : Z :=
  priority b - priority a.

Definition with_rules (rs : list ClassificationRule) (c : t) : t :=
  {| enableHeuristicRules := enableHeuristicRules c;
     enableMLClassification := enableMLClassification c;
     confidenceThreshold := confidenceThreshold c;
     rules := rs |}.

Definition addRule (r : ClassificationRule) (c : t) : t :=
  with_rules (JsArray.sort by_priority (rules c ++ [r])) c.

Definition getRules (c : t) : list ClassificationRule := rules c.

Definition clearRules (c : t) : t := with_rules getDefaultRules c.

Definition updateConfig (config : ClassifierConfig) (c : t) : t :=
  {| enableHeuristicRules :=
       match cfg_enableHeuristicRules config with
       | Some b => b
       | None => enableHeuristicRules c
       end;
     enableMLClassification :=
       match cfg_enableMLClassification config with
       | Some b => b
       | None => enableMLClassification c
       end;
     confidenceThreshold :=
       match cfg_confidenceThreshold config with
       | Some q => q
       | None => confidenceThreshold c
       end;
     rules := rules c |}.

(** A content type with the confidence of the step that chose it. *)
Definition scored : Type := ContentType.t * Q.

Section Classification.
Context {H : Host}.

(** A loop over patterns that stops at the first one matching
    [subject].  [None] when a [RegExp] constructor throws before that;
    the classifier does not catch it. *)
Fixpoint first_match (pats : list jsstring) (subject : jsstring)
  : option bool :=
  match pats with
  | [] => Some false
  | pattern :: rest =>
      match RegExp_exec pattern true subject with
      | None => None
      | Some (Some _) => Some true
      | Some None => first_match rest subject
      end
  end.

(** One of the two blocks of the metadata check: the pair (matches,
    total) it adds. *)
Definition metadata_block (pats : option (list jsstring))
           (field : option jsstring) : option (Z * Z) :=
  match pats, Js.truthy field with
  | Some ps, Some v =>
      match first_match ps v with
      | Some true => Some (1, 1)
      | Some false => Some (0, 1)
      | None => None
      end
  | _, _ => Some (0, 0)
  end.

(** The body of the loop of [applyPlatformRules] for one rule.  Every
    path through it returns. *)
Definition apply_rule (r : ClassificationRule)
           (metadata : PlatformMetadata.t) : option scored :=
  let by_url :=
    match patterns r, Js.truthy (PlatformMetadata.rawData_url metadata) with
    | Some ps, Some url => first_match ps url
    | _, _ => Some false
    end in
  match by_url with
  | None => None
  | Some true => Some (contentType r, confidence r)
  | Some false =>
      let by_metadata :=
        match metadataPatterns r with
        | Some mp =>
            match metadata_block (mp_title mp)
                                 (PlatformMetadata.title metadata) with
            | None => None
            | Some (m1, t1) =>
                match metadata_block (mp_description mp)
                        (PlatformMetadata.description metadata) with
                | None => None
                | Some (m2, t2) => Some (m1 + m2, t1 + t2)
                end
            end
        | None => Some (0, 0)
        end in
      match by_metadata with
      | None => None
      | Some (matches, total) =>
          if ((total >? 0)
              && Qle_bool (1 # 2) (inject_Z matches / inject_Z total))%bool
          then Some (contentType r,
                     confidence r * (inject_Z matches / inject_Z total))%Q
          else Some (contentType r, confidence r * (8 # 10))%Q
      end
  end.

(** [applyPlatformRules]: the loop over the rules of the platform.  Its
    body returns in the first iteration, so only the first rule of the
    platform is ever examined.  [None] when a pattern throws. *)
Definition applyPlatformRules (c : t) (platform0 : PlatformType.t)
           (metadata : PlatformMetadata.t) : option scored :=
  let platformRules :=
    filter (fun r => PlatformType.eqb (platform r) platform0) (rules c) in
  match platformRules with
  | r :: _ => apply_rule r metadata
  | [] => Some (ContentType.generic, 1 # 10)
  end.

(** [title?.toLowerCase().includes(word) ?? false] *)
Definition title_has (meta : PlatformMetadata.t) (word : string) : bool :=
  match PlatformMetadata.title meta with
  | Some v => Js.includes (Js.lit word) (toLowerCase v)
  | None => false
  end.

Definition description_has (meta : PlatformMetadata.t) (word : string)
  : bool :=
  match PlatformMetadata.description meta with
  | Some v => Js.includes (Js.lit word) (toLowerCase v)
  | None => false
  end.

(** The table of heuristics: a test, a content type, a confidence. *)
Definition heuristics
  : list ((PlatformType.t -> PlatformMetadata.t -> bool) * scored) :=
  [ (fun _ meta =>
       match PlatformMetadata.duration meta with
       | Some d => d >? 0
       | None => false
       end,
     (ContentType.video, 9 # 10));
    (fun _ meta => title_has meta "video" || title_has meta "watch",
     (ContentType.video, 7 # 10));
    (fun _ meta =>
       match PlatformMetadata.wordCount meta with
       | Some n => n >? 500
       | None => false
       end,
     (ContentType.article, 8 # 10));
    (fun _ meta =>
       title_has meta "blog" || title_has meta "article"
       || title_has meta "post",
     (ContentType.article, 7 # 10));
    (fun _ meta =>
       title_has meta "github" || title_has meta "repo"
       || title_has meta "code",
     (ContentType.code_repository, 8 # 10));
    (fun _ meta =>
       description_has meta "api" || description_has meta "documentation",
     (ContentType.documentation, 7 # 10));
    (fun _ meta =>
       title_has meta "discussion" || title_has meta "question"
       || title_has meta "answer",
     (ContentType.discussion, 7 # 10));
    (fun _ meta =>
       title_has meta "gallery" || title_has meta "photo"
       || title_has meta "image",
     (ContentType.image_gallery, 7 # 10)) ]%bool.

Fixpoint first_heuristic
         (hs : list ((PlatformType.t -> PlatformMetadata.t -> bool)
                     * scored))
         (platform0 : PlatformType.t) (metadata : PlatformMetadata.t)
  : scored :=
  match hs with
  | [] => (ContentType.generic, 3 # 10)
  | (test, answer) :: rest =>
      if test platform0 metadata then answer
      else first_heuristic rest platform0 metadata
  end.

Definition applyHeuristicRules (platform0 : PlatformType.t)
           (metadata : PlatformMetadata.t) : scored :=
  first_heuristic heuristics platform0 metadata.

(** [classify(platform, metadata)]; [None] when a pattern throws. *)
Definition classify (c : t) (platform0 : PlatformType.t)
           (metadata : PlatformMetadata.t) : option ContentType.t :=
  match applyPlatformRules c platform0 metadata with
  | None => None
  | Some platformResult =>
      if Qle_bool (confidenceThreshold c) (snd platformResult)
      then Some (fst platformResult)
      else
        let heuristicResult := applyHeuristicRules platform0 metadata in
        if (enableHeuristicRules c
            && Qle_bool (confidenceThreshold c) (snd heuristicResult))%bool
        then Some (fst heuristicResult)
        else Some ContentType.generic
  end.

End Classification.

End ContentTypeClassifier.

(** ** The strategy decider ([content-analyzer/strategy-decider.ts]) *)

Module StrategyDecider.

(** What [table[contentType]] reads in a table of strategies: a strategy,
    or [None] for [undefined]. *)
Definition strategy_table : Type :=
  ContentType.t -> option ProcessingStrategy.t.

(** A key of an object of type
    [Partial<Record<ContentType, ProcessingStrategy>>]: the object does not
    have the key, or has it with a strategy or with [undefined] as its
    value. *)
Inductive slot : Type :=
| Absent
| Given (value : option ProcessingStrategy.t).

Definition partial_table : Type := ContentType.t -> slot.

(** The object [{}]. *)
Definition empty_table : partial_table := fun _ => Absent.

(** The object spread [{ ...a, ...b }]: every key that [b] has is copied
    over the one of [a], also when its value is [undefined]. *)
Definition spread (a : strategy_table) (b : partial_table)
  : strategy_table :=
  fun c => match b c with Given value => value | Absent => a c end.

Module PlatformPreferences.
Record t : Type := {
  defaultStrategies : partial_table;
  enabledPlatforms : list PlatformType.t;
  autoDetection : bool;
  cacheDuration : Z;
  fallbackToGeneric : bool
}.
End PlatformPreferences.

(** An entry of [userHistory.similarContentDecisions]. *)
Record SimilarDecision : Type := {
  sd_contentType : ContentType.t;
  sd_strategy : ProcessingStrategy.t;
  sd_timestamp : Z;
  sd_satisfaction : option Q
}.

(** The keys of [context.metadata] that the rules read. *)
Record ContextMetadata : Type := {
  duration : option Z;
  wordCount : option Z;
  language : option jsstring;
  commentCount : option Z;
  title : option jsstring
}.

Record DecisionContext : Type := {
  url : option jsstring;
  platform : option jsstring;
  metadata : option ContextMetadata;
  userHistory : option (list SimilarDecision);
  currentQueueSize : option Z;
  availableStorage : option Z
}.

(** The default argument [{}]. *)
Definition empty_context : DecisionContext :=
  {| url := None; platform := None; metadata := None;
     userHistory := None; currentQueueSize := None;
     availableStorage := None |}.

Record Alternative : Type := {
  alt_strategy : ProcessingStrategy.t;
  alt_confidence : Q;
  alt_reason : jsstring
}.

Record StrategyDecision : Type := {
  strategy : ProcessingStrategy.t;
  confidence : Q;
  reasoning : option (list jsstring);
  alternatives : option (list Alternative)
}.

(** [StrategyDeciderConfig]; only [defaultStrategies] is required. *)
Record StrategyDeciderConfig : Type := {
  cfg_defaultStrategies : partial_table;
  cfg_userPreferences : option PlatformPreferences.t;
  cfg_enableContextAware : option bool;
  cfg_enableLearning : option bool
}.

(** The default argument of the constructor, [{ defaultStrategies: {} }]. *)
Definition default_config : StrategyDeciderConfig :=
  {| cfg_defaultStrategies := empty_table; cfg_userPreferences := None;
     cfg_enableContextAware := None; cfg_enableLearning := None |}.

Record HistoryEntry : Type := {
  h_contentType : ContentType.t;
  h_strategy : ProcessingStrategy.t;
  h_context : DecisionContext;
  h_timestamp : Z;
  h_userFeedback : option Q
}.

Record t : Type := {
  defaultStrategies : strategy_table;
  userPreferences : PlatformPreferences.t;
  enableContextAware : bool;
  enableLearning : bool;
  decisionHistory : list HistoryEntry
}.

Definition getDefaultStrategies : strategy_table :=
  fun c =>
    Some match c with
         | ContentType.article => ProcessingStrategy.clip
         | ContentType.video => ProcessingStrategy.watch_later
         | ContentType.tweet => ProcessingStrategy.bookmark
         | ContentType.code_repository => ProcessingStrategy.bookmark
         | ContentType.documentation => ProcessingStrategy.clip
         | ContentType.discussion => ProcessingStrategy.bookmark
         | ContentType.image_gallery => ProcessingStrategy.bookmark
         | ContentType.generic => ProcessingStrategy.clip
         end.

Definition new (config : StrategyDeciderConfig) : t :=
  {| defaultStrategies :=
       spread getDefaultStrategies (cfg_defaultStrategies config);
     userPreferences :=
       match cfg_userPreferences config with
       | Some p => p
       | None =>
           {| PlatformPreferences.defaultStrategies := empty_table;
              PlatformPreferences.enabledPlatforms := [];
              PlatformPreferences.autoDetection := true;
              PlatformPreferences.cacheDuration := 300000;
              PlatformPreferences.fallbackToGeneric := true |}
       end;
     enableContextAware :=
       match cfg_enableContextAware config with
       | Some b => b
       | None => true
       end;
     enableLearning :=
       match cfg_enableLearning config with
       | Some b => b
       | None => false
       end;
     decisionHistory := [] |}.

(** [this.config.defaultStrategies[contentType] || 'clip'] *)
Definition default_for (d : t) (contentType : ContentType.t)
  : ProcessingStrategy.t :=
  match defaultStrategies d contentType with
  | Some s => s
  | None => ProcessingStrategy.clip
  end.

Record ContextRule : Type := {
  condition : ContentType.t -> DecisionContext -> bool;
  rule_strategy : ProcessingStrategy.t;
  matchQuality : ContentType.t -> DecisionContext -> Q;
  reason : jsstring
}.

Section Deciding.
Context {H : Host}.

(** [ctx.metadata?.field] for a numeric field, [None] for [undefined]. *)
Definition meta_num (field : ContextMetadata -> option Z)
           (ctx : DecisionContext) : option Z :=
  match metadata ctx with Some m => field m | None => None end.

(** [value && value < bound]: a number that is neither [undefined] nor
    zero, and below the bound. *)
Definition truthy_below (v : option Z) (bound : Z) : bool :=
  match v with
  | Some n => negb (n =? 0) && (n <? bound)
  | None => false
  end.

Definition truthy_above (v : option Z) (bound : Z) : bool :=
  match v with
  | Some n => negb (n =? 0) && (n >? bound)
  | None => false
  end.

(** [value || 0] *)
Definition or_zero (v : option Z) : Z :=
  match v with Some n => n | None => 0 end.

(** [ctx.url?.includes(word)], falsy when there is no URL. *)
Definition url_has (ctx : DecisionContext) (word : string) : bool :=
  match url ctx with
  | Some u => Js.includes (Js.lit word) u
  | None => false
  end.

(** [ctx.metadata?.title?.toLowerCase().includes(word)] *)
Definition title_has (ctx : DecisionContext) (word : string) : bool :=
  match metadata ctx with
  | Some m =>
      match title m with
      | Some v => Js.includes (Js.lit word) (toLowerCase v)
      | None => false
      end
  | None => false
  end.

Definition language_is (ctx : DecisionContext) (lang : string) : bool :=
  match metadata ctx with
  | Some m =>
      match language m with
      | Some l => Js.eqb l (Js.lit lang)
      | None => false
      end
  | None => false
  end.

Definition getContextRules : list ContextRule :=
  [ (* short videos are clipped *)
    {| condition := fun type ctx =>
         ContentType.eqb type ContentType.video
         && truthy_below (meta_num duration ctx) 300;
       rule_strategy := ProcessingStrategy.clip;
       matchQuality := fun type ctx =>
         if or_zero (meta_num duration ctx) <? 60
         then 9 # 10 else 7 # 10;
       reason :=
         [30701; 35270; 39057; 36866; 21512; 30452; 25509; 21098;
          34255]%N |};
    (* a short queue takes a video *)
    {| condition := fun type ctx =>
         ContentType.eqb type ContentType.video
         && match currentQueueSize ctx with
            | Some n => n <? 5
            | None => false
            end;
       rule_strategy := ProcessingStrategy.watch_later;
       matchQuality := fun _ _ => 8 # 10;
       reason :=
         [38431; 21015; 36739; 30701; 65292; 36866; 21512; 28155; 21152;
          21040; 31245; 21518; 35266; 30475]%N |};
    (* long articles are read later *)
    {| condition := fun type ctx =>
         ContentType.eqb type ContentType.article
         && truthy_above (meta_num wordCount ctx) 5000;
       rule_strategy := ProcessingStrategy.watch_later;
       matchQuality := fun type ctx =>
         if or_zero (meta_num wordCount ctx) >? 10000
         then 9 # 10 else 7 # 10;
       reason :=
         [38271; 25991; 31456; 36866; 21512; 31245; 21518; 38405;
          35835]%N |};
    (* little storage left: a bookmark *)
    {| condition := fun type ctx =>
         ContentType.eqb type ContentType.article
         && match availableStorage ctx with
            | Some n => n <? 50 * 1024 * 1024
            | None => false
            end;
       rule_strategy := ProcessingStrategy.bookmark;
       matchQuality := fun _ _ => 9 # 10;
       reason :=
         [23384; 20648; 31354; 38388; 19981; 36275; 65292; 20351; 29992;
          20070; 31614; 20445; 23384]%N |};
    (* Chinese documentation is clipped *)
    {| condition := fun type ctx =>
         (ContentType.eqb type ContentType.code_repository
          || ContentType.eqb type ContentType.documentation)
         && language_is ctx "zh";
       rule_strategy := ProcessingStrategy.clip;
       matchQuality := fun _ _ => 8 # 10;
       reason :=
         [20013; 25991; 25991; 26723; 36866; 21512; 21098; 34255]%N |};
    (* busy discussions are bookmarked *)
    {| condition := fun type ctx =>
         ContentType.eqb type ContentType.discussion
         && truthy_above (meta_num commentCount ctx) 100;
       rule_strategy := ProcessingStrategy.bookmark;
       matchQuality := fun type ctx =>
         if or_zero (meta_num commentCount ctx) >? 500
         then 9 # 10 else 7 # 10;
       reason :=
         [28909; 38376; 35752; 35770; 36866; 21512; 20070; 31614; 20445;
          23384]%N |};
    (* tutorials are clipped *)
    {| condition := fun type ctx =>
         url_has ctx "tutorial" || url_has ctx "guide"
         || title_has ctx "tutorial";
       rule_strategy := ProcessingStrategy.clip;
       matchQuality := fun _ _ => 8 # 10;
       reason :=
         [25945; 31243; 31867; 20869; 23481; 36866; 21512; 21098;
          34255]%N |};
    (* news is bookmarked *)
    {| condition := fun type ctx =>
         url_has ctx "news" || title_has ctx "news";
       rule_strategy := ProcessingStrategy.bookmark;
       matchQuality := fun _ _ => 7 # 10;
       reason :=
         [26032; 38395; 31867; 20869; 23481; 36866; 21512; 20070; 31614;
          20445; 23384]%N |} ]%bool.

(** The loop of [applyContextRules]: [bestMatch] is replaced by a rule
    whose condition holds when there is none yet or when the quality
    of the rule is strictly higher. *)
Fixpoint best_match (rules : list ContextRule)
         (contentType : ContentType.t) (context : DecisionContext)
         (bestMatch : option (ProcessingStrategy.t * Q * jsstring))
  : option (ProcessingStrategy.t * Q * jsstring) :=
  match rules with
  | [] => bestMatch
  | rule :: rest =>
      best_match rest contentType context
        (if condition rule contentType context then
           let quality := matchQuality rule contentType context in
           match bestMatch with
           | None => Some (rule_strategy rule, quality, reason rule)
           | Some (_, best, _) =>
               if negb (Qle_bool quality best)
               then Some (rule_strategy rule, quality, reason rule)
               else bestMatch
           end
         else bestMatch)
  end.

Definition applyContextRules (d : t) (contentType : ContentType.t)
           (context : DecisionContext) : StrategyDecision :=
  match best_match getContextRules contentType context None with
  | Some (s, quality, why) =>
      {| strategy := s; confidence := quality;
         reasoning :=
           Some [ [19978; 19979; 25991; 35268; 21017; 21305; 37197]%N
                  ++ Js.lit ": " ++ why ];
         alternatives := None |}
  | None =>
      {| strategy := default_for d contentType; confidence := 7 # 10;
         reasoning :=
           Some [ [27809; 26377; 21305; 37197; 30340; 19978; 19979;
                   25991; 35268; 21017; 65292; 20351; 29992; 40664;
                   35748; 31574; 30053]%N ];
         alternatives := None |}
  end.

(** [applyLearning] weighs past decisions with [Math.exp]; its
    floating-point arithmetic is not modelled.  Its answer only ever
    becomes an alternative of the decision. *)
Variable applyLearning :
  t -> ContentType.t -> DecisionContext -> Z -> StrategyDecision.

Definition recordDecision (contentType : ContentType.t)
           (s : ProcessingStrategy.t) (context : DecisionContext)
           (now : Z) (d : t) : t :=
  if negb (enableLearning d) then d
  else
    let history :=
      decisionHistory d
      ++ [ {| h_contentType := contentType; h_strategy := s;
              h_context := context; h_timestamp := now;
              h_userFeedback := None |} ] in
    {| defaultStrategies := defaultStrategies d;
       userPreferences := userPreferences d;
       enableContextAware := enableContextAware d;
       enableLearning := enableLearning d;
       decisionHistory :=
         if (1000 <? List.length history)%nat
         then skipn (List.length history - 500) history
         else history |}.

Definition decideWithDetails (d : t) (contentType : ContentType.t)
           (context : DecisionContext) (now : Z)
  : StrategyDecision * t :=
  let defaultStrategy := default_for d contentType in
  let reasoning0 :=
    [ [20869; 23481; 31867; 22411]%N ++ Js.lit " " ++ [34]%N
      ++ ContentType.to_string contentType
      ++ [34]%N ++ Js.lit " "
      ++ [30340; 40664; 35748; 31574; 30053; 26159]%N ++ Js.lit " "
      ++ [34]%N ++ ProcessingStrategy.to_string defaultStrategy
      ++ [34]%N ] in
  let contextResult := applyContextRules d contentType context in
  let overridden :=
    (enableContextAware d
     && negb (ProcessingStrategy.eqb (strategy contextResult)
                                     defaultStrategy))%bool in
  let finalStrategy :=
    if overridden then strategy contextResult else defaultStrategy in
  let confidence0 :=
    if overridden then confidence contextResult else 8 # 10 in
  let reasoning1 :=
    if overridden
    then reasoning0
         ++ match reasoning contextResult with
            | Some l => l
            | None => []
            end
    else reasoning0 in
  let alternatives0 :=
    if overridden
    then [ {| alt_strategy := defaultStrategy; alt_confidence := 7 # 10;
              alt_reason := [40664; 35748; 31574; 30053]%N |} ]
    else [] in
  let alternatives1 :=
    match enableLearning d, userHistory context with
    | true, Some _ =>
        let learningResult := applyLearning d contentType context now in
        if negb (ProcessingStrategy.eqb (strategy learningResult)
                                        finalStrategy)
        then alternatives0
             ++ [ {| alt_strategy := strategy learningResult;
                     alt_confidence := confidence learningResult;
                     alt_reason :=
                       [22522; 20110; 29992; 25143; 21382; 21490; 23398;
                        20064]%N |} ]
        else alternatives0
    | _, _ => alternatives0
    end in
  ({| strategy := finalStrategy; confidence := confidence0;
      reasoning := Some reasoning1;
      alternatives :=
        match alternatives1 with
        | [] => None
        | _ :: _ => Some alternatives1
        end |},
   recordDecision contentType finalStrategy context now d).

Definition decide (d : t) (contentType : ContentType.t)
           (context : DecisionContext) (now : Z)
  : ProcessingStrategy.t * t :=
  let '(decision, d') := decideWithDetails d contentType context now in
  (strategy decision, d').

End Deciding.

Definition updatePreferences (table : option partial_table) (d : t) : t :=
  match table with
  | Some s =>
      {| defaultStrategies := spread (defaultStrategies d) s;
         userPreferences := userPreferences d;
         enableContextAware := enableContextAware d;
         enableLearning := enableLearning d;
         decisionHistory := decisionHistory d |}
  | None => d
  end.

Definition clearDecisionHistory (d : t) : t :=
  {| defaultStrategies := defaultStrategies d;
     userPreferences := userPreferences d;
     enableContextAware := enableContextAware d;
     enableLearning := enableLearning d;
     decisionHistory := [] |}.

(** The comparator [(a, b) => b.timestamp - a.timestamp], on entries
    paired with their index in the history. *)
Definition by_recency (a b : nat * HistoryEntry) : Z :=
  h_timestamp (snd b) - h_timestamp (snd a).

(** [entry.userFeedback = satisfaction] *)
Definition with_userFeedback (satisfaction : Q) (e : HistoryEntry)
  : HistoryEntry :=
  {| h_contentType := h_contentType e;
     h_strategy := h_strategy e;
     h_context := h_context e;
     h_timestamp := h_timestamp e;
     h_userFeedback := Some satisfaction |}.

(** [provideFeedback(contentType, strategy, satisfaction)].  [filter] and
    [sort] build new arrays of the objects of the history; an object is
    known by its index in the history, and the assignment to
    [recentDecision.userFeedback] changes the entry at that index. *)
Definition provideFeedback (contentType : ContentType.t)
           (s : ProcessingStrategy.t) (satisfaction : Q) (d : t) : t :=
  if negb (enableLearning d) then d
  else
    let indexed :=
      combine (seq 0 (List.length (decisionHistory d)))
              (decisionHistory d) in
    let matching :=
      filter (fun e =>
                ContentType.eqb (h_contentType (snd e)) contentType
                && ProcessingStrategy.eqb (h_strategy (snd e)) s)
             indexed in
    match JsArray.sort by_recency matching with
    | [] => d
    | recentDecision :: _ =>
        {| defaultStrategies := defaultStrategies d;
           userPreferences := userPreferences d;
           enableContextAware := enableContextAware d;
           enableLearning := enableLearning d;
           decisionHistory :=
             JsArray.update_at (fst recentDecision)
               (with_userFeedback satisfaction) (decisionHistory d) |}
    end.

End StrategyDecider.

(** ** Exceptions and shared state

    A method runs on the shared state of the service and either returns or
    throws; what it changed before throwing stays changed. *)

Module Effect.

(** A thrown value: an [Error] object with its message, or anything
    else. *)
Inductive thrown : Type :=
| ErrorObject (message : jsstring)
| OtherValue.

Inductive outcome (A : Type) : Type :=
| Returned (a : A)
| Thrown (e : thrown).
Arguments Returned {A} a.
Arguments Thrown {A} e.

Definition M (W A : Type) : Type := W -> outcome A * W.

Definition ret {W A} (a : A) : M W A := fun w => (Returned a, w).

Definition throw {W A} (e : thrown) : M W A := fun w => (Thrown e, w).

Definition bind {W A B} (c : M W A) (k : A -> M W B) : M W B :=
  fun w =>
    match c w with
    | (Returned a, w') => k a w'
    | (Thrown e, w') => (Thrown e, w')
    end.

(** [try { c } catch (e) { handler(e) }] *)
Definition try_catch {W A} (c : M W A) (handler : thrown -> M W A)
  : M W A :=
  fun w =>
    match c w with
    | (Returned a, w') => (Returned a, w')
    | (Thrown e, w') => handler e w'
    end.

(** *** Calls of [async] functions

    A call of an [async] function runs, when it is made, up to its first
    [await]; from there it goes on, from one [await] to the next, each
    time the queue of microtasks reaches it.  The calls of this repository
    wait for nothing but promises of its own [async] functions (no timer,
    no request), so calls that were made one after the other each have one
    job in every turn of the queue, and the jobs of a turn run in the order
    in which the calls were made.

    [P] is what a waiting call remembers and [A] what a call settles
    with; [inl s] is a call that waits and [inr a] one that has settled.
    [start x] is the call with argument [x] up to its first [await], and
    [resume s] a waiting call up to its next one. *)
Section Async.
Context {W X P A : Type}.
Variable start : X -> W -> (P + A) * W.
Variable resume : P -> W -> (P + A) * W.

(** [xs.map(x => f(x))] for an [async] function [f]: the calls are made
    in the order of the array. *)
Fixpoint call_each (xs : list X) (w : W) : list (P + A) * W :=
  match xs with
  | [] => ([], w)
  | x :: xs' =>
      let '(c, w1) := start x w in
      let '(cs, w2) := call_each xs' w1 in
      (c :: cs, w2)
  end.

(** One turn of the queue. *)
Fixpoint turn (calls : list (P + A)) (w : W) : list (P + A) * W :=
  match calls with
  | [] => ([], w)
  | inr a :: rest =>
      let '(rest', w') := turn rest w in (inr a :: rest', w')
  | inl s :: rest =>
      let '(c, w1) := resume s w in
      let '(rest', w2) := turn rest w1 in
      (c :: rest', w2)
  end.

(** [n] turns of the queue. *)
Fixpoint turns (n : nat) (calls : list (P + A)) (w : W)
  : list (P + A) * W :=
  match n with
  | O => (calls, w)
  | S n' => let '(calls', w') := turn calls w in turns n' calls' w'
  end.

(** What the calls that have settled settled with. *)
Definition settled (calls : list (P + A)) : list A :=
  flat_map (fun c => match c with inr a => [a] | inl _ => [] end) calls.

End Async.

End Effect.

Notation "x <- c ;; k" := (Effect.bind c (fun x => k))
  (at level 61, c at next level, right associativity).

(** ** The service ([platform-detector/index.ts]) *)

Module PlatformDetectorService.

Import Effect.

Definition trackingParams : list jsstring :=
  List.map Js.lit
    [ "utm_source"; "utm_medium"; "utm_campaign"; "utm_term";
      "utm_content"; "fbclid"; "gclid" ]%string.

(** The [try] block of [normalizeUrl] after the constructor of [URL]:
    property accesses and setters, none of which throws. *)
Definition canonicalize {H : Host} (urlObj : URL) : URL :=
  let urlObj := URL_set_hash [] urlObj in
  let urlObj :=
    URL_set_protocol (toLowerCase (URL_protocol urlObj)) urlObj in
  let urlObj :=
    URL_set_hostname (toLowerCase (URL_hostname urlObj)) urlObj in
  let params := URLSearchParams_new (URL_search urlObj) in
  let params :=
    fold_left (fun ps param => URLSearchParams_delete param ps)
              trackingParams params in
  URL_set_search (URLSearchParams_toString params) urlObj.

(** [normalizeUrl(url)]: the [catch] block returns the trimmed input. *)
Definition normalizeUrl {H : Host} (url : jsstring) : jsstring :=
  match URL_new url with
  | Some urlObj => URL_toString (canonicalize urlObj)
  | None => Js.trim url
  end.

(** The members of the service: the methods [detect] calls on the rule
    manager, the cache manager, the metadata extractor, the classifier
    and the strategy decider, over the state [W] they share, and the one
    configuration flag [detect] reads. *)
Record t (W : Type) : Type := {
  ruleManager_detectPlatform :
    jsstring -> M W RuleManager.Intermediate.t;
  cacheManager_get : jsstring -> M W (option PlatformDetectionResult.t);
  cacheManager_set : jsstring -> PlatformDetectionResult.t -> M W unit;
  metadataExtractor_extract :
    jsstring -> PlatformType.t -> M W PlatformMetadata.t;
  contentTypeClassifier_classify :
    PlatformType.t -> PlatformMetadata.t -> M W ContentType.t;
  strategyDecider_decide : ContentType.t -> M W ProcessingStrategy.t;
  enableMetadataExtraction : bool
}.
Arguments ruleManager_detectPlatform {W}.
Arguments cacheManager_get {W}.
Arguments cacheManager_set {W}.
Arguments metadataExtractor_extract {W}.
Arguments contentTypeClassifier_classify {W}.
Arguments strategyDecider_decide {W}.
Arguments enableMetadataExtraction {W}.

(** The message for a thrown value that is not an [Error]:
    "unknown error". *)
Definition unknown_error : jsstring := [26410; 30693; 38169; 35823]%N.

(** The result of the [catch] block of [detect]. *)
Definition degraded (error : thrown) : PlatformDetectionResult.t :=
  {| PlatformDetectionResult.platform := PlatformType.generic;
     PlatformDetectionResult.contentType := ContentType.generic;
     PlatformDetectionResult.confidence := 1 # 10;
     PlatformDetectionResult.matchedPattern := None;
     PlatformDetectionResult.metadata := None;
     PlatformDetectionResult.processingStrategy :=
       Some ProcessingStrategy.clip;
     PlatformDetectionResult.error :=
       Some match error with
            | ErrorObject message => message
            | OtherValue => unknown_error
            end;
     PlatformDetectionResult.warnings := None |}.

(** A call of [detect] that waits at one of its [await]s, with what it
    has computed so far:
    - [AwaitGet]: [await this.cacheManager.get(normalizedUrl)], the
      lookup made;
    - [AwaitDetectPlatform]: [await this.ruleManager.detectPlatform(...)],
      the call made and settled (the method has no [await] of its own);
    - [AwaitExtract]: [await this.metadataExtractor.extract(...)], the
      call made; [more] is the number of turns of the queue the extractor
      still takes before its promise settles;
    - [AwaitSet]: [await this.cacheManager.set(normalizedUrl, result)],
      the result stored. *)
Inductive waiting : Type :=
| AwaitGet (normalizedUrl : jsstring)
    (cachedResult : option PlatformDetectionResult.t)
| AwaitDetectPlatform (normalizedUrl : jsstring)
    (platformResult : outcome RuleManager.Intermediate.t)
| AwaitExtract (more : nat) (normalizedUrl : jsstring)
    (platformResult : RuleManager.Intermediate.t)
    (metadata : outcome PlatformMetadata.t)
| AwaitSet (result : PlatformDetectionResult.t).

Section Detect.
Context {H : Host} {W : Type}.
Variable service : t W.

(** Step 4 of [detect]: the extraction, with its own [try]. *)
Definition extract_metadata (normalizedUrl : jsstring)
           (platform : PlatformType.t)
  : M W (option PlatformMetadata.t) :=
  if (enableMetadataExtraction service
      && negb (PlatformType.eqb platform PlatformType.generic))%bool
  then
    try_catch
      (metadata <- metadataExtractor_extract service normalizedUrl
                                             platform ;;
       ret (Some metadata))
      (fun _ => ret None)
  else ret None.

(** The [try] block of [detect]. *)
Definition detect_body (url : jsstring) : M W PlatformDetectionResult.t :=
  let normalizedUrl := normalizeUrl url in
  cachedResult <- cacheManager_get service normalizedUrl ;;
  match cachedResult with
  | Some cached => ret cached
  | None =>
      platformResult <-
        ruleManager_detectPlatform service normalizedUrl ;;
      let platform := RuleManager.Intermediate.platform platformResult in
      metadata <- extract_metadata normalizedUrl platform ;;
      contentType <-
        contentTypeClassifier_classify service platform
          (match metadata with
           | Some m => m
           | None => PlatformMetadata.empty
           end) ;;
      processingStrategy <- strategyDecider_decide service contentType ;;
      let result :=
        {| PlatformDetectionResult.platform := platform;
           PlatformDetectionResult.contentType := contentType;
           PlatformDetectionResult.confidence :=
             RuleManager.Intermediate.confidence platformResult;
           PlatformDetectionResult.matchedPattern :=
             Js.truthy
               (RuleManager.Intermediate.matchedPattern platformResult);
           PlatformDetectionResult.metadata := metadata;
           PlatformDetectionResult.processingStrategy :=
             Some processingStrategy;
           PlatformDetectionResult.error := None;
           PlatformDetectionResult.warnings := None |} in
      _ <- cacheManager_set service normalizedUrl result ;;
      ret result
  end.

(** [detect(url)] *)
Definition detect (url : jsstring) : M W PlatformDetectionResult.t :=
  try_catch (detect_body url) (fun error => ret (degraded error)).

(** *** [detect] from one [await] to the next

    The number of turns of the queue that the [await]s inside
    [metadataExtractor.extract(normalizedUrl, platform)] take.  What the
    call changes in the state of the service, if anything, it changes when
    it is made (the extractor of this repository changes nothing). *)
Variable extraction_turns : jsstring -> PlatformType.t -> nat.

(** Steps 5 to 8 of [detect], which no [await] separates: the
    classification, the decision, the result and the call of
    [cacheManager.set]. *)
Definition classify_decide_store (normalizedUrl : jsstring)
           (platformResult : RuleManager.Intermediate.t)
           (metadata : option PlatformMetadata.t)
  : M W PlatformDetectionResult.t :=
  let platform := RuleManager.Intermediate.platform platformResult in
  contentType <-
    contentTypeClassifier_classify service platform
      (match metadata with
       | Some m => m
       | None => PlatformMetadata.empty
       end) ;;
  processingStrategy <- strategyDecider_decide service contentType ;;
  let result :=
    {| PlatformDetectionResult.platform := platform;
       PlatformDetectionResult.contentType := contentType;
       PlatformDetectionResult.confidence :=
         RuleManager.Intermediate.confidence platformResult;
       PlatformDetectionResult.matchedPattern :=
         Js.truthy (RuleManager.Intermediate.matchedPattern platformResult);
       PlatformDetectionResult.metadata := metadata;
       PlatformDetectionResult.processingStrategy := Some processingStrategy;
       PlatformDetectionResult.error := None;
       PlatformDetectionResult.warnings := None |} in
  _ <- cacheManager_set service normalizedUrl result ;;
  ret result.

(** From the end of the extraction to the [await] of [cacheManager.set];
    what is thrown on the way goes to the [catch] block, whose [return]
    settles the call. *)
Definition detect_finish (normalizedUrl : jsstring)
           (platformResult : RuleManager.Intermediate.t)
           (metadata : option PlatformMetadata.t) (w : W)
  : (waiting + PlatformDetectionResult.t) * W :=
  match classify_decide_store normalizedUrl platformResult metadata w with
  | (Returned result, w') => (inl (AwaitSet result), w')
  | (Thrown error, w') => (inr (degraded error), w')
  end.

(** The call [this.detect(url)], up to its first [await]. *)
Definition detect_start (url : jsstring) (w : W)
  : (waiting + PlatformDetectionResult.t) * W :=
  let normalizedUrl := normalizeUrl url in
  match cacheManager_get service normalizedUrl w with
  | (Returned cachedResult, w') =>
      (inl (AwaitGet normalizedUrl cachedResult), w')
  | (Thrown error, w') => (inr (degraded error), w')
  end.

(** A waiting call of [detect], up to its next [await] or its end. *)
Definition detect_resume (call : waiting) (w : W)
  : (waiting + PlatformDetectionResult.t) * W :=
  match call with
  | AwaitGet _ (Some cached) => (inr cached, w)
  | AwaitGet normalizedUrl None =>
      let '(platformResult, w') :=
        ruleManager_detectPlatform service normalizedUrl w in
      (inl (AwaitDetectPlatform normalizedUrl platformResult), w')
  | AwaitDetectPlatform _ (Thrown error) => (inr (degraded error), w)
  | AwaitDetectPlatform normalizedUrl (Returned platformResult) =>
      let platform := RuleManager.Intermediate.platform platformResult in
      if (enableMetadataExtraction service
          && negb (PlatformType.eqb platform PlatformType.generic))%bool
      then
        let '(metadata, w') :=
          metadataExtractor_extract service normalizedUrl platform w in
        (inl (AwaitExtract (extraction_turns normalizedUrl platform)
                           normalizedUrl platformResult metadata), w')
      else detect_finish normalizedUrl platformResult None w
  | AwaitExtract (S more) normalizedUrl platformResult metadata =>
      (inl (AwaitExtract more normalizedUrl platformResult metadata), w)
  | AwaitExtract O normalizedUrl platformResult metadata =>
      detect_finish normalizedUrl platformResult
        (match metadata with
         | Returned m => Some m
         | Thrown _ => None
         end) w
  | AwaitSet result => (inr result, w)
  end.

(** A number of turns of the queue after which a call has settled. *)
Definition turns_left (call : waiting + PlatformDetectionResult.t) : nat :=
  let longest normalizedUrl :=
    list_max (List.map (extraction_turns normalizedUrl) PlatformType.all) in
  match call with
  | inl (AwaitGet normalizedUrl _) => 4 + longest normalizedUrl
  | inl (AwaitDetectPlatform normalizedUrl _) => 3 + longest normalizedUrl
  | inl (AwaitExtract more _ _ _) => 2 + more
  | inl (AwaitSet _) => 1
  | inr _ => 0
  end.

(** [await Promise.all(batch.map(url => this.detect(url)))]: the calls
    are made in the order of the batch, each up to its first [await], and
    the queue turns until all of them have settled.  [detect] catches what
    it throws, so none of the promises is rejected. *)
Definition detect_all (batch : list jsstring)
  : M W (list PlatformDetectionResult.t) :=
  fun w =>
    let '(calls, w1) := call_each detect_start batch w in
    let '(calls', w2) :=
      turns detect_resume (list_max (List.map turns_left calls)) calls w1 in
    (Returned (settled calls'), w2).

(** The loop of [detectBatch]: [i] is the loop variable and [results]
    the array built so far.  The loop runs at most once per URL, which
    [fuel] counts. *)
Fixpoint detectBatch_loop (batchSize fuel i : nat) (urls : list jsstring)
         (results : list PlatformDetectionResult.t)
  : M W (list PlatformDetectionResult.t) :=
  if (i <? List.length urls)%nat then
    match fuel with
    | O => ret results
    | S fuel' =>
        let batch := JsArray.slice i (i + batchSize) urls in
        batchResults <- detect_all batch ;;
        detectBatch_loop batchSize fuel' (i + batchSize) urls
                         (results ++ batchResults)
    end
  else ret results.

(** [detectBatch] with the size of its window as a parameter. *)
Definition detectBatch_by (batchSize : nat) (urls : list jsstring)
  : M W (list PlatformDetectionResult.t) :=
  detectBatch_loop batchSize (List.length urls) 0 urls [].

(** [detectBatch(urls)] *)
Definition detectBatch (urls : list jsstring)
  : M W (list PlatformDetectionResult.t) :=
  detectBatch_by 5 urls.

End Detect.

(** *** The service built by the constructor *)

(** [PlatformDetectorConfig], every field optional. *)
Record PlatformDetectorConfig : Type := {
  cfg_cacheEnabled : option bool;
  cfg_cacheDuration : option Z;
  cfg_maxCacheSize : option Z;
  cfg_enableMetadataExtraction : option bool;
  cfg_timeout : option Z;
  cfg_userPreferences : option StrategyDecider.PlatformPreferences.t
}.

(** The default argument [{}]. *)
Definition default_config : PlatformDetectorConfig :=
  {| cfg_cacheEnabled := None; cfg_cacheDuration := None;
     cfg_maxCacheSize := None; cfg_enableMetadataExtraction := None;
     cfg_timeout := None; cfg_userPreferences := None |}.

Definition default_userPreferences : StrategyDecider.PlatformPreferences.t :=
  {| StrategyDecider.PlatformPreferences.defaultStrategies :=
       fun c =>
         StrategyDecider.Given
           (Some match c with
                 | ContentType.article => ProcessingStrategy.clip
                 | ContentType.video => ProcessingStrategy.watch_later
                 | ContentType.tweet => ProcessingStrategy.bookmark
                 | ContentType.code_repository =>
                     ProcessingStrategy.bookmark
                 | ContentType.documentation => ProcessingStrategy.clip
                 | ContentType.discussion => ProcessingStrategy.bookmark
                 | ContentType.image_gallery => ProcessingStrategy.bookmark
                 | ContentType.generic => ProcessingStrategy.clip
                 end);
     StrategyDecider.PlatformPreferences.enabledPlatforms :=
       [ PlatformType.youtube; PlatformType.bilibili; PlatformType.twitter;
         PlatformType.medium; PlatformType.zhihu; PlatformType.github;
         PlatformType.weibo; PlatformType.tiktok; PlatformType.reddit;
         PlatformType.stackoverflow; PlatformType.devto;
         PlatformType.hackernews; PlatformType.generic ];
     StrategyDecider.PlatformPreferences.autoDetection := true;
     StrategyDecider.PlatformPreferences.cacheDuration := 5 * 60 * 1000;
     StrategyDecider.PlatformPreferences.fallbackToGeneric := true |}.

(** The state the members of the constructed service share; [clock] is
    what [Date.now()] reads. *)
Record World : Type := {
  clock : Z;
  ruleManager : RuleManager.t;
  cacheManager : CacheManager.t;
  contentTypeClassifier : ContentTypeClassifier.t;
  strategyDecider : StrategyDecider.t
}.

Definition with_cacheManager (c : CacheManager.t) (w : World) : World :=
  {| clock := clock w; ruleManager := ruleManager w; cacheManager := c;
     contentTypeClassifier := contentTypeClassifier w;
     strategyDecider := strategyDecider w |}.

Definition with_strategyDecider (d : StrategyDecider.t) (w : World)
  : World :=
  {| clock := clock w; ruleManager := ruleManager w;
     cacheManager := cacheManager w;
     contentTypeClassifier := contentTypeClassifier w;
     strategyDecider := d |}.

(** The clock moves on: the state at the reading [t]. *)
Definition with_clock (t : Z) (w : World) : World :=
  {| clock := t; ruleManager := ruleManager w;
     cacheManager := cacheManager w;
     contentTypeClassifier := contentTypeClassifier w;
     strategyDecider := strategyDecider w |}.

Section Construction.
Context {H : Host}.

(** The message of the [SyntaxError] of a rejected pattern. *)
Variable syntaxErrorMessage : jsstring.

(** The metadata extractor, whose methods stand in for requests to the
    platforms, is a parameter of the construction. *)
Variable extract : jsstring -> PlatformType.t
                   -> M World PlatformMetadata.t.

Variable applyLearning :
  StrategyDecider.t -> ContentType.t -> StrategyDecider.DecisionContext
  -> Z -> StrategyDecider.StrategyDecision.

(** The state after the constructor has run, at clock reading [now].
    The strategy decider is given the user preferences as its
    configuration, so it takes their [defaultStrategies] and its own
    defaults for the rest. *)
Definition initial (config : PlatformDetectorConfig) (now : Z) : World :=
  let prefs :=
    match cfg_userPreferences config with
    | Some p => p
    | None => default_userPreferences
    end in
  {| clock := now;
     ruleManager := RuleManager.new RuleManager.default_config;
     cacheManager :=
       CacheManager.new
         {| CacheManager.enabled :=
              match cfg_cacheEnabled config with
              | Some b => b
              | None => true
              end;
            CacheManager.duration :=
              match cfg_cacheDuration config with
              | Some d => d
              | None => 5 * 60 * 1000
              end;
            CacheManager.maxSize :=
              match cfg_maxCacheSize config with
              | Some n => n
              | None => 1000
              end;
            CacheManager.cleanupInterval := None |} now;
     contentTypeClassifier :=
       ContentTypeClassifier.new ContentTypeClassifier.default_config;
     strategyDecider :=
       StrategyDecider.new
         {| StrategyDecider.cfg_defaultStrategies :=
              StrategyDecider.PlatformPreferences.defaultStrategies prefs;
            StrategyDecider.cfg_userPreferences := None;
            StrategyDecider.cfg_enableContextAware := None;
            StrategyDecider.cfg_enableLearning := None |} |}.

(** The members of the constructed service. *)
Definition createPlatformDetector (config : PlatformDetectorConfig)
  : t World :=
  {| ruleManager_detectPlatform := fun url w =>
       (Returned (RuleManager.detectPlatform (ruleManager w) url), w);
     cacheManager_get := fun key w =>
       let '(r, c) := CacheManager.get key (clock w) (cacheManager w) in
       (Returned r, with_cacheManager c w);
     cacheManager_set := fun key r w =>
       (Returned tt,
        with_cacheManager
          (CacheManager.set key r None (clock w) (cacheManager w)) w);
     metadataExtractor_extract := extract;
     contentTypeClassifier_classify := fun platform metadata w =>
       match ContentTypeClassifier.classify (contentTypeClassifier w)
               platform metadata with
       | Some contentType => (Returned contentType, w)
       | None =>
           (Thrown (ErrorObject syntaxErrorMessage), w)
       end;
     strategyDecider_decide := fun contentType w =>
       let '(s, d) :=
         StrategyDecider.decide applyLearning (strategyDecider w)
           contentType StrategyDecider.empty_context (clock w) in
       (Returned s, with_strategyDecider d w);
     enableMetadataExtraction :=
       match cfg_enableMetadataExtraction config with
       | Some b => b
       | None => true
       end |}.

End Construction.

End PlatformDetectorService.

(** ** JSON values

    What [request.json()] resolves with: any value that [JSON.parse]
    returns.  [JSON.parse] reads a number as a double; the route looks at a
    number only through its truthiness, its comparison with zero and the
    string it converts to, so a number is given here by its sign and that
    string. *)

Module Json.

Inductive sign : Type := negative | zero | positive.

#[warnings="-register-all"] Inductive t : Type :=
| Null
| Bool (b : bool)
| Number (s : sign) (text : jsstring)
| String (s : jsstring)
| Array (items : list t)
| Object (fields : list (jsstring * t)).

(** [!!v] for a value [v] or, with [None], for [undefined]. *)
Definition truthy (v : option t) : bool :=
  match v with
  | None | Some Null => false
  | Some (Bool b) => b
  | Some (Number s _) =>
      match s with zero => false | negative | positive => true end
  | Some (String s) => negb (Js.is_empty s)
  | Some (Array _) | Some (Object _) => true
  end.

(** The properties of the object of a JSON text, the first for a key. *)
Fixpoint lookup (key : jsstring) (fields : list (jsstring * t))
  : option t :=
  match fields with
  | [] => None
  | (k, v) :: rest => if Js.eqb k key then Some v else lookup key rest
  end.

(** [v[key]] for a value other than [null] and a key that no prototype
    and no string or array has ([url], [urls], [options],
    [enableMetadata], [cache], [timeout]); [None] is [undefined]. *)
Definition get (key : jsstring) (v : t) : option t :=
  match v with
  | Object fields => lookup key fields
  | _ => None
  end.

(** [String(v)], the conversion that [new URL(v)] starts with: an array
    is the strings of its elements joined by commas, where [null] counts
    as the empty string. *)
Fixpoint toString (v : t) : jsstring :=
  match v with
  | Null => Js.lit "null"
  | Bool true => Js.lit "true"
  | Bool false => Js.lit "false"
  | Number _ text => text
  | String s => s
  | Array items =>
      (fix join (l : list t) : jsstring :=
         match l with
         | [] => []
         | x :: rest =>
             let first :=
               match x with Null => [] | _ => toString x end in
             match rest with
             | [] => first
             | _ :: _ => first ++ [44%N] ++ join rest
             end
         end) items
  | Object _ => Js.lit "[object Object]"
  end.

End Json.

(** ** The API route ([app/api/platform/detect/route.ts])

    The route serves requests with the detector the module
    [platform-detector] exports, whose state is the state [World] of the
    handlers, or, when the request has options, with a detector it
    creates for the request.  The body of a request is any JSON value: the
    type [DetectRequest] of the source is not checked when the route
    runs. *)

Module DetectRoute.

Import Effect.
Import PlatformDetectorService.

Record DetectResponse : Type := {
  result : option PlatformDetectionResult.t;
  results : option (list PlatformDetectionResult.t);
  processingTime : Z
}.

(** The response: the body [ApiResponse] and the HTTP status. *)
Record ApiResponse : Type := {
  status : Z;
  success : bool;
  data : option DetectResponse;
  error : option jsstring;
  timestamp : jsstring
}.

(** "invalid URL format" *)
Definition invalid_url_format : jsstring :=
  [26080; 25928; 30340; 85; 82; 76; 26684; 24335]%N.

(** "no valid URL" *)
Definition no_valid_url : jsstring :=
  [27809; 26377; 26377; 25928; 30340; 85; 82; 76]%N.

(** "a url or urls parameter is required" *)
Definition url_required : jsstring :=
  [24517; 39035; 25552; 20379; 117; 114; 108; 25110; 117; 114; 108; 115;
   21442; 25968]%N.

(** "invalid request" *)
Definition invalid_request : jsstring :=
  [26080; 25928; 30340; 35831; 27714]%N.

(** "internal server error" *)
Definition internal_server_error : jsstring :=
  [20869; 37096; 26381; 21153; 22120; 38169; 35823]%N.

Definition maxBatchSize : nat := 10.

(** The timeout of the exported detector: [10000]. *)
Definition default_timeout : option Json.t :=
  Some (Json.Number Json.positive (Js.lit "10000")).

(** [v ?? true], as the detector reads it: in every place where the
    detector looks at [cacheEnabled] or [enableMetadataExtraction] it
    tests whether the value is truthy. *)
Definition or_true (v : option Json.t) : bool :=
  match v with
  | None | Some Json.Null => true
  | Some _ => Json.truthy v
  end.

Section Handlers.
Context {H : Host}.
Variable syntaxErrorMessage : jsstring.
(** The extractor of [new MetadataExtractor({ timeout })], and the number
    of turns its [extract] takes; [None] is [undefined]. *)
Variable extractor : option Json.t -> jsstring -> PlatformType.t
                     -> M World PlatformMetadata.t.
Variable extraction_turns : option Json.t -> jsstring -> PlatformType.t
                            -> nat.
Variable applyLearning :
  StrategyDecider.t -> ContentType.t -> StrategyDecider.DecisionContext
  -> Z -> StrategyDecider.StrategyDecision.
(** [Date.prototype.toISOString] of the date at a clock reading. *)
Variable toISOString : Z -> jsstring.
(** The messages of the [TypeError]s of the engine: for a property of
    [null], and for a call of [body.urls.slice] or of [urls.filter] when
    that is no function. *)
Variable cannot_read_null : jsstring.
Variable slice_is_no_function : jsstring.
Variable filter_is_no_function : jsstring.
(** [s > 0] for a string [s], which is converted to a number. *)
Variable string_is_positive : jsstring -> bool.

Definition isValidUrl (url : jsstring) : bool :=
  match URL_new url with
  | Some urlObj =>
      Js.eqb (URL_protocol urlObj) (Js.lit "http:")
      || Js.eqb (URL_protocol urlObj) (Js.lit "https:")
  | None => false
  end.

(** [isValidUrl(v)] for a value of the body: [new URL(v)] converts [v] to
    a string. *)
Definition isValid (v : Json.t) : bool := isValidUrl (Json.toString v).

(** The configuration [createConfiguredDetector] passes on; the timeout
    goes to the extractor. *)
Definition configured (options : Json.t) : PlatformDetectorConfig :=
  {| cfg_cacheEnabled := Some (or_true (Json.get (Js.lit "cache") options));
     cfg_cacheDuration := None;
     cfg_maxCacheSize := None;
     cfg_enableMetadataExtraction :=
       Some (or_true (Json.get (Js.lit "enableMetadata") options));
     cfg_timeout := None;
     cfg_userPreferences := None |}.

(** The exported [platformDetector]. *)
Definition platformDetector : PlatformDetectorService.t World :=
  createPlatformDetector syntaxErrorMessage (extractor default_timeout)
                         applyLearning default_config.

(** The detector of [createConfiguredDetector(options)]. *)
Definition createConfiguredDetector (options : Json.t)
  : PlatformDetectorService.t World :=
  createPlatformDetector syntaxErrorMessage
    (extractor (Json.get (Js.lit "timeout") options)) applyLearning
    (configured options).

(** A call on the detector of [createConfiguredDetector(options)]: the
    detector is created, the call runs on its state, and of that state
    only the clock, which is not the detector's, outlives the call.
    [call] is given the detector and the turns of its extractor. *)
Definition on_configured {A : Type} (options : Json.t)
           (call : PlatformDetectorService.t World
                   -> (jsstring -> PlatformType.t -> nat) -> M World A)
  : M World A :=
  fun w =>
    let '(r, own) :=
      call (createConfiguredDetector options)
           (extraction_turns (Json.get (Js.lit "timeout") options))
           (initial (configured options) (clock w)) in
    (r, with_clock (clock own) w).

(** [options ? createConfiguredDetector(options) : platformDetector],
    and a call on that detector. *)
Definition on_detector {A : Type} (options : option Json.t)
           (call : PlatformDetectorService.t World
                   -> (jsstring -> PlatformType.t -> nat) -> M World A)
  : M World A :=
  match options with
  | Some o =>
      if Json.truthy options then on_configured o call
      else call platformDetector (extraction_turns default_timeout)
  | None => call platformDetector (extraction_turns default_timeout)
  end.

(** [handleSingleUrl(url, options)].  [detect] reads its argument only
    in [new URL(url)], which converts it to a string and, after
    [isValidUrl], does not throw. *)
Definition handleSingleUrl (url : Json.t) (options : option Json.t)
  : M World PlatformDetectionResult.t :=
  if negb (isValid url) then throw (ErrorObject invalid_url_format)
  else
    on_detector options
      (fun detector _ => detect detector (Json.toString url)).

(** [handleMultipleUrls(urls, options)] for an array [urls]. *)
Definition handleMultipleUrls (urls : list Json.t)
           (options : option Json.t)
  : M World (list PlatformDetectionResult.t) :=
  let validUrls := filter isValid urls in
  match validUrls with
  | [] => throw (ErrorObject no_valid_url)
  | _ :: _ =>
      on_detector options
        (fun detector turns =>
           detectBatch detector turns (List.map Json.toString validUrls))
  end.

(** [body.urls.length === 0] *)
Definition length_is_zero (urls : option Json.t) : bool :=
  match urls with
  | Some (Json.Array items) =>
      match items with [] => true | _ :: _ => false end
  | Some (Json.String s) => Js.is_empty s
  | Some (Json.Object fields) =>
      match Json.lookup (Js.lit "length") fields with
      | Some (Json.Number Json.zero _) => true
      | _ => false
      end
  | _ => false
  end.

(** [body.urls.length > 0]: what is no number is converted to one. *)
Definition length_is_positive (urls : option Json.t) : bool :=
  match urls with
  | Some (Json.Array items) =>
      match items with [] => false | _ :: _ => true end
  | Some (Json.String s) => negb (Js.is_empty s)
  | Some (Json.Object fields) =>
      match Json.lookup (Js.lit "length") fields with
      | Some (Json.Number Json.positive _) => true
      | Some (Json.Bool b) => b
      | Some (Json.String s) => string_is_positive s
      | Some (Json.Array items) =>
          string_is_positive (Json.toString (Json.Array items))
      | _ => false
      end
  | _ => false
  end.

(** [Date.now()] *)
Definition Date_now : M World Z := fun w => (Returned (clock w), w).

(** [NextResponse.json(body, { status })] with the time stamp of the
    body. *)
Definition respond (status : Z) (success : bool)
           (data : option DetectResponse) (error : option jsstring)
  : M World ApiResponse :=
  t <- Date_now ;;
  ret {| status := status; success := success; data := data;
         error := error; timestamp := toISOString t |}.

(** The part of [POST] for [body.urls]; what is no array has no
    [slice] that returns an array with a [filter]. *)
Definition handleUrls (startTime : Z) (urls options : option Json.t)
  : M World ApiResponse :=
  if (Json.truthy urls && length_is_positive urls)%bool then
    match urls with
    | Some (Json.Array items) =>
        let batch := JsArray.slice 0 maxBatchSize items in
        rs <- handleMultipleUrls batch options ;;
        endTime <- Date_now ;;
        respond 200 true
          (Some {| result := None; results := Some rs;
                   processingTime := endTime - startTime |})
          None
    | Some (Json.String _) => throw (ErrorObject filter_is_no_function)
    | _ => throw (ErrorObject slice_is_no_function)
    end
  else respond 400 false None (Some invalid_request).

(** The [try] block of [POST] after [request.json()]. *)
Definition handle (startTime : Z) (body : Json.t) : M World ApiResponse :=
  match body with
  | Json.Null => throw (ErrorObject cannot_read_null)
  | _ =>
      let url := Json.get (Js.lit "url") body in
      let urls := Json.get (Js.lit "urls") body in
      let options := Json.get (Js.lit "options") body in
      if (negb (Json.truthy url)
          && (negb (Json.truthy urls) || length_is_zero urls))%bool
      then respond 400 false None (Some url_required)
      else
        match url with
        | Some u =>
            if Json.truthy url then
              r <- handleSingleUrl u options ;;
              endTime <- Date_now ;;
              respond 200 true
                (Some {| result := Some r; results := None;
                         processingTime := endTime - startTime |})
                None
            else handleUrls startTime urls options
        | None => handleUrls startTime urls options
        end
  end.

(** [POST(request)].  [request_json] is [request.json()], which throws on
    a body that is not JSON.  What the route writes to the console is
    left out. *)
Definition POST (request_json : M World Json.t) : M World ApiResponse :=
  startTime <- Date_now ;;
  try_catch
    (body <- request_json ;; handle startTime body)
    (fun thrown =>
       respond 500 false None
         (Some match thrown with
               | ErrorObject message => message
               | OtherValue => internal_server_error
               end)).

End Handlers.

End DetectRoute.

(* ================================================================== *)
(** * Part II. Predicates and sample inputs *)
(* ================================================================== *)

Import Effect.
Import PlatformDetectorService.


(** With the comparator [compareFn], [a] may stand before [b]. *)
Definition before {A : Type} (compareFn : A -> A -> Z) (a b : A) : Prop :=
  compareFn a b <= 0.


Definition mixed_case_url : jsstring :=
  Js.lit "HTTPS://Example.COM/a?utm_source=1&b=2&fbclid=x#frag".

(** The keys of a [Map], in insertion order. *)
Definition keys (m : CacheManager.entries) : list jsstring := List.map fst m.

(** A sample result: what a match of the YouTube rule leads to. *)
Definition sample_result : PlatformDetectionResult.t :=
  {| PlatformDetectionResult.platform := PlatformType.youtube;
     PlatformDetectionResult.contentType := ContentType.video;
     PlatformDetectionResult.confidence := 9 # 10;
     PlatformDetectionResult.matchedPattern := None;
     PlatformDetectionResult.metadata := None;
     PlatformDetectionResult.processingStrategy :=
       Some ProcessingStrategy.watch_later;
     PlatformDetectionResult.error := None;
     PlatformDetectionResult.warnings := None |}.

Definition sample_key : jsstring :=
  Js.lit "https://www.youtube.com/watch?v=dQw4w9WgXcQ".

(** A cache as the service configures it by default, created at time 0,
    and the same cache disabled. *)
Definition default_cache : CacheManager.t :=
  CacheManager.new
    {| CacheManager.enabled := true; CacheManager.duration := 300000;
       CacheManager.maxSize := 1000; CacheManager.cleanupInterval := None |}
    0.

Definition disabled_cache : CacheManager.t :=
  CacheManager.new
    {| CacheManager.enabled := false; CacheManager.duration := 300000;
       CacheManager.maxSize := 1000; CacheManager.cleanupInterval := None |}
    0.

(** Rules in descending order of priority. *)
Definition descending (rs : list PlatformRule.t) : Prop :=
  StronglySorted (before RuleManager.by_priority) rs.

(** Registering a list of rules one by one with [addRule]. *)
Definition register (rs : list PlatformRule.t) (m : RuleManager.t)
  : RuleManager.t :=
  fold_left (fun m r => RuleManager.addRule r m) rs m.

(** An enabled rule one of whose patterns matches the normalized URL. *)
Definition fires {H : Host} (normalizedUrl : jsstring) (r : PlatformRule.t)
  : bool :=
  PlatformRule.enabled r
  && existsb (fun pattern =>
                match RegExp_exec pattern true normalizedUrl with
                | Some (Some _) => true
                | _ => false
                end) (PlatformRule.patterns r).

(** Two rules for the witness, and a URL both match; among the built-in
    rules only the generic one, of priority 10, matches it as well. *)
Definition rule_high : PlatformRule.t :=
  {| PlatformRule.platform := PlatformType.medium;
     PlatformRule.patterns := [Js.lit "^https://blog\.example\.com/"];
     PlatformRule.contentType := ContentType.article;
     PlatformRule.metadataExtractor := None;
     PlatformRule.priority := 100;
     PlatformRule.enabled := true;
     PlatformRule.description := None |}.

Definition rule_low : PlatformRule.t :=
  {| PlatformRule.platform := PlatformType.devto;
     PlatformRule.patterns := [Js.lit "example\.com/post/"];
     PlatformRule.contentType := ContentType.article;
     PlatformRule.metadataExtractor := None;
     PlatformRule.priority := 50;
     PlatformRule.enabled := true;
     PlatformRule.description := None |}.

Definition blog_post_url : jsstring :=
  Js.lit "https://blog.example.com/post/hello".

Fixpoint descendingb (rs : list PlatformRule.t) : bool :=
  match rs with
  | [] => true
  | r :: rest =>
      forallb (fun x => PlatformRule.priority x <=? PlatformRule.priority r)
              rest
      && descendingb rest
  end.

(** The built-in rules, after the generic rule was given priority 200. *)
Definition raised_generic : RuleManager.t :=
  snd (RuleManager.updateRule PlatformType.generic
         {| PlatformRule.u_patterns := None;
            PlatformRule.u_contentType := None;
            PlatformRule.u_metadataExtractor := None;
            PlatformRule.u_priority := Some 200;
            PlatformRule.u_enabled := None;
            PlatformRule.u_description := None |}
         (RuleManager.new RuleManager.default_config)).

(** The entries with a truthy key: the ones the eviction loop deletes. *)
Definition deletable (vs : CacheManager.entries) : CacheManager.entries :=
  filter (fun e => negb (Js.is_empty (fst e))) vs.

(** The entries the loop of an eviction goes through, and the others: the
    first [count] entries of the sorted array, and the rest of it. *)
Definition victims
           (compareFn : jsstring * CacheManager.CacheItem
                        -> jsstring * CacheManager.CacheItem -> Z)
           (count : Z) (c : CacheManager.t) : CacheManager.entries :=
  firstn (Z.to_nat count) (JsArray.sort compareFn (CacheManager.cache c)).

Definition survivors
           (compareFn : jsstring * CacheManager.CacheItem
                        -> jsstring * CacheManager.CacheItem -> Z)
           (count : Z) (c : CacheManager.t) : CacheManager.entries :=
  skipn (Z.to_nat count) (JsArray.sort compareFn (CacheManager.cache c)).

(** The invariant of the cache: one entry per key, at most [bound]
    entries, and [bound] is the configured maximum. *)
Definition bounded (bound : Z) (c : CacheManager.t) : Prop :=
  NoDup (keys (CacheManager.cache c))
  /\ CacheManager.size c <= bound
  /\ CacheManager.maxSize (CacheManager.config c) = bound.

(** A cache of at most two entries that holds two: [a] stored at time 1
    and [b] stored at time 2. *)
Definition two_entries : CacheManager.t :=
  CacheManager.run
    [ CacheManager.CallSet (Js.lit "a") sample_result None 1;
      CacheManager.CallSet (Js.lit "b") sample_result None 2 ]
    (CacheManager.new
       {| CacheManager.enabled := true; CacheManager.duration := 300000;
          CacheManager.maxSize := 2; CacheManager.cleanupInterval := None |}
       0).

(** A cache of at most eleven entries that holds eleven, stored under the
    given keys at times 1 to 11. *)
Definition eleven_config : CacheManager.CacheManagerConfig :=
  {| CacheManager.enabled := true; CacheManager.duration := 300000;
     CacheManager.maxSize := 11; CacheManager.cleanupInterval := None |}.

Definition eleven_calls (ks : list jsstring) : list CacheManager.call :=
  List.map (fun kt => CacheManager.CallSet (fst kt) sample_result None
                                           (Z.of_nat (snd kt)))
           (combine ks (seq 1 11)).

Definition eleven_entries (ks : list jsstring) : CacheManager.t :=
  CacheManager.run (eleven_calls ks) (CacheManager.new eleven_config 0).

Definition letters : list jsstring :=
  List.map Js.lit
    ["a"; "b"; "c"; "d"; "e"; "f"; "g"; "h"; "i"; "j"; "k"]%string.


(** Metadata with nothing but the URL in [rawData]. *)
Definition metadata_of_url (url : jsstring) : PlatformMetadata.t :=
  {| PlatformMetadata.platformId := None;
     PlatformMetadata.title := None;
     PlatformMetadata.description := None;
     PlatformMetadata.thumbnail := None;
     PlatformMetadata.duration := None;
     PlatformMetadata.author := None;
     PlatformMetadata.publishedAt := None;
     PlatformMetadata.viewCount := None;
     PlatformMetadata.likeCount := None;
     PlatformMetadata.commentCount := None;
     PlatformMetadata.tags := None;
     PlatformMetadata.language := None;
     PlatformMetadata.isLive := None;
     PlatformMetadata.isPremium := None;
     PlatformMetadata.rawData := Some [(Js.lit "url", url)];
     PlatformMetadata.wordCount := None |}.

Definition zhuanlan_url : jsstring :=
  Js.lit "https://zhuanlan.zhihu.com/p/123".

(** The rules of a platform one of whose URL patterns matches. *)
Definition matching_rules {H : Host} (c : ContentTypeClassifier.t)
           (platform : PlatformType.t) (url : jsstring)
  : list ContentTypeClassifier.ClassificationRule :=
  filter (fun r =>
            PlatformType.eqb (ContentTypeClassifier.platform r) platform
            && match ContentTypeClassifier.patterns r with
               | Some ps =>
                   match ContentTypeClassifier.first_match ps url with
                   | Some true => true
                   | _ => false
                   end
               | None => false
               end)
         (ContentTypeClassifier.rules c).

Definition unknown_blog_url : jsstring :=
  Js.lit "https://unknown-blog.example.com/post/my-entry".

(** ** Further predicates and sample inputs *)

(** The number of [get] calls since the last [clear] among the calls, and
    [n] more when no [clear] is among them. *)
Fixpoint gets_since_clear (calls : list CacheManager.call) (n : Z) : Z :=
  match calls with
  | [] => n
  | CacheManager.CallGet _ _ :: rest => gets_since_clear rest (n + 1)
  | CacheManager.CallClear _ :: rest => gets_since_clear rest 0
  | _ :: rest => gets_since_clear rest n
  end.

(** The answer of [detectPlatform] when no rule matches. *)
Definition no_match : RuleManager.Intermediate.t :=
  {| RuleManager.Intermediate.platform := PlatformType.generic;
     RuleManager.Intermediate.confidence := 1 # 10;
     RuleManager.Intermediate.matchedPattern := None;
     RuleManager.Intermediate.extractedId := None |}.

(** The pattern matches the normalized URL. *)
Definition hits_pattern {H : Host} (normalizedUrl pattern : jsstring) : bool :=
  match RegExp_exec pattern true normalizedUrl with
  | Some (Some _) => true
  | _ => false
  end.

(** The answer of [detectPlatform] for a rule and its matching pattern. *)
Definition answer {H : Host} (r : PlatformRule.t)
           (pattern normalizedUrl : jsstring) : RuleManager.Intermediate.t :=
  {| RuleManager.Intermediate.platform := PlatformRule.platform r;
     RuleManager.Intermediate.confidence := 9 # 10;
     RuleManager.Intermediate.matchedPattern :=
       if Js.is_empty pattern then None else Some pattern;
     RuleManager.Intermediate.extractedId :=
       RuleManager.extractId (PlatformRule.platform r) normalizedUrl |}.

(** The updates [{ enabled: false }] of [setRuleEnabled(platform, false)]. *)
Definition disable : PlatformRule.updates :=
  {| PlatformRule.u_patterns := None;
     PlatformRule.u_contentType := None;
     PlatformRule.u_metadataExtractor := None;
     PlatformRule.u_priority := None;
     PlatformRule.u_enabled := Some false;
     PlatformRule.u_description := None |}.

(** The pattern is one the model of [RegExp] accepts. *)
Definition compiles (pattern : jsstring) : bool :=
  match Regex.compile pattern with Some _ => true | None => false end.

(** The classifier the service builds. *)
Definition default_classifier : ContentTypeClassifier.t :=
  ContentTypeClassifier.new ContentTypeClassifier.default_config.

(** The rules of a platform, in the order of the array. *)
Definition rules_of (platform : PlatformType.t)
           (rules : list ContentTypeClassifier.ClassificationRule)
  : list ContentTypeClassifier.ClassificationRule :=
  filter (fun r => PlatformType.eqb (ContentTypeClassifier.platform r) platform)
         rules.

(** What holds of every default rule: it has no metadata patterns, its
    patterns are in the modelled syntax, and 0.8 of its confidence reaches
    the default threshold. *)
Definition settled (r : ContentTypeClassifier.ClassificationRule) : bool :=
  match ContentTypeClassifier.metadataPatterns r with
  | None => true
  | Some _ => false
  end
  && match ContentTypeClassifier.patterns r with
     | Some ps => forallb compiles ps
     | None => true
     end
  && Qle_bool (6 # 10) (ContentTypeClassifier.confidence r * (8 # 10))
  && Qle_bool (6 # 10) (ContentTypeClassifier.confidence r).

(** The context rules whose condition holds, in the order of the table. *)
Definition matching_context_rules {H : Host} (contentType : ContentType.t)
           (context : StrategyDecider.DecisionContext)
  : list StrategyDecider.ContextRule :=
  filter (fun r => StrategyDecider.condition r contentType context)
         StrategyDecider.getContextRules.

(** The entry [recordDecision] pushes. *)
Definition recorded (contentType : ContentType.t)
           (s : ProcessingStrategy.t)
           (context : StrategyDecider.DecisionContext) (now : Z)
  : StrategyDecider.HistoryEntry :=
  {| StrategyDecider.h_contentType := contentType;
     StrategyDecider.h_strategy := s;
     StrategyDecider.h_context := context;
     StrategyDecider.h_timestamp := now;
     StrategyDecider.h_userFeedback := None |}.

(** The result [detect] builds in step 7. *)
Definition built (detected : RuleManager.Intermediate.t)
           (contentType : ContentType.t)
           (metadata : option PlatformMetadata.t)
           (s : ProcessingStrategy.t) : PlatformDetectionResult.t :=
  {| PlatformDetectionResult.platform :=
       RuleManager.Intermediate.platform detected;
     PlatformDetectionResult.contentType := contentType;
     PlatformDetectionResult.confidence :=
       RuleManager.Intermediate.confidence detected;
     PlatformDetectionResult.matchedPattern :=
       Js.truthy (RuleManager.Intermediate.matchedPattern detected);
     PlatformDetectionResult.metadata := metadata;
     PlatformDetectionResult.processingStrategy := Some s;
     PlatformDetectionResult.error := None;
     PlatformDetectionResult.warnings := None |}.

(** The content type the default classifier gives a platform. *)
Definition default_contentType (platform : PlatformType.t) : ContentType.t :=
  match find (fun r => PlatformType.eqb (ContentTypeClassifier.platform r)
                                        platform)
             ContentTypeClassifier.getDefaultRules with
  | Some r => ContentTypeClassifier.contentType r
  | None => ContentType.generic
  end.

(** A response as the route builds them: success with data and status 200,
    or an error without data and status 400 or 500. *)
Definition well_formed (response : DetectRoute.ApiResponse) : Prop :=
  (DetectRoute.status response = 200
   /\ DetectRoute.success response = true
   /\ DetectRoute.error response = None
   /\ DetectRoute.data response <> None)
  \/ ((DetectRoute.status response = 400
       \/ DetectRoute.status response = 500)
      /\ DetectRoute.success response = false
      /\ DetectRoute.error response <> None
      /\ DetectRoute.data response = None).

(** The classifier after [addRule] was called with each of the rules. *)
Definition added (rs : list ContentTypeClassifier.ClassificationRule)
           (c : ContentTypeClassifier.t) : ContentTypeClassifier.t :=
  fold_left (fun c r => ContentTypeClassifier.addRule r c) rs c.

(** The configuration of [default_cache], one call that stores the sample
    result for one second, and the entry this leaves. *)
Definition default_cache_config : CacheManager.CacheManagerConfig :=
  {| CacheManager.enabled := true; CacheManager.duration := 300000;
     CacheManager.maxSize := 1000; CacheManager.cleanupInterval := None |}.

Definition stored_once : list CacheManager.call :=
  [ CacheManager.CallSet sample_key sample_result (Some 1000) 0 ].

Definition stored_item : CacheManager.CacheItem :=
  {| CacheManager.result := sample_result; CacheManager.timestamp := 0;
     CacheManager.expiresAt := 1000; CacheManager.accessCount := 0 |}.

(** The configuration and the calls of [two_entries], followed by a read
    of [b]. *)
Definition two_config : CacheManager.CacheManagerConfig :=
  {| CacheManager.enabled := true; CacheManager.duration := 300000;
     CacheManager.maxSize := 2; CacheManager.cleanupInterval := None |}.

Definition two_stored_b_read : list CacheManager.call :=
  [ CacheManager.CallSet (Js.lit "a") sample_result None 1;
    CacheManager.CallSet (Js.lit "b") sample_result None 2;
    CacheManager.CallGet (Js.lit "b") 3 ].

(** An extractor that finds nothing, and a learning step that proposes the
    default strategy. *)
Definition quiet_extract (url : jsstring) (platform : PlatformType.t)
  : M World PlatformMetadata.t :=
  ret PlatformMetadata.empty.

Definition no_learning (d : StrategyDecider.t) (contentType : ContentType.t)
           (context : StrategyDecider.DecisionContext) (now : Z)
  : StrategyDecider.StrategyDecision :=
  {| StrategyDecider.strategy := StrategyDecider.default_for d contentType;
     StrategyDecider.confidence := 5 # 10;
     StrategyDecider.reasoning := None;
     StrategyDecider.alternatives := None |}.

(** A batch request with one string that is no URL among two URLs. *)
Definition batch_urls : list Json.t :=
  [ Json.String sample_key; Json.String (Js.lit "not a url");
    Json.String zhuanlan_url ].

Definition batch_request : Json.t :=
  Json.Object [ (Js.lit "urls", Json.Array batch_urls) ].

(** What the default service answers for [sample_key] with the quiet
    extractor. *)
Definition detected_sample : PlatformDetectionResult.t :=
  {| PlatformDetectionResult.platform := PlatformType.youtube;
     PlatformDetectionResult.contentType := ContentType.video;
     PlatformDetectionResult.confidence := 9 # 10;
     PlatformDetectionResult.matchedPattern :=
       Some (Js.lit "^https://(?:www\.)?youtube\.com/watch\?v=[\w-]{11}");
     PlatformDetectionResult.metadata := Some PlatformMetadata.empty;
     PlatformDetectionResult.processingStrategy :=
       Some ProcessingStrategy.watch_later;
     PlatformDetectionResult.error := None;
     PlatformDetectionResult.warnings := None |}.

(** A rendering of dates that ignores the date. *)
Definition fixed_toISOString (t : Z) : jsstring :=
  Js.lit "1970-01-01T00:00:00.000Z".

(** The test of [provideFeedback]: a decision for the content type with
    the strategy. *)
Definition decided (contentType : ContentType.t) (s : ProcessingStrategy.t)
           (e : StrategyDecider.HistoryEntry) : bool :=
  ContentType.eqb (StrategyDecider.h_contentType e) contentType
  && ProcessingStrategy.eqb (StrategyDecider.h_strategy e) s.

(** [completes resume call a]: the call settles with [a], when it is
    resumed often enough, in whatever states it is resumed. *)
Inductive completes {W P A : Type} (resume : P -> W -> (P + A) * W)
  : P + A -> A -> Prop :=
| completes_settled (a : A) : completes resume (inr a) a
| completes_resumed (s : P) (w : W) (a : A) :
    completes resume (fst (resume s w)) a ->
    completes resume (inl s) a.

(** [answers service extraction_turns url r]: [r] is what a call
    [detect(url)] settles with, in whatever states it is made and
    resumed. *)
Definition answers {H : Host} {W : Type}
           (service : PlatformDetectorService.t W)
           (extraction_turns : jsstring -> PlatformType.t -> nat)
           (url : jsstring) (r : PlatformDetectionResult.t) : Prop :=
  exists w : W,
    completes (detect_resume service extraction_turns)
              (fst (detect_start service url w)) r.

Definition has_settled {P A : Type} (call : P + A) : bool :=
  match call with inr _ => true | inl _ => false end.

(** The windows of [detectBatch], one after the other: windows of [S n]
    URLs, at most [fuel] of them. *)
Fixpoint by_windows {H : Host} {W : Type}
         (service : PlatformDetectorService.t W)
         (extraction_turns : jsstring -> PlatformType.t -> nat)
         (n fuel : nat) (urls : list jsstring)
  : M W (list PlatformDetectionResult.t) :=
  match fuel, urls with
  | S fuel', _ :: _ =>
      first <- detect_all service extraction_turns (firstn (S n) urls) ;;
      rest <- by_windows service extraction_turns n fuel'
                (skipn (S n) urls) ;;
      ret (first ++ rest)
  | _, _ => ret []
  end.

(** The state of the default service, built at the clock reading [now],
    when its cache holds [entries] and has counted [hits] and [misses]. *)
Definition serving (now : Z) (entries : CacheManager.entries)
           (hits misses : Z) : World :=
  with_cacheManager
    {| CacheManager.cache := entries; CacheManager.hits := hits;
       CacheManager.misses := misses; CacheManager.lastCleanup := now;
       CacheManager.config :=
         CacheManager.config (cacheManager (initial default_config now)) |}
    (initial default_config now).

(** The entry [cacheManager.set] stores in that state, after [reads]
    reads. *)
Definition stored (now : Z) (r : PlatformDetectionResult.t) (reads : Z)
  : CacheManager.CacheItem :=
  {| CacheManager.result := r; CacheManager.timestamp := now;
     CacheManager.expiresAt := now + 300000;
     CacheManager.accessCount := reads |}.

(** The result of steps 5 to 7 of [detect] in the states of the default
    service. *)
Definition default_answer
           (applyLearning :
              StrategyDecider.t -> ContentType.t
              -> StrategyDecider.DecisionContext -> Z
              -> StrategyDecider.StrategyDecision)
           (now : Z) (platformResult : RuleManager.Intermediate.t)
           (metadata : option PlatformMetadata.t)
  : PlatformDetectionResult.t :=
  let platform := RuleManager.Intermediate.platform platformResult in
  {| PlatformDetectionResult.platform := platform;
     PlatformDetectionResult.contentType := default_contentType platform;
     PlatformDetectionResult.confidence :=
       RuleManager.Intermediate.confidence platformResult;
     PlatformDetectionResult.matchedPattern :=
       Js.truthy (RuleManager.Intermediate.matchedPattern platformResult);
     PlatformDetectionResult.metadata := metadata;
     PlatformDetectionResult.processingStrategy :=
       Some (fst (StrategyDecider.decide (H := ModelHost) applyLearning
                    (strategyDecider (initial default_config now))
                    (default_contentType platform)
                    StrategyDecider.empty_context now));
     PlatformDetectionResult.error := None;
     PlatformDetectionResult.warnings := None |}.

(** Printable ASCII characters other than the space. *)
Definition is_visible (c : N) : bool := Js.in_range 33 126 c.

(** The characters that form encoding leaves as they are. *)
Definition is_form_safe (c : N) : bool :=
  (Js.is_alnum c || N.eqb c 42 || N.eqb c 45 || N.eqb c 46
   || N.eqb c 95)%bool.

(** The characters of the value of a parameter in a query that the model
    parses. *)
Definition is_value_char (c : N) : bool :=
  (is_form_safe c || N.eqb c 61)%bool.



(** The characters of an encoded name or value: form encoding writes
    every other character of a value as a percent sign and two
    digits. *)
Definition is_escaped_char (c : N) : bool :=
  (is_form_safe c || N.eqb c 37)%bool.




(* ================================================================== *)
(** * Part III. Properties *)
(* ================================================================== *)

(** ** Strings *)

Lemma Js_eqb_eq (a b : jsstring) : Js.eqb a b = true <-> a = b.
Proof.
  revert b; induction a as [|x a IH]; intros [|y b]; simpl;
    try (split; [discriminate | discriminate]); try tauto.
  rewrite andb_true_iff, N.eqb_eq, IH.
  split; [intros [-> ->]; reflexivity | intros E; inversion E; auto].
Qed.

Lemma Js_eqb_refl (a : jsstring) : Js.eqb a a = true.
Proof. apply Js_eqb_eq; reflexivity. Qed.

Lemma Js_eqb_neq (a b : jsstring) : Js.eqb a b = false <-> a <> b.
Proof.
  split.
  - intros E Heq. apply Js_eqb_eq in Heq. congruence.
  - intros Hne. destruct (Js.eqb a b) eqn:E; [|reflexivity].
    apply Js_eqb_eq in E. contradiction.
Qed.








(** ** Sorting *)

Section SortFacts.
Context {A : Type}.
Variable compareFn : A -> A -> Z.

Hypothesis compare_total :
  forall a b, before compareFn a b \/ before compareFn b a.
Hypothesis compare_trans :
  forall a b c,
    before compareFn a b -> before compareFn b c -> before compareFn a c.

Lemma insert_permutation (x : A) (l : list A) :
  Permutation (JsArray.insert compareFn x l) (x :: l).
Proof.
  induction l as [|y l IH]; simpl; [reflexivity|].
  destruct (compareFn x y <=? 0); [reflexivity|].
  rewrite IH. apply perm_swap.
Qed.

Lemma sort_permutation (l : list A) :
  Permutation (JsArray.sort compareFn l) l.
Proof.
  induction l as [|x l IH]; simpl; [reflexivity|].
  rewrite insert_permutation. constructor. exact IH.
Qed.

Lemma insert_sorted (x : A) (l : list A) :
  StronglySorted (before compareFn) l ->
  StronglySorted (before compareFn) (JsArray.insert compareFn x l).
Proof.
  induction 1 as [|y l Hs IH Hy]; simpl.
  - repeat constructor.
  - destruct (compareFn x y <=? 0) eqn:E.
    + apply Z.leb_le in E. constructor; [constructor; assumption|].
      constructor; [exact E|].
      rewrite Forall_forall in *. intros z Hz.
      apply (compare_trans x y z E (Hy z Hz)).
    + apply Z.leb_gt in E. constructor; [exact IH|].
      rewrite Forall_forall in *. intros z Hz.
      apply (Permutation_in _ (insert_permutation x l)) in Hz.
      destruct Hz as [<-|Hz]; [|apply Hy; exact Hz].
      destruct (compare_total y x) as [B|B]; [exact B|].
      unfold before in B. lia.
Qed.

Lemma sort_sorted (l : list A) :
  StronglySorted (before compareFn) (JsArray.sort compareFn l).
Proof.
  induction l as [|x l IH]; simpl; [constructor|].
  apply insert_sorted, IH.
Qed.

Lemma sort_length (l : list A) :
  List.length (JsArray.sort compareFn l) = List.length l.
Proof. apply Permutation_length, sort_permutation. Qed.

End SortFacts.

(** ** Normalization of URLs *)

(** On an input that parses, the scheme and the host are lower-cased, the
    fragment and the tracking parameters are gone, and the other
    parameters stay. *)
Example normalizeUrl_mixed_case :
  normalizeUrl (H := ModelHost) mixed_case_url
  = Js.lit "https://example.com/a?b=2".
Proof. vm_compute. reflexivity. Qed.



(** ** The cache: round trip *)

Lemma Map_get_set_same (k : jsstring) (v : CacheManager.CacheItem)
      (m : CacheManager.entries) :
  CacheManager.Map_get k (CacheManager.Map_set k v m) = Some v.
Proof.
  induction m as [|[k' v'] m IH]; simpl.
  - rewrite Js_eqb_refl. reflexivity.
  - destruct (Js.eqb k' k) eqn:E; simpl; rewrite E; [reflexivity | exact IH].
Qed.

Lemma evict_config (compareFn : jsstring * CacheManager.CacheItem
                                -> jsstring * CacheManager.CacheItem -> Z)
      (count : Z) (c : CacheManager.t) :
  CacheManager.config (snd (CacheManager.evict compareFn count c))
  = CacheManager.config c.
Proof.
  unfold CacheManager.evict.
  destruct (CacheManager.size c <=? count); [reflexivity|].
  destruct (CacheManager.evict_loop _ _ _). reflexivity.
Qed.

Lemma set_config (k : jsstring) (r : PlatformDetectionResult.t)
      (custom : option Z) (now : Z) (c : CacheManager.t) :
  CacheManager.config (CacheManager.set k r custom now c)
  = CacheManager.config c.
Proof.
  unfold CacheManager.set.
  destruct (negb _); [reflexivity|].
  destruct (CacheManager.size c >=? _); simpl; [|reflexivity].
  apply evict_config.
Qed.

(** What [set] stores under the key, when the cache is enabled. *)
Lemma set_stores (k : jsstring) (r : PlatformDetectionResult.t)
      (custom : option Z) (now : Z) (c : CacheManager.t) :
  CacheManager.enabled (CacheManager.config c) = true ->
  CacheManager.Map_get k (CacheManager.cache
                            (CacheManager.set k r custom now c))
  = Some {| CacheManager.result := r;
            CacheManager.timestamp := now;
            CacheManager.expiresAt :=
              now + match custom with
                    | Some d =>
                        if d =? 0
                        then CacheManager.duration (CacheManager.config c)
                        else d
                    | None => CacheManager.duration (CacheManager.config c)
                    end;
            CacheManager.accessCount := 0 |}.
Proof.
  intros He. unfold CacheManager.set. rewrite He. simpl.
  apply Map_get_set_same.
Qed.

(** C3, as stated, fails in two ways.  With the cache disabled, [set]
    stores nothing, and a [get] one millisecond later finds nothing although
    the TTL of one second has not elapsed.  With the cache enabled and a TTL
    of 0, [set] takes the configured duration instead, and a [get] five
    milliseconds later still returns the result. *)
Lemma cache_roundtrip_counterexample :
  fst (CacheManager.get sample_key 1
         (CacheManager.set sample_key sample_result (Some 1000) 0
                           disabled_cache))
  = None
  /\ fst (CacheManager.get sample_key 5
            (CacheManager.set sample_key sample_result (Some 0) 0
                              default_cache))
     = Some sample_result.
Proof. split; vm_compute; reflexivity. Qed.

(** C3, amended: with the cache enabled and a TTL [d] other than 0, after
    [set(k, r, d)] at time [t0] a [get(k)] at a time [t <= t0 + d] returns
    [r], and a [get(k)] at a time [t > t0 + d] returns [null].  In any
    cache, a [get] on a key that is missing, or whose entry has expired,
    returns [null]; [get] has no other outcome than a result or [null]. *)
Theorem cache_roundtrip (c : CacheManager.t) (k : jsstring)
        (r : PlatformDetectionResult.t) (d t0 t : Z) :
  CacheManager.enabled (CacheManager.config c) = true ->
  d <> 0 ->
  (t <= t0 + d ->
   fst (CacheManager.get k t (CacheManager.set k r (Some d) t0 c)) = Some r)
  /\ (t0 + d < t ->
      fst (CacheManager.get k t (CacheManager.set k r (Some d) t0 c)) = None)
  /\ (CacheManager.Map_get k (CacheManager.cache c) = None ->
      fst (CacheManager.get k t c) = None)
  /\ (forall item,
        CacheManager.Map_get k (CacheManager.cache c) = Some item ->
        CacheManager.expiresAt item < t ->
        fst (CacheManager.get k t c) = None).
Proof.
  intros He Hd.
  assert (Hget :
    forall t',
      fst (CacheManager.get k t' (CacheManager.set k r (Some d) t0 c))
      = if t' >? t0 + d then None else Some r).
  { intros t'. unfold CacheManager.get.
    rewrite set_config, He, (set_stores k r (Some d) t0 c He). simpl.
    destruct (d =? 0) eqn:E; [apply Z.eqb_eq in E; contradiction|].
    destruct (t' >? t0 + d); reflexivity. }
  repeat split.
  - intros Ht. rewrite Hget.
    destruct (t >? t0 + d) eqn:E; [|reflexivity].
    apply Z.gtb_lt in E. lia.
  - intros Ht. rewrite Hget.
    destruct (t >? t0 + d) eqn:E; [reflexivity|].
    rewrite Z.gtb_ltb in E. apply Z.ltb_ge in E. lia.
  - intros Hm. unfold CacheManager.get. rewrite He, Hm. reflexivity.
  - intros item Hm Hx. unfold CacheManager.get. rewrite He, Hm. simpl.
    destruct (t >? CacheManager.expiresAt item) eqn:E; [reflexivity|].
    rewrite Z.gtb_ltb in E. apply Z.ltb_ge in E. lia.
Qed.

Lemma cache_roundtrip_witness :
  fst (CacheManager.get sample_key 1000
         (CacheManager.set sample_key sample_result (Some 1000) 0
                           default_cache))
  = Some sample_result
  /\ fst (CacheManager.get sample_key 1001
            (CacheManager.set sample_key sample_result (Some 1000) 0
                              default_cache))
     = None.
Proof.
  assert (He : CacheManager.enabled (CacheManager.config default_cache)
               = true) by reflexivity.
  assert (Hd : 1000 <> 0) by lia.
  split.
  - apply (proj1 (cache_roundtrip default_cache sample_key sample_result
                    1000 0 1000 He Hd)). lia.
  - apply (proj1 (proj2 (cache_roundtrip default_cache sample_key
                           sample_result 1000 0 1001 He Hd))). lia.
Defined.

(** ** The rule manager: order of the rules and first match *)

Lemma by_priority_total (a b : PlatformRule.t) :
  before RuleManager.by_priority a b \/ before RuleManager.by_priority b a.
Proof. unfold before, RuleManager.by_priority. lia. Qed.

Lemma by_priority_trans (a b c : PlatformRule.t) :
  before RuleManager.by_priority a b -> before RuleManager.by_priority b c ->
  before RuleManager.by_priority a c.
Proof. unfold before, RuleManager.by_priority. lia. Qed.

Lemma sort_descending (rs : list PlatformRule.t) :
  descending (JsArray.sort RuleManager.by_priority rs).
Proof.
  apply sort_sorted; [apply by_priority_total | apply by_priority_trans].
Qed.

(** The rules of a manager after the constructor and after [addRule]. *)
Lemma new_rules (registered : list PlatformRule.t) :
  registered <> [] ->
  RuleManager.rules
    (RuleManager.new {| RuleManager.cfg_rules := Some registered;
                        RuleManager.cfg_enableDynamicLoading := None;
                        RuleManager.cfg_rulesPath := None |})
  = JsArray.sort RuleManager.by_priority registered.
Proof. destruct registered; [contradiction | reflexivity]. Qed.

Lemma addRule_permutation (r : PlatformRule.t) (m : RuleManager.t) :
  Permutation (RuleManager.rules (RuleManager.addRule r m))
              (RuleManager.rules m ++ [r]).
Proof. simpl. apply sort_permutation. Qed.

Lemma addRule_descending (r : PlatformRule.t) (m : RuleManager.t) :
  descending (RuleManager.rules (RuleManager.addRule r m)).
Proof. simpl. apply sort_descending. Qed.

Lemma register_permutation (rs : list PlatformRule.t) (m : RuleManager.t) :
  Permutation (RuleManager.rules (register rs m)) (RuleManager.rules m ++ rs).
Proof.
  revert m; induction rs as [|r rs IH]; intros m; simpl.
  - rewrite app_nil_r. reflexivity.
  - rewrite IH, addRule_permutation, <- app_assoc. reflexivity.
Qed.

Lemma register_descending (rs : list PlatformRule.t) (m : RuleManager.t) :
  descending (RuleManager.rules m) ->
  descending (RuleManager.rules (register rs m)).
Proof.
  revert m; induction rs as [|r rs IH]; intros m Hm; simpl; [exact Hm|].
  apply IH, addRule_descending.
Qed.

Section FirstMatch.
Context {H : Host}.

Lemma rule_matches_fires (url : jsstring) (r : PlatformRule.t) :
  RuleManager.rule_matches url r = fires (Js.trim url) r.
Proof. reflexivity. Qed.

Lemma match_patterns_platform (r : PlatformRule.t) (ps : list jsstring)
      (n : jsstring) :
  match RuleManager.match_patterns r ps n with
  | Some result =>
      RuleManager.Intermediate.platform result = PlatformRule.platform r
      /\ existsb (fun pattern =>
                    match RegExp_exec pattern true n with
                    | Some (Some _) => true
                    | _ => false
                    end) ps = true
  | None =>
      existsb (fun pattern =>
                 match RegExp_exec pattern true n with
                 | Some (Some _) => true
                 | _ => false
                 end) ps = false
  end.
Proof.
  induction ps as [|p ps IH]; simpl; [reflexivity|].
  destruct (RegExp_exec p true n) as [[caps|]|]; simpl.
  - split; reflexivity.
  - exact IH.
  - exact IH.
Qed.

(** [detectPlatform] answers with the platform of the first rule of the
    array that fires. *)
Lemma match_rules_first (rs : list PlatformRule.t) (n : jsstring) :
  option_map RuleManager.Intermediate.platform (RuleManager.match_rules rs n)
  = option_map PlatformRule.platform (find (fires n) rs).
Proof.
  induction rs as [|r rs IH]; simpl; [reflexivity|].
  unfold fires at 1.
  destruct (PlatformRule.enabled r); simpl; [|exact IH].
  pose proof (match_patterns_platform r (PlatformRule.patterns r) n) as Hp.
  destruct (RuleManager.match_patterns r (PlatformRule.patterns r) n)
    as [result|].
  - destruct Hp as [Hplat ->]. simpl. rewrite Hplat. reflexivity.
  - rewrite Hp. exact IH.
Qed.

Lemma detectPlatform_first (m : RuleManager.t) (url : jsstring)
      (r : PlatformRule.t) :
  find (fires (Js.trim url)) (RuleManager.rules m) = Some r ->
  RuleManager.Intermediate.platform (RuleManager.detectPlatform m url)
  = PlatformRule.platform r.
Proof.
  intros Hf. unfold RuleManager.detectPlatform.
  pose proof (match_rules_first (RuleManager.rules m) (Js.trim url)) as Hm.
  rewrite Hf in Hm.
  destruct (RuleManager.match_rules _ _); simpl in Hm; congruence.
Qed.

(** In a sorted array, the first rule that fires stands before every
    other rule that fires. *)
Lemma find_descending (rs : list PlatformRule.t) (n : jsstring)
      (r : PlatformRule.t) :
  descending rs -> In r rs -> fires n r = true ->
  exists r0, find (fires n) rs = Some r0
             /\ In r0 rs /\ fires n r0 = true
             /\ PlatformRule.priority r <= PlatformRule.priority r0.
Proof.
  induction 1 as [|x rs Hs IH Hx]; intros Hin Hr; [contradiction|].
  simpl. destruct (fires n x) eqn:Ex.
  - exists x. split; [reflexivity|]. split; [left; reflexivity|].
    split; [exact Ex|].
    destruct Hin as [->|Hin]; [lia|].
    rewrite Forall_forall in Hx. specialize (Hx r Hin).
    unfold before, RuleManager.by_priority in Hx. lia.
  - destruct Hin as [->|Hin]; [congruence|].
    destruct (IH Hin Hr) as (r0 & Hf & Hi & Hfire & Hle).
    exists r0. split; [exact Hf|]. split; [right; exact Hi|].
    split; [exact Hfire | exact Hle].
Qed.

(** A manager whose array is sorted and holds [R1], [R2] and rules that
    do not outrank [R1] on this URL answers with the platform of [R1]. *)
Lemma sorted_manager_prefers (m : RuleManager.t)
      (R1 R2 : PlatformRule.t) (others : list PlatformRule.t)
      (url : jsstring) :
  PlatformRule.priority R1 = 100 ->
  PlatformRule.priority R2 = 50 ->
  RuleManager.rule_matches url R1 = true ->
  (forall r, In r others -> RuleManager.rule_matches url r = true ->
             PlatformRule.priority r < 100) ->
  descending (RuleManager.rules m) ->
  Permutation (RuleManager.rules m) (R1 :: R2 :: others) ->
  RuleManager.Intermediate.platform (RuleManager.detectPlatform m url)
  = PlatformRule.platform R1.
Proof.
  intros H1 H2 M1 Hothers Hsorted Hperm.
  assert (Hin : In R1 (RuleManager.rules m)).
  { apply (Permutation_in _ (Permutation_sym Hperm)). left; reflexivity. }
  destruct (find_descending _ (Js.trim url) R1 Hsorted Hin M1)
    as (r0 & Hf & Hi & Hfire & Hle).
  rewrite (detectPlatform_first m url r0 Hf).
  apply (Permutation_in _ Hperm) in Hi.
  destruct Hi as [<-|[<-|Hi]]; [reflexivity | lia |].
  specialize (Hothers r0 Hi Hfire). lia.
Qed.

End FirstMatch.

(** C4: let [R1] have priority 100 and [R2] priority 50, both enabled and
    both with a pattern that matches the URL, in a rule set where no other
    rule that matches the URL has a priority of 100 or more (in
    particular in the set of these two rules alone).  Whatever the order
    in which the rules are registered, in the array given to the
    constructor or one by one with [addRule], [detectPlatform] answers
    with the platform of [R1]. *)
Theorem rule_priority_determinism {H : Host} (R1 R2 : PlatformRule.t)
        (others registered : list PlatformRule.t) (url : jsstring) :
  PlatformRule.priority R1 = 100 ->
  PlatformRule.priority R2 = 50 ->
  RuleManager.rule_matches url R1 = true ->
  RuleManager.rule_matches url R2 = true ->
  (forall r, In r others -> RuleManager.rule_matches url r = true ->
             PlatformRule.priority r < 100) ->
  Permutation registered (R1 :: R2 :: others) ->
  RuleManager.Intermediate.platform
    (RuleManager.detectPlatform
       (RuleManager.new {| RuleManager.cfg_rules := Some registered;
                           RuleManager.cfg_enableDynamicLoading := None;
                           RuleManager.cfg_rulesPath := None |}) url)
  = PlatformRule.platform R1
  /\ (forall first rest,
        registered = first :: rest ->
        RuleManager.Intermediate.platform
          (RuleManager.detectPlatform
             (register rest
                (RuleManager.new
                   {| RuleManager.cfg_rules := Some [first];
                      RuleManager.cfg_enableDynamicLoading := None;
                      RuleManager.cfg_rulesPath := None |})) url)
        = PlatformRule.platform R1).
Proof.
  intros H1 H2 M1 M2 Hothers Hperm.
  assert (Hne : registered <> []).
  { intros ->. apply Permutation_nil in Hperm. discriminate. }
  split.
  - apply (sorted_manager_prefers _ R1 R2 others url H1 H2 M1 Hothers).
    + rewrite (new_rules registered Hne). apply sort_descending.
    + rewrite (new_rules registered Hne), sort_permutation. exact Hperm.
  - intros first rest ->.
    apply (sorted_manager_prefers _ R1 R2 others url H1 H2 M1 Hothers).
    + apply register_descending.
      rewrite new_rules by discriminate. apply sort_descending.
    + rewrite register_permutation, new_rules by discriminate.
      simpl. exact Hperm.
Qed.

Lemma rule_priority_determinism_witness :
  RuleManager.Intermediate.platform
    (RuleManager.detectPlatform (H := ModelHost)
       (RuleManager.new
          {| RuleManager.cfg_rules :=
               Some (rule_low :: RuleManager.getBuiltinRules ++ [rule_high]);
             RuleManager.cfg_enableDynamicLoading := None;
             RuleManager.cfg_rulesPath := None |}) blog_post_url)
  = PlatformType.medium.
Proof.
  refine (proj1 (rule_priority_determinism (H := ModelHost)
                   rule_high rule_low RuleManager.getBuiltinRules
                   (rule_low :: RuleManager.getBuiltinRules ++ [rule_high])
                   blog_post_url eq_refl eq_refl _ _ _ _)).
  - vm_compute. reflexivity.
  - vm_compute. reflexivity.
  - intros r Hin Hm.
    assert (Hall :
      forallb (fun r => implb (RuleManager.rule_matches (H := ModelHost)
                                 blog_post_url r)
                              (PlatformRule.priority r <? 100))
              RuleManager.getBuiltinRules = true)
      by (vm_compute; reflexivity).
    rewrite forallb_forall in Hall. specialize (Hall r Hin).
    rewrite Hm in Hall. simpl in Hall. apply Z.ltb_lt. exact Hall.
  - rewrite Permutation_app_comm. simpl. apply perm_swap.
Defined.

(** ** The rule manager: which operations keep the array sorted *)

Lemma descendingb_spec (rs : list PlatformRule.t) :
  descendingb rs = true <-> descending rs.
Proof.
  unfold descending. induction rs as [|r rs IH]; simpl.
  - split; [constructor | reflexivity].
  - rewrite andb_true_iff, forallb_forall, IH. split.
    + intros [Hall Hs]. constructor; [exact Hs|].
      apply Forall_forall. intros x Hx. specialize (Hall x Hx).
      apply Z.leb_le in Hall. unfold before, RuleManager.by_priority. lia.
    + intros Hs. inversion Hs as [|? ? Hs' Hall]; subst.
      split; [|exact Hs'].
      intros x Hx. rewrite Forall_forall in Hall. specialize (Hall x Hx).
      unfold before, RuleManager.by_priority in Hall. apply Z.leb_le. lia.
Qed.

(** Whether an array is sorted only depends on the priorities in it. *)
Lemma descendingb_priorities (rs rs' : list PlatformRule.t) :
  List.map PlatformRule.priority rs = List.map PlatformRule.priority rs' ->
  descendingb rs = descendingb rs'.
Proof.
  revert rs'; induction rs as [|r rs IH]; intros [|r' rs'] E;
    try discriminate; [reflexivity|].
  simpl in E. injection E as Er Ers. simpl.
  rewrite (IH rs' Ers), Er. f_equal.
  clear IH. revert rs' Ers.
  induction rs as [|x rs IHx]; intros [|x' rs'] Ers; try discriminate;
    [reflexivity|].
  simpl in Ers. injection Ers as Ex Exs. simpl.
  rewrite Ex, (IHx rs' Exs). reflexivity.
Qed.

Lemma update_at_priorities (i : nat) (f : PlatformRule.t -> PlatformRule.t)
      (rs : list PlatformRule.t) :
  (forall r, PlatformRule.priority (f r) = PlatformRule.priority r) ->
  List.map PlatformRule.priority (JsArray.update_at i f rs)
  = List.map PlatformRule.priority rs.
Proof.
  intros Hf. revert i; induction rs as [|r rs IH]; intros [|i]; simpl;
    try reflexivity.
  - rewrite Hf. reflexivity.
  - rewrite IH. reflexivity.
Qed.

(** The constructor, [addRule] and [loadRulesFromUrl] sort the array;
    [updateRule] keeps it sorted when the update leaves the priority
    alone, as [setRuleEnabled] does. *)
Lemma rules_stay_descending :
  (forall config, descending (RuleManager.rules (RuleManager.new config)))
  /\ (forall r m, descending (RuleManager.rules (RuleManager.addRule r m)))
  /\ (forall fetched m,
        descending (RuleManager.rules m) ->
        descending (RuleManager.rules
                      (RuleManager.loadRulesFromUrl fetched m)))
  /\ (forall platform updates m,
        PlatformRule.u_priority updates = None ->
        descending (RuleManager.rules m) ->
        descending (RuleManager.rules
                      (snd (RuleManager.updateRule platform updates m))))
  /\ (forall platform enabled m,
        descending (RuleManager.rules m) ->
        descending (RuleManager.rules
                      (snd (RuleManager.setRuleEnabled platform enabled m)))).
Proof.
  assert (Hupdate :
    forall platform updates m,
      PlatformRule.u_priority updates = None ->
      descending (RuleManager.rules m) ->
      descending (RuleManager.rules
                    (snd (RuleManager.updateRule platform updates m)))).
  { intros platform updates m Hp Hm. unfold RuleManager.updateRule.
    destruct (JsArray.findIndex _ _) as [index|]; simpl; [|exact Hm].
    apply descendingb_spec. apply descendingb_spec in Hm.
    rewrite <- Hm. apply descendingb_priorities, update_at_priorities.
    intros r. simpl. rewrite Hp. reflexivity. }
  split; [intros config; apply sort_descending|].
  split; [intros r m; apply sort_descending|].
  split.
  - intros fetched m Hm. unfold RuleManager.loadRulesFromUrl.
    destruct (RuleManager.enableDynamicLoading m); [|exact Hm].
    destruct fetched as [rs|]; [apply sort_descending | exact Hm].
  - split; [exact Hupdate|].
    intros platform enabled m Hm. apply Hupdate; [reflexivity | exact Hm].
Qed.

(** C8 at its failing input: [updateRule] replaces the rule in place and
    does not sort.  After the priority of the generic rule is raised to
    200 the array is no longer in descending order: the rule still stands
    last, and a URL that it and the [dev.to] rule (priority 50) both match
    is still answered with [devto]. *)
Theorem updateRule_leaves_array_unsorted :
  descending (RuleManager.rules (RuleManager.new RuleManager.default_config))
  /\ List.map PlatformRule.priority (RuleManager.rules raised_generic)
     = [100; 95; 90; 85; 80; 75; 70; 65; 60; 55; 50; 45; 200]
  /\ ~ descending (RuleManager.rules raised_generic)
  /\ RuleManager.Intermediate.platform
       (RuleManager.detectPlatform (H := ModelHost) raised_generic
          (Js.lit "https://dev.to/post/abc"))
     = PlatformType.devto
  /\ existsb (fun r =>
                PlatformType.eqb (PlatformRule.platform r) PlatformType.generic
                && RuleManager.rule_matches (H := ModelHost)
                     (Js.lit "https://dev.to/post/abc") r)
             (RuleManager.rules raised_generic) = true.
Proof.
  split; [apply sort_descending|].
  split; [vm_compute; reflexivity|].
  split.
  - intros Hd. apply descendingb_spec in Hd. vm_compute in Hd. discriminate.
  - split; vm_compute; reflexivity.
Qed.

(** ** The cache: bound on the number of entries *)

Lemma Map_delete_keys_incl (k x : jsstring) (m : CacheManager.entries) :
  In x (keys (CacheManager.Map_delete k m)) -> In x (keys m).
Proof.
  induction m as [|[k' v'] m IH]; simpl; [tauto|].
  destruct (Js.eqb k' k); simpl; tauto.
Qed.

Lemma Map_delete_NoDup (k : jsstring) (m : CacheManager.entries) :
  NoDup (keys m) -> NoDup (keys (CacheManager.Map_delete k m)).
Proof.
  induction m as [|[k' v'] m IH]; simpl; intros Hn; [exact Hn|].
  inversion Hn as [|? ? Hnotin Hn']; subst.
  destruct (Js.eqb k' k); simpl; [exact Hn'|].
  constructor; [|apply IH; exact Hn'].
  intros Hin. apply Hnotin. eapply Map_delete_keys_incl. exact Hin.
Qed.

Lemma Map_delete_length_le (k : jsstring) (m : CacheManager.entries) :
  (List.length (CacheManager.Map_delete k m) <= List.length m)%nat.
Proof.
  induction m as [|[k' v'] m IH]; simpl; [lia|].
  destruct (Js.eqb k' k); simpl; lia.
Qed.

Lemma Map_delete_length (k : jsstring) (m : CacheManager.entries) :
  In k (keys m) ->
  S (List.length (CacheManager.Map_delete k m)) = List.length m.
Proof.
  induction m as [|[k' v'] m IH]; simpl; [tauto|].
  intros Hin. destruct (Js.eqb k' k) eqn:E; simpl; [reflexivity|].
  destruct Hin as [->|Hin]; [rewrite Js_eqb_refl in E; discriminate|].
  rewrite (IH Hin). reflexivity.
Qed.

(** With one entry per key, [delete] removes exactly the entry of the
    key. *)
Lemma Map_delete_In (k : jsstring) (e : jsstring * CacheManager.CacheItem)
      (m : CacheManager.entries) :
  NoDup (keys m) ->
  (In e (CacheManager.Map_delete k m) <-> In e m /\ fst e <> k).
Proof.
  induction m as [|[k' v'] m IH]; simpl; intros Hn; [tauto|].
  inversion Hn as [|? ? Hnotin Hn']; subst.
  destruct (Js.eqb k' k) eqn:E.
  - apply Js_eqb_eq in E. subst k'. split.
    + intros Hin. split; [right; exact Hin|].
      intros <-. apply Hnotin. apply in_map. exact Hin.
    + intros [[<-|Hin] Hne]; [contradiction Hne; reflexivity | exact Hin].
  - apply Js_eqb_neq in E. simpl. rewrite (IH Hn'). split.
    + intros [<-|[Hin Hne]]; [split; [left; reflexivity | exact E]|].
      split; [right; exact Hin | exact Hne].
    + intros [[<-|Hin] Hne]; [left; reflexivity | right; split; assumption].
Qed.

Lemma Map_set_keys_In (k x : jsstring) (v : CacheManager.CacheItem)
      (m : CacheManager.entries) :
  In x (keys (CacheManager.Map_set k v m)) <-> x = k \/ In x (keys m).
Proof.
  induction m as [|[k' v'] m IH]; simpl; [intuition congruence|].
  destruct (Js.eqb k' k) eqn:E; simpl.
  - apply Js_eqb_eq in E. subst k'. intuition congruence.
  - rewrite IH. intuition congruence.
Qed.

Lemma Map_set_NoDup (k : jsstring) (v : CacheManager.CacheItem)
      (m : CacheManager.entries) :
  NoDup (keys m) -> NoDup (keys (CacheManager.Map_set k v m)).
Proof.
  induction m as [|[k' v'] m IH]; simpl; intros Hn.
  - constructor; [intros [] | constructor].
  - inversion Hn as [|? ? Hnotin Hn']; subst.
    destruct (Js.eqb k' k) eqn:E; simpl; [exact Hn|].
    constructor; [|apply IH; exact Hn'].
    rewrite Map_set_keys_In. intros [->|Hin]; [|contradiction].
    rewrite Js_eqb_refl in E. discriminate.
Qed.

Lemma Map_set_length_le (k : jsstring) (v : CacheManager.CacheItem)
      (m : CacheManager.entries) :
  (List.length (CacheManager.Map_set k v m) <= S (List.length m))%nat.
Proof.
  induction m as [|[k' v'] m IH]; simpl; [lia|].
  destruct (Js.eqb k' k); simpl; lia.
Qed.

Lemma Map_set_length_same (k : jsstring) (v : CacheManager.CacheItem)
      (m : CacheManager.entries) :
  (List.length m <= List.length (CacheManager.Map_set k v m))%nat.
Proof.
  induction m as [|[k' v'] m IH]; simpl; [lia|].
  destruct (Js.eqb k' k); simpl; lia.
Qed.

Lemma deletable_keys_incl (vs : CacheManager.entries) (x : jsstring) :
  In x (keys (deletable vs)) -> In x (keys vs).
Proof.
  unfold keys, deletable. rewrite !in_map_iff.
  intros (e & He & Hin). apply filter_In in Hin.
  exists e. tauto.
Qed.

Lemma deletable_NoDup (vs : CacheManager.entries) :
  NoDup (keys vs) -> NoDup (keys (deletable vs)).
Proof.
  induction vs as [|[k v] vs IH]; simpl; intros Hn; [exact Hn|].
  inversion Hn as [|? ? Hnotin Hn']; subst.
  destruct (Js.is_empty k); simpl; [apply IH; exact Hn'|].
  constructor; [|apply IH; exact Hn'].
  intros Hin. apply Hnotin, deletable_keys_incl. exact Hin.
Qed.

(** At most one key is the empty string. *)
Lemma deletable_length (vs : CacheManager.entries) :
  NoDup (keys vs) ->
  (List.length vs <= S (List.length (deletable vs)))%nat.
Proof.
  induction vs as [|[k v] vs IH]; simpl; intros Hn; [lia|].
  inversion Hn as [|? ? Hnotin Hn']; subst.
  destruct k as [|c k]; simpl.
  - assert (Hall : deletable vs = vs).
    { unfold deletable. clear IH Hn Hn'.
      induction vs as [|[k' v'] vs IHv]; simpl; [reflexivity|].
      destruct k' as [|c' k']; simpl.
      - exfalso. apply Hnotin. left; reflexivity.
      - rewrite IHv; [reflexivity|].
        intros Hin. apply Hnotin. right; exact Hin. }
    rewrite Hall. lia.
  - specialize (IH Hn'). lia.
Qed.

(** The eviction loop: it deletes the entries of the truthy keys among its
    victims, and counts them. *)
Lemma evict_loop_spec (vs m : CacheManager.entries) (acc : Z) :
  NoDup (keys m) -> NoDup (keys vs) -> incl (keys vs) (keys m) ->
  let '(removedCount, m') := CacheManager.evict_loop vs m acc in
  removedCount = acc + Z.of_nat (List.length (deletable vs))
  /\ (List.length m' + List.length (deletable vs) = List.length m)%nat
  /\ NoDup (keys m')
  /\ (forall e, In e m' <-> In e m /\ ~ In (fst e) (keys (deletable vs))).
Proof.
  revert m acc. induction vs as [|[k v] vs IH]; intros m acc Hm Hvs Hincl.
  - simpl. split; [lia|]. split; [lia|]. split; [exact Hm|].
    intros e. tauto.
  - inversion Hvs as [|? ? Hnotin Hvs']; subst.
    assert (Hincl' : incl (keys vs) (keys m)).
    { intros x Hx. apply Hincl. right; exact Hx. }
    simpl. destruct (Js.is_empty k) eqn:Ek; simpl.
    + apply IH; assumption.
    + assert (Hk : In k (keys m)) by (apply Hincl; left; reflexivity).
      assert (Hincl'' : incl (keys vs) (keys (CacheManager.Map_delete k m))).
      { intros x Hx. specialize (Hincl' x Hx).
        unfold keys in *. rewrite in_map_iff in *.
        destruct Hincl' as (e & He & Hin). exists e. split; [exact He|].
        apply Map_delete_In; [exact Hm|]. split; [exact Hin|].
        rewrite He. intros ->. contradiction. }
      specialize (IH (CacheManager.Map_delete k m) (acc + 1)
                     (Map_delete_NoDup k m Hm) Hvs' Hincl'').
      destruct (CacheManager.evict_loop vs (CacheManager.Map_delete k m)
                                        (acc + 1)) as [n m'].
      destruct IH as (Hn & Hlen & Hnd & Hin).
      pose proof (Map_delete_length k m Hk) as Hdel.
      split; [lia|]. split; [lia|]. split; [exact Hnd|].
      intros e. rewrite Hin, (Map_delete_In k e m Hm). simpl.
      intuition congruence.
Qed.

Lemma keys_unique (m : CacheManager.entries)
      (a b : jsstring * CacheManager.CacheItem) :
  NoDup (keys m) -> In a m -> In b m -> fst a = fst b -> a = b.
Proof.
  induction m as [|x m IH]; simpl; intros Hn Ha Hb E; [contradiction|].
  inversion Hn as [|? ? Hnotin Hn']; subst.
  destruct Ha as [->|Ha], Hb as [->|Hb]; auto.
  - exfalso. apply Hnotin. rewrite E. apply in_map. exact Hb.
  - exfalso. apply Hnotin. rewrite <- E. apply in_map. exact Ha.
Qed.

Lemma sorted_app_before {A : Type} (R : A -> A -> Prop) (l1 l2 : list A) :
  StronglySorted R (l1 ++ l2) ->
  forall a b, In a l1 -> In b l2 -> R a b.
Proof.
  induction l1 as [|x l1 IH]; simpl; intros Hs a b Ha Hb; [contradiction|].
  inversion Hs as [|? ? Hs' Hall]; subst.
  destruct Ha as [->|Ha]; [|apply IH; assumption].
  rewrite Forall_forall in Hall. apply Hall, in_or_app. right; exact Hb.
Qed.

Lemma by_timestamp_total (a b : jsstring * CacheManager.CacheItem) :
  before CacheManager.by_timestamp a b \/ before CacheManager.by_timestamp b a.
Proof. unfold before, CacheManager.by_timestamp. lia. Qed.

Lemma by_timestamp_trans (a b c : jsstring * CacheManager.CacheItem) :
  before CacheManager.by_timestamp a b ->
  before CacheManager.by_timestamp b c ->
  before CacheManager.by_timestamp a c.
Proof. unfold before, CacheManager.by_timestamp. lia. Qed.

Section Eviction.
Variable compareFn : jsstring * CacheManager.CacheItem
                     -> jsstring * CacheManager.CacheItem -> Z.
Variable count : Z.
Variable c : CacheManager.t.
Hypothesis one_per_key : NoDup (keys (CacheManager.cache c)).

Lemma victims_survivors :
  Permutation (victims compareFn count c ++ survivors compareFn count c)
    (CacheManager.cache c).
Proof.
  unfold victims, survivors. rewrite firstn_skipn. apply sort_permutation.
Qed.

Lemma victims_NoDup : NoDup (keys (victims compareFn count c)).
Proof.
  assert (Hn : NoDup (keys (victims compareFn count c
                            ++ survivors compareFn count c))).
  { eapply Permutation_NoDup; [|exact one_per_key].
    apply Permutation_sym, Permutation_map, victims_survivors. }
  unfold keys in Hn. rewrite map_app in Hn.
  apply NoDup_app_remove_r in Hn. exact Hn.
Qed.

Lemma victims_incl :
  incl (keys (victims compareFn count c)) (keys (CacheManager.cache c)).
Proof.
  intros x Hx. unfold keys in *. rewrite in_map_iff in *.
  destruct Hx as (e & He & Hin). exists e. split; [exact He|].
  apply (Permutation_in _ victims_survivors), in_or_app. left; exact Hin.
Qed.

Lemma victims_length :
  CacheManager.size c > count -> 0 <= count ->
  List.length (victims compareFn count c) = Z.to_nat count.
Proof.
  intros Hs Hc. unfold victims. apply firstn_length_le.
  rewrite sort_length. unfold CacheManager.size in Hs. lia.
Qed.

(** What an eviction leaves. *)
Lemma evict_spec :
  let c' := snd (CacheManager.evict compareFn count c) in
  CacheManager.config c' = CacheManager.config c
  /\ NoDup (keys (CacheManager.cache c'))
  /\ (CacheManager.size c <= count -> CacheManager.cache c' = [])
  /\ (CacheManager.size c > count ->
      (List.length (CacheManager.cache c')
       + List.length (deletable (victims compareFn count c))
       = List.length (CacheManager.cache c))%nat
      /\ (forall e,
            In e (CacheManager.cache c') <->
            In e (CacheManager.cache c)
            /\ ~ In (fst e) (keys (deletable (victims compareFn count c))))).
Proof.
  cbv zeta. split; [apply evict_config|].
  unfold CacheManager.evict.
  destruct (CacheManager.size c <=? count) eqn:E.
  - simpl. split; [constructor|]. split; [reflexivity|].
    apply Z.leb_le in E. lia.
  - apply Z.leb_gt in E.
    pose proof (evict_loop_spec (victims compareFn count c)
                  (CacheManager.cache c) 0
                  one_per_key victims_NoDup victims_incl) as Hloop.
    fold (victims compareFn count c).
    destruct (CacheManager.evict_loop (victims compareFn count c)
                (CacheManager.cache c) 0)
      as [n m'].
    destruct Hloop as (_ & Hlen & Hnd & Hin). simpl.
    split; [exact Hnd|]. split; [lia|].
    intros _. split; [exact Hlen | exact Hin].
Qed.

(** An eviction never adds entries, and with more than [count] entries
    it removes at least [count - 1] of them. *)
Lemma evict_length :
  0 <= count ->
  let c' := snd (CacheManager.evict compareFn count c) in
  CacheManager.size c' <= CacheManager.size c
  /\ (CacheManager.size c > count ->
      CacheManager.size c' + count - 1 <= CacheManager.size c).
Proof.
  intros Hc. destruct evict_spec as (_ & _ & Hsmall & Hlarge).
  cbv zeta.
  destruct (Z_le_gt_dec (CacheManager.size c) count) as [Hle|Hgt].
  - unfold CacheManager.size at 1 3. rewrite (Hsmall Hle). simpl.
    unfold CacheManager.size in *. lia.
  - destruct (Hlarge Hgt) as [Hlen _].
    pose proof (deletable_length (victims compareFn count c) victims_NoDup)
      as Hd.
    pose proof (victims_length Hgt Hc) as Hv.
    unfold CacheManager.size in *. lia.
Qed.

End Eviction.

Lemma Map_set_length_present (k : jsstring) (v item : CacheManager.CacheItem)
      (m : CacheManager.entries) :
  CacheManager.Map_get k m = Some item ->
  List.length (CacheManager.Map_set k v m) = List.length m.
Proof.
  induction m as [|[k' v'] m IH]; simpl; [discriminate|].
  destruct (Js.eqb k' k); simpl; [reflexivity|].
  intros Hg. rewrite (IH Hg). reflexivity.
Qed.

Lemma filter_keys_NoDup (f : jsstring * CacheManager.CacheItem -> bool)
      (m : CacheManager.entries) :
  NoDup (keys m) -> NoDup (keys (filter f m)).
Proof.
  induction m as [|x m IH]; simpl; intros Hn; [exact Hn|].
  inversion Hn as [|? ? Hnotin Hn']; subst.
  destruct (f x); simpl; [|apply IH; exact Hn'].
  constructor; [|apply IH; exact Hn'].
  intros Hin. apply Hnotin. unfold keys in *. rewrite in_map_iff in *.
  destruct Hin as (e & He & Hin). apply filter_In in Hin.
  exists e. tauto.
Qed.

Lemma evictions_bounded
      (compareFn : jsstring * CacheManager.CacheItem
                   -> jsstring * CacheManager.CacheItem -> Z)
      (count bound : Z) (c : CacheManager.t) :
  bounded bound c ->
  bounded bound (snd (CacheManager.evict compareFn count c)).
Proof.
  intros (Hn & Hs & Hm).
  destruct (evict_spec compareFn count c Hn) as (Hc & Hn' & Hsmall & Hlarge).
  split; [exact Hn'|]. split; [|rewrite Hc; exact Hm].
  destruct (Z_le_gt_dec (CacheManager.size c) count) as [Hle|Hgt].
  - unfold CacheManager.size at 1. rewrite (Hsmall Hle). simpl.
    unfold CacheManager.size in Hs. lia.
  - destruct (Hlarge Hgt) as [Hlen _]. unfold CacheManager.size in *. lia.
Qed.

Lemma set_bounded (k : jsstring) (r : PlatformDetectionResult.t)
      (custom : option Z) (now bound : Z) (c : CacheManager.t) :
  1 <= bound -> bounded bound c ->
  bounded bound (CacheManager.set k r custom now c).
Proof.
  intros Hb Hc. pose proof Hc as (Hn & Hs & Hm).
  unfold CacheManager.set.
  destruct (negb (CacheManager.enabled (CacheManager.config c)));
    [exact Hc|].
  set (item := {| CacheManager.result := r |}).
  destruct (CacheManager.size c
            >=? CacheManager.maxSize (CacheManager.config c)) eqn:E.
  - pose proof (evictions_bounded CacheManager.by_timestamp 10 bound c Hc)
      as (Hn' & Hs' & Hm').
    destruct (evict_length CacheManager.by_timestamp 10 c Hn) as [_ Hlarge];
      [lia|].
    destruct (evict_spec CacheManager.by_timestamp 10 c Hn)
      as (_ & _ & Hsmall & _).
    fold (CacheManager.evictOldestItems 10 c) in *.
    set (c1 := snd (CacheManager.evictOldestItems 10 c)) in *.
    split; [apply Map_set_NoDup; exact Hn'|]. split; [|exact Hm'].
    pose proof (Map_set_length_le k item (CacheManager.cache c1)) as Hle.
    unfold CacheManager.size. simpl.
    destruct (Z_le_gt_dec (CacheManager.size c) 10) as [Hten|Hten].
    + rewrite (Hsmall Hten) in *. simpl in *. lia.
    + specialize (Hlarge Hten). unfold CacheManager.size in *. lia.
  - rewrite Z.geb_leb in E. apply Z.leb_gt in E.
    split; [apply Map_set_NoDup; exact Hn|]. split; [|exact Hm].
    pose proof (Map_set_length_le k item (CacheManager.cache c)) as Hle.
    unfold CacheManager.size in *. simpl. lia.
Qed.

(** Every call keeps the invariant. *)
Lemma step_bounded (bound : Z) (c : CacheManager.t)
      (op : CacheManager.call) :
  1 <= bound -> bounded bound c -> bounded bound (CacheManager.step c op).
Proof.
  intros Hb Hc. pose proof Hc as (Hn & Hs & Hm).
  destruct op as [key now|key r custom now|key|now|key custom now|now
                  |count|count]; simpl.
  - unfold CacheManager.get.
    destruct (negb _); [exact Hc|].
    destruct (CacheManager.Map_get key (CacheManager.cache c))
      as [item|] eqn:Hg; [|exact Hc].
    destruct (now >? CacheManager.expiresAt item); simpl.
    + split; [apply Map_delete_NoDup; exact Hn|]. split; [|exact Hm].
      pose proof (Map_delete_length_le key (CacheManager.cache c)).
      unfold CacheManager.size in *. simpl. lia.
    + split; [apply Map_set_NoDup; exact Hn|]. split; [|exact Hm].
      unfold CacheManager.size in *. simpl.
      rewrite (Map_set_length_present key _ item _ Hg). exact Hs.
  - apply set_bounded; assumption.
  - split; [apply Map_delete_NoDup; exact Hn|]. split; [|exact Hm].
    pose proof (Map_delete_length_le key (CacheManager.cache c)).
    unfold CacheManager.size in *. simpl. lia.
  - split; [constructor|]. split; [|exact Hm].
    unfold CacheManager.size. simpl. lia.
  - unfold CacheManager.refresh.
    destruct (CacheManager.Map_get key (CacheManager.cache c))
      as [item|] eqn:Hg; [|exact Hc]. simpl.
    split; [apply Map_set_NoDup; exact Hn|]. split; [|exact Hm].
    unfold CacheManager.size in *. simpl.
    rewrite (Map_set_length_present key _ item _ Hg). exact Hs.
  - split; [apply filter_keys_NoDup; exact Hn|]. split; [|exact Hm].
    pose proof (filter_length_le
                  (fun e => negb (now >? CacheManager.expiresAt (snd e)))
                  (CacheManager.cache c)).
    unfold CacheManager.size in *. simpl. lia.
  - apply evictions_bounded. exact Hc.
  - apply evictions_bounded. exact Hc.
Qed.

Lemma run_bounded (bound : Z) (calls : list CacheManager.call)
      (c : CacheManager.t) :
  1 <= bound -> bounded bound c -> bounded bound (CacheManager.run calls c).
Proof.
  intros Hb. revert c. induction calls as [|op calls IH]; intros c Hc;
    simpl; [exact Hc|].
  apply IH, step_bounded; assumption.
Qed.

Lemma new_bounded (cfg : CacheManager.CacheManagerConfig) (now : Z) :
  1 <= CacheManager.maxSize cfg ->
  bounded (CacheManager.maxSize cfg) (CacheManager.new cfg now).
Proof.
  intros Hb. split; [constructor|]. split; [|reflexivity].
  unfold CacheManager.size. simpl. lia.
Qed.

Lemma deletable_all (vs : CacheManager.entries) :
  (forall e, In e vs -> fst e <> []) -> deletable vs = vs.
Proof.
  induction vs as [|[k v] vs IH]; simpl; intros Hne; [reflexivity|].
  destruct k as [|ch k]; simpl.
  - exfalso. apply (Hne ([], v)); [left|]; reflexivity.
  - rewrite IH; [reflexivity|]. intros e He. apply Hne. right; exact He.
Qed.

(** With more than ten entries, none under the empty key,
    [evictOldestItems(10)] removes ten entries, and no entry it keeps is
    older than one it removes. *)
Lemma evictOldestItems_ten (c : CacheManager.t) :
  NoDup (keys (CacheManager.cache c)) ->
  10 < CacheManager.size c ->
  ~ In [] (keys (CacheManager.cache c)) ->
  let evicted := snd (CacheManager.evictOldestItems 10 c) in
  CacheManager.size evicted = CacheManager.size c - 10
  /\ (forall e, In e (CacheManager.cache evicted) ->
                In e (CacheManager.cache c))
  /\ (forall e e',
        In e (CacheManager.cache c) ->
        ~ In e (CacheManager.cache evicted) ->
        In e' (CacheManager.cache evicted) ->
        CacheManager.timestamp (snd e) <= CacheManager.timestamp (snd e')).
Proof.
  intros Hn Hsize Hempty. cbv zeta.
  set (vs := victims CacheManager.by_timestamp 10 c).
  set (rest := survivors CacheManager.by_timestamp 10 c).
  destruct (evict_spec CacheManager.by_timestamp 10 c Hn)
    as (_ & _ & _ & Hlarge).
  destruct Hlarge as [Hlen Hin]; [lia|].
  fold (CacheManager.evictOldestItems 10 c) in Hlen, Hin.
  fold vs in Hlen, Hin.
  assert (Hperm : Permutation (vs ++ rest) (CacheManager.cache c))
    by apply victims_survivors.
  assert (Hall : deletable vs = vs).
  { apply deletable_all. intros e He E. apply Hempty.
    rewrite <- E. apply in_map.
    apply (Permutation_in _ Hperm), in_or_app. left; exact He. }
  rewrite Hall in Hlen, Hin.
  assert (Hten : List.length vs = 10%nat).
  { unfold vs. rewrite victims_length; [reflexivity | lia | lia]. }
  split; [unfold CacheManager.size in *; lia|].
  split; [intros e He; apply Hin in He; tauto|].
  intros e e' He Hgone Hkept.
  assert (Hev : In e vs).
  { destruct (in_dec (list_eq_dec N.eq_dec) (fst e) (keys vs)) as [Hk|Hk].
    - unfold keys in Hk. rewrite in_map_iff in Hk.
      destruct Hk as (v & Hv & Hvin).
      assert (Hvc : In v (CacheManager.cache c)).
      { apply (Permutation_in _ Hperm), in_or_app. left; exact Hvin. }
      rewrite <- (keys_unique _ v e Hn Hvc He Hv). exact Hvin.
    - exfalso. apply Hgone, Hin. split; assumption. }
  assert (Hrest : In e' rest).
  { apply Hin in Hkept. destruct Hkept as [Hc Hk].
    apply (Permutation_in _ (Permutation_sym Hperm)), in_app_or in Hc.
    destruct Hc as [Hc|Hc]; [|exact Hc].
    exfalso. apply Hk. apply in_map. exact Hc. }
  assert (Hsorted : StronglySorted (before CacheManager.by_timestamp)
                                   (vs ++ rest)).
  { unfold vs, rest, victims, survivors. rewrite firstn_skipn.
    apply sort_sorted; [apply by_timestamp_total | apply by_timestamp_trans]. }
  pose proof (sorted_app_before _ vs rest Hsorted e e' Hev Hrest) as Hb.
  unfold before, CacheManager.by_timestamp in Hb. lia.
Qed.

(** C9, as stated, fails on the size of the batch: a full cache of two
    entries is emptied by the eviction, which removes two entries and not
    ten, and then holds the new entry alone. *)
Lemma eviction_batch_counterexample :
  CacheManager.size two_entries = 2
  /\ CacheManager.maxSize (CacheManager.config two_entries) = 2
  /\ fst (CacheManager.evictOldestItems 10 two_entries) = 2
  /\ keys (CacheManager.cache
             (CacheManager.set (Js.lit "c") sample_result None 3 two_entries))
     = [Js.lit "c"].
Proof. repeat split; vm_compute; reflexivity. Qed.

(** C9, amended: a cache configured with [maxSize >= 1] never holds more
    than [maxSize] entries, whatever calls are made.  When [set] is called
    on an enabled cache whose size is at or above [maxSize],
    [evictOldestItems(10)] runs before the entry is stored: it empties a
    cache of at most ten entries; from a larger cache with no entry under
    the empty key it removes exactly ten entries, none of them newer by
    creation timestamp than an entry that stays. *)
Theorem cache_size_bounded (cfg : CacheManager.CacheManagerConfig)
        (now : Z) (calls : list CacheManager.call) :
  1 <= CacheManager.maxSize cfg ->
  let c := CacheManager.run calls (CacheManager.new cfg now) in
  CacheManager.size c <= CacheManager.maxSize cfg
  /\ forall (k : jsstring) (r : PlatformDetectionResult.t)
            (custom : option Z) (t : Z),
       CacheManager.enabled (CacheManager.config c) = true ->
       CacheManager.size c >= CacheManager.maxSize (CacheManager.config c) ->
       let evicted := snd (CacheManager.evictOldestItems 10 c) in
       CacheManager.cache (CacheManager.set k r custom t c)
       = CacheManager.Map_set k
           {| CacheManager.result := r;
              CacheManager.timestamp := t;
              CacheManager.expiresAt :=
                t + match custom with
                    | Some d =>
                        if d =? 0
                        then CacheManager.duration (CacheManager.config c)
                        else d
                    | None => CacheManager.duration (CacheManager.config c)
                    end;
              CacheManager.accessCount := 0 |}
           (CacheManager.cache evicted)
       /\ (CacheManager.size c <= 10 -> CacheManager.cache evicted = [])
       /\ (10 < CacheManager.size c ->
           ~ In [] (keys (CacheManager.cache c)) ->
           CacheManager.size evicted = CacheManager.size c - 10
           /\ (forall e, In e (CacheManager.cache evicted) ->
                         In e (CacheManager.cache c))
           /\ (forall e e',
                 In e (CacheManager.cache c) ->
                 ~ In e (CacheManager.cache evicted) ->
                 In e' (CacheManager.cache evicted) ->
                 CacheManager.timestamp (snd e)
                 <= CacheManager.timestamp (snd e'))).
Proof.
  intros Hb c.
  destruct (run_bounded _ calls _ Hb (new_bounded cfg now Hb))
    as (Hn & Hs & Hm).
  fold c in Hn, Hs, Hm.
  split; [exact Hs|].
  intros k r custom t He Hfull evicted.
  split.
  - unfold CacheManager.set. rewrite He. simpl.
    rewrite (proj2 (Z.geb_le _ _)) by lia. reflexivity.
  - split.
    + intros Hten.
      destruct (evict_spec CacheManager.by_timestamp 10 c Hn)
        as (_ & _ & Hsmall & _).
      apply Hsmall. exact Hten.
    + intros Hten Hempty. apply evictOldestItems_ten; assumption.
Qed.

Lemma no_empty_key (ks : list jsstring) :
  existsb Js.is_empty ks = false -> ~ In [] ks.
Proof.
  intros Hb Hin. assert (Ht : existsb Js.is_empty ks = true).
  { apply existsb_exists. exists []. split; [exact Hin | reflexivity]. }
  congruence.
Qed.

Lemma cache_size_bounded_witness :
  CacheManager.size
    (CacheManager.run (eleven_calls letters)
                      (CacheManager.new eleven_config 0))
  <= CacheManager.maxSize eleven_config
  /\ CacheManager.size
       (snd (CacheManager.evictOldestItems 10
               (CacheManager.run (eleven_calls letters)
                                 (CacheManager.new eleven_config 0))))
     = CacheManager.size
         (CacheManager.run (eleven_calls letters)
                           (CacheManager.new eleven_config 0)) - 10.
Proof.
  assert (Hb : 1 <= CacheManager.maxSize eleven_config)
    by (vm_compute; discriminate).
  destruct (cache_size_bounded eleven_config 0 (eleven_calls letters) Hb)
    as [Hsize Hset].
  split; [exact Hsize|].
  assert (He : CacheManager.enabled
                 (CacheManager.config
                    (CacheManager.run (eleven_calls letters)
                                      (CacheManager.new eleven_config 0)))
               = true)
    by (vm_compute; reflexivity).
  assert (Hfull : CacheManager.size
                    (CacheManager.run (eleven_calls letters)
                                      (CacheManager.new eleven_config 0))
                  >= CacheManager.maxSize
                       (CacheManager.config
                          (CacheManager.run (eleven_calls letters)
                             (CacheManager.new eleven_config 0))))
    by (vm_compute; discriminate).
  destruct (Hset (Js.lit "l") sample_result None 12 He Hfull)
    as (_ & _ & Hten).
  assert (Hmany : 10 < CacheManager.size
                         (CacheManager.run (eleven_calls letters)
                            (CacheManager.new eleven_config 0)))
    by (vm_compute; reflexivity).
  assert (Hkeys : ~ In [] (keys (CacheManager.cache
                                   (CacheManager.run (eleven_calls letters)
                                      (CacheManager.new eleven_config 0))))).
  { apply no_empty_key. vm_compute. reflexivity. }
  exact (proj1 (Hten Hmany Hkeys)).
Defined.

(** The loop of the eviction skips an entry whose key is the empty string:
    with the oldest of eleven entries stored under it, nine entries are
    removed and the oldest one stays. *)
Example eviction_skips_empty_key :
  fst (CacheManager.evictOldestItems 10
         (eleven_entries ([] :: List.tl letters))) = 9
  /\ keys (CacheManager.cache
             (snd (CacheManager.evictOldestItems 10
                     (eleven_entries ([] :: List.tl letters)))))
     = [[]; Js.lit "k"].
Proof. split; vm_compute; reflexivity. Qed.

(** ** The strategy decider never answers [ignore] *)

Section NeverIgnore.
Context {H : Host}.

Lemma context_rules_no_ignore :
  Forall (fun r => StrategyDecider.rule_strategy r
                   <> ProcessingStrategy.ignore)
         StrategyDecider.getContextRules.
Proof.
  unfold StrategyDecider.getContextRules.
  repeat (constructor; [simpl; discriminate|]). constructor.
Qed.

(** The strategy of the best match is the strategy of one of the rules,
    or the one the loop started with. *)
Lemma best_match_no_ignore (rules : list StrategyDecider.ContextRule)
      (contentType : ContentType.t)
      (context : StrategyDecider.DecisionContext)
      (start : option (ProcessingStrategy.t * Q * jsstring)) :
  Forall (fun r => StrategyDecider.rule_strategy r
                   <> ProcessingStrategy.ignore) rules ->
  (forall s q why, start = Some (s, q, why) ->
                   s <> ProcessingStrategy.ignore) ->
  forall s q why,
    StrategyDecider.best_match rules contentType context start
    = Some (s, q, why) ->
    s <> ProcessingStrategy.ignore.
Proof.
  intros Hrules. revert start.
  induction Hrules as [|r rules Hr Hrules IH]; intros start Hstart s q why;
    simpl.
  - apply Hstart.
  - apply IH. intros s' q' why'.
    destruct (StrategyDecider.condition r contentType context);
      [|apply Hstart].
    destruct start as [[[s0 q0] why0]|].
    + destruct (negb (Qle_bool _ q0)).
      * intros E. injection E as <- _ _. exact Hr.
      * apply Hstart.
    + intros E. injection E as <- _ _. exact Hr.
Qed.

Lemma default_table_no_ignore (contentType : ContentType.t) :
  StrategyDecider.getDefaultStrategies contentType
  <> Some ProcessingStrategy.ignore.
Proof. destruct contentType; simpl; discriminate. Qed.

Lemma applyContextRules_no_ignore (d : StrategyDecider.t)
      (contentType : ContentType.t)
      (context : StrategyDecider.DecisionContext) :
  StrategyDecider.default_for d contentType <> ProcessingStrategy.ignore ->
  StrategyDecider.strategy
    (StrategyDecider.applyContextRules d contentType context)
  <> ProcessingStrategy.ignore.
Proof.
  intros Hd. unfold StrategyDecider.applyContextRules.
  destruct (StrategyDecider.best_match _ _ _ None)
    as [[[s q] why]|] eqn:E; simpl; [|exact Hd].
  apply (best_match_no_ignore _ _ _ None context_rules_no_ignore) in E;
    [exact E | discriminate].
Qed.

End NeverIgnore.

(** C10: a decider whose strategy table is the built-in one, as after
    [new StrategyDecider()], answers [clip], [watch_later] or [bookmark]
    for every content type and every context, whether context rules and
    learning are enabled or not; and deciding leaves the table as it is,
    so the same holds for every later decision. *)
Theorem decide_never_ignores {H : Host}
        (applyLearning :
           StrategyDecider.t -> ContentType.t
           -> StrategyDecider.DecisionContext -> Z
           -> StrategyDecider.StrategyDecision)
        (d : StrategyDecider.t) (contentType : ContentType.t)
        (context : StrategyDecider.DecisionContext) (now : Z) :
  (forall c, StrategyDecider.defaultStrategies d c
             = StrategyDecider.getDefaultStrategies c) ->
  In (fst (StrategyDecider.decide applyLearning d contentType context now))
     [ProcessingStrategy.clip; ProcessingStrategy.watch_later;
      ProcessingStrategy.bookmark]
  /\ fst (StrategyDecider.decide applyLearning d contentType context now)
     <> ProcessingStrategy.ignore
  /\ (forall c,
        StrategyDecider.defaultStrategies
          (snd (StrategyDecider.decide applyLearning d contentType context
                                       now)) c
        = StrategyDecider.getDefaultStrategies c).
Proof.
  intros Htable.
  assert (Hdefault : StrategyDecider.default_for d contentType
                     <> ProcessingStrategy.ignore).
  { unfold StrategyDecider.default_for. rewrite Htable.
    destruct contentType; simpl; discriminate. }
  assert (Hs : fst (StrategyDecider.decide applyLearning d contentType
                                           context now)
               <> ProcessingStrategy.ignore).
  { unfold StrategyDecider.decide, StrategyDecider.decideWithDetails. simpl.
    destruct (StrategyDecider.enableContextAware d && _)%bool;
      [|exact Hdefault].
    apply applyContextRules_no_ignore. exact Hdefault. }
  split; [|split; [exact Hs|]].
  - destruct (fst (StrategyDecider.decide applyLearning d contentType
                                          context now)); simpl;
      intuition congruence.
  - intros c. unfold StrategyDecider.decide, StrategyDecider.decideWithDetails.
    simpl. unfold StrategyDecider.recordDecision.
    destruct (negb (StrategyDecider.enableLearning d)); simpl; apply Htable.
Qed.

Lemma decide_never_ignores_witness :
  In (fst (StrategyDecider.decide (H := ModelHost)
             (fun d c _ _ => StrategyDecider.applyContextRules d c
                               StrategyDecider.empty_context)
             (StrategyDecider.new StrategyDecider.default_config)
             ContentType.video StrategyDecider.empty_context 0))
     [ProcessingStrategy.clip; ProcessingStrategy.watch_later;
      ProcessingStrategy.bookmark].
Proof.
  refine (proj1 (decide_never_ignores (H := ModelHost) _
                   (StrategyDecider.new StrategyDecider.default_config)
                   ContentType.video StrategyDecider.empty_context 0 _)).
  intros c. reflexivity.
Defined.

(** ** The service: [detect] never raises *)

Section DetectFacts.
Context {H : Host} {W : Type}.
Variable service : PlatformDetectorService.t W.

(** The extraction step has its own handler: whatever the extractor does,
    the step returns, with the metadata or without. *)
Lemma extract_metadata_returns (normalizedUrl : jsstring)
      (platform : PlatformType.t) (w : W) :
  exists metadata w',
    extract_metadata service normalizedUrl platform w
    = (Returned metadata, w').
Proof.
  unfold extract_metadata.
  destruct (enableMetadataExtraction service && _)%bool.
  - unfold try_catch, bind, ret.
    destruct (metadataExtractor_extract service normalizedUrl platform w)
      as [[m|e] w']; eauto.
  - unfold ret. eauto.
Qed.



End DetectFacts.



(** ** The classifier only examines the first rule of a platform *)

(** C6 at its failing input.  For the platform [zhihu] and the URL of a
    column article, the one rule of the platform that matches is the
    second one: content type [article], confidence 0.9, above the
    threshold of 0.6.  [classify] examines the first rule of the platform
    only; its pattern does not match, and [classify] answers with the
    content type of that rule, [discussion], at confidence 0.72. *)
Theorem classify_stops_at_first_rule :
  List.map (fun r => (ContentTypeClassifier.contentType r,
                      ContentTypeClassifier.confidence r))
           (matching_rules (H := ModelHost)
              (ContentTypeClassifier.new ContentTypeClassifier.default_config)
              PlatformType.zhihu zhuanlan_url)
  = [(ContentType.article, 9 # 10)]
  /\ ContentTypeClassifier.applyPlatformRules (H := ModelHost)
       (ContentTypeClassifier.new ContentTypeClassifier.default_config)
       PlatformType.zhihu (metadata_of_url zhuanlan_url)
     = Some (ContentType.discussion, 72 # 100)
  /\ ContentTypeClassifier.classify (H := ModelHost)
       (ContentTypeClassifier.new ContentTypeClassifier.default_config)
       PlatformType.zhihu (metadata_of_url zhuanlan_url)
     = Some ContentType.discussion.
Proof. repeat split; vm_compute; reflexivity. Qed.

(** Whatever the metadata, the answer of [applyPlatformRules] comes from
    the first rule of the platform in the table. *)
Lemma applyPlatformRules_first_rule {H : Host}
      (c : ContentTypeClassifier.t) (platform : PlatformType.t)
      (metadata : PlatformMetadata.t)
      (r : ContentTypeClassifier.ClassificationRule) :
  find (fun r => PlatformType.eqb (ContentTypeClassifier.platform r) platform)
       (ContentTypeClassifier.rules c) = Some r ->
  forall answer,
    ContentTypeClassifier.applyPlatformRules c platform metadata
    = Some answer ->
    fst answer = ContentTypeClassifier.contentType r.
Proof.
  unfold ContentTypeClassifier.applyPlatformRules.
  induction (ContentTypeClassifier.rules c) as [|x rs IH]; simpl;
    [discriminate|].
  destruct (PlatformType.eqb (ContentTypeClassifier.platform x) platform).
  - intros E. injection E as ->. intros answer.
    unfold ContentTypeClassifier.apply_rule.
    destruct (match ContentTypeClassifier.patterns r with
              | Some _ => _
              | None => _
              end) as [[|]|]; [| |discriminate].
    + intros E. injection E as <-. reflexivity.
    + destruct (match ContentTypeClassifier.metadataPatterns r with
                | Some _ => _
                | None => _
                end) as [[matches total]|]; [|discriminate].
      destruct (_ && _)%bool; intros E; injection E as <-; reflexivity.
  - exact IH.
Qed.

(** ** The scenario of the unknown blog *)

(** C7 at its failing input.  On a service built with the default
    configuration, whatever the extractor would do, [detect] answers the
    URL of the unknown blog with platform [generic], matched by the
    pattern for [/post/] of the built-in generic rule, and with strategy
    [clip], but with content type [generic]: the content type [article]
    that the generic rule declares does not reach the result. *)
Theorem detect_unknown_blog
        (syntaxErrorMessage : jsstring)
        (extract : jsstring -> PlatformType.t
                   -> M World PlatformMetadata.t)
        (applyLearning :
           StrategyDecider.t -> ContentType.t
           -> StrategyDecider.DecisionContext -> Z
           -> StrategyDecider.StrategyDecision)
        (now : Z) :
  fst (detect (H := ModelHost)
         (createPlatformDetector (H := ModelHost) syntaxErrorMessage extract
                                 applyLearning default_config)
         unknown_blog_url
         (initial default_config now))
  = Returned
      {| PlatformDetectionResult.platform := PlatformType.generic;
         PlatformDetectionResult.contentType := ContentType.generic;
         PlatformDetectionResult.confidence := 9 # 10;
         PlatformDetectionResult.matchedPattern :=
           Some (Js.lit "^https?://[^/]+/post/[^/]+");
         PlatformDetectionResult.metadata := None;
         PlatformDetectionResult.processingStrategy :=
           Some ProcessingStrategy.clip;
         PlatformDetectionResult.error := None;
         PlatformDetectionResult.warnings := None |}
  /\ List.map (fun r => (PlatformRule.platform r, PlatformRule.contentType r))
       (filter (RuleManager.rule_matches (H := ModelHost) unknown_blog_url)
               (RuleManager.rules (RuleManager.new RuleManager.default_config)))
     = [(PlatformType.generic, ContentType.article)].
Proof. split; vm_compute; reflexivity. Qed.

(** ** The cache manager: reads, removals, evictions and statistics *)

(** ** The cache: lookups *)

Lemma Map_get_None (k : jsstring) (m : CacheManager.entries) :
  CacheManager.Map_get k m = None <-> ~ In k (keys m).
Proof.
  induction m as [|[k' v'] m IH]; simpl; [tauto|].
  destruct (Js.eqb k' k) eqn:E.
  - apply Js_eqb_eq in E. subst k'. split; [discriminate | tauto].
  - apply Js_eqb_neq in E. rewrite IH. tauto.
Qed.

Lemma Map_get_In (k : jsstring) (item : CacheManager.CacheItem)
      (m : CacheManager.entries) :
  CacheManager.Map_get k m = Some item -> In (k, item) m.
Proof.
  induction m as [|[k' v'] m IH]; simpl; [discriminate|].
  destruct (Js.eqb k' k) eqn:E.
  - apply Js_eqb_eq in E. subst k'. intros [= ->]. left; reflexivity.
  - intros Hg. right. apply IH. exact Hg.
Qed.

Lemma Map_get_delete_same (k : jsstring) (m : CacheManager.entries) :
  NoDup (keys m) -> CacheManager.Map_get k (CacheManager.Map_delete k m) = None.
Proof.
  intros Hn. apply Map_get_None. intros Hin.
  unfold keys in Hin. rewrite in_map_iff in Hin.
  destruct Hin as (e & He & Hin).
  apply (Map_delete_In k e m Hn) in Hin. tauto.
Qed.

Lemma Map_get_delete_other (k k' : jsstring) (m : CacheManager.entries) :
  k' <> k ->
  CacheManager.Map_get k' (CacheManager.Map_delete k m)
  = CacheManager.Map_get k' m.
Proof.
  intros Hne. induction m as [|[k0 v0] m IH]; simpl; [reflexivity|].
  destruct (Js.eqb k0 k) eqn:E.
  - apply Js_eqb_eq in E. subst k0.
    destruct (Js.eqb k k') eqn:E'; [|reflexivity].
    apply Js_eqb_eq in E'. congruence.
  - simpl. rewrite IH. reflexivity.
Qed.

Lemma Map_get_set_other (k k' : jsstring) (v : CacheManager.CacheItem)
      (m : CacheManager.entries) :
  k' <> k ->
  CacheManager.Map_get k' (CacheManager.Map_set k v m)
  = CacheManager.Map_get k' m.
Proof.
  intros Hne. induction m as [|[k0 v0] m IH]; simpl.
  - destruct (Js.eqb k k') eqn:E; [|reflexivity].
    apply Js_eqb_eq in E. congruence.
  - destruct (Js.eqb k0 k) eqn:E; simpl.
    + apply Js_eqb_eq in E. subst k0.
      destruct (Js.eqb k k') eqn:E'; [|reflexivity].
      apply Js_eqb_eq in E'. congruence.
    + rewrite IH. reflexivity.
Qed.

Lemma Map_set_keys_present (k : jsstring) (v item : CacheManager.CacheItem)
      (m : CacheManager.entries) :
  CacheManager.Map_get k m = Some item ->
  keys (CacheManager.Map_set k v m) = keys m.
Proof.
  induction m as [|[k0 v0] m IH]; simpl; [discriminate|].
  destruct (Js.eqb k0 k) eqn:E; simpl; [reflexivity|].
  intros Hg. rewrite (IH Hg). reflexivity.
Qed.

Lemma Map_set_keys_absent (k : jsstring) (v : CacheManager.CacheItem)
      (m : CacheManager.entries) :
  CacheManager.Map_get k m = None ->
  keys (CacheManager.Map_set k v m) = keys m ++ [k].
Proof.
  induction m as [|[k0 v0] m IH]; simpl; [reflexivity|].
  destruct (Js.eqb k0 k) eqn:E; simpl; [discriminate|].
  intros Hg. rewrite (IH Hg). reflexivity.
Qed.

Lemma Map_delete_absent (k : jsstring) (m : CacheManager.entries) :
  ~ In k (keys m) -> CacheManager.Map_delete k m = m.
Proof.
  induction m as [|[k0 v0] m IH]; simpl; intros Hn; [reflexivity|].
  destruct (Js.eqb k0 k) eqn:E.
  - apply Js_eqb_eq in E. subst k0. tauto.
  - rewrite IH; [reflexivity | tauto].
Qed.

(** X1: [has(key)] answers [true] exactly when [get(key)] at the same
    time would return a result: in every cache, enabled or not, and for
    every key, stored, expired or absent. *)
Theorem has_agrees_with_get (key : jsstring) (now : Z) (c : CacheManager.t) :
  CacheManager.has key now c
  = match fst (CacheManager.get key now c) with
    | Some _ => true
    | None => false
    end.
Proof.
  unfold CacheManager.has, CacheManager.get.
  destruct (negb (CacheManager.enabled (CacheManager.config c)));
    [reflexivity|].
  destruct (CacheManager.Map_get key (CacheManager.cache c)) as [item|];
    [|reflexivity].
  rewrite Z.gtb_ltb.
  destruct (Z.leb_spec now (CacheManager.expiresAt item)) as [Hle|Hgt].
  - rewrite (proj2 (Z.ltb_ge _ _)) by lia. reflexivity.
  - rewrite (proj2 (Z.ltb_lt _ _)) by lia. reflexivity.
Qed.

(** Every call keeps one entry per key. *)
Lemma step_one_per_key (c : CacheManager.t) (op : CacheManager.call) :
  NoDup (keys (CacheManager.cache c)) ->
  NoDup (keys (CacheManager.cache (CacheManager.step c op))).
Proof.
  intros Hn.
  destruct op as [key now|key r custom now|key|now|key custom now|now
                  |count|count]; simpl.
  - unfold CacheManager.get.
    destruct (negb _); [exact Hn|].
    destruct (CacheManager.Map_get key (CacheManager.cache c))
      as [item|]; [|exact Hn].
    destruct (now >? CacheManager.expiresAt item); simpl.
    + apply Map_delete_NoDup; exact Hn.
    + apply Map_set_NoDup; exact Hn.
  - unfold CacheManager.set.
    destruct (negb _); [exact Hn|].
    destruct (CacheManager.size c >=? _).
    + apply Map_set_NoDup.
      apply (evict_spec CacheManager.by_timestamp 10 c Hn).
    + apply Map_set_NoDup; exact Hn.
  - apply Map_delete_NoDup; exact Hn.
  - constructor.
  - unfold CacheManager.refresh.
    destruct (CacheManager.Map_get key (CacheManager.cache c))
      as [item|]; [|exact Hn].
    simpl. apply Map_set_NoDup; exact Hn.
  - apply filter_keys_NoDup; exact Hn.
  - apply (evict_spec CacheManager.by_accessCount count c Hn).
  - apply (evict_spec CacheManager.by_timestamp count c Hn).
Qed.

Lemma run_one_per_key (calls : list CacheManager.call)
      (cfg : CacheManager.CacheManagerConfig) (t0 : Z) :
  NoDup (keys (CacheManager.cache
                 (CacheManager.run calls (CacheManager.new cfg t0)))).
Proof.
  assert (Hrun : forall c, NoDup (keys (CacheManager.cache c)) ->
                           NoDup (keys (CacheManager.cache
                                          (CacheManager.run calls c)))).
  { induction calls as [|op calls IH]; intros c Hc; simpl; [exact Hc|].
    apply IH, step_one_per_key, Hc. }
  apply Hrun. constructor.
Qed.

(** X2: in an enabled cache reached by any calls, [get] on a stored key
    leaves every other key alone.  If the entry has not expired
    ([now <= expiresAt]) it returns the stored result, adds one to the
    access count of the entry and to the hits, and keeps the order of the
    keys; if it has expired ([expiresAt < now]) it returns nothing, removes
    the entry and counts a miss. *)
Theorem get_updates_the_entry (cfg : CacheManager.CacheManagerConfig)
        (t0 : Z) (calls : list CacheManager.call) (key : jsstring)
        (now : Z) (item : CacheManager.CacheItem) :
  let c := CacheManager.run calls (CacheManager.new cfg t0) in
  CacheManager.enabled (CacheManager.config c) = true ->
  CacheManager.Map_get key (CacheManager.cache c) = Some item ->
  let c' := snd (CacheManager.get key now c) in
  (forall k, k <> key ->
     CacheManager.Map_get k (CacheManager.cache c')
     = CacheManager.Map_get k (CacheManager.cache c))
  /\ (now <= CacheManager.expiresAt item ->
      fst (CacheManager.get key now c) = Some (CacheManager.result item)
      /\ CacheManager.Map_get key (CacheManager.cache c')
         = Some {| CacheManager.result := CacheManager.result item;
                   CacheManager.timestamp := CacheManager.timestamp item;
                   CacheManager.expiresAt := CacheManager.expiresAt item;
                   CacheManager.accessCount :=
                     CacheManager.accessCount item + 1 |}
      /\ CacheManager.getKeys c' = CacheManager.getKeys c
      /\ CacheManager.hits c' = CacheManager.hits c + 1
      /\ CacheManager.misses c' = CacheManager.misses c)
  /\ (CacheManager.expiresAt item < now ->
      fst (CacheManager.get key now c) = None
      /\ CacheManager.Map_get key (CacheManager.cache c') = None
      /\ CacheManager.size c' = CacheManager.size c - 1
      /\ CacheManager.misses c' = CacheManager.misses c + 1
      /\ CacheManager.hits c' = CacheManager.hits c).
Proof.
  cbv zeta.
  pose proof (run_one_per_key calls cfg t0) as Hn.
  set (c := CacheManager.run calls (CacheManager.new cfg t0)) in *.
  intros He Hg. unfold CacheManager.get. rewrite He, Hg. simpl.
  destruct (Z.leb_spec now (CacheManager.expiresAt item)) as [Hle|Hgt].
  - rewrite Z.gtb_ltb, (proj2 (Z.ltb_ge _ _)) by lia. simpl.
    split; [intros k Hk; apply Map_get_set_other; exact Hk|].
    split; [intros _|lia].
    split; [reflexivity|].
    split; [apply Map_get_set_same|].
    split; [apply (Map_set_keys_present key _ item); exact Hg|].
    split; reflexivity.
  - rewrite (proj2 (Z.gtb_lt _ _)) by lia. simpl.
    split; [intros k Hk; apply Map_get_delete_other; exact Hk|].
    split; [lia|intros _].
    split; [reflexivity|].
    split; [apply Map_get_delete_same; exact Hn|].
    split.
    { unfold CacheManager.size. simpl.
      assert (Hin : In key (keys (CacheManager.cache c))).
      { apply Map_get_In in Hg. apply (in_map fst) in Hg. exact Hg. }
      pose proof (Map_delete_length key _ Hin). lia. }
    split; reflexivity.
Qed.

Lemma get_updates_the_entry_witness :
  fst (CacheManager.get sample_key 1000
         (CacheManager.run stored_once
            (CacheManager.new default_cache_config 0)))
  = Some sample_result
  /\ CacheManager.hits
       (snd (CacheManager.get sample_key 1000
               (CacheManager.run stored_once
                  (CacheManager.new default_cache_config 0))))
     = 1
  /\ CacheManager.size
       (snd (CacheManager.get sample_key 1001
               (CacheManager.run stored_once
                  (CacheManager.new default_cache_config 0))))
     = 0.
Proof.
  assert (He : CacheManager.enabled
                 (CacheManager.config
                    (CacheManager.run stored_once
                       (CacheManager.new default_cache_config 0))) = true)
    by reflexivity.
  assert (Hg : CacheManager.Map_get sample_key
                 (CacheManager.cache
                    (CacheManager.run stored_once
                       (CacheManager.new default_cache_config 0)))
               = Some stored_item)
    by (vm_compute; reflexivity).
  destruct (get_updates_the_entry default_cache_config 0 stored_once
              sample_key 1000 stored_item He Hg)
    as (_ & Hhit & _).
  destruct (get_updates_the_entry default_cache_config 0 stored_once
              sample_key 1001 stored_item He Hg)
    as (_ & _ & Hexpired).
  destruct Hhit as (Hr & _ & _ & Hh & _); [simpl; lia|].
  destruct Hexpired as (_ & _ & Hs & _); [simpl; lia|].
  split; [exact Hr|]. split; [exact Hh | exact Hs].
Defined.

(** X3: in a cache reached by any calls, [delete] answers whether the
    key was stored; afterwards the key is gone ([has] and [get] find
    nothing at any time), every other key is as before, and deleting a key
    that was not stored changes no entry. *)
Theorem delete_removes_key (cfg : CacheManager.CacheManagerConfig)
        (t0 : Z) (calls : list CacheManager.call) (key : jsstring) :
  let c := CacheManager.run calls (CacheManager.new cfg t0) in
  let c' := snd (CacheManager.delete key c) in
  (fst (CacheManager.delete key c) = true
   <-> In key (CacheManager.getKeys c))
  /\ ~ In key (CacheManager.getKeys c')
  /\ (forall now,
        CacheManager.has key now c' = false
        /\ fst (CacheManager.get key now c') = None)
  /\ (forall k, k <> key ->
        CacheManager.Map_get k (CacheManager.cache c')
        = CacheManager.Map_get k (CacheManager.cache c))
  /\ (fst (CacheManager.delete key c) = false ->
      CacheManager.cache c' = CacheManager.cache c).
Proof.
  cbv zeta.
  pose proof (run_one_per_key calls cfg t0) as Hn.
  set (c := CacheManager.run calls (CacheManager.new cfg t0)) in *.
  unfold CacheManager.delete. simpl.
  assert (Hgone : CacheManager.Map_get key
                    (CacheManager.Map_delete key (CacheManager.cache c))
                  = None)
    by (apply Map_get_delete_same; exact Hn).
  split.
  { unfold CacheManager.Map_has.
    destruct (CacheManager.Map_get key (CacheManager.cache c)) as [item|]
      eqn:Hg.
    - split; [intros _|reflexivity].
      apply Map_get_In in Hg. apply (in_map fst) in Hg. exact Hg.
    - apply Map_get_None in Hg. split; [discriminate | contradiction]. }
  split; [apply Map_get_None; exact Hgone|].
  split.
  { intros now. unfold CacheManager.has, CacheManager.get. simpl.
    rewrite Hgone.
    destruct (negb (CacheManager.enabled (CacheManager.config c)));
      split; reflexivity. }
  split; [intros k Hk; apply Map_get_delete_other; exact Hk|].
  unfold CacheManager.Map_has.
  destruct (CacheManager.Map_get key (CacheManager.cache c)) eqn:Hg;
    [discriminate|].
  intros _. apply Map_delete_absent, Map_get_None. exact Hg.
Qed.

Lemma filter_idempotent {A : Type} (f : A -> bool) (l : list A) :
  filter f (filter f l) = filter f l.
Proof.
  induction l as [|x l IH]; simpl; [reflexivity|].
  destruct (f x) eqn:E; simpl; [rewrite E, IH; reflexivity | exact IH].
Qed.

(** X4: [cleanup] keeps exactly the entries that have not expired
    ([now <= expiresAt]) and returns the number of entries it removed; a
    second [cleanup] at the same time removes nothing; and in an enabled
    cache every key left after [cleanup] is one [has] finds at that
    time. *)
Theorem cleanup_removes_expired (now : Z) (c : CacheManager.t) :
  let c' := snd (CacheManager.cleanup now c) in
  fst (CacheManager.cleanup now c) = CacheManager.size c - CacheManager.size c'
  /\ 0 <= fst (CacheManager.cleanup now c)
  /\ (forall e, In e (CacheManager.cache c')
                <-> In e (CacheManager.cache c)
                    /\ now <= CacheManager.expiresAt (snd e))
  /\ CacheManager.cleanup now c' = (0, c')
  /\ (CacheManager.enabled (CacheManager.config c) = true ->
      forall k, In k (CacheManager.getKeys c') ->
                CacheManager.has k now c' = true).
Proof.
  cbv zeta. unfold CacheManager.cleanup, CacheManager.size. simpl.
  set (f := fun e : jsstring * CacheManager.CacheItem =>
              negb (now >? CacheManager.expiresAt (snd e))).
  assert (Hf : forall e, f e = true <-> now <= CacheManager.expiresAt (snd e)).
  { intros e. unfold f. rewrite negb_true_iff, Z.gtb_ltb, Z.ltb_ge.
    reflexivity. }
  split; [reflexivity|].
  split.
  { pose proof (filter_length_le f (CacheManager.cache c)). lia. }
  split.
  { intros e. rewrite filter_In, Hf. reflexivity. }
  split.
  { rewrite filter_idempotent. f_equal. lia. }
  intros He k Hk. unfold CacheManager.has. simpl. rewrite He. simpl.
  destruct (CacheManager.Map_get k (filter f (CacheManager.cache c)))
    as [item|] eqn:Hg.
  - apply Map_get_In, filter_In in Hg. destruct Hg as [_ Hg].
    apply Hf in Hg. simpl in Hg. apply Z.leb_le. exact Hg.
  - apply Map_get_None in Hg. contradiction.
Qed.

(** X5: [refresh] on a key that is not stored returns [false] and
    changes nothing.  On a stored key it returns [true] and sets the expiry
    to [now] plus the given duration (the configured one when none is given
    or the given one is 0); result, timestamp, access count, the order of
    the keys and every other key stay as they are, and in an enabled cache
    [get] returns the result up to the new expiry. *)
Theorem refresh_extends_expiry (key : jsstring) (custom : option Z)
        (now : Z) (c : CacheManager.t) :
  let c' := snd (CacheManager.refresh key custom now c) in
  let newDuration :=
    match custom with
    | Some d => if d =? 0 then CacheManager.duration (CacheManager.config c)
                else d
    | None => CacheManager.duration (CacheManager.config c)
    end in
  (CacheManager.Map_get key (CacheManager.cache c) = None ->
   CacheManager.refresh key custom now c = (false, c))
  /\ (forall item,
        CacheManager.Map_get key (CacheManager.cache c) = Some item ->
        fst (CacheManager.refresh key custom now c) = true
        /\ CacheManager.Map_get key (CacheManager.cache c')
           = Some {| CacheManager.result := CacheManager.result item;
                     CacheManager.timestamp := CacheManager.timestamp item;
                     CacheManager.expiresAt := now + newDuration;
                     CacheManager.accessCount :=
                       CacheManager.accessCount item |}
        /\ CacheManager.getKeys c' = CacheManager.getKeys c
        /\ (forall k, k <> key ->
              CacheManager.Map_get k (CacheManager.cache c')
              = CacheManager.Map_get k (CacheManager.cache c))
        /\ (CacheManager.enabled (CacheManager.config c) = true ->
            forall t, t <= now + newDuration ->
                      fst (CacheManager.get key t c')
                      = Some (CacheManager.result item))).
Proof.
  cbv zeta. unfold CacheManager.refresh. split.
  - intros ->. reflexivity.
  - intros item Hg. rewrite Hg. simpl.
    split; [reflexivity|].
    split; [apply Map_get_set_same|].
    split; [apply (Map_set_keys_present key _ item); exact Hg|].
    split; [intros k Hk; apply Map_get_set_other; exact Hk|].
    intros He t Ht. unfold CacheManager.get. simpl.
    rewrite He, Map_get_set_same. simpl.
    rewrite Z.gtb_ltb, (proj2 (Z.ltb_ge _ _)) by lia. reflexivity.
Qed.

(** X6: in an enabled cache that is not full, [set] on a stored key
    leaves the order of the keys as it is, and [set] on a new key puts the
    key last. *)
Theorem set_keeps_insertion_order (key : jsstring)
        (r : PlatformDetectionResult.t) (custom : option Z) (now : Z)
        (c : CacheManager.t) :
  CacheManager.enabled (CacheManager.config c) = true ->
  CacheManager.size c < CacheManager.maxSize (CacheManager.config c) ->
  CacheManager.getKeys (CacheManager.set key r custom now c)
  = if CacheManager.Map_has key (CacheManager.cache c)
    then CacheManager.getKeys c
    else CacheManager.getKeys c ++ [key].
Proof.
  intros He Hs. unfold CacheManager.set. rewrite He. simpl.
  rewrite Z.geb_leb, (proj2 (Z.leb_gt _ _)) by lia.
  unfold CacheManager.getKeys, CacheManager.Map_has. simpl.
  destruct (CacheManager.Map_get key (CacheManager.cache c)) as [item|]
    eqn:Hg.
  - apply (Map_set_keys_present key _ item). exact Hg.
  - apply Map_set_keys_absent. exact Hg.
Qed.

Lemma set_keeps_insertion_order_witness :
  CacheManager.getKeys
    (CacheManager.set sample_key sample_result None 0 default_cache)
  = [sample_key].
Proof.
  refine (set_keeps_insertion_order sample_key sample_result None 0
            default_cache _ _).
  - reflexivity.
  - reflexivity.
Defined.

Lemma by_accessCount_total (a b : jsstring * CacheManager.CacheItem) :
  before CacheManager.by_accessCount a b
  \/ before CacheManager.by_accessCount b a.
Proof. unfold before, CacheManager.by_accessCount. lia. Qed.

Lemma by_accessCount_trans (a b c : jsstring * CacheManager.CacheItem) :
  before CacheManager.by_accessCount a b ->
  before CacheManager.by_accessCount b c ->
  before CacheManager.by_accessCount a c.
Proof. unfold before, CacheManager.by_accessCount. lia. Qed.

Section EvictionOrder.

Variable compareFn : jsstring * CacheManager.CacheItem
                     -> jsstring * CacheManager.CacheItem -> Z.

Hypothesis compare_total :
  forall a b, before compareFn a b \/ before compareFn b a.

Hypothesis compare_trans :
  forall a b c, before compareFn a b -> before compareFn b c ->
                before compareFn a c.

Variable count : Z.

Variable c : CacheManager.t.

Hypothesis one_per_key : NoDup (keys (CacheManager.cache c)).

(** The number an eviction returns is the number of entries it removed. *)
Lemma evict_returns_removed :
  fst (CacheManager.evict compareFn count c)
  = CacheManager.size c
    - CacheManager.size (snd (CacheManager.evict compareFn count c)).
Proof.
  unfold CacheManager.evict.
  destruct (CacheManager.size c <=? count) eqn:E.
  - unfold CacheManager.size. simpl. lia.
  - pose proof (evict_loop_spec (victims compareFn count c)
                  (CacheManager.cache c) 0 one_per_key
                  (victims_NoDup compareFn count c one_per_key)
                  (victims_incl compareFn count c)) as Hloop.
    fold (victims compareFn count c).
    destruct (CacheManager.evict_loop (victims compareFn count c)
                (CacheManager.cache c) 0) as [n m'].
    destruct Hloop as (Hn & Hlen & _ & _).
    unfold CacheManager.size. simpl. lia.
Qed.

(** With more than [count] entries, none under the empty key, an eviction
    removes [count] entries, and the comparator puts each of them before
    every entry that stays. *)
Lemma evict_removes_first :
  ~ In [] (keys (CacheManager.cache c)) ->
  0 <= count < CacheManager.size c ->
  let evicted := snd (CacheManager.evict compareFn count c) in
  fst (CacheManager.evict compareFn count c) = count
  /\ CacheManager.size evicted = CacheManager.size c - count
  /\ (forall e, In e (CacheManager.cache evicted) ->
                In e (CacheManager.cache c))
  /\ (forall e e',
        In e (CacheManager.cache c) ->
        ~ In e (CacheManager.cache evicted) ->
        In e' (CacheManager.cache evicted) ->
        before compareFn e e').
Proof.
  intros Hempty Hsize. cbv zeta.
  set (vs := victims compareFn count c).
  set (rest := survivors compareFn count c).
  destruct (evict_spec compareFn count c one_per_key)
    as (_ & _ & _ & Hlarge).
  destruct Hlarge as [Hlen Hin]; [lia|].
  fold vs in Hlen, Hin.
  assert (Hperm : Permutation (vs ++ rest) (CacheManager.cache c))
    by apply victims_survivors.
  assert (Hall : deletable vs = vs).
  { apply deletable_all. intros e He E. apply Hempty.
    rewrite <- E. apply in_map.
    apply (Permutation_in _ Hperm), in_or_app. left; exact He. }
  rewrite Hall in Hlen, Hin.
  assert (Hcount : List.length vs = Z.to_nat count).
  { unfold vs. apply victims_length; lia. }
  assert (Hsz : CacheManager.size
                  (snd (CacheManager.evict compareFn count c))
                = CacheManager.size c - count)
    by (unfold CacheManager.size in *; lia).
  split; [rewrite evict_returns_removed; lia|].
  split; [exact Hsz|].
  split; [intros e He; apply Hin in He; tauto|].
  intros e e' He Hgone Hkept.
  assert (Hev : In e vs).
  { destruct (in_dec (list_eq_dec N.eq_dec) (fst e) (keys vs)) as [Hk|Hk].
    - unfold keys in Hk. rewrite in_map_iff in Hk.
      destruct Hk as (v & Hv & Hvin).
      assert (Hvc : In v (CacheManager.cache c)).
      { apply (Permutation_in _ Hperm), in_or_app. left; exact Hvin. }
      rewrite <- (keys_unique _ v e one_per_key Hvc He Hv). exact Hvin.
    - exfalso. apply Hgone, Hin. split; assumption. }
  assert (Hrest : In e' rest).
  { apply Hin in Hkept. destruct Hkept as [Hc Hk].
    apply (Permutation_in _ (Permutation_sym Hperm)), in_app_or in Hc.
    destruct Hc as [Hc|Hc]; [|exact Hc].
    exfalso. apply Hk. apply in_map. exact Hc. }
  assert (Hsorted : StronglySorted (before compareFn) (vs ++ rest)).
  { unfold vs, rest, victims, survivors. rewrite firstn_skipn.
    apply sort_sorted; assumption. }
  exact (sorted_app_before _ vs rest Hsorted e e' Hev Hrest).
Qed.

End EvictionOrder.

(** X7: in a cache reached by any calls that holds more than [count]
    entries, none under the empty key, [evictLeastUsed(count)] returns
    [count] and removes [count] entries, and no entry it removes has been
    read more often than one it keeps. *)
Theorem evictLeastUsed_removes_least_used
        (cfg : CacheManager.CacheManagerConfig) (t0 : Z)
        (calls : list CacheManager.call) (count : Z) :
  let c := CacheManager.run calls (CacheManager.new cfg t0) in
  ~ In [] (keys (CacheManager.cache c)) ->
  0 <= count < CacheManager.size c ->
  let evicted := snd (CacheManager.evictLeastUsed count c) in
  fst (CacheManager.evictLeastUsed count c) = count
  /\ CacheManager.size evicted = CacheManager.size c - count
  /\ (forall e, In e (CacheManager.cache evicted) ->
                In e (CacheManager.cache c))
  /\ (forall e e',
        In e (CacheManager.cache c) ->
        ~ In e (CacheManager.cache evicted) ->
        In e' (CacheManager.cache evicted) ->
        CacheManager.accessCount (snd e) <= CacheManager.accessCount (snd e')).
Proof.
  cbv zeta.
  pose proof (run_one_per_key calls cfg t0) as Hn.
  set (c := CacheManager.run calls (CacheManager.new cfg t0)) in *.
  intros Hempty Hsize.
  destruct (evict_removes_first CacheManager.by_accessCount
              by_accessCount_total by_accessCount_trans count c Hn
              Hempty Hsize) as (Hr & Hs & Hsub & Hord).
  split; [exact Hr|]. split; [exact Hs|]. split; [exact Hsub|].
  intros e e' He Hgone Hkept.
  specialize (Hord e e' He Hgone Hkept).
  unfold before, CacheManager.by_accessCount in Hord. lia.
Qed.

Lemma evictLeastUsed_removes_least_used_witness :
  fst (CacheManager.evictLeastUsed 1
         (CacheManager.run two_stored_b_read
            (CacheManager.new two_config 0)))
  = 1
  /\ CacheManager.size
       (snd (CacheManager.evictLeastUsed 1
               (CacheManager.run two_stored_b_read
                  (CacheManager.new two_config 0))))
     = CacheManager.size
         (CacheManager.run two_stored_b_read
            (CacheManager.new two_config 0)) - 1.
Proof.
  assert (Hne : ~ In [] (keys (CacheManager.cache
                                 (CacheManager.run two_stored_b_read
                                    (CacheManager.new two_config 0)))))
    by (apply no_empty_key; vm_compute; reflexivity).
  assert (Hc : 0 <= 1 < CacheManager.size
                          (CacheManager.run two_stored_b_read
                             (CacheManager.new two_config 0)))
    by (vm_compute; split; [discriminate | reflexivity]).
  destruct (evictLeastUsed_removes_least_used two_config 0
              two_stored_b_read 1 Hne Hc) as (Hr & Hs & _).
  split; [exact Hr | exact Hs].
Defined.

(** X8: in a cache reached by any calls, [evictLeastUsed] and
    [evictOldestItems] return the number of entries they removed; a count
    of at least the size empties the cache, and a count of zero or less
    removes nothing from a cache that holds an entry. *)
Theorem evictions_report_removed (cfg : CacheManager.CacheManagerConfig)
        (t0 : Z) (calls : list CacheManager.call) (count : Z) :
  let c := CacheManager.run calls (CacheManager.new cfg t0) in
  (fst (CacheManager.evictLeastUsed count c)
   = CacheManager.size c
     - CacheManager.size (snd (CacheManager.evictLeastUsed count c)))
  /\ (fst (CacheManager.evictOldestItems count c)
      = CacheManager.size c
        - CacheManager.size (snd (CacheManager.evictOldestItems count c)))
  /\ (CacheManager.size c <= count ->
      CacheManager.cache (snd (CacheManager.evictLeastUsed count c)) = []
      /\ CacheManager.cache (snd (CacheManager.evictOldestItems count c)) = [])
  /\ (count <= 0 -> 0 < CacheManager.size c ->
      CacheManager.cache (snd (CacheManager.evictLeastUsed count c))
      = CacheManager.cache c
      /\ CacheManager.cache (snd (CacheManager.evictOldestItems count c))
         = CacheManager.cache c).
Proof.
  cbv zeta.
  pose proof (run_one_per_key calls cfg t0) as Hn.
  set (c := CacheManager.run calls (CacheManager.new cfg t0)) in *.
  split; [apply evict_returns_removed; exact Hn|].
  split; [apply evict_returns_removed; exact Hn|].
  split.
  - intros Hle.
    destruct (evict_spec CacheManager.by_accessCount count c Hn)
      as (_ & _ & H1 & _).
    destruct (evict_spec CacheManager.by_timestamp count c Hn)
      as (_ & _ & H2 & _).
    split; [apply H1 | apply H2]; exact Hle.
  - intros Hc Hs.
    unfold CacheManager.evictLeastUsed, CacheManager.evictOldestItems,
      CacheManager.evict.
    rewrite (proj2 (Z.leb_gt _ _)) by lia.
    assert (Hz : Z.to_nat count = 0%nat) by lia.
    rewrite Hz. simpl. split; reflexivity.
Qed.

Lemma evict_stats (compareFn : jsstring * CacheManager.CacheItem
                               -> jsstring * CacheManager.CacheItem -> Z)
      (count : Z) (c : CacheManager.t) :
  CacheManager.hits (snd (CacheManager.evict compareFn count c))
  = CacheManager.hits c
  /\ CacheManager.misses (snd (CacheManager.evict compareFn count c))
     = CacheManager.misses c.
Proof.
  unfold CacheManager.evict.
  destruct (CacheManager.size c <=? count); [split; reflexivity|].
  destruct (CacheManager.evict_loop _ _ _). split; reflexivity.
Qed.

Lemma set_stats (k : jsstring) (r : PlatformDetectionResult.t)
      (custom : option Z) (now : Z) (c : CacheManager.t) :
  CacheManager.hits (CacheManager.set k r custom now c) = CacheManager.hits c
  /\ CacheManager.misses (CacheManager.set k r custom now c)
     = CacheManager.misses c.
Proof.
  unfold CacheManager.set.
  destruct (negb _); [split; reflexivity|].
  destruct (CacheManager.size c >=? _); simpl; [|split; reflexivity].
  apply evict_stats.
Qed.

(** Every [get] counts once, as a hit or as a miss; no other call but
    [clear] touches the counters. *)
Lemma run_stats (calls : list CacheManager.call) (c : CacheManager.t) :
  0 <= CacheManager.hits c -> 0 <= CacheManager.misses c ->
  0 <= CacheManager.hits (CacheManager.run calls c)
  /\ 0 <= CacheManager.misses (CacheManager.run calls c)
  /\ CacheManager.hits (CacheManager.run calls c)
     + CacheManager.misses (CacheManager.run calls c)
     = gets_since_clear calls (CacheManager.hits c + CacheManager.misses c).
Proof.
  revert c. induction calls as [|op calls IH]; intros c Hh Hm; simpl.
  - repeat split; assumption.
  - destruct op as [key now|key r custom now|key|now|key custom now|now
                    |count|count]; simpl.
    + assert (Hget :
        0 <= CacheManager.hits (snd (CacheManager.get key now c))
        /\ 0 <= CacheManager.misses (snd (CacheManager.get key now c))
        /\ CacheManager.hits (snd (CacheManager.get key now c))
           + CacheManager.misses (snd (CacheManager.get key now c))
           = CacheManager.hits c + CacheManager.misses c + 1).
      { unfold CacheManager.get.
        destruct (negb _); [simpl; lia|].
        destruct (CacheManager.Map_get key (CacheManager.cache c));
          [|simpl; lia].
        destruct (now >? _); simpl; lia. }
      destruct Hget as (H1 & H2 & H3).
      destruct (IH _ H1 H2) as (I1 & I2 & I3).
      rewrite I3, H3. repeat split; assumption.
    + destruct (set_stats key r custom now c) as [H1 H2].
      destruct (IH (CacheManager.set key r custom now c)) as (I1 & I2 & I3);
        [lia | lia |].
      rewrite I3, H1, H2. repeat split; assumption.
    + apply (IH (snd (CacheManager.delete key c))); assumption.
    + destruct (IH (CacheManager.clear now c)) as (I1 & I2 & I3);
        [simpl; lia | simpl; lia |].
      rewrite I3. simpl. repeat split; assumption.
    + assert (Hr :
        CacheManager.hits (snd (CacheManager.refresh key custom now c))
        = CacheManager.hits c
        /\ CacheManager.misses (snd (CacheManager.refresh key custom now c))
           = CacheManager.misses c).
      { unfold CacheManager.refresh.
        destruct (CacheManager.Map_get key (CacheManager.cache c));
          split; reflexivity. }
      destruct Hr as [H1 H2].
      destruct (IH (snd (CacheManager.refresh key custom now c)))
        as (I1 & I2 & I3); [lia | lia |].
      rewrite I3, H1, H2. repeat split; assumption.
    + apply (IH (snd (CacheManager.cleanup now c))); assumption.
    + destruct (evict_stats CacheManager.by_accessCount count c) as [H1 H2].
      destruct (IH (snd (CacheManager.evictLeastUsed count c)))
        as (I1 & I2 & I3);
        [unfold CacheManager.evictLeastUsed; lia
        | unfold CacheManager.evictLeastUsed; lia |].
      unfold CacheManager.evictLeastUsed in *.
      rewrite I3, H1, H2. repeat split; assumption.
    + destruct (evict_stats CacheManager.by_timestamp count c) as [H1 H2].
      destruct (IH (snd (CacheManager.evictOldestItems count c)))
        as (I1 & I2 & I3);
        [unfold CacheManager.evictOldestItems; lia
        | unfold CacheManager.evictOldestItems; lia |].
      unfold CacheManager.evictOldestItems in *.
      rewrite I3, H1, H2. repeat split; assumption.
Qed.

Lemma fold_min_le (l : list Z) (a : Z) : fold_left Z.min l a <= a.
Proof.
  revert a. induction l as [|x l IH]; intros a; simpl; [lia|].
  specialize (IH (Z.min a x)). lia.
Qed.

Lemma fold_max_ge (l : list Z) (a : Z) : a <= fold_left Z.max l a.
Proof.
  revert a. induction l as [|x l IH]; intros a; simpl; [lia|].
  specialize (IH (Z.max a x)). lia.
Qed.

Lemma fold_usage_ge (f : jsstring * CacheManager.CacheItem -> Z)
      (m : CacheManager.entries) (acc : Z) :
  (forall e, 0 <= f e) ->
  acc + 100 * Z.of_nat (List.length m)
  <= fold_left (fun acc e => acc + f e + 100) m acc.
Proof.
  intros Hf. revert acc. induction m as [|e m IH]; intros acc; simpl fold_left.
  - simpl. lia.
  - specialize (IH (acc + f e + 100)). specialize (Hf e).
    change (List.length (e :: m)) with (S (List.length m)). lia.
Qed.

Lemma fold_left_ext {A B : Type} (f g : A -> B -> A) (l : list B) (a : A) :
  (forall x y, f x y = g x y) -> fold_left f l a = fold_left g l a.
Proof.
  intros E. revert a. induction l as [|y l IH]; intros a; simpl;
    [reflexivity|].
  rewrite E. apply IH.
Qed.

Lemma hitRate_range (h t : Z) :
  0 <= h <= t -> 0 < t ->
  (0 <= inject_Z h / inject_Z t)%Q /\ (inject_Z h / inject_Z t <= 1)%Q.
Proof.
  intros Hh Ht.
  assert (Htq : (0 < inject_Z t)%Q).
  { change 0%Q with (inject_Z 0). rewrite <- Zlt_Qlt. exact Ht. }
  split.
  - apply Qle_shift_div_l; [exact Htq|].
    rewrite Qmult_0_l. change 0%Q with (inject_Z 0).
    rewrite <- Zle_Qle. lia.
  - apply Qle_shift_div_r; [exact Htq|].
    rewrite Qmult_1_l. rewrite <- Zle_Qle. lia.
Qed.

(** X9: for the cache reached from [new] by any calls, the hits and
    misses [getStats] reports add up to the number of [get] calls since the
    last [clear]; neither is negative; the hit rate (taken as the exact
    quotient) lies between 0 and 1 and is 0 when there was no hit; the
    newest entry is not older than the oldest; both ages are 0 in an empty
    cache; and the memory estimate is at least 100 per entry. *)
Theorem getStats_consistent
        (JSON_stringify : PlatformDetectionResult.t -> jsstring)
        (cfg : CacheManager.CacheManagerConfig) (t0 : Z)
        (calls : list CacheManager.call) (now : Z) :
  let stats :=
    CacheManager.getStats JSON_stringify now
      (CacheManager.run calls (CacheManager.new cfg t0)) in
  CacheManager.stats_hits stats + CacheManager.stats_misses stats
  = gets_since_clear calls 0
  /\ 0 <= CacheManager.stats_hits stats
  /\ 0 <= CacheManager.stats_misses stats
  /\ (0 <= CacheManager.hitRate stats)%Q
  /\ (CacheManager.hitRate stats <= 1)%Q
  /\ (CacheManager.stats_hits stats = 0 ->
      (CacheManager.hitRate stats == 0)%Q)
  /\ CacheManager.newestItemAge stats <= CacheManager.oldestItemAge stats
  /\ (CacheManager.stats_size stats = 0 ->
      CacheManager.oldestItemAge stats = 0
      /\ CacheManager.newestItemAge stats = 0)
  /\ 100 * CacheManager.stats_size stats <= CacheManager.memoryUsage stats.
Proof.
  cbv zeta.
  set (c := CacheManager.run calls (CacheManager.new cfg t0)).
  destruct (run_stats calls (CacheManager.new cfg t0)) as (Hh & Hm & Hsum);
    [simpl; lia | simpl; lia |].
  fold c in Hh, Hm, Hsum. simpl in Hsum.
  unfold CacheManager.getStats. simpl.
  split; [exact Hsum|]. split; [exact Hh|]. split; [exact Hm|].
  assert (Hrate :
    (0 <= (if CacheManager.hits c + CacheManager.misses c >? 0
           then inject_Z (CacheManager.hits c)
                / inject_Z (CacheManager.hits c + CacheManager.misses c)
           else 0))%Q
    /\ ((if CacheManager.hits c + CacheManager.misses c >? 0
         then inject_Z (CacheManager.hits c)
              / inject_Z (CacheManager.hits c + CacheManager.misses c)
         else 0) <= 1)%Q).
  { destruct (CacheManager.hits c + CacheManager.misses c >? 0) eqn:E.
    - apply Z.gtb_lt in E. apply hitRate_range; lia.
    - split; [apply Qle_refl | discriminate]. }
  split; [exact (proj1 Hrate)|]. split; [exact (proj2 Hrate)|].
  split.
  { intros Hz. rewrite Hz.
    destruct (0 + CacheManager.misses c >? 0); [|reflexivity].
    unfold Qdiv. rewrite Qmult_0_l. reflexivity. }
  split.
  { destruct (CacheManager.cache c) as [|e m]; simpl; [lia|].
    pose proof (fold_min_le
                  (List.map (fun e => CacheManager.timestamp (snd e)) m)
                  (CacheManager.timestamp (snd e))).
    pose proof (fold_max_ge
                  (List.map (fun e => CacheManager.timestamp (snd e)) m)
                  (CacheManager.timestamp (snd e))).
    lia. }
  split.
  { unfold CacheManager.size.
    destruct (CacheManager.cache c) as [|e m]; simpl; [split; reflexivity|].
    lia. }
  unfold CacheManager.size.
  pose proof (fold_usage_ge
                (fun e => Z.of_nat (List.length (fst e)) * 2
                          + Z.of_nat (List.length
                                        (JSON_stringify
                                           (CacheManager.result (snd e)))) * 2)
                (CacheManager.cache c) 0) as Hu.
  assert (Hfold :
    fold_left
      (fun acc e =>
         acc + Z.of_nat (List.length (fst e)) * 2
         + Z.of_nat (List.length
                       (JSON_stringify (CacheManager.result (snd e)))) * 2
         + 100) (CacheManager.cache c) 0
    = fold_left
        (fun acc e =>
           acc + (Z.of_nat (List.length (fst e)) * 2
                  + Z.of_nat (List.length
                                (JSON_stringify
                                   (CacheManager.result (snd e)))) * 2)
           + 100) (CacheManager.cache c) 0).
  { apply fold_left_ext. intros acc e. lia. }
  rewrite Hfold. apply Hu. intros e. lia.
Qed.

(** ** The rule manager: first match, updates and additions *)

Section RuleFacts.

Context {H : Host}.

Lemma fires_hits (n : jsstring) (r : PlatformRule.t) :
  fires n r
  = PlatformRule.enabled r
    && existsb (hits_pattern n) (PlatformRule.patterns r).
Proof. reflexivity. Qed.

Lemma match_patterns_find (r : PlatformRule.t) (ps : list jsstring)
      (n : jsstring) :
  RuleManager.match_patterns r ps n
  = option_map (fun pattern => answer r pattern n) (find (hits_pattern n) ps).
Proof.
  induction ps as [|p ps IH]; simpl; [reflexivity|].
  unfold hits_pattern at 1.
  destruct (RegExp_exec p true n) as [[caps|]|]; simpl;
    [reflexivity | exact IH | exact IH].
Qed.

Lemma existsb_find {A : Type} (f : A -> bool) (l : list A) :
  existsb f l = match find f l with Some _ => true | None => false end.
Proof.
  induction l as [|x l IH]; simpl; [reflexivity|].
  destruct (f x); [reflexivity | exact IH].
Qed.

Lemma match_rules_find (rs : list PlatformRule.t) (n : jsstring) :
  RuleManager.match_rules rs n
  = match find (fires n) rs with
    | Some r => RuleManager.match_patterns r (PlatformRule.patterns r) n
    | None => None
    end.
Proof.
  induction rs as [|r rs IH]; simpl; [reflexivity|].
  rewrite fires_hits.
  destruct (PlatformRule.enabled r); simpl; [|exact IH].
  rewrite match_patterns_find, existsb_find.
  destruct (find (hits_pattern n) (PlatformRule.patterns r)) as [p|] eqn:E;
    simpl; [|exact IH].
  rewrite match_patterns_find, E. reflexivity.
Qed.

End RuleFacts.

(** X10: [detectPlatform] answers with the first rule of the array
    that is enabled and has a pattern matching the trimmed URL, and with
    the first such pattern of that rule: platform of the rule, confidence
    0.9, the pattern (when it is not the empty string) and the identifier
    extracted for the platform.  When no enabled rule matches, the answer
    is [generic] with confidence 0.1 and neither pattern nor
    identifier. *)
Theorem detectPlatform_first_enabled_match {H : Host} (m : RuleManager.t)
        (url : jsstring) :
  let result := RuleManager.detectPlatform m url in
  (existsb (RuleManager.rule_matches url) (RuleManager.rules m) = false ->
   result = no_match)
  /\ (existsb (RuleManager.rule_matches url) (RuleManager.rules m) = true ->
      exists r pattern,
        find (RuleManager.rule_matches url) (RuleManager.rules m) = Some r
        /\ In r (RuleManager.rules m)
        /\ PlatformRule.enabled r = true
        /\ find (RuleManager.pattern_matches url) (PlatformRule.patterns r)
           = Some pattern
        /\ In pattern (PlatformRule.patterns r)
        /\ RuleManager.pattern_matches url pattern = true
        /\ result = answer r pattern (Js.trim url)).
Proof.
  cbv zeta. unfold RuleManager.detectPlatform.
  rewrite match_rules_find, existsb_find.
  change (RuleManager.rule_matches url) with (fires (Js.trim url)).
  change (RuleManager.pattern_matches url) with (hits_pattern (Js.trim url)).
  destruct (find (fires (Js.trim url)) (RuleManager.rules m)) as [r|] eqn:E.
  - split; [discriminate|]. intros _.
    pose proof (find_some _ _ E) as [Hin Hf].
    rewrite fires_hits in Hf. apply andb_true_iff in Hf.
    destruct Hf as [Hen Hex].
    rewrite match_patterns_find.
    rewrite existsb_find in Hex.
    destruct (find (hits_pattern (Js.trim url)) (PlatformRule.patterns r))
      as [p|] eqn:Ep; [|discriminate].
    pose proof (find_some _ _ Ep) as [Hpin Hp].
    exists r, p. simpl. repeat split; assumption.
  - split; [reflexivity | discriminate].
Qed.

Lemma PlatformType_eqb_eq (a b : PlatformType.t) :
  PlatformType.eqb a b = true <-> a = b.
Proof.
  split.
  - destruct a, b; simpl; intros E; try discriminate E; reflexivity.
  - intros ->. destruct b; reflexivity.
Qed.

Lemma PlatformType_eqb_neq (a b : PlatformType.t) :
  PlatformType.eqb a b = false <-> a <> b.
Proof.
  rewrite <- PlatformType_eqb_eq.
  destruct (PlatformType.eqb a b); split; congruence.
Qed.

(** ** Arrays: [findIndex] and the assignment to an index *)

Lemma findIndex_split {A : Type} (p : A -> bool) (f : A -> A) (l : list A)
      (i : nat) :
  JsArray.findIndex p l = Some i ->
  exists l1 x l2,
    l = l1 ++ x :: l2 /\ List.length l1 = i /\ p x = true
    /\ (forall y, In y l1 -> p y = false)
    /\ JsArray.update_at i f l = l1 ++ f x :: l2.
Proof.
  revert i. induction l as [|y l IH]; simpl; intros i; [discriminate|].
  destruct (p y) eqn:E.
  - intros [= <-]. exists [], y, l. simpl.
    repeat split; auto. intros z [].
  - destruct (JsArray.findIndex p l) as [j|] eqn:Ej; [|discriminate].
    intros [= <-].
    destruct (IH j eq_refl) as (l1 & x & l2 & -> & Hl & Hx & Hb & Hu).
    exists (y :: l1), x, l2. simpl. rewrite Hl, Hu.
    repeat split; auto. intros z [<-|Hz]; [exact E | apply Hb; exact Hz].
Qed.

Lemma findIndex_none {A : Type} (p : A -> bool) (l : list A) :
  JsArray.findIndex p l = None <-> (forall y, In y l -> p y = false).
Proof.
  induction l as [|y l IH]; simpl; [split; [intros _ z [] | reflexivity]|].
  destruct (p y) eqn:E.
  - split; [discriminate|]. intros Hall. rewrite (Hall y) in E; auto.
    discriminate.
  - destruct (JsArray.findIndex p l) as [j|].
    + split; [discriminate|]. intros Hall.
      assert (Hn : Some j = None); [|discriminate Hn].
      apply (proj2 IH). intros z Hz. apply Hall. right; exact Hz.
    + split; [|reflexivity]. intros _ z [<-|Hz]; [exact E|].
      apply (proj1 IH); [reflexivity | exact Hz].
Qed.

(** [updateRule] finds the first rule of the platform and replaces it in
    place, or finds none and changes nothing. *)
Lemma updateRule_split (platform : PlatformType.t)
      (updates : PlatformRule.updates) (m : RuleManager.t) :
  if fst (RuleManager.updateRule platform updates m)
  then exists before r after,
         RuleManager.rules m = before ++ r :: after
         /\ PlatformRule.platform r = platform
         /\ ~ In platform (List.map PlatformRule.platform before)
         /\ RuleManager.rules
              (snd (RuleManager.updateRule platform updates m))
            = before ++ PlatformRule.spread r updates :: after
  else snd (RuleManager.updateRule platform updates m) = m
       /\ ~ In platform
              (List.map PlatformRule.platform (RuleManager.rules m)).
Proof.
  unfold RuleManager.updateRule.
  set (p := fun r => PlatformType.eqb (PlatformRule.platform r) platform).
  destruct (JsArray.findIndex p (RuleManager.rules m)) as [i|] eqn:E; simpl.
  - destruct (findIndex_split p (fun r => PlatformRule.spread r updates)
                _ i E) as (l1 & x & l2 & Hl & Hlen & Hx & Hb & Hu).
    assert (Hplat : PlatformRule.platform x = platform)
      by (apply PlatformType_eqb_eq; exact Hx).
    assert (Hnot : ~ In platform (List.map PlatformRule.platform l1)).
    { rewrite in_map_iff. intros (y & Hy & Hin).
      specialize (Hb y Hin). unfold p in Hb.
      apply PlatformType_eqb_neq in Hb. contradiction. }
    exists l1, x, l2. repeat split; assumption.
  - split; [reflexivity|]. intros Hin.
    rewrite in_map_iff in Hin. destruct Hin as (y & Hy & Hin).
    pose proof (proj1 (findIndex_none p _) E y Hin) as Hp.
    unfold p in Hp. apply PlatformType_eqb_neq in Hp. contradiction.
Qed.

(** X11: [updateRule] returns [true] exactly when a rule of the
    platform exists.  It then replaces the first rule of that platform by
    the rule with the updates spread over it, in place; all other rules,
    the order of the array and the platforms of the rules stay as they
    are.  When it returns [false] the manager is unchanged. *)
Theorem updateRule_changes_one_rule (platform : PlatformType.t)
        (updates : PlatformRule.updates) (m : RuleManager.t) :
  let found := fst (RuleManager.updateRule platform updates m) in
  let m' := snd (RuleManager.updateRule platform updates m) in
  (found = true
   <-> In platform (List.map PlatformRule.platform (RuleManager.rules m)))
  /\ (found = false -> m' = m)
  /\ List.map PlatformRule.platform (RuleManager.rules m')
     = List.map PlatformRule.platform (RuleManager.rules m)
  /\ (found = true ->
      exists before r after,
        RuleManager.rules m = before ++ r :: after
        /\ PlatformRule.platform r = platform
        /\ ~ In platform (List.map PlatformRule.platform before)
        /\ RuleManager.rules m'
           = before ++ PlatformRule.spread r updates :: after).
Proof.
  cbv zeta. pose proof (updateRule_split platform updates m) as Hs.
  destruct (fst (RuleManager.updateRule platform updates m)).
  - destruct Hs as (l1 & x & l2 & Hl & Hplat & Hnot & Hu).
    split.
    { split; [intros _|reflexivity].
      rewrite Hl, map_app. apply in_or_app. right. left. exact Hplat. }
    split; [discriminate|].
    split.
    { rewrite Hu, Hl, !map_app. simpl. reflexivity. }
    intros _. exists l1, x, l2. repeat split; assumption.
  - destruct Hs as [Hsame Hnot].
    split; [split; [discriminate | intros Hin; contradiction]|].
    split; [intros _; exact Hsame|].
    split; [rewrite Hsame; reflexivity | discriminate].
Qed.

Section DisabledRules.

Context {H : Host}.

Lemma detectPlatform_find (m : RuleManager.t) (url : jsstring) :
  RuleManager.detectPlatform m url
  = match find (fires (Js.trim url)) (RuleManager.rules m) with
    | Some r =>
        match find (hits_pattern (Js.trim url)) (PlatformRule.patterns r) with
        | Some pattern => answer r pattern (Js.trim url)
        | None => no_match
        end
    | None => no_match
    end.
Proof.
  unfold RuleManager.detectPlatform. rewrite match_rules_find.
  destruct (find (fires (Js.trim url)) (RuleManager.rules m)) as [r|];
    [|reflexivity].
  rewrite match_patterns_find.
  destruct (find (hits_pattern (Js.trim url)) (PlatformRule.patterns r));
    reflexivity.
Qed.

Lemma find_app {A : Type} (f : A -> bool) (l1 l2 : list A) :
  find f (l1 ++ l2)
  = match find f l1 with Some x => Some x | None => find f l2 end.
Proof.
  induction l1 as [|x l1 IH]; simpl; [reflexivity|].
  destruct (f x); [reflexivity | exact IH].
Qed.

(** When the first rule that fires is found, some pattern of it matches. *)
Lemma fired_rule_answers (n : jsstring) (rs : list PlatformRule.t)
      (r : PlatformRule.t) :
  find (fires n) rs = Some r ->
  exists pattern,
    find (hits_pattern n) (PlatformRule.patterns r) = Some pattern.
Proof.
  intros E. apply find_some in E. destruct E as [_ Hf].
  rewrite fires_hits in Hf. apply andb_true_iff in Hf.
  destruct Hf as [_ Hex]. rewrite existsb_find in Hex.
  destruct (find (hits_pattern n) (PlatformRule.patterns r)) as [p|];
    [exists p; reflexivity | discriminate].
Qed.

End DisabledRules.

Lemma setRuleEnabled_updateRule (platform : PlatformType.t)
      (m : RuleManager.t) :
  RuleManager.setRuleEnabled platform false m
  = RuleManager.updateRule platform disable m.
Proof. reflexivity. Qed.

(** X12: when no two rules are for the same platform, after
    [setRuleEnabled(platform, false)] no answer of [detectPlatform] comes
    from the rule of that platform (an answer with this platform can only
    be the one given when nothing matches), and every URL that was answered
    with another platform is answered as before. *)
Theorem disabled_rule_never_answers {H : Host} (platform : PlatformType.t)
        (m : RuleManager.t) (url : jsstring) :
  NoDup (List.map PlatformRule.platform (RuleManager.rules m)) ->
  let m' := snd (RuleManager.setRuleEnabled platform false m) in
  (RuleManager.Intermediate.platform (RuleManager.detectPlatform m' url)
   = platform ->
   RuleManager.detectPlatform m' url = no_match)
  /\ (RuleManager.Intermediate.platform (RuleManager.detectPlatform m url)
      <> platform ->
      RuleManager.detectPlatform m' url = RuleManager.detectPlatform m url).
Proof.
  intros Hn. cbv zeta. rewrite setRuleEnabled_updateRule.
  pose proof (updateRule_split platform disable m) as Hsplit.
  destruct (fst (RuleManager.updateRule platform disable m)).
  - destruct Hsplit as (l1 & r & l2 & Hl & Hplat & Hnot & Hl').
    set (n := Js.trim url).
    set (r' := PlatformRule.spread r disable) in *.
    assert (Hoff : fires n r' = false) by reflexivity.
    assert (Hfind' :
      find (fires n) (RuleManager.rules
                        (snd (RuleManager.updateRule platform disable m)))
      = match find (fires n) l1 with
        | Some x => Some x
        | None => find (fires n) l2
        end).
    { rewrite Hl', find_app.
      change (find (fires n) (r' :: l2))
        with (if fires n r' then Some r' else find (fires n) l2).
      rewrite Hoff. reflexivity. }
    assert (Hfind :
      find (fires n) (RuleManager.rules m)
      = match find (fires n) l1 with
        | Some x => Some x
        | None => if fires n r then Some r else find (fires n) l2
        end).
    { rewrite Hl, find_app. reflexivity. }
    rewrite !detectPlatform_find. fold n. rewrite Hfind', Hfind.
    split.
    + destruct (find (fires n) l1) as [x|] eqn:E1.
      * destruct (fired_rule_answers n l1 x E1) as (p & ->). simpl.
        intros Hx. exfalso. apply Hnot. rewrite <- Hx.
        apply in_map. apply find_some in E1. tauto.
      * destruct (find (fires n) l2) as [x|] eqn:E2; [|reflexivity].
        destruct (fired_rule_answers n l2 x E2) as (p & ->). simpl.
        intros Hx. exfalso.
        rewrite Hl, map_app in Hn. simpl in Hn.
        apply NoDup_remove_2 in Hn. apply Hn, in_or_app. right.
        rewrite Hplat, <- Hx. apply in_map.
        apply find_some in E2. tauto.
    + destruct (find (fires n) l1) as [x|]; [reflexivity|].
      destruct (fires n r) eqn:Er; [|reflexivity].
      assert (Hr : find (fires n) [r] = Some r)
        by (simpl; rewrite Er; reflexivity).
      destruct (fired_rule_answers n [r] r Hr) as (p & ->). simpl.
      intros Hx. contradiction.
  - destruct Hsplit as [Hsame Hfound]. rewrite Hsame.
    split; [|reflexivity].
    rewrite detectPlatform_find.
    destruct (find (fires (Js.trim url)) (RuleManager.rules m)) as [x|] eqn:E;
      [|reflexivity].
    destruct (fired_rule_answers _ _ x E) as (p & ->). simpl.
    intros Hx. exfalso.
    assert (Hin : In platform (List.map PlatformRule.platform
                                        (RuleManager.rules m))).
    { rewrite <- Hx. apply in_map. apply find_some in E. tauto. }
    contradiction.
Qed.

Lemma disabled_rule_never_answers_witness :
  RuleManager.detectPlatform (H := ModelHost)
    (snd (RuleManager.setRuleEnabled PlatformType.youtube false
            (RuleManager.new RuleManager.default_config)))
    zhuanlan_url
  = RuleManager.detectPlatform (H := ModelHost)
      (RuleManager.new RuleManager.default_config) zhuanlan_url.
Proof.
  assert (Hn : NoDup (List.map PlatformRule.platform
                        (RuleManager.rules
                           (RuleManager.new RuleManager.default_config)))).
  { vm_compute.
    repeat (constructor; [simpl; intuition discriminate|]).
    constructor. }
  refine (proj2 (disabled_rule_never_answers (H := ModelHost)
                   PlatformType.youtube
                   (RuleManager.new RuleManager.default_config)
                   zhuanlan_url Hn) _).
  vm_compute. discriminate.
Defined.

(** ** The place of an added rule *)

Lemma filter_none {A : Type} (f : A -> bool) (l : list A) :
  (forall y, In y l -> f y = false) -> filter f l = [].
Proof.
  induction l as [|x l IH]; simpl; intros Hall; [reflexivity|].
  rewrite (Hall x) by (left; reflexivity).
  apply IH. intros y Hy. apply Hall. right; exact Hy.
Qed.

Section Placement.

Context {A : Type}.

Variable priority : A -> Z.

Variable compareFn : A -> A -> Z.

Hypothesis compareFn_priority :
  forall a b, compareFn a b = priority b - priority a.

Lemma insert_head (x : A) (l : list A) :
  Forall (fun y => priority y <= priority x) l ->
  JsArray.insert compareFn x l = x :: l.
Proof.
  destruct l as [|y l]; simpl; [reflexivity|].
  intros Hall. inversion Hall as [|? ? Hy _]; subst.
  rewrite compareFn_priority.
  rewrite (proj2 (Z.leb_le _ _)) by lia. reflexivity.
Qed.

Lemma sorted_priorities (x : A) (l : list A) :
  Forall (before compareFn x) l ->
  forall y, In y l -> priority y <= priority x.
Proof.
  intros Hall y Hy. rewrite Forall_forall in Hall.
  specialize (Hall y Hy). unfold before in Hall.
  rewrite compareFn_priority in Hall. lia.
Qed.

Lemma sorted_filter_split (l : list A) (p : Z) :
  StronglySorted (before compareFn) l ->
  l = filter (fun x => p <=? priority x) l
      ++ filter (fun x => priority x <? p) l.
Proof.
  induction l as [|x l IH]; simpl; intros Hs; [reflexivity|].
  inversion Hs as [|? ? Hs' Hall]; subst.
  pose proof (sorted_priorities x l Hall) as Hle.
  destruct (Z.leb_spec p (priority x)) as [Hp|Hp].
  - rewrite (proj2 (Z.ltb_ge _ _)) by lia. simpl. f_equal. apply IH, Hs'.
  - rewrite (proj2 (Z.ltb_lt _ _)) by lia.
    assert (Hnone : filter (fun y => p <=? priority y) l = []).
    { apply filter_none. intros y Hy. specialize (Hle y Hy).
      apply Z.leb_gt. lia. }
    assert (Hall' : filter (fun y => priority y <? p) l = l).
    { clear IH Hnone Hs Hs' Hall. induction l as [|y l IHl]; simpl;
        [reflexivity|].
      rewrite (proj2 (Z.ltb_lt _ _))
        by (specialize (Hle y (or_introl eq_refl)); lia).
      f_equal. apply IHl. intros z Hz. apply Hle. right; exact Hz. }
    rewrite Hnone, Hall'. reflexivity.
Qed.

(** Sorting after a push: the pushed element goes after the elements of
    the same or a higher priority, and before the others. *)
Lemma sort_push (l : list A) (x : A) :
  StronglySorted (before compareFn) l ->
  JsArray.sort compareFn (l ++ [x])
  = filter (fun y => priority x <=? priority y) l
    ++ x :: filter (fun y => priority y <? priority x) l.
Proof.
  unfold JsArray.sort. rewrite fold_right_app. simpl.
  induction l as [|y l IH]; simpl; intros Hs; [reflexivity|].
  inversion Hs as [|? ? Hs' Hall]; subst.
  pose proof (sorted_priorities y l Hall) as Hle.
  rewrite (IH Hs').
  destruct (Z.leb_spec (priority x) (priority y)) as [Hp|Hp].
  - rewrite (proj2 (Z.ltb_ge _ _)) by lia. apply insert_head.
    rewrite Forall_forall. intros z Hz.
    apply in_app_or in Hz. destruct Hz as [Hz|[<-|Hz]].
    + apply filter_In in Hz. apply Hle. tauto.
    + lia.
    + apply filter_In in Hz. apply Hle. tauto.
  - rewrite (proj2 (Z.ltb_lt _ _)) by lia.
    assert (Hnone : filter (fun z => priority x <=? priority z) l = []).
    { apply filter_none. intros z Hz. specialize (Hle z Hz).
      apply Z.leb_gt. lia. }
    rewrite Hnone. simpl. rewrite compareFn_priority.
    rewrite (proj2 (Z.leb_gt _ _)) by lia. f_equal.
    apply insert_head.
    rewrite Forall_forall. intros z Hz.
    apply filter_In in Hz. apply Hle. tauto.
Qed.

End Placement.

(** X13: when the rules are in descending order of priority,
    [addRule(r)] puts [r] after the rules whose priority is the same or
    higher and before the rules whose priority is lower.  So a URL matched
    by an existing rule whose priority is at least that of [r] is answered
    as before. *)
Theorem addRule_goes_after_equal_priority {H : Host} (r : PlatformRule.t)
        (m : RuleManager.t) :
  descending (RuleManager.rules m) ->
  RuleManager.rules (RuleManager.addRule r m)
  = filter (fun x => PlatformRule.priority r <=? PlatformRule.priority x)
           (RuleManager.rules m)
    ++ r :: filter (fun x => PlatformRule.priority x <? PlatformRule.priority r)
                   (RuleManager.rules m)
  /\ (forall url s,
        In s (RuleManager.rules m) ->
        RuleManager.rule_matches url s = true ->
        PlatformRule.priority r <= PlatformRule.priority s ->
        RuleManager.detectPlatform (RuleManager.addRule r m) url
        = RuleManager.detectPlatform m url).
Proof.
  intros Hs.
  assert (Hrules :
    RuleManager.rules (RuleManager.addRule r m)
    = filter (fun x => PlatformRule.priority r <=? PlatformRule.priority x)
             (RuleManager.rules m)
      ++ r :: filter (fun x => PlatformRule.priority x
                               <? PlatformRule.priority r)
                     (RuleManager.rules m)).
  { unfold RuleManager.addRule. simpl.
    apply (sort_push PlatformRule.priority RuleManager.by_priority);
      [reflexivity | exact Hs]. }
  split; [exact Hrules|].
  intros url s Hin Hm Hp.
  rewrite !detectPlatform_find, Hrules.
  rewrite (sorted_filter_split PlatformRule.priority RuleManager.by_priority
             (fun a b => eq_refl) (RuleManager.rules m)
             (PlatformRule.priority r) Hs) at 3.
  rewrite !find_app.
  destruct (find (fires (Js.trim url))
              (filter (fun x => PlatformRule.priority r
                                <=? PlatformRule.priority x)
                      (RuleManager.rules m))) as [x|] eqn:E; [reflexivity|].
  exfalso.
  assert (Hs' : In s (filter (fun x => PlatformRule.priority r
                                       <=? PlatformRule.priority x)
                             (RuleManager.rules m))).
  { apply filter_In. split; [exact Hin | apply Z.leb_le; exact Hp]. }
  pose proof (find_none _ _ E s Hs') as Hnone.
  change (RuleManager.rule_matches url s) with (fires (Js.trim url) s) in Hm.
  congruence.
Qed.

Lemma addRule_goes_after_equal_priority_witness :
  RuleManager.detectPlatform (H := ModelHost)
    (RuleManager.addRule rule_low
       (RuleManager.new RuleManager.default_config))
    (Js.lit "https://dev.to/example.com/post/1")
  = RuleManager.detectPlatform (H := ModelHost)
      (RuleManager.new RuleManager.default_config)
      (Js.lit "https://dev.to/example.com/post/1").
Proof.
  assert (Hd : descending (RuleManager.rules
                             (RuleManager.new RuleManager.default_config)))
    by (apply descendingb_spec; vm_compute; reflexivity).
  destruct (addRule_goes_after_equal_priority (H := ModelHost) rule_low
              (RuleManager.new RuleManager.default_config) Hd)
    as [_ Hsame].
  assert (Hin : exists s,
             In s (RuleManager.rules
                     (RuleManager.new RuleManager.default_config))
             /\ RuleManager.rule_matches (H := ModelHost)
                  (Js.lit "https://dev.to/example.com/post/1") s = true
             /\ PlatformRule.priority rule_low <= PlatformRule.priority s).
  { exists (nth 10 (RuleManager.rules
                      (RuleManager.new RuleManager.default_config))
                rule_low).
    split; [vm_compute; tauto|].
    split; [vm_compute; reflexivity | vm_compute; discriminate]. }
  destruct Hin as (s & Hin & Hm & Hp).
  exact (Hsame _ s Hin Hm Hp).
Defined.

(** ** The classifier: platform rules, additions and heuristics *)

Lemma exec_compiles (pattern subject : jsstring) (i : bool) :
  compiles pattern = true -> Regex.exec pattern i subject <> None.
Proof.
  unfold compiles, Regex.exec.
  destruct (Regex.compile pattern) as [[r g]|]; [discriminate | discriminate].
Qed.

Lemma first_match_compiles (pats : list jsstring) (subject : jsstring) :
  forallb compiles pats = true ->
  ContentTypeClassifier.first_match (H := ModelHost) pats subject <> None.
Proof.
  induction pats as [|p pats IH]; simpl; [discriminate|].
  intros Hall. apply andb_true_iff in Hall. destruct Hall as [Hp Hall].
  pose proof (exec_compiles p subject true Hp) as Hx.
  change (RegExp_exec p true subject) with (Regex.exec p true subject).
  destruct (Regex.exec p true subject) as [[caps|]|];
    [discriminate | apply IH; exact Hall | contradiction].
Qed.

Section ClassifierFacts.

Context {H : Host}.

Lemma applyPlatformRules_head (c : ContentTypeClassifier.t)
      (platform : PlatformType.t) (metadata : PlatformMetadata.t) :
  ContentTypeClassifier.applyPlatformRules c platform metadata
  = match rules_of platform (ContentTypeClassifier.rules c) with
    | r :: _ => ContentTypeClassifier.apply_rule r metadata
    | [] => Some (ContentType.generic, 1 # 10)
    end.
Proof. reflexivity. Qed.

Lemma rules_of_find (platform : PlatformType.t)
      (rules : list ContentTypeClassifier.ClassificationRule) :
  hd_error (rules_of platform rules)
  = find (fun r => PlatformType.eqb (ContentTypeClassifier.platform r)
                                    platform) rules.
Proof.
  induction rules as [|x rs IH]; simpl; [reflexivity|].
  destruct (PlatformType.eqb (ContentTypeClassifier.platform x) platform);
    [reflexivity | exact IH].
Qed.

(** A rule without metadata patterns answers with its content type, at
    its confidence when a URL pattern matches and at 0.8 of it
    otherwise. *)
Lemma apply_rule_url_only (r : ContentTypeClassifier.ClassificationRule)
      (metadata : PlatformMetadata.t) :
  ContentTypeClassifier.metadataPatterns r = None ->
  ContentTypeClassifier.apply_rule r metadata = None
  \/ ContentTypeClassifier.apply_rule r metadata
     = Some (ContentTypeClassifier.contentType r,
             ContentTypeClassifier.confidence r)
  \/ ContentTypeClassifier.apply_rule r metadata
     = Some (ContentTypeClassifier.contentType r,
             (ContentTypeClassifier.confidence r * (8 # 10))%Q).
Proof.
  intros Hm. unfold ContentTypeClassifier.apply_rule. rewrite Hm.
  destruct (match ContentTypeClassifier.patterns r with
            | Some _ => _
            | None => _
            end) as [[|]|]; simpl; auto.
Qed.

End ClassifierFacts.

Lemma default_rules_settled :
  forallb settled ContentTypeClassifier.getDefaultRules = true.
Proof. vm_compute. reflexivity. Qed.

Section ClassifyFacts.

Context {H : Host}.

Lemma classify_first_rule (c : ContentTypeClassifier.t)
      (platform : PlatformType.t) (metadata : PlatformMetadata.t)
      (r : ContentTypeClassifier.ClassificationRule) :
  find (fun r => PlatformType.eqb (ContentTypeClassifier.platform r) platform)
       (ContentTypeClassifier.rules c) = Some r ->
  ContentTypeClassifier.metadataPatterns r = None ->
  Qle_bool (ContentTypeClassifier.confidenceThreshold c)
           (ContentTypeClassifier.confidence r * (8 # 10)) = true ->
  Qle_bool (ContentTypeClassifier.confidenceThreshold c)
           (ContentTypeClassifier.confidence r) = true ->
  ContentTypeClassifier.classify c platform metadata
  = match ContentTypeClassifier.apply_rule r metadata with
    | Some _ => Some (ContentTypeClassifier.contentType r)
    | None => None
    end.
Proof.
  intros Hf Hm H8 H1. unfold ContentTypeClassifier.classify.
  rewrite applyPlatformRules_head.
  rewrite <- rules_of_find in Hf.
  destruct (rules_of platform (ContentTypeClassifier.rules c)) as [|x rs];
    [discriminate|].
  injection Hf as ->.
  destruct (apply_rule_url_only r metadata Hm) as [->|[->| ->]]; simpl.
  - reflexivity.
  - rewrite H1. reflexivity.
  - rewrite H8. reflexivity.
Qed.

End ClassifyFacts.

Lemma apply_rule_returns (r : ContentTypeClassifier.ClassificationRule)
      (metadata : PlatformMetadata.t) :
  ContentTypeClassifier.metadataPatterns r = None ->
  match ContentTypeClassifier.patterns r with
  | Some ps => forallb compiles ps
  | None => true
  end = true ->
  ContentTypeClassifier.apply_rule (H := ModelHost) r metadata <> None.
Proof.
  intros Hm Hp. unfold ContentTypeClassifier.apply_rule. rewrite Hm.
  destruct (ContentTypeClassifier.patterns r) as [ps|]; [|discriminate].
  destruct (Js.truthy (PlatformMetadata.rawData_url metadata)) as [url|];
    [|discriminate].
  pose proof (first_match_compiles ps url Hp) as Hx.
  destruct (ContentTypeClassifier.first_match ps url) as [[|]|];
    [discriminate | discriminate | contradiction].
Qed.

(** X14: for a platform that has built-in classification rules, the
    classifier as the service builds it answers with the content type of
    the first rule of the platform, whatever the metadata: on every host
    this is the only answer [classify] can return, and on the model host it
    does return it. *)
Theorem classify_default_by_platform (platform : PlatformType.t)
        (metadata : PlatformMetadata.t)
        (r : ContentTypeClassifier.ClassificationRule) :
  find (fun r => PlatformType.eqb (ContentTypeClassifier.platform r) platform)
       ContentTypeClassifier.getDefaultRules = Some r ->
  (forall (H : Host) (answer : ContentType.t),
     ContentTypeClassifier.classify default_classifier platform metadata
     = Some answer ->
     answer = ContentTypeClassifier.contentType r)
  /\ ContentTypeClassifier.classify (H := ModelHost) default_classifier
       platform metadata
     = Some (ContentTypeClassifier.contentType r).
Proof.
  intros Hf.
  assert (Hs : settled r = true).
  { pose proof default_rules_settled as Hall.
    rewrite forallb_forall in Hall. apply Hall.
    apply find_some in Hf. tauto. }
  unfold settled in Hs.
  apply andb_true_iff in Hs. destruct Hs as [Hs H1].
  apply andb_true_iff in Hs. destruct Hs as [Hs H8].
  apply andb_true_iff in Hs. destruct Hs as [Hm Hp].
  assert (Hm' : ContentTypeClassifier.metadataPatterns r = None)
    by (destruct (ContentTypeClassifier.metadataPatterns r);
        [discriminate | reflexivity]).
  assert (Hc : forall H : Host,
    ContentTypeClassifier.classify default_classifier platform metadata
    = match ContentTypeClassifier.apply_rule r metadata with
      | Some _ => Some (ContentTypeClassifier.contentType r)
      | None => None
      end).
  { intros H. apply classify_first_rule; assumption. }
  split.
  - intros H answer. rewrite Hc.
    destruct (ContentTypeClassifier.apply_rule r metadata);
      [intros [= <-]; reflexivity | discriminate].
  - rewrite Hc.
    pose proof (apply_rule_returns r metadata Hm' Hp) as Hx.
    destruct (ContentTypeClassifier.apply_rule r metadata);
      [reflexivity | contradiction].
Qed.

Lemma classify_default_by_platform_witness :
  ContentTypeClassifier.classify (H := ModelHost) default_classifier
    PlatformType.github
    (metadata_of_url (Js.lit "https://github.com/rocq-prover/rocq/issues/1"))
  = Some ContentType.code_repository.
Proof.
  refine (proj2 (classify_default_by_platform PlatformType.github
                   (metadata_of_url
                      (Js.lit "https://github.com/rocq-prover/rocq/issues/1"))
                   (ContentTypeClassifier.rule PlatformType.github
                      ["github\.com/.*/.*"%string]
                      ContentType.code_repository (9 # 10) 100)
                   _)).
  reflexivity.
Defined.

Section StableSort.

Context {A : Type}.

Variable compareFn : A -> A -> Z.

Hypothesis compare_trans :
  forall a b c, before compareFn a b -> before compareFn b c ->
                before compareFn a c.

Lemma insert_first (x : A) (l : list A) :
  Forall (before compareFn x) l -> JsArray.insert compareFn x l = x :: l.
Proof.
  destruct l as [|y l]; simpl; [reflexivity|].
  intros Hall. inversion Hall as [|? ? Hy _]; subst.
  unfold before in Hy. rewrite (proj2 (Z.leb_le _ _)) by exact Hy.
  reflexivity.
Qed.

(** Sorting a sorted array leaves it as it is. *)
Lemma sort_sorted_same (l : list A) :
  StronglySorted (before compareFn) l -> JsArray.sort compareFn l = l.
Proof.
  induction l as [|x l IH]; simpl; intros Hs; [reflexivity|].
  inversion Hs as [|? ? Hs' Hall]; subst.
  unfold JsArray.sort in *. rewrite (IH Hs'). apply insert_first, Hall.
Qed.

(** The sort is stable: the elements that a filter keeps are sorted among
    themselves as they would be without the others. *)
Lemma filter_insert (f : A -> bool) (x : A) (l : list A) :
  StronglySorted (before compareFn) l ->
  filter f (JsArray.insert compareFn x l)
  = if f x then JsArray.insert compareFn x (filter f l) else filter f l.
Proof.
  induction l as [|y l IH]; simpl; intros Hs.
  - destruct (f x); reflexivity.
  - inversion Hs as [|? ? Hs' Hall]; subst.
    destruct (compareFn x y <=? 0) eqn:E.
    + simpl. destruct (f x) eqn:Ex; [|reflexivity].
      symmetry. apply insert_first.
      apply Z.leb_le in E.
      rewrite Forall_forall in *. intros z Hz.
      assert (Hz' : In z (y :: l)).
      { destruct (f y); [destruct Hz as [<-|Hz]; [left; reflexivity|]|];
          right; apply filter_In in Hz; tauto. }
      destruct Hz' as [<-|Hz']; [exact E|].
      apply (compare_trans x y z); [exact E | apply Hall; exact Hz'].
    + simpl. rewrite (IH Hs').
      destruct (f y) eqn:Ey, (f x) eqn:Ex; simpl; try reflexivity.
      rewrite E. reflexivity.
Qed.

Hypothesis compare_total :
  forall a b, before compareFn a b \/ before compareFn b a.

Lemma filter_sort (f : A -> bool) (l : list A) :
  filter f (JsArray.sort compareFn l) = JsArray.sort compareFn (filter f l).
Proof.
  induction l as [|x l IH]; simpl; [reflexivity|].
  change (JsArray.sort compareFn (x :: l))
    with (JsArray.insert compareFn x (JsArray.sort compareFn l)).
  rewrite filter_insert by (apply sort_sorted; assumption).
  rewrite IH. destruct (f x); reflexivity.
Qed.

End StableSort.

Lemma classifier_by_priority (a b : ContentTypeClassifier.ClassificationRule) :
  ContentTypeClassifier.by_priority a b
  = ContentTypeClassifier.priority b - ContentTypeClassifier.priority a.
Proof. reflexivity. Qed.

Lemma classifier_by_priority_total
      (a b : ContentTypeClassifier.ClassificationRule) :
  before ContentTypeClassifier.by_priority a b
  \/ before ContentTypeClassifier.by_priority b a.
Proof. unfold before, ContentTypeClassifier.by_priority. lia. Qed.

Lemma classifier_by_priority_trans
      (a b c : ContentTypeClassifier.ClassificationRule) :
  before ContentTypeClassifier.by_priority a b ->
  before ContentTypeClassifier.by_priority b c ->
  before ContentTypeClassifier.by_priority a c.
Proof. unfold before, ContentTypeClassifier.by_priority. lia. Qed.

(** The rules of a platform after [addRule]. *)
Lemma rules_of_addRule (r : ContentTypeClassifier.ClassificationRule)
      (c : ContentTypeClassifier.t) (platform : PlatformType.t) :
  StronglySorted (before ContentTypeClassifier.by_priority)
                 (rules_of platform (ContentTypeClassifier.rules c)) ->
  rules_of platform
    (ContentTypeClassifier.rules (ContentTypeClassifier.addRule r c))
  = if PlatformType.eqb (ContentTypeClassifier.platform r) platform
    then
      filter (fun x => ContentTypeClassifier.priority r
                       <=? ContentTypeClassifier.priority x)
             (rules_of platform (ContentTypeClassifier.rules c))
      ++ r :: filter (fun x => ContentTypeClassifier.priority x
                               <? ContentTypeClassifier.priority r)
                     (rules_of platform (ContentTypeClassifier.rules c))
    else rules_of platform (ContentTypeClassifier.rules c).
Proof.
  intros Hs. unfold ContentTypeClassifier.addRule. simpl.
  unfold rules_of at 1.
  rewrite (filter_sort ContentTypeClassifier.by_priority
             classifier_by_priority_trans classifier_by_priority_total).
  rewrite filter_app. simpl.
  fold (rules_of platform (ContentTypeClassifier.rules c)).
  destruct (PlatformType.eqb (ContentTypeClassifier.platform r) platform).
  - apply (sort_push ContentTypeClassifier.priority
             ContentTypeClassifier.by_priority classifier_by_priority).
    exact Hs.
  - rewrite app_nil_r.
    apply sort_sorted_same. exact Hs.
Qed.

Lemma StronglySorted_filter {A : Type} (R : A -> A -> Prop) (f : A -> bool)
      (l : list A) :
  StronglySorted R l -> StronglySorted R (filter f l).
Proof.
  induction 1 as [|x l Hs IH Hx]; simpl; [constructor|].
  destruct (f x); [|exact IH].
  constructor; [exact IH|].
  apply Forall_forall. intros y Hy. apply filter_In in Hy.
  rewrite Forall_forall in Hx. apply Hx. tauto.
Qed.

Lemma default_rules_sorted (platform : PlatformType.t) :
  StronglySorted (before ContentTypeClassifier.by_priority)
    (rules_of platform ContentTypeClassifier.getDefaultRules).
Proof.
  destruct platform; cbv [rules_of filter ContentTypeClassifier.getDefaultRules
    ContentTypeClassifier.rule ContentTypeClassifier.platform
    PlatformType.eqb];
    repeat (constructor; try (unfold before,
                                ContentTypeClassifier.by_priority; simpl; lia)).
Qed.

Lemma added_sorted (rs : list ContentTypeClassifier.ClassificationRule)
      (config : ContentTypeClassifier.ClassifierConfig)
      (platform : PlatformType.t) :
  StronglySorted (before ContentTypeClassifier.by_priority)
    (rules_of platform
       (ContentTypeClassifier.rules
          (added rs (ContentTypeClassifier.new config)))).
Proof.
  assert (Hall : forall c,
             StronglySorted (before ContentTypeClassifier.by_priority)
               (rules_of platform (ContentTypeClassifier.rules c)) ->
             StronglySorted (before ContentTypeClassifier.by_priority)
               (rules_of platform
                  (ContentTypeClassifier.rules (added rs c)))).
  { induction rs as [|r rs IH]; intros c Hc; simpl; [exact Hc|].
    apply IH. apply StronglySorted_filter.
    apply sort_sorted.
    - exact classifier_by_priority_total.
    - exact classifier_by_priority_trans. }
  apply Hall. apply default_rules_sorted.
Qed.

(** X15: for a classifier built by [new] and any number of calls of
    [addRule], a further [addRule(r)] changes what the platform rules
    answer for a platform only if [r] is a rule of that platform and its
    priority is strictly higher than that of every rule of the platform
    already present; then the answer comes from [r] alone. *)
Theorem classifier_addRule_needs_higher_priority {H : Host}
        (config : ContentTypeClassifier.ClassifierConfig)
        (earlier : list ContentTypeClassifier.ClassificationRule)
        (r : ContentTypeClassifier.ClassificationRule)
        (platform : PlatformType.t) (metadata : PlatformMetadata.t) :
  let c := added earlier (ContentTypeClassifier.new config) in
  ContentTypeClassifier.applyPlatformRules
    (ContentTypeClassifier.addRule r c) platform metadata
  = if PlatformType.eqb (ContentTypeClassifier.platform r) platform
       && forallb (fun x => ContentTypeClassifier.priority x
                            <? ContentTypeClassifier.priority r)
                  (rules_of platform (ContentTypeClassifier.rules c))
    then ContentTypeClassifier.apply_rule r metadata
    else ContentTypeClassifier.applyPlatformRules c platform metadata.
Proof.
  cbv zeta.
  pose proof (added_sorted earlier config platform) as Hs.
  set (c := added earlier (ContentTypeClassifier.new config)) in *.
  rewrite !applyPlatformRules_head.
  rewrite (rules_of_addRule r c platform Hs).
  destruct (PlatformType.eqb (ContentTypeClassifier.platform r) platform);
    simpl; [|reflexivity].
  set (rs := rules_of platform (ContentTypeClassifier.rules c)) in *.
  pose proof (sorted_filter_split ContentTypeClassifier.priority
                ContentTypeClassifier.by_priority classifier_by_priority
                rs (ContentTypeClassifier.priority r) Hs) as Hsplit.
  destruct (filter (fun x => ContentTypeClassifier.priority r
                             <=? ContentTypeClassifier.priority x) rs)
    as [|x xs] eqn:E.
  - simpl in Hsplit.
    assert (Hall : forallb (fun x => ContentTypeClassifier.priority x
                                     <? ContentTypeClassifier.priority r) rs
                   = true).
    { rewrite Hsplit. apply forallb_forall. intros y Hy.
      apply filter_In in Hy. tauto. }
    rewrite Hall. reflexivity.
  - assert (Hx : In x (filter (fun x => ContentTypeClassifier.priority r
                                        <=? ContentTypeClassifier.priority x)
                              rs))
      by (rewrite E; left; reflexivity).
    apply filter_In in Hx. destruct Hx as [Hin Hx]. apply Z.leb_le in Hx.
    assert (Hall : forallb (fun x => ContentTypeClassifier.priority x
                                     <? ContentTypeClassifier.priority r) rs
                   = false).
    { destruct (forallb _ rs) eqn:Hall; [|reflexivity].
      rewrite forallb_forall in Hall. specialize (Hall x Hin).
      apply Z.ltb_lt in Hall. lia. }
    rewrite Hall. rewrite Hsplit. reflexivity.
Qed.

Lemma heuristic_answer
      (hs : list ((PlatformType.t -> PlatformMetadata.t -> bool)
                  * ContentTypeClassifier.scored))
      (platform : PlatformType.t) (metadata : PlatformMetadata.t) :
  Forall (fun h => (7 # 10 <= snd (snd h))%Q) hs ->
  (7 # 10 <= snd (ContentTypeClassifier.first_heuristic hs platform
                    metadata))%Q
  \/ fst (ContentTypeClassifier.first_heuristic hs platform metadata)
     = ContentType.generic.
Proof.
  induction hs as [|[test answer] hs IH]; simpl; intros Hall;
    [right; reflexivity|].
  inversion Hall as [|? ? Hh Hall']; subst.
  destruct (test platform metadata); [left; exact Hh | apply IH, Hall'].
Qed.

(** X16: for a platform without rules and a confidence threshold
    above 0.1 and at most 0.7, [classify] returns the content type of the
    first heuristic that applies ([generic] when none does) if heuristic
    rules are enabled, and [generic] if they are not. *)
Theorem classify_falls_back_to_heuristics {H : Host}
        (c : ContentTypeClassifier.t) (platform : PlatformType.t)
        (metadata : PlatformMetadata.t) :
  rules_of platform (ContentTypeClassifier.rules c) = [] ->
  (1 # 10 < ContentTypeClassifier.confidenceThreshold c)%Q ->
  (ContentTypeClassifier.confidenceThreshold c <= 7 # 10)%Q ->
  ContentTypeClassifier.classify c platform metadata
  = Some (if ContentTypeClassifier.enableHeuristicRules c
          then fst (ContentTypeClassifier.applyHeuristicRules platform
                      metadata)
          else ContentType.generic).
Proof.
  intros Hnone Hlow Hhigh. unfold ContentTypeClassifier.classify.
  rewrite applyPlatformRules_head, Hnone. simpl.
  assert (Hlt : Qle_bool (ContentTypeClassifier.confidenceThreshold c)
                         (1 # 10) = false).
  { destruct (Qle_bool _ (1 # 10)) eqn:E; [|reflexivity].
    apply Qle_bool_iff in E. apply Qlt_not_le in Hlow. contradiction. }
  rewrite Hlt.
  destruct (ContentTypeClassifier.enableHeuristicRules c); simpl;
    [|reflexivity].
  unfold ContentTypeClassifier.applyHeuristicRules.
  destruct (heuristic_answer ContentTypeClassifier.heuristics platform
              metadata) as [Hq|Hg].
  - repeat constructor; simpl; discriminate.
  - assert (Hok : Qle_bool (ContentTypeClassifier.confidenceThreshold c)
                    (snd (ContentTypeClassifier.first_heuristic
                            ContentTypeClassifier.heuristics platform
                            metadata)) = true).
    { apply Qle_bool_iff. eapply Qle_trans; [exact Hhigh | exact Hq]. }
    rewrite Hok. reflexivity.
  - rewrite Hg.
    destruct (Qle_bool (ContentTypeClassifier.confidenceThreshold c)
                (snd (ContentTypeClassifier.first_heuristic
                        ContentTypeClassifier.heuristics platform
                        metadata))); reflexivity.
Qed.

Lemma classify_falls_back_to_heuristics_witness :
  ContentTypeClassifier.classify (H := ModelHost) default_classifier
    PlatformType.generic (metadata_of_url unknown_blog_url)
  = Some (fst (ContentTypeClassifier.applyHeuristicRules
                 PlatformType.generic (metadata_of_url unknown_blog_url))).
Proof.
  refine (classify_falls_back_to_heuristics (H := ModelHost)
            default_classifier PlatformType.generic
            (metadata_of_url unknown_blog_url) _ _ _).
  - reflexivity.
  - reflexivity.
  - vm_compute. discriminate.
Defined.

(** ** The strategy decider: context rules, history and feedback *)

Lemma ProcessingStrategy_eqb_eq (a b : ProcessingStrategy.t) :
  ProcessingStrategy.eqb a b = true <-> a = b.
Proof.
  split.
  - destruct a, b; simpl; intros E; try discriminate E; reflexivity.
  - intros ->. destruct b; reflexivity.
Qed.

Lemma ProcessingStrategy_eqb_refl (a : ProcessingStrategy.t) :
  ProcessingStrategy.eqb a a = true.
Proof. destruct a; reflexivity. Qed.

Section DeciderFacts.

Context {H : Host}.

Variable applyLearning :
  StrategyDecider.t -> ContentType.t -> StrategyDecider.DecisionContext
  -> Z -> StrategyDecider.StrategyDecision.

(** *** The loop over the context rules *)

Lemma best_match_skips (rules : list StrategyDecider.ContextRule)
      (contentType : ContentType.t)
      (context : StrategyDecider.DecisionContext)
      (start : option (ProcessingStrategy.t * Q * jsstring)) :
  StrategyDecider.best_match rules contentType context start
  = StrategyDecider.best_match
      (filter (fun r => StrategyDecider.condition r contentType context)
              rules)
      contentType context start.
Proof.
  revert start. induction rules as [|r rules IH]; intros start; simpl;
    [reflexivity|].
  destruct (StrategyDecider.condition r contentType context) eqn:E; simpl.
  - rewrite E. apply IH.
  - apply IH.
Qed.

(** Over rules whose conditions all hold: the answer is the start value
    when no rule has a higher quality, and otherwise the first rule of the
    highest quality. *)
Lemma best_match_spec (rules : list StrategyDecider.ContextRule)
      (contentType : ContentType.t)
      (context : StrategyDecider.DecisionContext)
      (s0 : ProcessingStrategy.t) (q0 : Q) (w0 : jsstring) :
  Forall (fun r => StrategyDecider.condition r contentType context = true)
         rules ->
  (StrategyDecider.best_match rules contentType context (Some (s0, q0, w0))
   = Some (s0, q0, w0)
   /\ forall r, In r rules ->
                (StrategyDecider.matchQuality r contentType context <= q0)%Q)
  \/ exists l1 rule l2,
       rules = l1 ++ rule :: l2
       /\ StrategyDecider.best_match rules contentType context
            (Some (s0, q0, w0))
          = Some (StrategyDecider.rule_strategy rule,
                  StrategyDecider.matchQuality rule contentType context,
                  StrategyDecider.reason rule)
       /\ (q0 < StrategyDecider.matchQuality rule contentType context)%Q
       /\ (forall r, In r l1 ->
             (StrategyDecider.matchQuality r contentType context
              < StrategyDecider.matchQuality rule contentType context)%Q)
       /\ (forall r, In r l2 ->
             (StrategyDecider.matchQuality r contentType context
              <= StrategyDecider.matchQuality rule contentType context)%Q).
Proof.
  revert s0 q0 w0. induction rules as [|x rules IH]; intros s0 q0 w0 Hall.
  - left. split; [reflexivity | intros r []].
  - inversion Hall as [|? ? Hx Hall']; subst. simpl. rewrite Hx.
    destruct (Qle_bool (StrategyDecider.matchQuality x contentType context)
                       q0) eqn:E; simpl.
    + apply Qle_bool_iff in E.
      destruct (IH s0 q0 w0 Hall') as [[Hb Hle]|(l1 & rule & l2 & Hl & Hb
                                                 & Hq & H1 & H2)].
      * left. split; [exact Hb|]. intros r [<-|Hr]; [exact E | auto].
      * right. exists (x :: l1), rule, l2. rewrite Hl.
        split; [reflexivity|]. split; [rewrite <- Hl; exact Hb|].
        split; [exact Hq|]. split; [|exact H2].
        intros r [<-|Hr]; [|auto].
        eapply Qle_lt_trans; [exact E | exact Hq].
    + assert (Hlt : (q0 < StrategyDecider.matchQuality x contentType
                             context)%Q).
      { apply Qnot_le_lt. intros Hle. apply Qle_bool_iff in Hle.
        congruence. }
      destruct (IH (StrategyDecider.rule_strategy x)
                   (StrategyDecider.matchQuality x contentType context)
                   (StrategyDecider.reason x) Hall')
        as [[Hb Hle]|(l1 & rule & l2 & Hl & Hb & Hq & H1 & H2)].
      * right. exists [], x, rules. simpl.
        split; [reflexivity|]. split; [exact Hb|]. split; [exact Hlt|].
        split; [intros r [] | exact Hle].
      * right. exists (x :: l1), rule, l2. rewrite Hl.
        split; [reflexivity|]. split; [rewrite <- Hl; exact Hb|].
        split; [eapply Qlt_trans; [exact Hlt | exact Hq]|].
        split; [|exact H2].
        intros r [<-|Hr]; [exact Hq | auto].
Qed.

End DeciderFacts.

(** X17: [applyContextRules] answers with the rule whose match
    quality is highest among the context rules whose condition holds, the
    first one in the order of the table when several share the highest
    quality, and with that quality as confidence.  When the condition of
    no rule holds, it answers with the default strategy of the content
    type at confidence 0.7. *)
Theorem applyContextRules_takes_first_best {H : Host}
        (d : StrategyDecider.t) (contentType : ContentType.t)
        (context : StrategyDecider.DecisionContext) :
  let decision := StrategyDecider.applyContextRules d contentType context in
  (matching_context_rules contentType context = [] ->
   StrategyDecider.strategy decision
   = StrategyDecider.default_for d contentType
   /\ StrategyDecider.confidence decision = 7 # 10)
  /\ (matching_context_rules contentType context <> [] ->
      exists l1 rule l2,
        matching_context_rules contentType context = l1 ++ rule :: l2
        /\ StrategyDecider.strategy decision
           = StrategyDecider.rule_strategy rule
        /\ StrategyDecider.confidence decision
           = StrategyDecider.matchQuality rule contentType context
        /\ (forall r, In r l1 ->
              (StrategyDecider.matchQuality r contentType context
               < StrategyDecider.matchQuality rule contentType context)%Q)
        /\ (forall r, In r l2 ->
              (StrategyDecider.matchQuality r contentType context
               <= StrategyDecider.matchQuality rule contentType context)%Q)).
Proof.
  cbv zeta. unfold StrategyDecider.applyContextRules.
  rewrite best_match_skips. fold (matching_context_rules contentType context).
  assert (Hall : Forall (fun r => StrategyDecider.condition r contentType
                                    context = true)
                        (matching_context_rules contentType context)).
  { apply Forall_forall. intros r Hr.
    apply filter_In in Hr. tauto. }
  destruct (matching_context_rules contentType context) as [|x rest].
  - simpl. split; [split; reflexivity | intros Hne; contradiction].
  - split; [discriminate|]. intros _.
    inversion Hall as [|? ? Hx Hrest]; subst.
    simpl. rewrite Hx.
    destruct (best_match_spec rest contentType context
                (StrategyDecider.rule_strategy x)
                (StrategyDecider.matchQuality x contentType context)
                (StrategyDecider.reason x) Hrest)
      as [[Hb Hle]|(l1 & rule & l2 & Hl & Hb & Hq & H1 & H2)];
      rewrite Hb; simpl.
    + exists [], x, rest. simpl.
      split; [reflexivity|]. split; [reflexivity|]. split; [reflexivity|].
      split; [intros r [] | exact Hle].
    + exists (x :: l1), rule, l2. rewrite Hl.
      split; [reflexivity|]. split; [reflexivity|]. split; [reflexivity|].
      split; [|exact H2].
      intros r [<-|Hr]; [exact Hq | auto].
Qed.

Section DecideFacts.

Context {H : Host}.

Variable applyLearning :
  StrategyDecider.t -> ContentType.t -> StrategyDecider.DecisionContext
  -> Z -> StrategyDecider.StrategyDecision.

Lemma no_rule_without_context (contentType : ContentType.t) :
  matching_context_rules contentType StrategyDecider.empty_context = [].
Proof. destruct contentType; reflexivity. Qed.

Lemma applyContextRules_default (d : StrategyDecider.t)
      (contentType : ContentType.t)
      (context : StrategyDecider.DecisionContext) :
  matching_context_rules contentType context = [] ->
  StrategyDecider.strategy
    (StrategyDecider.applyContextRules d contentType context)
  = StrategyDecider.default_for d contentType.
Proof.
  intros Hn. unfold StrategyDecider.applyContextRules.
  rewrite best_match_skips.
  fold (matching_context_rules contentType context). rewrite Hn.
  reflexivity.
Qed.

(** The strategy [decide] returns. *)
Lemma decide_strategy (d : StrategyDecider.t) (contentType : ContentType.t)
      (context : StrategyDecider.DecisionContext) (now : Z) :
  fst (StrategyDecider.decide applyLearning d contentType context now)
  = if StrategyDecider.enableContextAware d
    then StrategyDecider.strategy
           (StrategyDecider.applyContextRules d contentType context)
    else StrategyDecider.default_for d contentType.
Proof.
  unfold StrategyDecider.decide, StrategyDecider.decideWithDetails.
  cbv zeta. cbn [fst StrategyDecider.strategy].
  destruct (StrategyDecider.enableContextAware d); cbn [andb];
    [|reflexivity].
  destruct (ProcessingStrategy.eqb
              (StrategyDecider.strategy
                 (StrategyDecider.applyContextRules d contentType context))
              (StrategyDecider.default_for d contentType)) eqn:E;
    simpl; [|reflexivity].
  apply ProcessingStrategy_eqb_eq in E. symmetry. exact E.
Qed.

Lemma decide_state (d : StrategyDecider.t) (contentType : ContentType.t)
      (context : StrategyDecider.DecisionContext) (now : Z) :
  snd (StrategyDecider.decide applyLearning d contentType context now)
  = StrategyDecider.recordDecision contentType
      (fst (StrategyDecider.decide applyLearning d contentType context now))
      context now d.
Proof. reflexivity. Qed.

End DecideFacts.

(** X18: without context, [decideWithDetails] answers with the
    default strategy of the content type, at confidence 0.8 and without
    alternatives, and [decide] returns that strategy; with context rules
    disabled [decide] returns the default strategy for every context. *)
Theorem decide_without_context_is_default {H : Host}
        (applyLearning :
           StrategyDecider.t -> ContentType.t
           -> StrategyDecider.DecisionContext -> Z
           -> StrategyDecider.StrategyDecision)
        (d : StrategyDecider.t) (contentType : ContentType.t) (now : Z) :
  let decision :=
    fst (StrategyDecider.decideWithDetails applyLearning d contentType
           StrategyDecider.empty_context now) in
  StrategyDecider.strategy decision = StrategyDecider.default_for d contentType
  /\ StrategyDecider.confidence decision = 8 # 10
  /\ StrategyDecider.alternatives decision = None
  /\ fst (StrategyDecider.decide applyLearning d contentType
            StrategyDecider.empty_context now)
     = StrategyDecider.default_for d contentType
  /\ (StrategyDecider.enableContextAware d = false ->
      forall context,
        fst (StrategyDecider.decide applyLearning d contentType context now)
        = StrategyDecider.default_for d contentType).
Proof.
  assert (Hd : StrategyDecider.strategy
                 (StrategyDecider.applyContextRules d contentType
                    StrategyDecider.empty_context)
               = StrategyDecider.default_for d contentType).
  { apply applyContextRules_default, no_rule_without_context. }
  cbv zeta.
  assert (Hdet : forall b : bool,
             (b && negb (ProcessingStrategy.eqb
                           (StrategyDecider.strategy
                              (StrategyDecider.applyContextRules d contentType
                                 StrategyDecider.empty_context))
                           (StrategyDecider.default_for d contentType)))%bool
             = false).
  { intros b. rewrite Hd, ProcessingStrategy_eqb_refl. apply andb_false_r. }
  unfold StrategyDecider.decideWithDetails.
  cbv zeta. rewrite Hdet.
  cbn [fst StrategyDecider.strategy StrategyDecider.confidence
       StrategyDecider.alternatives StrategyDecider.userHistory
       StrategyDecider.empty_context].
  split; [reflexivity|]. split; [reflexivity|].
  split; [destruct (StrategyDecider.enableLearning d); reflexivity|].
  split.
  - rewrite decide_strategy, Hd.
    destruct (StrategyDecider.enableContextAware d); reflexivity.
  - intros Hoff context. rewrite decide_strategy, Hoff. reflexivity.
Qed.

(** X19: after [updatePreferences] with a table of strategies, [decide]
    without context returns, for a content type that is a key of the
    table, the strategy the table gives it, and [clip] when the table gives
    it [undefined]; for a content type that is no key of the table it
    returns the former default.  [updatePreferences] without a table
    changes nothing, and neither form touches the history of decisions. *)
Theorem updatePreferences_sets_default {H : Host}
        (applyLearning :
           StrategyDecider.t -> ContentType.t
           -> StrategyDecider.DecisionContext -> Z
           -> StrategyDecider.StrategyDecision)
        (table : StrategyDecider.partial_table) (d : StrategyDecider.t)
        (contentType : ContentType.t) (now : Z) :
  fst (StrategyDecider.decide applyLearning
         (StrategyDecider.updatePreferences (Some table) d) contentType
         StrategyDecider.empty_context now)
  = match table contentType with
    | StrategyDecider.Given (Some s) => s
    | StrategyDecider.Given None => ProcessingStrategy.clip
    | StrategyDecider.Absent => StrategyDecider.default_for d contentType
    end
  /\ StrategyDecider.updatePreferences None d = d
  /\ StrategyDecider.decisionHistory
       (StrategyDecider.updatePreferences (Some table) d)
     = StrategyDecider.decisionHistory d.
Proof.
  split; [|split; reflexivity].
  rewrite decide_strategy.
  rewrite applyContextRules_default by apply no_rule_without_context.
  assert (Hdef : StrategyDecider.default_for
                   (StrategyDecider.updatePreferences (Some table) d)
                   contentType
                 = match table contentType with
                   | StrategyDecider.Given (Some s) => s
                   | StrategyDecider.Given None => ProcessingStrategy.clip
                   | StrategyDecider.Absent =>
                       StrategyDecider.default_for d contentType
                   end).
  { unfold StrategyDecider.default_for, StrategyDecider.updatePreferences,
      StrategyDecider.spread. simpl.
    destruct (table contentType) as [|[s|]]; reflexivity. }
  rewrite Hdef.
  destruct (StrategyDecider.enableContextAware _); reflexivity.
Qed.

(** X20: a history of at most 1000 decisions stays within 1000 after
    [decide].  With learning disabled the decider is unchanged; with
    learning enabled the decision is appended, and when this is the 1001st
    entry only the last 500, the new one included, are kept. *)
Theorem decision_history_is_bounded {H : Host}
        (applyLearning :
           StrategyDecider.t -> ContentType.t
           -> StrategyDecider.DecisionContext -> Z
           -> StrategyDecider.StrategyDecision)
        (d : StrategyDecider.t) (contentType : ContentType.t)
        (context : StrategyDecider.DecisionContext) (now : Z) :
  (List.length (StrategyDecider.decisionHistory d) <= 1000)%nat ->
  let s := fst (StrategyDecider.decide applyLearning d contentType context
                  now) in
  let d' := snd (StrategyDecider.decide applyLearning d contentType context
                   now) in
  (List.length (StrategyDecider.decisionHistory d') <= 1000)%nat
  /\ (StrategyDecider.enableLearning d = false -> d' = d)
  /\ (StrategyDecider.enableLearning d = true ->
      (List.length (StrategyDecider.decisionHistory d) < 1000)%nat ->
      StrategyDecider.decisionHistory d'
      = StrategyDecider.decisionHistory d
        ++ [recorded contentType s context now])
  /\ (StrategyDecider.enableLearning d = true ->
      List.length (StrategyDecider.decisionHistory d) = 1000%nat ->
      StrategyDecider.decisionHistory d'
      = skipn 501 (StrategyDecider.decisionHistory d)
        ++ [recorded contentType s context now]
      /\ List.length (StrategyDecider.decisionHistory d') = 500%nat).
Proof.
  intros Hlen. cbv zeta. rewrite decide_state.
  set (s := fst (StrategyDecider.decide applyLearning d contentType context
                   now)).
  unfold StrategyDecider.recordDecision.
  fold (recorded contentType s context now).
  set (history := StrategyDecider.decisionHistory d
                  ++ [recorded contentType s context now]).
  assert (Hh : List.length history
               = S (List.length (StrategyDecider.decisionHistory d))).
  { unfold history. rewrite length_app. simpl. lia. }
  destruct (StrategyDecider.enableLearning d); simpl.
  - destruct (Nat.ltb_spec 1000 (List.length history)) as [Hover|Hok].
    + assert (Hfull : List.length (StrategyDecider.decisionHistory d)
                      = 1000%nat) by lia.
      assert (Hskip : skipn (List.length history - 500) history
                      = skipn 501 (StrategyDecider.decisionHistory d)
                        ++ [recorded contentType s context now]).
      { rewrite Hh, Hfull. unfold history.
        rewrite skipn_app, Hfull. reflexivity. }
      rewrite Hskip.
      assert (Hl : List.length
                     (skipn 501 (StrategyDecider.decisionHistory d)
                      ++ [recorded contentType s context now]) = 500%nat).
      { rewrite length_app, length_skipn, Hfull. reflexivity. }
      split; [lia|]. split; [discriminate|].
      split; [intros _ Hlt; lia|].
      intros _ _. split; [reflexivity | exact Hl].
    + split; [lia|]. split; [discriminate|].
      split; [intros _ _; reflexivity|].
      intros _ Hfull. lia.
  - split; [exact Hlen|]. split; [intros _; destruct d; reflexivity|].
    split; discriminate.
Qed.

Lemma decision_history_is_bounded_witness :
  (List.length
     (StrategyDecider.decisionHistory
        (snd (StrategyDecider.decide (H := ModelHost) no_learning
                (StrategyDecider.new StrategyDecider.default_config)
                ContentType.video StrategyDecider.empty_context 0)))
   <= 1000)%nat.
Proof.
  refine (proj1 (decision_history_is_bounded (H := ModelHost) no_learning
                   (StrategyDecider.new StrategyDecider.default_config)
                   ContentType.video StrategyDecider.empty_context 0 _)).
  apply Nat.le_0_l.
Defined.

(** X21: the alternatives of a decision, when there are any, are one
    or two and none of them proposes the strategy decided on; and when the
    strategy decided on is not the default strategy of the content type,
    the first alternative is the default strategy at confidence 0.7. *)
Theorem alternatives_differ_from_decision {H : Host}
        (applyLearning :
           StrategyDecider.t -> ContentType.t
           -> StrategyDecider.DecisionContext -> Z
           -> StrategyDecider.StrategyDecision)
        (d : StrategyDecider.t) (contentType : ContentType.t)
        (context : StrategyDecider.DecisionContext) (now : Z) :
  let decision :=
    fst (StrategyDecider.decideWithDetails applyLearning d contentType
           context now) in
  match StrategyDecider.alternatives decision with
  | None => True
  | Some alts =>
      alts <> [] /\ (List.length alts <= 2)%nat
      /\ Forall (fun a => StrategyDecider.alt_strategy a
                          <> StrategyDecider.strategy decision) alts
  end
  /\ (StrategyDecider.strategy decision
      <> StrategyDecider.default_for d contentType ->
      exists rest,
        StrategyDecider.alternatives decision
        = Some ({| StrategyDecider.alt_strategy :=
                     StrategyDecider.default_for d contentType;
                   StrategyDecider.alt_confidence := 7 # 10;
                   StrategyDecider.alt_reason :=
                     [40664; 35748; 31574; 30053]%N |} :: rest)).
Proof.
  cbv zeta. unfold StrategyDecider.decideWithDetails. cbv zeta.
  cbn [fst StrategyDecider.strategy StrategyDecider.confidence
       StrategyDecider.alternatives].
  set (ctx := StrategyDecider.applyContextRules d contentType context).
  set (dflt := StrategyDecider.default_for d contentType).
  destruct (StrategyDecider.enableContextAware d
            && negb (ProcessingStrategy.eqb (StrategyDecider.strategy ctx)
                                            dflt))%bool eqn:Eo.
  - apply andb_true_iff in Eo. destruct Eo as [_ Eo].
    apply negb_true_iff in Eo.
    assert (Hne : dflt <> StrategyDecider.strategy ctx).
    { intros E. rewrite E, ProcessingStrategy_eqb_refl in Eo.
      discriminate. }
    destruct (StrategyDecider.enableLearning d);
      [destruct (StrategyDecider.userHistory context)|]; cbn [app].
    + destruct (ProcessingStrategy.eqb
                  (StrategyDecider.strategy
                     (applyLearning d contentType context now))
                  (StrategyDecider.strategy ctx)) eqn:El; cbn [negb app].
      * split; [|intros _; eexists; reflexivity].
        split; [discriminate|]. split; [simpl; lia|].
        repeat constructor. exact Hne.
      * split; [|intros _; eexists; reflexivity].
        split; [discriminate|]. split; [simpl; lia|].
        repeat constructor; [exact Hne|]. simpl.
        intros E. rewrite E, ProcessingStrategy_eqb_refl in El.
        discriminate.
    + split; [|intros _; eexists; reflexivity].
      split; [discriminate|]. split; [simpl; lia|].
      repeat constructor. exact Hne.
    + split; [|intros _; eexists; reflexivity].
      split; [discriminate|]. split; [simpl; lia|].
      repeat constructor. exact Hne.
  - destruct (StrategyDecider.enableLearning d);
      [destruct (StrategyDecider.userHistory context)|]; cbn [app].
    + destruct (ProcessingStrategy.eqb
                  (StrategyDecider.strategy
                     (applyLearning d contentType context now)) dflt)
        eqn:El; cbn [negb app].
      * split; [exact I | intros Hne; contradiction].
      * split; [|intros Hne; contradiction].
        split; [discriminate|]. split; [simpl; lia|].
        repeat constructor. simpl.
        intros E. rewrite E, ProcessingStrategy_eqb_refl in El.
        discriminate.
    + split; [exact I | intros Hne; contradiction].
    + split; [exact I | intros Hne; contradiction].
Qed.

Section LatestFirst.

Context {A : Type}.
Variable priority : A -> Z.
Variable compareFn : A -> A -> Z.
Hypothesis compareFn_priority :
  forall a b, compareFn a b = priority b - priority a.

(** The first element of the sorted array is the first element of the
    array among those of the highest priority. *)
Lemma sort_head (l : list A) :
  l <> [] ->
  exists l1 x l2 rest,
    l = l1 ++ x :: l2
    /\ JsArray.sort compareFn l = x :: rest
    /\ (forall y, In y l1 -> priority y < priority x)
    /\ (forall y, In y l2 -> priority y <= priority x).
Proof.
  induction l as [|a l IH]; intros Hne; [contradiction|].
  destruct l as [|b l].
  - exists [], a, [], []. simpl. repeat split; intros y [].
  - destruct IH as (l1 & x & l2 & rest & Hl & Hs & H1 & H2); [discriminate|].
    change (JsArray.sort compareFn (a :: b :: l))
      with (JsArray.insert compareFn a (JsArray.sort compareFn (b :: l))).
    rewrite Hs. simpl. rewrite compareFn_priority.
    destruct (Z.leb_spec (priority x - priority a) 0) as [Hle|Hgt].
    + exists [], a, (b :: l), (x :: rest).
      split; [reflexivity|]. split; [reflexivity|].
      split; [intros y []|].
      intros y Hy. rewrite Hl in Hy. apply in_app_or in Hy.
      destruct Hy as [Hy|[<-|Hy]].
      * specialize (H1 y Hy). lia.
      * lia.
      * specialize (H2 y Hy). lia.
    + exists (a :: l1), x, l2, (JsArray.insert compareFn a rest).
      split; [rewrite Hl; reflexivity|]. split; [reflexivity|].
      split; [|exact H2].
      intros y [<-|Hy]; [lia | apply H1; exact Hy].
Qed.

End LatestFirst.

(** A filtered entry of the indexed array stands at its index in the
    array, between the entries the filter saw before and after it. *)
Lemma indexed_filter_split {A : Type} (p : A -> bool) (l : list A) :
  forall (k : nat) (l1 l2 : list (nat * A)) (i : nat) (e : A),
    filter (fun x => p (snd x)) (combine (seq k (List.length l)) l)
    = l1 ++ (i, e) :: l2 ->
    exists before after,
      l = before ++ e :: after
      /\ i = (k + List.length before)%nat
      /\ (forall x, In x before -> p x = true -> In x (List.map snd l1))
      /\ (forall x, In x after -> p x = true -> In x (List.map snd l2)).
Proof.
  induction l as [|a l IH]; intros k l1 l2 i e Hf; simpl in Hf.
  - destruct l1; discriminate.
  - destruct (p a) eqn:Ea.
    + destruct l1 as [|y l1]; simpl in Hf.
      * injection Hf as <- <- Hl2.
        exists [], l. split; [reflexivity|]. split; [simpl; lia|].
        split; [intros x []|].
        intros x Hx Hp. rewrite <- Hl2.
        clear -Hx Hp. revert k.
        induction l as [|b l IHl]; intros k; [contradiction|].
        simpl. destruct Hx as [<-|Hx].
        -- rewrite Hp. left; reflexivity.
        -- destruct (p b); [right|]; apply IHl; exact Hx.
      * injection Hf as <- Hf.
        destruct (IH (S k) l1 l2 i e Hf)
          as (before & after & Hl & Hi & H1 & H2).
        exists (a :: before), after.
        split; [rewrite Hl; reflexivity|]. split; [simpl; lia|].
        split; [|exact H2].
        intros x [<-|Hx] Hp; [left; reflexivity|].
        right. apply H1; assumption.
    + destruct (IH (S k) l1 l2 i e Hf)
        as (before & after & Hl & Hi & H1 & H2).
      exists (a :: before), after.
      split; [rewrite Hl; reflexivity|]. split; [simpl; lia|].
      split; [|exact H2].
      intros x [<-|Hx] Hp; [congruence|].
      apply H1; assumption.
Qed.

Lemma filter_indexed_none {A : Type} (p : A -> bool) (l : list A) (k : nat) :
  filter (fun x => p (snd x)) (combine (seq k (List.length l)) l) = []
  <-> existsb p l = false.
Proof.
  revert k. induction l as [|a l IH]; intros k; simpl; [tauto|].
  destruct (p a); simpl; [split; discriminate | apply IH].
Qed.

Lemma update_at_middle {A : Type} (f : A -> A) (before after : list A)
      (e : A) :
  JsArray.update_at (List.length before) f (before ++ e :: after)
  = before ++ f e :: after.
Proof.
  induction before as [|x before IH]; simpl; [reflexivity|].
  rewrite IH. reflexivity.
Qed.

Lemma by_recency_timestamp
      (a b : nat * StrategyDecider.HistoryEntry) :
  StrategyDecider.by_recency a b
  = StrategyDecider.h_timestamp (snd b)
    - StrategyDecider.h_timestamp (snd a).
Proof. reflexivity. Qed.

(** X22: with learning enabled, [provideFeedback] stores the
    satisfaction in one entry of the history: the most recent decision for
    the content type with the strategy, and the earliest such entry of the
    array when several have the latest timestamp.  Every other entry, the
    order of the history and the table of strategies stay as they are.
    With learning disabled, or without such a decision (as after
    [clearDecisionHistory]), nothing changes. *)
Theorem provideFeedback_marks_latest_decision
        (contentType : ContentType.t) (s : ProcessingStrategy.t)
        (satisfaction : Q) (d : StrategyDecider.t) :
  let d' := StrategyDecider.provideFeedback contentType s satisfaction d in
  let history := StrategyDecider.decisionHistory d in
  (StrategyDecider.enableLearning d = false -> d' = d)
  /\ (existsb (decided contentType s) history = false -> d' = d)
  /\ (StrategyDecider.enableLearning d = true ->
      existsb (decided contentType s) history = true ->
      exists before e after,
        history = before ++ e :: after
        /\ StrategyDecider.decisionHistory d'
           = before
             ++ StrategyDecider.with_userFeedback satisfaction e :: after
        /\ decided contentType s e = true
        /\ (forall x, In x before -> decided contentType s x = true ->
                      StrategyDecider.h_timestamp x
                      < StrategyDecider.h_timestamp e)
        /\ (forall x, In x after -> decided contentType s x = true ->
                      StrategyDecider.h_timestamp x
                      <= StrategyDecider.h_timestamp e))
  /\ StrategyDecider.defaultStrategies d'
     = StrategyDecider.defaultStrategies d
  /\ StrategyDecider.provideFeedback contentType s satisfaction
       (StrategyDecider.clearDecisionHistory d)
     = StrategyDecider.clearDecisionHistory d.
Proof.
  cbv zeta. unfold StrategyDecider.provideFeedback.
  change (fun e : nat * StrategyDecider.HistoryEntry =>
            ContentType.eqb (StrategyDecider.h_contentType (snd e))
                            contentType
            && ProcessingStrategy.eqb (StrategyDecider.h_strategy (snd e)) s)
    with (fun e : nat * StrategyDecider.HistoryEntry =>
            decided contentType s (snd e)).
  set (matching := filter (fun e => decided contentType s (snd e))
                          (combine
                             (seq 0 (List.length
                                       (StrategyDecider.decisionHistory d)))
                             (StrategyDecider.decisionHistory d))).
  pose proof (filter_indexed_none (decided contentType s)
                (StrategyDecider.decisionHistory d) 0) as Hnone.
  fold matching in Hnone.
  split; [intros ->; reflexivity|].
  split.
  { intros Hex. apply Hnone in Hex. rewrite Hex.
    destruct (negb _); reflexivity. }
  split.
  { intros Hl Hex. rewrite Hl. cbn [negb].
    assert (Hne : matching <> []).
    { intros E. apply Hnone in E. congruence. }
    destruct (sort_head (fun e => StrategyDecider.h_timestamp (snd e))
                StrategyDecider.by_recency by_recency_timestamp
                matching Hne)
      as (l1 & [i e] & l2 & rest & Hm & Hs & H1 & H2).
    rewrite Hs. cbn [fst StrategyDecider.decisionHistory].
    assert (He : decided contentType s e = true).
    { assert (Hin : In (i, e) matching)
        by (rewrite Hm; apply in_or_app; right; left; reflexivity).
      apply filter_In in Hin. tauto. }
    destruct (indexed_filter_split (decided contentType s)
                (StrategyDecider.decisionHistory d) 0 l1 l2 i e Hm)
      as (before & after & Hh & Hi & Hb & Ha).
    exists before, e, after.
    split; [exact Hh|].
    split.
    { rewrite Hi, Hh. simpl. apply update_at_middle. }
    split; [exact He|].
    split.
    - intros x Hx Hp. specialize (Hb x Hx Hp).
      apply in_map_iff in Hb. destruct Hb as ([j y] & <- & Hy).
      apply (H1 _ Hy).
    - intros x Hx Hp. specialize (Ha x Hx Hp).
      apply in_map_iff in Ha. destruct Ha as ([j y] & <- & Hy).
      apply (H2 _ Hy). }
  split.
  - destruct (negb _); [reflexivity|].
    destruct (JsArray.sort _ matching); reflexivity.
  - simpl. destruct (negb _); reflexivity.
Qed.

(** ** The service: detection and the cache *)

Lemma get_config (key : jsstring) (now : Z) (c : CacheManager.t) :
  CacheManager.config (snd (CacheManager.get key now c))
  = CacheManager.config c.
Proof.
  unfold CacheManager.get.
  destruct (negb _); [reflexivity|].
  destruct (CacheManager.Map_get key (CacheManager.cache c)); [|reflexivity].
  destruct (now >? _); reflexivity.
Qed.

Section ServiceFacts.

Context {H : Host}.

Variable syntaxErrorMessage : jsstring.

Variable extract : jsstring -> PlatformType.t -> M World PlatformMetadata.t.

Variable applyLearning :
  StrategyDecider.t -> ContentType.t -> StrategyDecider.DecisionContext
  -> Z -> StrategyDecider.StrategyDecision.

Variable config : PlatformDetectorConfig.

Hypothesis extract_pure :
  forall url platform w, snd (extract url platform w) = w.

Let service : PlatformDetectorService.t World :=
  createPlatformDetector syntaxErrorMessage extract applyLearning config.

Lemma service_get (key : jsstring) (w : World) :
  cacheManager_get service key w
  = (Returned (fst (CacheManager.get key (clock w) (cacheManager w))),
     with_cacheManager
       (snd (CacheManager.get key (clock w) (cacheManager w))) w).
Proof.
  unfold service, createPlatformDetector. simpl.
  destruct (CacheManager.get key (clock w) (cacheManager w)). reflexivity.
Qed.

Lemma service_detectPlatform (url : jsstring) (w : World) :
  ruleManager_detectPlatform service url w
  = (Returned (RuleManager.detectPlatform (ruleManager w) url), w).
Proof. reflexivity. Qed.

Lemma service_classify (platform : PlatformType.t)
      (metadata : PlatformMetadata.t) (w : World) :
  contentTypeClassifier_classify service platform metadata w
  = match ContentTypeClassifier.classify (contentTypeClassifier w)
            platform metadata with
    | Some contentType => (Returned contentType, w)
    | None => (Thrown (ErrorObject syntaxErrorMessage), w)
    end.
Proof. reflexivity. Qed.

Lemma service_decide (contentType : ContentType.t) (w : World) :
  strategyDecider_decide service contentType w
  = (Returned (fst (StrategyDecider.decide applyLearning (strategyDecider w)
                      contentType StrategyDecider.empty_context (clock w))),
     with_strategyDecider
       (snd (StrategyDecider.decide applyLearning (strategyDecider w)
               contentType StrategyDecider.empty_context (clock w))) w).
Proof.
  unfold service, createPlatformDetector.
  cbv beta iota delta [strategyDecider_decide].
  destruct (StrategyDecider.decide applyLearning (strategyDecider w)
              contentType StrategyDecider.empty_context (clock w)).
  reflexivity.
Qed.

Lemma service_set (key : jsstring) (r : PlatformDetectionResult.t)
      (w : World) :
  cacheManager_set service key r w
  = (Returned tt,
     with_cacheManager
       (CacheManager.set key r None (clock w) (cacheManager w)) w).
Proof. reflexivity. Qed.

Lemma extract_metadata_pure (normalizedUrl : jsstring)
      (platform : PlatformType.t) (w : World) :
  exists metadata,
    extract_metadata service normalizedUrl platform w = (Returned metadata, w)
    /\ (platform = PlatformType.generic -> metadata = None).
Proof.
  unfold extract_metadata.
  destruct (enableMetadataExtraction service) eqn:Ef; simpl.
  - destruct (PlatformType.eqb platform PlatformType.generic) eqn:Eg; simpl.
    + exists None. split; [reflexivity | reflexivity].
    + unfold try_catch, bind, ret.
      pose proof (extract_pure normalizedUrl platform w) as Hp.
      destruct (extract normalizedUrl platform w) as [[m|e] w'];
        simpl in Hp; subst w'.
      * exists (Some m). split; [reflexivity|].
        intros ->. discriminate.
      * exists None. split; reflexivity.
  - exists None. split; reflexivity.
Qed.

(** [detect] when the cache has no entry to serve. *)
Lemma detect_miss (url : jsstring) (w : World) :
  fst (CacheManager.get (normalizeUrl url) (clock w) (cacheManager w)) = None ->
  let key := normalizeUrl url in
  let c1 := snd (CacheManager.get key (clock w) (cacheManager w)) in
  let detected := RuleManager.detectPlatform (ruleManager w) key in
  exists metadata,
    (RuleManager.Intermediate.platform detected = PlatformType.generic ->
     metadata = None)
    /\ match ContentTypeClassifier.classify (contentTypeClassifier w)
               (RuleManager.Intermediate.platform detected)
               (match metadata with
                | Some m => m
                | None => PlatformMetadata.empty
                end) with
       | None =>
           detect service url w
           = (Returned (degraded (ErrorObject syntaxErrorMessage)),
              with_cacheManager c1 w)
       | Some contentType =>
           let s := fst (StrategyDecider.decide applyLearning
                           (strategyDecider w) contentType
                           StrategyDecider.empty_context (clock w)) in
           let d := snd (StrategyDecider.decide applyLearning
                           (strategyDecider w) contentType
                           StrategyDecider.empty_context (clock w)) in
           detect service url w
           = (Returned (built detected contentType metadata s),
              with_cacheManager
                (CacheManager.set key
                   (built detected contentType metadata s) None (clock w) c1)
                (with_strategyDecider d (with_cacheManager c1 w)))
       end.
Proof.
  intros Hmiss. cbv zeta.
  set (key := normalizeUrl url) in *.
  set (c1 := snd (CacheManager.get key (clock w) (cacheManager w))).
  set (detected := RuleManager.detectPlatform (ruleManager w) key).
  destruct (extract_metadata_pure key
              (RuleManager.Intermediate.platform detected)
              (with_cacheManager c1 w)) as (metadata & Hx & Hg).
  exists metadata. split; [exact Hg|].
  assert (Hbody :
    detect_body service url w
    = match ContentTypeClassifier.classify (contentTypeClassifier w)
              (RuleManager.Intermediate.platform detected)
              (match metadata with
               | Some m => m
               | None => PlatformMetadata.empty
               end) with
      | None => (Thrown (ErrorObject syntaxErrorMessage),
                 with_cacheManager c1 w)
      | Some contentType =>
          let s := fst (StrategyDecider.decide applyLearning
                          (strategyDecider w) contentType
                          StrategyDecider.empty_context (clock w)) in
          let d := snd (StrategyDecider.decide applyLearning
                          (strategyDecider w) contentType
                          StrategyDecider.empty_context (clock w)) in
          (Returned (built detected contentType metadata s),
           with_cacheManager
             (CacheManager.set key
                (built detected contentType metadata s) None (clock w) c1)
             (with_strategyDecider d (with_cacheManager c1 w)))
      end).
  { unfold detect_body, bind. fold key.
    rewrite service_get, Hmiss. fold c1.
    rewrite service_detectPlatform.
    change (RuleManager.detectPlatform
              (ruleManager (with_cacheManager c1 w)) key) with detected.
    rewrite Hx. rewrite service_classify.
    change (contentTypeClassifier (with_cacheManager c1 w))
      with (contentTypeClassifier w).
    destruct (ContentTypeClassifier.classify (contentTypeClassifier w)
                (RuleManager.Intermediate.platform detected)
                (match metadata with
                 | Some m => m
                 | None => PlatformMetadata.empty
                 end)) as [contentType|]; [|reflexivity].
    rewrite service_decide, service_set. reflexivity. }
  unfold detect, try_catch. rewrite Hbody.
  destruct (ContentTypeClassifier.classify (contentTypeClassifier w)
              (RuleManager.Intermediate.platform detected)
              (match metadata with
               | Some m => m
               | None => PlatformMetadata.empty
               end)); reflexivity.
Qed.

(** [detect] when the cache has the entry. *)
Lemma detect_hit (url : jsstring) (w : World)
      (cached : PlatformDetectionResult.t) :
  fst (CacheManager.get (normalizeUrl url) (clock w) (cacheManager w))
  = Some cached ->
  detect service url w
  = (Returned cached,
     with_cacheManager
       (snd (CacheManager.get (normalizeUrl url) (clock w) (cacheManager w)))
       w).
Proof.
  intros Hhit. unfold detect, try_catch, detect_body, bind.
  rewrite service_get, Hhit. reflexivity.
Qed.

End ServiceFacts.

(** X23: on a service with the cache enabled and an extractor that
    leaves the state of the service alone, a result that [detect] returns
    without the error field is stored under the normalized URL (on a cache
    miss, to expire one cache duration after the reading of the clock), and
    [detect] for the same URL returns the same result at every time up to
    the expiry of the entry. *)
Theorem detect_serves_from_cache {H : Host}
        (syntaxErrorMessage : jsstring)
        (extract : jsstring -> PlatformType.t -> M World PlatformMetadata.t)
        (applyLearning :
           StrategyDecider.t -> ContentType.t
           -> StrategyDecider.DecisionContext -> Z
           -> StrategyDecider.StrategyDecision)
        (config : PlatformDetectorConfig) (url : jsstring) (w : World) :
  (forall url platform w, snd (extract url platform w) = w) ->
  CacheManager.enabled (CacheManager.config (cacheManager w)) = true ->
  let service :=
    createPlatformDetector syntaxErrorMessage extract applyLearning config in
  let r := fst (detect service url w) in
  let w1 := snd (detect service url w) in
  forall result,
    r = Returned result ->
    PlatformDetectionResult.error result = None ->
    exists item,
      CacheManager.Map_get (normalizeUrl url)
        (CacheManager.cache (cacheManager w1)) = Some item
      /\ CacheManager.result item = result
      /\ (fst (CacheManager.get (normalizeUrl url) (clock w) (cacheManager w))
          = None ->
          CacheManager.expiresAt item
          = clock w + CacheManager.duration
                        (CacheManager.config (cacheManager w)))
      /\ forall t,
           t <= CacheManager.expiresAt item ->
           fst (detect service url (with_clock t w1)) = Returned result.
Proof.
  intros Hpure Hen. cbv zeta. intros result Hr Herr.
  set (key := normalizeUrl url).
  assert (Hserve : forall (w' : World) (item : CacheManager.CacheItem) t,
    CacheManager.enabled (CacheManager.config (cacheManager w')) = true ->
    CacheManager.Map_get key (CacheManager.cache (cacheManager w'))
    = Some item ->
    t <= CacheManager.expiresAt item ->
    fst (detect (createPlatformDetector syntaxErrorMessage extract
                   applyLearning config) url (with_clock t w'))
    = Returned (CacheManager.result item)).
  { intros w' item t He Hg Ht.
    rewrite (detect_hit syntaxErrorMessage extract applyLearning config url
               (with_clock t w') (CacheManager.result item));
      [reflexivity|].
    fold key. simpl.
    unfold CacheManager.get. rewrite He, Hg. simpl.
    rewrite Z.gtb_ltb, (proj2 (Z.ltb_ge _ _)) by lia. reflexivity. }
  destruct (fst (CacheManager.get key (clock w) (cacheManager w)))
    as [cached|] eqn:Eg.
  - rewrite (detect_hit syntaxErrorMessage extract applyLearning config url w
               cached Eg) in *.
    simpl in Hr. injection Hr as <-. simpl snd. fold key.
    set (c1 := snd (CacheManager.get key (clock w) (cacheManager w))).
    assert (Hc1 : exists item,
      CacheManager.Map_get key (CacheManager.cache c1) = Some item
      /\ CacheManager.result item = cached).
    { unfold c1. unfold CacheManager.get in Eg |- *.
      rewrite Hen in *. simpl in *.
      destruct (CacheManager.Map_get key
                  (CacheManager.cache (cacheManager w)))
        as [item|] eqn:Hg; [|discriminate].
      destruct (clock w >? CacheManager.expiresAt item); [discriminate|].
      simpl in Eg. injection Eg as <-. simpl.
      eexists. split; [apply Map_get_set_same | reflexivity]. }
    destruct Hc1 as (item & Hg & Hres).
    exists item. split; [exact Hg|]. split; [exact Hres|].
    split; [discriminate|].
    intros t Ht. rewrite <- Hres.
    apply (Hserve (with_cacheManager c1 w) item t); [|exact Hg | exact Ht].
    simpl. unfold c1. rewrite get_config. exact Hen.
  - destruct (detect_miss syntaxErrorMessage extract applyLearning config
                Hpure url w Eg) as (metadata & _ & Hd).
    fold key in Hd.
    destruct (ContentTypeClassifier.classify (contentTypeClassifier w) _ _)
      as [contentType|].
    + cbv zeta in Hd.
      set (c1 := snd (CacheManager.get key (clock w) (cacheManager w))) in *.
      set (res := built _ contentType metadata _) in *.
      rewrite Hd in Hr |- *. cbn [fst snd] in Hr |- *.
      injection Hr as <-.
      cbn [cacheManager with_cacheManager with_strategyDecider].
      assert (Hen1 : CacheManager.enabled (CacheManager.config c1) = true)
        by (unfold c1; rewrite get_config; exact Hen).
      pose proof (set_stores key res None (clock w) c1 Hen1) as Hst.
      eexists. split; [exact Hst|].
      split; [reflexivity|].
      split.
      { intros _. cbn [CacheManager.expiresAt]. unfold c1.
        rewrite get_config. reflexivity. }
      intros t Ht.
      refine (Hserve (with_cacheManager
                        (CacheManager.set key res None (clock w) c1)
                        (with_strategyDecider _ (with_cacheManager c1 w)))
                     _ t _ Hst Ht).
      cbn [cacheManager with_cacheManager]. rewrite set_config. exact Hen1.
    + rewrite Hd in Hr. simpl in Hr. injection Hr as <-.
      discriminate Herr.
Qed.

Lemma detect_serves_from_cache_witness :
  fst (detect (H := ModelHost)
         (createPlatformDetector (H := ModelHost) (Js.lit "bad pattern")
            quiet_extract no_learning default_config)
         sample_key
         (with_clock 300000
            (snd (detect (H := ModelHost)
                    (createPlatformDetector (H := ModelHost)
                       (Js.lit "bad pattern") quiet_extract no_learning
                       default_config)
                    sample_key (initial default_config 0)))))
  = Returned detected_sample.
Proof.
  assert (Hp : forall url platform w,
             snd (quiet_extract url platform w) = w)
    by (intros; reflexivity).
  assert (He : CacheManager.enabled
                 (CacheManager.config
                    (cacheManager (initial default_config 0))) = true)
    by reflexivity.
  assert (Er : fst (detect (H := ModelHost)
                      (createPlatformDetector (H := ModelHost)
                         (Js.lit "bad pattern") quiet_extract no_learning
                         default_config)
                      sample_key (initial default_config 0))
               = Returned detected_sample)
    by (vm_compute; reflexivity).
  destruct (detect_serves_from_cache (H := ModelHost)
              (Js.lit "bad pattern") quiet_extract no_learning
              default_config sample_key (initial default_config 0)
              Hp He detected_sample Er eq_refl)
    as (item & Hg & Hres & Hexp & Hserve).
  apply Hserve. rewrite Hexp; [vm_compute; discriminate|].
  vm_compute. reflexivity.
Defined.

Lemma classify_default (platform : PlatformType.t)
      (metadata : option PlatformMetadata.t) :
  (platform = PlatformType.generic -> metadata = None) ->
  ContentTypeClassifier.classify (H := ModelHost) default_classifier platform
    (match metadata with
     | Some m => m
     | None => PlatformMetadata.empty
     end)
  = Some (default_contentType platform).
Proof.
  intros Hg. unfold default_contentType.
  destruct (find (fun r => PlatformType.eqb
                             (ContentTypeClassifier.platform r) platform)
                 ContentTypeClassifier.getDefaultRules) as [r|] eqn:Ef.
  - set (m := match metadata with
              | Some m => m
              | None => PlatformMetadata.empty
              end).
    pose proof (classify_first_rule (H := ModelHost) default_classifier
                  platform m r Ef) as Hc.
    pose proof default_rules_settled as Hall.
    rewrite forallb_forall in Hall.
    assert (Hs : settled r = true)
      by (apply Hall; apply find_some in Ef; tauto).
    unfold settled in Hs.
    apply andb_true_iff in Hs. destruct Hs as [Hs H1].
    apply andb_true_iff in Hs. destruct Hs as [Hs H8].
    apply andb_true_iff in Hs. destruct Hs as [Hm Hp].
    assert (Hm' : ContentTypeClassifier.metadataPatterns r = None)
      by (destruct (ContentTypeClassifier.metadataPatterns r);
          [discriminate | reflexivity]).
    rewrite (Hc Hm' H8 H1).
    pose proof (apply_rule_returns r m Hm' Hp) as Hx.
    destruct (ContentTypeClassifier.apply_rule r m);
      [reflexivity | contradiction].
  - assert (Hp : platform = PlatformType.generic).
    { destruct platform; try discriminate Ef. reflexivity. }
    rewrite (Hg Hp). subst platform. vm_compute. reflexivity.
Qed.

(** X24: on the model host, for a service with the built-in
    classification rules and table of strategies, an extractor that leaves
    the state alone and a URL that is not cached, [detect] returns the
    platform, confidence and pattern of [detectPlatform], the content type
    of the first classification rule of that platform ([generic] when the
    platform has none), the default strategy of that content type, no
    error, and no metadata when the platform is [generic]. *)
Theorem detect_default_by_platform
        (syntaxErrorMessage : jsstring)
        (extract : jsstring -> PlatformType.t -> M World PlatformMetadata.t)
        (applyLearning :
           StrategyDecider.t -> ContentType.t
           -> StrategyDecider.DecisionContext -> Z
           -> StrategyDecider.StrategyDecision)
        (config : PlatformDetectorConfig) (url : jsstring) (w : World) :
  (forall url platform w, snd (extract url platform w) = w) ->
  contentTypeClassifier w = default_classifier ->
  (forall contentType,
     StrategyDecider.defaultStrategies (strategyDecider w) contentType
     = StrategyDecider.getDefaultStrategies contentType) ->
  fst (CacheManager.get (normalizeUrl (H := ModelHost) url) (clock w)
         (cacheManager w)) = None ->
  let detected :=
    RuleManager.detectPlatform (H := ModelHost) (ruleManager w)
      (normalizeUrl (H := ModelHost) url) in
  let platform := RuleManager.Intermediate.platform detected in
  exists metadata,
    (platform = PlatformType.generic -> metadata = None)
    /\ fst (detect (H := ModelHost)
              (createPlatformDetector (H := ModelHost) syntaxErrorMessage
                 extract applyLearning config) url w)
       = Returned
           {| PlatformDetectionResult.platform := platform;
              PlatformDetectionResult.contentType :=
                default_contentType platform;
              PlatformDetectionResult.confidence :=
                RuleManager.Intermediate.confidence detected;
              PlatformDetectionResult.matchedPattern :=
                Js.truthy (RuleManager.Intermediate.matchedPattern detected);
              PlatformDetectionResult.metadata := metadata;
              PlatformDetectionResult.processingStrategy :=
                StrategyDecider.getDefaultStrategies
                  (default_contentType platform);
              PlatformDetectionResult.error := None;
              PlatformDetectionResult.warnings := None |}.
Proof.
  intros Hpure Hcls Hdec Hmiss. cbv zeta.
  destruct (detect_miss (H := ModelHost) syntaxErrorMessage extract
              applyLearning config Hpure url w Hmiss)
    as (metadata & Hg & Hd).
  exists metadata. split; [exact Hg|].
  rewrite Hcls, (classify_default _ metadata Hg) in Hd.
  cbv zeta in Hd. rewrite Hd. cbn [fst]. unfold built.
  assert (Hs : forall contentType,
    fst (StrategyDecider.decide (H := ModelHost) applyLearning
           (strategyDecider w) contentType StrategyDecider.empty_context
           (clock w))
    = StrategyDecider.default_for (strategyDecider w) contentType).
  { intros contentType. rewrite decide_strategy.
    rewrite applyContextRules_default by apply no_rule_without_context.
    destruct (StrategyDecider.enableContextAware (strategyDecider w));
      reflexivity. }
  rewrite Hs. unfold StrategyDecider.default_for. rewrite Hdec.
  reflexivity.
Qed.

Lemma detect_default_by_platform_witness :
  exists r,
    fst (detect (H := ModelHost)
           (createPlatformDetector (H := ModelHost) (Js.lit "bad pattern")
              quiet_extract no_learning default_config)
           zhuanlan_url (initial default_config 0))
    = Returned r
    /\ PlatformDetectionResult.platform r = PlatformType.zhihu
    /\ PlatformDetectionResult.contentType r = ContentType.discussion
    /\ PlatformDetectionResult.processingStrategy r
       = Some ProcessingStrategy.bookmark.
Proof.
  assert (Hp : forall url platform w,
             snd (quiet_extract url platform w) = w)
    by (intros; reflexivity).
  assert (Hc : contentTypeClassifier (initial default_config 0)
               = default_classifier)
    by reflexivity.
  assert (Hd : forall contentType,
             StrategyDecider.defaultStrategies
               (strategyDecider (initial default_config 0)) contentType
             = StrategyDecider.getDefaultStrategies contentType)
    by (intros; reflexivity).
  assert (Hm : fst (CacheManager.get
                      (normalizeUrl (H := ModelHost) zhuanlan_url)
                      (clock (initial default_config 0))
                      (cacheManager (initial default_config 0))) = None)
    by reflexivity.
  destruct (detect_default_by_platform (Js.lit "bad pattern") quiet_extract
              no_learning default_config zhuanlan_url
              (initial default_config 0) Hp Hc Hd Hm)
    as (metadata & _ & Hr).
  eexists. split; [exact Hr|].
  split; [vm_compute; reflexivity|].
  split; vm_compute; reflexivity.
Defined.

(** ** The service: [detectBatch], window by window *)

Section AsyncFacts.
Context {W X P A : Type}.
Variable start : X -> W -> (P + A) * W.
Variable resume : P -> W -> (P + A) * W.

Lemma call_each_length (xs : list X) (w : W) :
  List.length (fst (call_each start xs w)) = List.length xs.
Proof.
  revert w. induction xs as [|x xs IH]; intros w; simpl; [reflexivity|].
  destruct (start x w) as [c w1]. specialize (IH w1).
  destruct (call_each start xs w1) as [cs w2]. simpl in *. lia.
Qed.

(** Each call of [call_each] is the call of [start] in some state. *)
Lemma call_each_started (xs : list X) (w : W) :
  Forall2 (fun x c => exists w0, c = fst (start x w0))
          xs (fst (call_each start xs w)).
Proof.
  revert w. induction xs as [|x xs IH]; intros w; simpl; [constructor|].
  destruct (start x w) as [c w1] eqn:E. specialize (IH w1).
  destruct (call_each start xs w1) as [cs w2]. simpl in *.
  constructor; [|exact IH]. exists w. rewrite E. reflexivity.
Qed.

Lemma turn_settled (calls : list (P + A)) (w : W) :
  forallb has_settled calls = true -> turn resume calls w = (calls, w).
Proof.
  induction calls as [|[s|a] calls IH]; simpl; intros Hs;
    [reflexivity | discriminate |].
  rewrite (IH Hs). reflexivity.
Qed.

Lemma turns_settled (n : nat) (calls : list (P + A)) (w : W) :
  forallb has_settled calls = true -> turns resume n calls w = (calls, w).
Proof.
  intros Hs. induction n as [|n IH]; simpl; [reflexivity|].
  rewrite (turn_settled calls w Hs). exact IH.
Qed.

Lemma settled_length (calls : list (P + A)) :
  forallb has_settled calls = true ->
  List.length (Effect.settled calls) = List.length calls.
Proof.
  induction calls as [|[s|a] calls IH]; simpl; intros Hs;
    [reflexivity | discriminate |].
  f_equal. apply IH, Hs.
Qed.

Lemma settled_completes (calls : list (P + A)) :
  forallb has_settled calls = true ->
  Forall2 (completes resume) calls (Effect.settled calls).
Proof.
  induction calls as [|[s|a] calls IH]; simpl; intros Hs;
    [constructor | discriminate |].
  constructor; [constructor | apply IH, Hs].
Qed.

(** What a call settles with after a turn, it settles with. *)
Lemma turn_completes (calls : list (P + A)) (w : W) (rs : list A) :
  Forall2 (completes resume) (fst (turn resume calls w)) rs ->
  Forall2 (completes resume) calls rs.
Proof.
  revert w rs. induction calls as [|[s|a] calls IH]; intros w rs; simpl.
  - intros Hc. exact Hc.
  - destruct (resume s w) as [c w1] eqn:E.
    pose proof (IH w1) as IH'.
    destruct (turn resume calls w1) as [rest w2]. simpl in *.
    intros Hc. inversion Hc as [|? r ? rs' Hhead Htail]; subst.
    constructor; [|apply IH'; exact Htail].
    apply (completes_resumed resume s w). rewrite E. exact Hhead.
  - pose proof (IH w) as IH'.
    destruct (turn resume calls w) as [rest w2]. simpl in *.
    intros Hc. inversion Hc as [|? r ? rs' Hhead Htail]; subst.
    constructor; [exact Hhead | apply IH'; exact Htail].
Qed.

Lemma turns_completes (n : nat) (calls : list (P + A)) (w : W)
      (rs : list A) :
  Forall2 (completes resume) (fst (turns resume n calls w)) rs ->
  Forall2 (completes resume) calls rs.
Proof.
  revert calls w. induction n as [|n IH]; intros calls w; simpl;
    [tauto|].
  destruct (turn resume calls w) as [calls' w'] eqn:E.
  intros Hc. apply (turn_completes calls w). rewrite E. simpl.
  apply (IH calls' w'). exact Hc.
Qed.

Lemma turn_length (calls : list (P + A)) (w : W) :
  List.length (fst (turn resume calls w)) = List.length calls.
Proof.
  revert w. induction calls as [|[s|a] calls IH]; intros w; simpl;
    [reflexivity| |].
  - destruct (resume s w) as [c w1]. specialize (IH w1).
    destruct (turn resume calls w1) as [rest w2]. simpl in *. lia.
  - specialize (IH w).
    destruct (turn resume calls w) as [rest w2]. simpl in *. lia.
Qed.

Lemma turns_length (n : nat) (calls : list (P + A)) (w : W) :
  List.length (fst (turns resume n calls w)) = List.length calls.
Proof.
  revert calls w. induction n as [|n IH]; intros calls w; simpl;
    [reflexivity|].
  pose proof (turn_length calls w) as Hl.
  destruct (turn resume calls w) as [calls' w']. simpl in Hl.
  rewrite IH. exact Hl.
Qed.

(** A measure that every resumption lowers bounds the number of turns
    after which the calls have Effect.settled. *)
Section Measure.
Variable left : P + A -> nat.
Hypothesis left_resumed :
  forall s w, (left (fst (resume s w)) < left (inl s))%nat.

Lemma turn_lowers (calls : list (P + A)) (w : W) (n : nat) :
  Forall (fun c => (left c <= S n)%nat \/ has_settled c = true) calls ->
  Forall (fun c => (left c <= n)%nat \/ has_settled c = true)
         (fst (turn resume calls w)).
Proof.
  revert w. induction calls as [|[s|a] calls IH]; intros w Hall; simpl.
  - constructor.
  - inversion Hall as [|? ? Hs Hrest]; subst.
    pose proof (left_resumed s w) as Hlt.
    destruct (resume s w) as [c w1]. specialize (IH w1 Hrest).
    destruct (turn resume calls w1) as [rest w2]. simpl in *.
    constructor; [|exact IH].
    destruct Hs as [Hs|Hs]; [left; lia | discriminate].
  - inversion Hall as [|? ? Hs Hrest]; subst.
    specialize (IH w Hrest).
    destruct (turn resume calls w) as [rest w2]. simpl in *.
    constructor; [right; reflexivity | exact IH].
Qed.

Lemma turns_settle (n : nat) (calls : list (P + A)) (w : W) :
  Forall (fun c => (left c <= n)%nat \/ has_settled c = true) calls ->
  forallb has_settled (fst (turns resume n calls w)) = true.
Proof.
  revert calls w. induction n as [|n IH]; intros calls w Hall; simpl.
  - apply forallb_forall. intros [s|a] Hc; [|reflexivity].
    rewrite Forall_forall in Hall. destruct (Hall _ Hc) as [Hl|Hs];
      [|exact Hs].
    pose proof (left_resumed s w). lia.
  - pose proof (turn_lowers calls w n Hall) as Hl.
    destruct (turn resume calls w) as [calls' w']. simpl in Hl.
    apply IH. exact Hl.
Qed.

Lemma list_max_bounds (calls : list (P + A)) :
  Forall (fun c => (left c <= list_max (List.map left calls))%nat
                   \/ has_settled c = true) calls.
Proof.
  apply Forall_forall. intros c Hc. left.
  assert (Hle : (list_max (List.map left calls)
                 <= list_max (List.map left calls))%nat) by lia.
  apply list_max_le in Hle. rewrite Forall_forall in Hle.
  apply Hle, in_map, Hc.
Qed.

End Measure.

End AsyncFacts.

Lemma PlatformType_all (p : PlatformType.t) : In p PlatformType.all.
Proof. destruct p; simpl; tauto. Qed.

Section BatchFacts.
Context {H : Host} {W : Type}.
Variable service : PlatformDetectorService.t W.
Variable extraction_turns : jsstring -> PlatformType.t -> nat.

Lemma extraction_turns_longest (normalizedUrl : jsstring)
      (platform : PlatformType.t) :
  (extraction_turns normalizedUrl platform
   <= list_max (List.map (extraction_turns normalizedUrl)
                         PlatformType.all))%nat.
Proof.
  assert (Hle : (list_max (List.map (extraction_turns normalizedUrl)
                                    PlatformType.all)
                 <= list_max (List.map (extraction_turns normalizedUrl)
                                       PlatformType.all))%nat) by lia.
  apply list_max_le in Hle. rewrite Forall_forall in Hle.
  apply Hle, in_map, PlatformType_all.
Qed.

Lemma detect_finish_left (normalizedUrl : jsstring)
      (platformResult : RuleManager.Intermediate.t)
      (metadata : option PlatformMetadata.t) (w : W) :
  (turns_left extraction_turns
     (fst (detect_finish service normalizedUrl platformResult metadata w))
   <= 1)%nat.
Proof.
  unfold detect_finish.
  destruct (classify_decide_store service normalizedUrl platformResult
              metadata w) as [[r|e] w']; simpl; lia.
Qed.

(** Every resumption brings a call nearer to its end. *)
Lemma detect_resume_lowers (call : waiting) (w : W) :
  (turns_left extraction_turns
     (fst (detect_resume service extraction_turns call w))
   < turns_left extraction_turns (inl call))%nat.
Proof.
  destruct call as [n [cached|]|n [p|e]|[|more] n p o|r];
    unfold turns_left; cbn [detect_resume].
  - cbn [fst]. lia.
  - destruct (ruleManager_detectPlatform service n w) as [o w'].
    cbn [fst]. lia.
  - destruct (enableMetadataExtraction service && _)%bool.
    + destruct (metadataExtractor_extract service n _ w) as [o w'].
      cbn [fst].
      pose proof (extraction_turns_longest n
                    (RuleManager.Intermediate.platform p)).
      lia.
    + pose proof (detect_finish_left n p None w) as Hf.
      unfold turns_left in Hf. lia.
  - cbn [fst]. lia.
  - pose proof (detect_finish_left n p
                  (match o with Returned m => Some m | Thrown _ => None end)
                  w) as Hf.
    unfold turns_left in Hf. lia.
  - cbn [fst]. lia.
  - cbn [fst]. lia.
Qed.

(** The calls of a window all settle, each with an answer for its URL. *)
Lemma detect_all_answers (batch : list jsstring) (w : W) :
  exists results w',
    detect_all service extraction_turns batch w = (Returned results, w')
    /\ List.length results = List.length batch
    /\ Forall2 (answers service extraction_turns) batch results.
Proof.
  unfold detect_all.
  pose proof (call_each_length (detect_start service) batch w) as Hlen.
  pose proof (call_each_started (detect_start service) batch w) as Hst.
  destruct (call_each (detect_start service) batch w) as [calls w1].
  simpl in Hlen, Hst.
  set (n := list_max (List.map (turns_left extraction_turns) calls)).
  pose proof (turns_settle (detect_resume service extraction_turns)
                (turns_left extraction_turns) detect_resume_lowers
                n calls w1
                (list_max_bounds (turns_left extraction_turns) calls))
    as Hset.
  pose proof (turns_length (detect_resume service extraction_turns)
                n calls w1) as Hlen'.
  pose proof (turns_completes (detect_resume service extraction_turns)
                n calls w1) as Hcomp.
  destruct (turns (detect_resume service extraction_turns) n calls w1)
    as [calls' w2].
  simpl in Hset, Hlen', Hcomp.
  exists (Effect.settled calls'), w2.
  split; [reflexivity|].
  split; [rewrite (settled_length calls' Hset); lia|].
  specialize (Hcomp (Effect.settled calls')
                (settled_completes _ calls' Hset)).
  clear -Hst Hcomp. revert Hcomp.
  generalize (Effect.settled calls') as rs.
  induction Hst as [|url c batch calls (w0 & Hc) Hrest IH]; intros rs Hcomp.
  - inversion Hcomp. constructor.
  - inversion Hcomp as [|? r ? rs' Hhead Htail]; subst.
    constructor; [|apply IH; exact Htail].
    exists w0. exact Hhead.
Qed.

Let windows : nat -> nat -> list jsstring
                  -> M W (list PlatformDetectionResult.t) :=
  by_windows service extraction_turns.

Lemma detectBatch_loop_windows (n fuel i : nat) (urls : list jsstring)
      (results : list PlatformDetectionResult.t) (w : W) :
  detectBatch_loop service extraction_turns (S n) fuel i urls results w
  = (rs <- windows n fuel (skipn i urls) ;; ret (results ++ rs)) w.
Proof.
  revert i results w. induction fuel as [|fuel IH]; intros i results w.
  - simpl. destruct (i <? List.length urls)%nat;
      unfold bind, ret; simpl; rewrite app_nil_r; reflexivity.
  - change (detectBatch_loop service extraction_turns (S n) (S fuel) i urls
              results w)
      with ((if (i <? List.length urls)%nat
             then
               batchResults <-
                 detect_all service extraction_turns
                   (JsArray.slice i (i + S n) urls) ;;
               detectBatch_loop service extraction_turns (S n) fuel
                 (i + S n) urls (results ++ batchResults)
             else ret results) w).
    destruct (Nat.ltb_spec i (List.length urls)) as [Hlt|Hge].
    + assert (Hne : skipn i urls <> []).
      { intros E. apply (f_equal (@List.length _)) in E.
        rewrite length_skipn in E. simpl in E. lia. }
      assert (Hslice : JsArray.slice i (i + S n) urls
                       = firstn (S n) (skipn i urls)).
      { unfold JsArray.slice. f_equal. lia. }
      rewrite Hslice.
      assert (Hskip : skipn (i + S n) urls = skipn (S n) (skipn i urls)).
      { rewrite skipn_skipn. f_equal. lia. }
      destruct (skipn i urls) as [|u rest] eqn:E; [contradiction|].
      change (windows n (S fuel) (u :: rest))
        with (first <- detect_all service extraction_turns
                         (firstn (S n) (u :: rest)) ;;
              rs <- windows n fuel (skipn (S n) (u :: rest)) ;;
              ret (first ++ rs)).
      unfold bind.
      destruct (detect_all service extraction_turns
                  (firstn (S n) (u :: rest)) w) as [[first|e] w1];
        [|reflexivity].
      rewrite IH, Hskip. unfold bind, ret.
      destruct (windows n fuel (skipn (S n) (u :: rest)) w1)
        as [[rs|e] w2]; [|reflexivity].
      rewrite app_assoc. reflexivity.
    + rewrite (skipn_all2 urls Hge).
      unfold bind, ret. simpl. rewrite app_nil_r. reflexivity.
Qed.

Lemma by_windows_fuel (n fuel fuel' : nat) (urls : list jsstring) (w : W) :
  (List.length urls <= fuel)%nat -> (List.length urls <= fuel')%nat ->
  windows n fuel urls w = windows n fuel' urls w.
Proof.
  revert fuel' urls w. induction fuel as [|fuel IH];
    intros fuel' urls w Hf Hf'.
  - destruct urls; [|simpl in Hf; lia]. destruct fuel'; reflexivity.
  - destruct urls as [|u rest]; [destruct fuel'; reflexivity|].
    destruct fuel' as [|fuel']; [simpl in Hf'; lia|].
    change (windows n (S fuel) (u :: rest) w)
      with ((first <- detect_all service extraction_turns
                        (firstn (S n) (u :: rest)) ;;
             rs <- windows n fuel (skipn (S n) (u :: rest)) ;;
             ret (first ++ rs)) w).
    change (windows n (S fuel') (u :: rest) w)
      with ((first <- detect_all service extraction_turns
                        (firstn (S n) (u :: rest)) ;;
             rs <- windows n fuel' (skipn (S n) (u :: rest)) ;;
             ret (first ++ rs)) w).
    unfold bind.
    destruct (detect_all service extraction_turns
                (firstn (S n) (u :: rest)) w) as [[first|e] w1];
      [|reflexivity].
    assert (Hl : (List.length (skipn (S n) (u :: rest))
                  <= List.length rest)%nat).
    { rewrite length_skipn. simpl. lia. }
    simpl in Hf, Hf'.
    rewrite (IH fuel' (skipn (S n) (u :: rest)) w1) by lia.
    reflexivity.
Qed.

Lemma detectBatch_by_by_windows (n : nat) (urls : list jsstring) (w : W) :
  detectBatch_by service extraction_turns (S n) urls w
  = windows n (List.length urls) urls w.
Proof.
  unfold detectBatch_by. rewrite detectBatch_loop_windows.
  change (skipn 0 urls) with urls. unfold bind, ret.
  destruct (windows n (List.length urls) urls w) as [[rs|e] w'];
    reflexivity.
Qed.

(** [detectBatch] with windows of [S n] URLs: the first window, then the
    rest of the list. *)
Lemma detectBatch_by_windows (n : nat) (urls : list jsstring) (w : W) :
  detectBatch_by service extraction_turns (S n) urls w
  = (first <- detect_all service extraction_turns (firstn (S n) urls) ;;
     rest <- detectBatch_by service extraction_turns (S n)
               (skipn (S n) urls) ;;
     ret (first ++ rest)) w.
Proof.
  rewrite detectBatch_by_by_windows.
  destruct urls as [|u rest].
  - reflexivity.
  - change (windows n (List.length (u :: rest)) (u :: rest) w)
      with ((first <- detect_all service extraction_turns
                        (firstn (S n) (u :: rest)) ;;
             rs <- windows n (List.length rest)
                     (skipn (S n) (u :: rest)) ;;
             ret (first ++ rs)) w).
    unfold bind.
    destruct (detect_all service extraction_turns
                (firstn (S n) (u :: rest)) w) as [[first|e] w1];
      [|reflexivity].
    rewrite detectBatch_by_by_windows.
    assert (Hl : (List.length (skipn (S n) (u :: rest))
                  <= List.length rest)%nat).
    { rewrite length_skipn. simpl. lia. }
    rewrite (by_windows_fuel n (List.length rest)
               (List.length (skipn (S n) (u :: rest)))) by lia.
    reflexivity.
Qed.

(** Every window size: as many results as URLs, each an answer for the
    URL at its index. *)
Lemma detectBatch_by_answers (n : nat) (urls : list jsstring) (w : W) :
  exists results w',
    detectBatch_by service extraction_turns (S n) urls w
    = (Returned results, w')
    /\ List.length results = List.length urls
    /\ Forall2 (answers service extraction_turns) urls results.
Proof.
  remember (List.length urls) as len eqn:Hlen.
  revert urls w Hlen.
  induction len as [len IH] using lt_wf_ind. intros urls w Hlen.
  rewrite detectBatch_by_windows.
  destruct urls as [|u rest].
  - exists [], w. subst len.
    unfold detect_all, detectBatch_by, bind, ret. simpl.
    repeat split. constructor.
  - destruct (detect_all_answers (firstn (S n) (u :: rest)) w)
      as (first & w1 & Hfirst & Hl1 & Ha1).
    assert (Hl : (List.length (skipn (S n) (u :: rest)) < len)%nat).
    { rewrite length_skipn, Hlen. simpl. lia. }
    destruct (IH _ Hl (skipn (S n) (u :: rest)) w1 eq_refl)
      as (rs & w2 & Hrest & Hl2 & Ha2).
    exists (first ++ rs), w2. unfold bind. rewrite Hfirst, Hrest.
    split; [reflexivity|].
    split.
    + rewrite length_app, Hl1, Hl2, <- length_app, firstn_skipn.
      symmetry. exact Hlen.
    + rewrite <- (firstn_skipn (S n) (u :: rest)) at 1.
      apply Forall2_app; assumption.
Qed.

End BatchFacts.

Section TurnsFacts.
Context {W P A : Type}.
Variable resume : P -> W -> (P + A) * W.

Lemma turns_add (a b : nat) (calls : list (P + A)) (w : W) :
  turns resume (a + b) calls w
  = let '(calls', w') := turns resume a calls w in
    turns resume b calls' w'.
Proof.
  revert calls w. induction a as [|a IH]; intros calls w; simpl;
    [reflexivity|].
  destruct (turn resume calls w) as [calls' w']. apply IH.
Qed.

End TurnsFacts.

Section AloneFacts.
Context {H : Host} {W : Type}.
Variable service : PlatformDetectorService.t W.
Variable extraction_turns : jsstring -> PlatformType.t -> nat.

(** A call that waits for the extractor does nothing until the extractor
    has Effect.settled. *)
Lemma turns_extracting (more : nat) (normalizedUrl : jsstring)
      (platformResult : RuleManager.Intermediate.t)
      (metadata : outcome PlatformMetadata.t) (w : W) :
  turns (detect_resume service extraction_turns) more
        [inl (AwaitExtract more normalizedUrl platformResult metadata)] w
  = ([inl (AwaitExtract 0 normalizedUrl platformResult metadata)], w).
Proof.
  induction more as [|more IH]; simpl; [reflexivity|]. exact IH.
Qed.

(** After the extraction, alone: the steps 5 to 8 and the result. *)
Lemma turns_finish (n : nat) (normalizedUrl : jsstring)
      (platformResult : RuleManager.Intermediate.t)
      (metadata : option PlatformMetadata.t) (w : W) :
  turns (detect_resume service extraction_turns) (S n)
        [fst (detect_finish service normalizedUrl platformResult metadata
                w)]
        (snd (detect_finish service normalizedUrl platformResult metadata
                w))
  = match classify_decide_store service normalizedUrl platformResult
            metadata w with
    | (Returned result, w') => ([inr result], w')
    | (Thrown error, w') => ([inr (degraded error)], w')
    end.
Proof.
  unfold detect_finish.
  destruct (classify_decide_store service normalizedUrl platformResult
              metadata w) as [[result|error] w']; cbn [fst snd].
  - cbn [turns turn detect_resume]. apply turns_settled. reflexivity.
  - apply turns_settled. reflexivity.
Qed.

(** The [try] block of [detect] after the rule matching. *)
Lemma detect_body_rest (url : jsstring) (w w1 w2 : W)
      (platformResult : RuleManager.Intermediate.t) :
  cacheManager_get service (normalizeUrl url) w = (Returned None, w1) ->
  ruleManager_detectPlatform service (normalizeUrl url) w1
  = (Returned platformResult, w2) ->
  detect_body service url w
  = (metadata <- extract_metadata service (normalizeUrl url)
                   (RuleManager.Intermediate.platform platformResult) ;;
     classify_decide_store service (normalizeUrl url) platformResult
                           metadata) w2.
Proof.
  intros Hg Hd. unfold detect_body. cbv zeta.
  unfold bind at 1. rewrite Hg. unfold bind at 1. rewrite Hd.
  reflexivity.
Qed.

(** One call alone is [detect]. *)
Lemma detect_all_alone (url : jsstring) (w : W) :
  detect_all service extraction_turns [url] w
  = (r <- detect service url ;; ret [r]) w.
Proof.
  unfold detect_all. cbn [call_each]. unfold detect_start. cbv zeta.
  unfold bind at 1, detect, try_catch, ret.
  destruct (cacheManager_get service (normalizeUrl url) w)
    as [[[cached|]|e] w1] eqn:Hg.
  - (* served from the cache *)
    assert (Hb : detect_body service url w = (Returned cached, w1)).
    { unfold detect_body. cbv zeta. unfold bind. rewrite Hg. reflexivity. }
    rewrite Hb. cbn [List.map list_max fold_right turns_left].
    rewrite Nat.max_0_r.
    cbn [Nat.add turns turn detect_resume].
    rewrite turns_settled by reflexivity. reflexivity.
  - destruct (ruleManager_detectPlatform service (normalizeUrl url) w1)
      as [[p|e] w2] eqn:Hd.
    + rewrite (detect_body_rest url w w1 w2 p Hg Hd).
      cbn [List.map list_max fold_right turns_left].
      rewrite Nat.max_0_r.
      set (L := list_max (List.map (extraction_turns (normalizeUrl url))
                                   PlatformType.all)).
      change (4 + L)%nat with (S (S (2 + L))).
      cbn [turns turn detect_resume]. rewrite Hd.
      cbn [turns turn detect_resume].
      unfold bind, extract_metadata.
      destruct (enableMetadataExtraction service
                && negb (PlatformType.eqb
                           (RuleManager.Intermediate.platform p)
                           PlatformType.generic))%bool.
      * unfold try_catch, bind, ret.
        destruct (metadataExtractor_extract service (normalizeUrl url)
                    (RuleManager.Intermediate.platform p) w2)
          as [o w3].
        set (k := extraction_turns (normalizeUrl url)
                    (RuleManager.Intermediate.platform p)).
        assert (Hk : (k <= L)%nat)
          by apply extraction_turns_longest.
        replace (2 + L)%nat with (k + (1 + (S (L - k))))%nat by lia.
        rewrite turns_add, turns_extracting.
        rewrite turns_add.
        cbn [turns turn detect_resume].
        set (metadata := match o with
                         | Returned m => Some m
                         | Thrown _ => None
                         end).
        destruct (detect_finish service (normalizeUrl url) p metadata w3)
          as [c w4] eqn:Ef.
        pose proof (turns_finish (L - k) (normalizeUrl url) p metadata w3)
          as Hfin.
        rewrite Ef in Hfin. cbn [fst snd turns] in Hfin. rewrite Hfin.
        destruct o as [m|e]; subst metadata;
          destruct (classify_decide_store service (normalizeUrl url) p _
                      w3) as [[result|error] w5]; reflexivity.
      * unfold ret.
        destruct (detect_finish service (normalizeUrl url) p None w2)
          as [c w4] eqn:Ef.
        pose proof (turns_finish (S L) (normalizeUrl url) p None w2)
          as Hfin.
        rewrite Ef in Hfin. cbn [fst snd] in Hfin.
        change (2 + L)%nat with (S (S L)). rewrite Hfin.
        destruct (classify_decide_store service (normalizeUrl url) p None
                    w2) as [[result|error] w5]; reflexivity.
    + assert (Hb : detect_body service url w = (Thrown e, w2)).
      { unfold detect_body. cbv zeta. unfold bind. rewrite Hg, Hd.
        reflexivity. }
      rewrite Hb. cbn [List.map list_max fold_right turns_left].
      rewrite Nat.max_0_r.
      set (L := list_max (List.map (extraction_turns (normalizeUrl url))
                                   PlatformType.all)).
      change (4 + L)%nat with (S (S (2 + L))).
      cbn [turns turn detect_resume]. rewrite Hd.
      cbn [turns turn detect_resume].
      rewrite turns_settled by reflexivity. reflexivity.
  - assert (Hb : detect_body service url w = (Thrown e, w1)).
    { unfold detect_body. cbv zeta. unfold bind. rewrite Hg. reflexivity. }
    rewrite Hb. cbn [List.map list_max fold_right turns_left].
    rewrite turns_settled by reflexivity. reflexivity.
Qed.

End AloneFacts.

Section LockstepFacts.
Context {W X P A : Type}.
Variable start : X -> W -> (P + A) * W.
Variable resume : P -> W -> (P + A) * W.

(** Calls that wait at the same place, resumed in a state that the second
    resumption leaves as the first left it. *)
Lemma turn_repeat (s : P) (c : P + A) (w w' : W) (m : nat) :
  resume s w = (c, w') -> resume s w' = (c, w') ->
  turn resume (repeat (inl s) (S m)) w = (repeat c (S m), w').
Proof.
  intros H1 H2.
  assert (Hrest : forall k, turn resume (repeat (inl s) k) w'
                            = (repeat c k, w')).
  { induction k as [|k IH]; simpl; [reflexivity|].
    rewrite H2, IH. reflexivity. }
  simpl. rewrite H1, Hrest. reflexivity.
Qed.

Lemma settled_repeat (a : A) (m : nat) :
  forallb has_settled (repeat (@inr P A a) m) = true.
Proof. induction m; simpl; auto. Qed.

Lemma settled_of_repeat (a : A) (m : nat) :
  Effect.settled (repeat (@inr P A a) m) = repeat a m.
Proof. induction m; simpl; [reflexivity|]. f_equal. assumption. Qed.

Lemma list_max_repeat (left : P + A -> nat) (c : P + A) (m : nat) :
  list_max (List.map left (repeat c (S m))) = left c.
Proof.
  induction m as [|m IH].
  - simpl. apply Nat.max_0_r.
  - change (repeat c (S (S m))) with (c :: repeat c (S m)).
    cbn [List.map list_max fold_right] in *. 
    change (fold_right Nat.max 0%nat (List.map left (repeat c (S m))))
      with (list_max (List.map left (repeat c (S m)))).
    rewrite IH. apply Nat.max_id.
Qed.

End LockstepFacts.

Lemma firstn_of_repeat {A : Type} (x : A) (a b : nat) :
  firstn a (repeat x b) = repeat x (Nat.min a b).
Proof.
  revert b. induction a as [|a IH]; intros [|b]; simpl; try reflexivity.
  f_equal. apply IH.
Qed.

Lemma skipn_of_repeat {A : Type} (x : A) (a b : nat) :
  skipn a (repeat x b) = repeat x (b - a).
Proof.
  revert b. induction a as [|a IH]; intros [|b]; simpl; try reflexivity.
  apply IH.
Qed.

Section WindowFacts.

Variable syntaxErrorMessage : jsstring.
Variable extract : jsstring -> PlatformType.t -> M World PlatformMetadata.t.
Variable applyLearning :
  StrategyDecider.t -> ContentType.t -> StrategyDecider.DecisionContext
  -> Z -> StrategyDecider.StrategyDecision.
Variable extraction_turns : jsstring -> PlatformType.t -> nat.
Hypothesis extract_pure :
  forall url platform w, snd (extract url platform w) = w.

Let service : PlatformDetectorService.t World :=
  createPlatformDetector (H := ModelHost) syntaxErrorMessage extract
                         applyLearning default_config.

Variable now : Z.

Lemma serving_initial : serving now [] 0 0 = initial default_config now.
Proof. reflexivity. Qed.

Lemma start_miss (url : jsstring) (es : CacheManager.entries) (h ms : Z) :
  CacheManager.Map_get (normalizeUrl (H := ModelHost) url) es = None ->
  detect_start service url (serving now es h ms)
  = (inl (AwaitGet (normalizeUrl (H := ModelHost) url) None),
     serving now es h (ms + 1)).
Proof.
  intros Hg. unfold detect_start. cbv zeta.
  unfold service. rewrite service_get.
  unfold CacheManager.get.
  change (CacheManager.enabled
            (CacheManager.config (cacheManager (serving now es h ms))))
    with true.
  cbn [negb].
  change (CacheManager.cache (cacheManager (serving now es h ms))) with es.
  rewrite Hg. reflexivity.
Qed.

Lemma call_each_miss (url : jsstring) (es : CacheManager.entries)
      (h ms : Z) (m : nat) :
  CacheManager.Map_get (normalizeUrl (H := ModelHost) url) es = None ->
  call_each (detect_start service) (repeat url m) (serving now es h ms)
  = (repeat (inl (AwaitGet (normalizeUrl (H := ModelHost) url) None)) m,
     serving now es h (ms + Z.of_nat m)).
Proof.
  intros Hg. revert ms. induction m as [|m IH]; intros ms.
  - simpl. rewrite Z.add_0_r. reflexivity.
  - cbn [repeat call_each]. rewrite (start_miss url es h ms Hg), IH.
    replace (ms + 1 + Z.of_nat m) with (ms + Z.of_nat (S m)) by lia.
    reflexivity.
Qed.

Lemma start_hit (url : jsstring) (r : PlatformDetectionResult.t)
      (reads h ms : Z) :
  let key := normalizeUrl (H := ModelHost) url in
  detect_start service url (serving now [(key, stored now r reads)] h ms)
  = (inl (AwaitGet key (Some r)),
     serving now [(key, stored now r (reads + 1))] (h + 1) ms).
Proof.
  intros key. unfold detect_start. cbv zeta. fold key.
  unfold service. rewrite service_get.
  unfold CacheManager.get.
  change (CacheManager.enabled
            (CacheManager.config
               (cacheManager
                  (serving now [(key, stored now r reads)] h ms))))
    with true.
  cbn [negb].
  change (CacheManager.cache
            (cacheManager (serving now [(key, stored now r reads)] h ms)))
    with [(key, stored now r reads)].
  cbn [CacheManager.Map_get CacheManager.Map_set].
  rewrite Js_eqb_refl.
  change (clock (serving now [(key, stored now r reads)] h ms)) with now.
  cbn [CacheManager.expiresAt stored].
  destruct (Z.gtb_spec now (now + 300000)) as [Hlt|Hge]; [lia|].
  reflexivity.
Qed.


Lemma call_each_hit (url : jsstring) (r : PlatformDetectionResult.t)
      (reads h ms : Z) (m : nat) :
  let key := normalizeUrl (H := ModelHost) url in
  call_each (detect_start service) (repeat url m)
            (serving now [(key, stored now r reads)] h ms)
  = (repeat (inl (AwaitGet key (Some r))) m,
     serving now [(key, stored now r (reads + Z.of_nat m))]
             (h + Z.of_nat m) ms).
Proof.
  intros key. revert reads h. induction m as [|m IH]; intros reads h.
  - simpl. rewrite !Z.add_0_r. reflexivity.
  - cbn [repeat call_each].
    pose proof (start_hit url r reads h ms) as Hs. cbv zeta in Hs.
    fold key in Hs. rewrite Hs, IH.
    replace (reads + 1 + Z.of_nat m) with (reads + Z.of_nat (S m)) by lia.
    replace (h + 1 + Z.of_nat m) with (h + Z.of_nat (S m)) by lia.
    reflexivity.
Qed.

Let answer : RuleManager.Intermediate.t -> option PlatformMetadata.t
                 -> PlatformDetectionResult.t :=
  default_answer applyLearning now.

Lemma finish_stores (key : jsstring)
      (platformResult : RuleManager.Intermediate.t)
      (metadata : option PlatformMetadata.t)
      (es : CacheManager.entries) (h ms : Z) :
  (RuleManager.Intermediate.platform platformResult = PlatformType.generic
   -> metadata = None) ->
  es = [] \/ es = [(key, stored now (answer platformResult metadata) 0)] ->
  detect_finish service key platformResult metadata (serving now es h ms)
  = (inl (AwaitSet (answer platformResult metadata)),
     serving now [(key, stored now (answer platformResult metadata) 0)]
             h ms).
Proof.
  intros Hg Hes. unfold detect_finish, classify_decide_store. cbv zeta.
  unfold bind at 1. unfold service. rewrite service_classify.
  change (contentTypeClassifier (serving now es h ms))
    with default_classifier.
  rewrite (classify_default _ metadata Hg).
  unfold bind at 1. rewrite service_decide.
  change (strategyDecider (serving now es h ms))
    with (strategyDecider (initial default_config now)).
  change (clock (serving now es h ms)) with now.
  rewrite decide_state.
  unfold StrategyDecider.recordDecision at 1.
  change (StrategyDecider.enableLearning
            (strategyDecider (initial default_config now))) with false.
  cbn [negb].
  change (with_strategyDecider (strategyDecider (initial default_config now))
            (serving now es h ms)) with (serving now es h ms).
  unfold bind, ret. rewrite service_set.
  fold (answer platformResult metadata).
  unfold CacheManager.set.
  change (CacheManager.enabled
            (CacheManager.config (cacheManager (serving now es h ms))))
    with true.
  cbn [negb]. cbv zeta.
  change (CacheManager.maxSize
            (CacheManager.config (cacheManager (serving now es h ms))))
    with 1000.
  change (CacheManager.duration
            (CacheManager.config (cacheManager (serving now es h ms))))
    with 300000.
  change (clock (serving now es h ms)) with now.
  fold (stored now (answer platformResult metadata) 0).
  assert (Hsize : (CacheManager.size (cacheManager (serving now es h ms))
                   >=? 1000) = false).
  { destruct Hes as [-> | ->]; reflexivity. }
  rewrite Hsize.
  change (CacheManager.cache (cacheManager (serving now es h ms))) with es.
  destruct Hes as [-> | ->]; cbn [CacheManager.Map_set].
  - reflexivity.
  - rewrite Js_eqb_refl. reflexivity.
Qed.


(** A window of copies of a URL whose result the cache holds: every call
    is served from the cache. *)
Lemma window_hit (url : jsstring) (r : PlatformDetectionResult.t)
      (reads h ms : Z) (m : nat) :
  let key := normalizeUrl (H := ModelHost) url in
  detect_all service extraction_turns (repeat url m)
             (serving now [(key, stored now r reads)] h ms)
  = (Returned (repeat r m),
     serving now [(key, stored now r (reads + Z.of_nat m))]
             (h + Z.of_nat m) ms).
Proof.
  intros key. unfold detect_all.
  pose proof (call_each_hit url r reads h ms m) as Hc. cbv zeta in Hc.
  fold key in Hc. rewrite Hc.
  destruct m as [|m].
  - reflexivity.
  - rewrite list_max_repeat.
    change (turns_left extraction_turns (inl (AwaitGet key (Some r))))
      with (S (3 + list_max (List.map (extraction_turns key)
                                      PlatformType.all))).
    cbn [turns].
    rewrite (turn_repeat (detect_resume service extraction_turns)
               (AwaitGet key (Some r)) (inr r) _ _ m eq_refl eq_refl).
    rewrite turns_settled by apply settled_repeat.
    rewrite settled_of_repeat. reflexivity.
Qed.

Lemma turns_extracting_repeat (more : nat) (key : jsstring)
      (platformResult : RuleManager.Intermediate.t)
      (metadata : outcome PlatformMetadata.t) (w : World) (m : nat) :
  turns (detect_resume service extraction_turns) more
        (repeat (inl (AwaitExtract more key platformResult metadata))
                (S m)) w
  = (repeat (inl (AwaitExtract 0 key platformResult metadata)) (S m), w).
Proof.
  induction more as [|more IH]; [reflexivity|].
  cbn [turns].
  rewrite (turn_repeat (detect_resume service extraction_turns)
             (AwaitExtract (S more) key platformResult metadata)
             (inl (AwaitExtract more key platformResult metadata))
             w w m eq_refl eq_refl).
  exact IH.
Qed.

(** The calls of a window wait for [cacheManager.set], after the first
    of them has called it: they all settle with the result. *)
Lemma turns_stored (n : nat) (r : PlatformDetectionResult.t) (w : World)
      (m : nat) :
  turns (detect_resume service extraction_turns) (S n)
        (repeat (inl (AwaitSet r)) (S m)) w
  = (repeat (inr r) (S m), w).
Proof.
  cbn [turns].
  rewrite (turn_repeat (detect_resume service extraction_turns)
             (AwaitSet r) (inr r) w w m eq_refl eq_refl).
  apply turns_settled, settled_repeat.
Qed.

(** A window of copies of a URL that the cache does not hold: every call
    misses, and the result is stored. *)
Lemma window_miss (url : jsstring) (h ms : Z) (m : nat) :
  let key := normalizeUrl (H := ModelHost) url in
  exists r,
    detect_all service extraction_turns (repeat url (S m))
               (serving now [] h ms)
    = (Returned (repeat r (S m)),
       serving now [(key, stored now r 0)] h (ms + Z.of_nat (S m))).
Proof.
  intros key. unfold detect_all.
  rewrite (call_each_miss url [] h ms (S m) eq_refl). fold key.
  rewrite list_max_repeat.
  set (L := list_max (List.map (extraction_turns key) PlatformType.all)).
  change (turns_left extraction_turns (inl (AwaitGet key None)))
    with (S (S (2 + L))).
  set (w1 := serving now [] h (ms + Z.of_nat (S m))).
  set (p := RuleManager.detectPlatform (H := ModelHost) (ruleManager w1)
              key).
  cbn [turns].
  rewrite (turn_repeat (detect_resume service extraction_turns)
             (AwaitGet key None)
             (inl (AwaitDetectPlatform key (Returned p))) w1 w1 m
             eq_refl eq_refl).
  destruct (enableMetadataExtraction service
            && negb (PlatformType.eqb (RuleManager.Intermediate.platform p)
                                      PlatformType.generic))%bool eqn:Ex.
  - (* the extractor is called *)
    assert (Hng : RuleManager.Intermediate.platform p
                  <> PlatformType.generic).
    { intros Hp. rewrite Hp in Ex. rewrite andb_comm in Ex.
      discriminate Ex. }
    pose proof (extract_pure key (RuleManager.Intermediate.platform p) w1)
      as Hpure.
    destruct (extract key (RuleManager.Intermediate.platform p) w1)
      as [o w'] eqn:Eo.
    simpl in Hpure. subst w'.
    set (k := extraction_turns key (RuleManager.Intermediate.platform p)).
    assert (Hstep : detect_resume service extraction_turns
                      (AwaitDetectPlatform key (Returned p)) w1
                    = (inl (AwaitExtract k key p o), w1)).
    { cbn [detect_resume]. cbv zeta. rewrite Ex.
      change (metadataExtractor_extract service) with extract.
      rewrite Eo. reflexivity. }
    rewrite (turn_repeat (detect_resume service extraction_turns)
               _ _ w1 w1 m Hstep Hstep).
    assert (Hk : (k <= L)%nat) by apply extraction_turns_longest.
    replace (2 + L)%nat with (k + S (S (L - k)))%nat by lia.
    rewrite turns_add, turns_extracting_repeat.
    set (metadata := match o with
                     | Returned md => Some md
                     | Thrown _ => None
                     end).
    assert (Hmd : RuleManager.Intermediate.platform p = PlatformType.generic
                  -> metadata = None) by (intros Hp; contradiction).
    exists (answer p metadata).
    change (turns (detect_resume service extraction_turns)
                  (S (S (L - k))))
      with (fun calls w =>
              let '(calls', w') :=
                turn (detect_resume service extraction_turns) calls w in
              turns (detect_resume service extraction_turns) (S (L - k))
                    calls' w').
    cbv beta.
    rewrite (turn_repeat (detect_resume service extraction_turns)
               (AwaitExtract 0 key p o)
               (inl (AwaitSet (answer p metadata)))
               w1 (serving now [(key, stored now (answer p metadata) 0)]
                           h (ms + Z.of_nat (S m))) m).
    + rewrite turns_stored, settled_of_repeat. reflexivity.
    + cbn [detect_resume]. fold metadata.
      apply finish_stores; [exact Hmd | left; reflexivity].
    + cbn [detect_resume]. fold metadata.
      apply finish_stores; [exact Hmd | right; reflexivity].
  - (* no extraction *)
    exists (answer p None).
    rewrite (turn_repeat (detect_resume service extraction_turns)
               (AwaitDetectPlatform key (Returned p))
               (inl (AwaitSet (answer p None)))
               w1 (serving now [(key, stored now (answer p None) 0)]
                           h (ms + Z.of_nat (S m))) m).
    + change (2 + L)%nat with (S (S L)).
      rewrite turns_stored, settled_of_repeat. reflexivity.
    + cbn [detect_resume]. cbv zeta. rewrite Ex.
      apply finish_stores; [reflexivity | left; reflexivity].
    + cbn [detect_resume]. cbv zeta. rewrite Ex.
      apply finish_stores; [reflexivity | right; reflexivity].
Qed.


(** Copies of a URL whose result the cache holds, window by window. *)
Lemma batch_hit (n : nat) (url : jsstring) (r : PlatformDetectionResult.t)
      (count : nat) (reads h ms : Z) :
  let key := normalizeUrl (H := ModelHost) url in
  detectBatch_by service extraction_turns (S n) (repeat url count)
                 (serving now [(key, stored now r reads)] h ms)
  = (Returned (repeat r count),
     serving now [(key, stored now r (reads + Z.of_nat count))]
             (h + Z.of_nat count) ms).
Proof.
  intros key. revert reads h.
  induction count as [count IH] using lt_wf_ind. intros reads h.
  rewrite detectBatch_by_windows.
  destruct count as [|count].
  - cbn [repeat firstn skipn]. unfold detectBatch_by, detect_all, bind, ret.
    simpl. rewrite !Z.add_0_r. reflexivity.
  - rewrite firstn_of_repeat, skipn_of_repeat.
    unfold bind.
    pose proof (window_hit url r reads h ms (Nat.min (S n) (S count)))
      as Hw.
    cbv zeta in Hw. fold key in Hw. rewrite Hw.
    rewrite IH by lia. unfold ret.
    rewrite <- repeat_app.
    replace (Nat.min (S n) (S count) + (S count - S n))%nat
      with (S count) by lia.
    replace (reads + Z.of_nat (Nat.min (S n) (S count))
             + Z.of_nat (S count - S n))
      with (reads + Z.of_nat (S count)) by lia.
    replace (h + Z.of_nat (Nat.min (S n) (S count))
             + Z.of_nat (S count - S n))
      with (h + Z.of_nat (S count)) by lia.
    reflexivity.
Qed.

(** Copies of a URL on the new service: the calls of the first window
    miss, the others are served from the cache. *)
Lemma batch_miss (n : nat) (url : jsstring) (count : nat) :
  exists r reads,
    detectBatch_by service extraction_turns (S n) (repeat url count)
                   (initial default_config now)
    = (Returned (repeat r count),
       serving now
         (match count with
          | O => []
          | S _ => [(normalizeUrl (H := ModelHost) url, stored now r reads)]
          end)
         (Z.of_nat (count - S n)) (Z.of_nat (Nat.min count (S n)))).
Proof.
  rewrite detectBatch_by_windows.
  destruct count as [|count].
  - exists sample_result, 0. reflexivity.
  - rewrite firstn_of_repeat, skipn_of_repeat.
    destruct (Nat.min (S n) (S count)) as [|m] eqn:Em; [lia|].
    destruct (window_miss url 0 0 m) as (r & Hw). cbv zeta in Hw.
    exists r, (0 + Z.of_nat (S count - S n)).
    unfold bind. rewrite <- serving_initial, Hw.
    pose proof (batch_hit n url r (S count - S n) 0 0
                  (0 + Z.of_nat (S m))) as Hh.
    cbv zeta in Hh. rewrite Hh. unfold ret.
    rewrite <- repeat_app.
    replace (S m + (S count - S n))%nat with (S count) by lia.
    replace (0 + Z.of_nat (S count - S n))
      with (Z.of_nat (S count - S n)) by lia.
    replace (0 + Z.of_nat (S m)) with (Z.of_nat (Nat.min (S count) (S n)))
      by lia.
    reflexivity.
Qed.

End WindowFacts.

(** C5: for every list of URLs, [detectBatch] returns, and returns as many
    results as there are URLs; the result at index [i] is what the call of
    [detect] for the URL at index [i] settles with.  [detectBatch] is the
    first window of five URLs, whose calls are made in the order of the
    list and have all Effect.settled before the rest of the list is started, and
    then [detectBatch] of the rest.  Count and order are the same for
    every positive size of the window, and a window of one URL is
    [detect].  The size of the window shows in the cache: of [count] copies
    of a URL given to the new default service (with the regular
    expressions and the URL parser of the model, and an extractor that
    leaves the state of the service alone), the calls of the first window
    all miss the cache and all the later ones are served from it, so seven
    copies count five misses and two hits. *)
Theorem detectBatch_in_order {H : Host} {W : Type}
        (service : PlatformDetectorService.t W)
        (extraction_turns : jsstring -> PlatformType.t -> nat)
        (urls : list jsstring) (w : W) :
  (exists results w',
     detectBatch service extraction_turns urls w = (Returned results, w')
     /\ List.length results = List.length urls
     /\ Forall2 (answers service extraction_turns) urls results)
  /\ detectBatch service extraction_turns urls w
     = (first <- detect_all service extraction_turns (firstn 5 urls) ;;
        rest <- detectBatch service extraction_turns (skipn 5 urls) ;;
        ret (first ++ rest)) w
  /\ (forall n,
        exists results w',
          detectBatch_by service extraction_turns (S n) urls w
          = (Returned results, w')
          /\ List.length results = List.length urls
          /\ Forall2 (answers service extraction_turns) urls results)
  /\ (forall url,
        detect_all service extraction_turns [url] w
        = (r <- detect service url ;; ret [r]) w)
  /\ (forall syntaxErrorMessage extract applyLearning now url count n,
        (forall u platform w0, snd (extract u platform w0) = w0) ->
        exists r w',
          detectBatch_by (H := ModelHost)
            (createPlatformDetector (H := ModelHost) syntaxErrorMessage
               extract applyLearning default_config)
            extraction_turns (S n) (repeat url count)
            (initial default_config now)
          = (Returned (repeat r count), w')
          /\ CacheManager.misses (cacheManager w')
             = Z.of_nat (Nat.min count (S n))
          /\ CacheManager.hits (cacheManager w')
             = Z.of_nat (count - S n)).
Proof.
  split; [|split; [|split; [|split]]].
  - apply detectBatch_by_answers.
  - apply detectBatch_by_windows.
  - intros n. apply detectBatch_by_answers.
  - intros url. apply detect_all_alone.
  - intros syntaxErrorMessage extract applyLearning now url count n Hpure.
    destruct (batch_miss syntaxErrorMessage extract applyLearning
                extraction_turns Hpure now n url count)
      as (r & reads & Hb).
    exists r. eexists. split; [exact Hb|].
    split; reflexivity.
Qed.

Lemma detectBatch_in_order_witness :
  exists r w',
    detectBatch (H := ModelHost)
      (createPlatformDetector (H := ModelHost) (Js.lit "bad pattern")
         quiet_extract no_learning default_config)
      (fun _ _ => 2%nat) (repeat sample_key 7) (initial default_config 0)
    = (Returned (repeat r 7), w')
    /\ CacheManager.misses (cacheManager w') = 5
    /\ CacheManager.hits (cacheManager w') = 2.
Proof.
  destruct (detectBatch_in_order
              (createPlatformDetector (H := ModelHost)
                 (Js.lit "bad pattern") quiet_extract no_learning
                 default_config)
              (fun _ _ => 2%nat) [] (initial default_config 0))
    as (_ & _ & _ & _ & Hpin).
  exact (Hpin (Js.lit "bad pattern") quiet_extract no_learning 0 sample_key
              7%nat 4%nat (fun u platform w0 => eq_refl)).
Defined.

(** ** Normalization of URLs: the second pass *)

Ltac char_facts :=
  unfold is_visible, is_escaped_char, is_value_char, is_form_safe,
    WebURL.is_host_char,
    WebURL.is_path_char, WebURL.is_query_char, WebURL.is_authority_end,
    WebURL.is_tab_or_newline, WebURL.is_c0_or_space, Js.is_white_space,
    Js.is_alnum, Js.is_alpha, Js.is_upper, Js.is_lower,
    Js.is_digit, Js.in_range in *;
  rewrite ?orb_true_iff, ?andb_true_iff, ?orb_false_iff, ?andb_false_iff,
    ?negb_true_iff, ?negb_false_iff,
    ?orb_true_iff, ?andb_true_iff, ?orb_false_iff, ?andb_false_iff,
    ?N.eqb_eq, ?N.leb_le, ?N.eqb_neq, ?N.leb_gt in *;
  lia.





(** *** Characters *)



Lemma value_char_visible (c : N) :
  is_value_char c = true -> is_visible c = true.
Proof. intros Hc. char_facts. Qed.








(** *** Lists of characters *)






(** *** Strings of visible characters *)





(** *** Hosts *)




(** *** Form encoding *)

Lemma escaped_char_visible (c : N) :
  is_escaped_char c = true -> is_visible c = true.
Proof. intros Hc. char_facts. Qed.








(** *** Parameters *)
















(** *** URLs *)
















(** ** The route [POST /api/platform/detect] *)

Section RouteFacts.

Context {H : Host}.

Variable syntaxErrorMessage : jsstring.

Variable extractor : option Json.t -> jsstring -> PlatformType.t
                     -> M World PlatformMetadata.t.

Variable extraction_turns : option Json.t -> jsstring -> PlatformType.t
                            -> nat.

Variable applyLearning :
  StrategyDecider.t -> ContentType.t -> StrategyDecider.DecisionContext
  -> Z -> StrategyDecider.StrategyDecision.

Variable toISOString : Z -> jsstring.

Variables cannot_read_null slice_is_no_function filter_is_no_function
  : jsstring.

Variable string_is_positive : jsstring -> bool.

Let shared : PlatformDetectorService.t World :=
  DetectRoute.platformDetector syntaxErrorMessage extractor applyLearning.

Let handleMultipleUrls :=
  DetectRoute.handleMultipleUrls syntaxErrorMessage extractor
    extraction_turns applyLearning.

Let handleUrls :=
  DetectRoute.handleUrls syntaxErrorMessage extractor extraction_turns
    applyLearning toISOString slice_is_no_function filter_is_no_function
    string_is_positive.

Let handle :=
  DetectRoute.handle syntaxErrorMessage extractor extraction_turns
    applyLearning toISOString cannot_read_null slice_is_no_function
    filter_is_no_function string_is_positive.

Let POST :=
  DetectRoute.POST syntaxErrorMessage extractor extraction_turns
    applyLearning toISOString cannot_read_null slice_is_no_function
    filter_is_no_function string_is_positive.

(** The responses of the route are well formed. *)
Lemma respond_error (status : Z) (message : jsstring) (w : World) :
  status = 400 \/ status = 500 ->
  exists response,
    DetectRoute.respond toISOString status false None (Some message) w
    = (Returned response, w)
    /\ well_formed response
    /\ DetectRoute.status response = status
    /\ DetectRoute.error response = Some message.
Proof.
  intros Hs. eexists. split; [reflexivity|].
  split; [|split; reflexivity].
  right. simpl. repeat split; [exact Hs | discriminate].
Qed.

Lemma respond_data (d : DetectRoute.DetectResponse) (w : World) :
  exists response,
    DetectRoute.respond toISOString 200 true (Some d) None w
    = (Returned response, w)
    /\ well_formed response
    /\ DetectRoute.status response = 200.
Proof.
  eexists. split; [reflexivity|]. split; [|reflexivity].
  left. simpl. repeat split. discriminate.
Qed.

(** [handleMultipleUrls] with falsy options: the batch on the exported
    detector. *)
Lemma handleMultipleUrls_shared (urls : list Json.t)
      (options : option Json.t) (w : World) :
  Json.truthy options = false ->
  handleMultipleUrls urls options w
  = match filter DetectRoute.isValid urls with
    | [] => (Thrown (ErrorObject DetectRoute.no_valid_url), w)
    | valid =>
        detectBatch shared (extraction_turns DetectRoute.default_timeout)
                    (List.map Json.toString valid) w
    end.
Proof.
  intros Ho. unfold handleMultipleUrls, DetectRoute.handleMultipleUrls.
  cbv zeta.
  destruct (filter DetectRoute.isValid urls) as [|u valid];
    [reflexivity|].
  unfold DetectRoute.on_detector.
  destruct options as [o|]; [rewrite Ho|]; reflexivity.
Qed.

(** Whatever the handlers do, the [try] block ends with a response or
    with something thrown. *)
Lemma handle_well_formed (startTime : Z) (body : Json.t) (w : World) :
  match handle startTime body w with
  | (Returned response, _) => well_formed response
  | (Thrown _, _) => True
  end.
Proof.
  assert (Hurls : forall urls options w0,
             match handleUrls startTime urls options w0 with
             | (Returned response, _) => well_formed response
             | (Thrown _, _) => True
             end).
  { intros urls options w0.
    unfold handleUrls, DetectRoute.handleUrls.
    destruct (Json.truthy urls && _)%bool.
    - destruct urls as [[| | | |items|]|]; try exact I.
      unfold bind.
      destruct (DetectRoute.handleMultipleUrls _ _ _ _ _ _ _)
        as [[rs|e] w1]; [|exact I].
      cbn [DetectRoute.Date_now].
      destruct (respond_data
                  {| DetectRoute.result := None;
                     DetectRoute.results := Some rs;
                     DetectRoute.processingTime := clock w1 - startTime |}
                  w1) as (response & -> & Hw & _).
      exact Hw.
    - destruct (respond_error 400 DetectRoute.invalid_request w0)
        as (response & -> & Hw & _); [tauto | exact Hw]. }
  unfold handle, DetectRoute.handle.
  destruct body as [|b|s text|s|items|fields]; try exact I; cbv zeta;
    (destruct (negb _ && _)%bool;
     [destruct (respond_error 400 DetectRoute.url_required w)
        as (response & -> & Hw & _); [tauto | exact Hw]|]);
    try apply Hurls.
  destruct (Json.get (Js.lit "url") (Json.Object fields)) as [u|];
    [|apply Hurls].
  destruct (Json.truthy (Some u)); [|apply Hurls].
  unfold bind.
  destruct (DetectRoute.handleSingleUrl _ _ _ _ _ _ _) as [[r|e] w1];
    [|exact I].
  cbn [DetectRoute.Date_now].
  destruct (respond_data
              {| DetectRoute.result := Some r;
                 DetectRoute.results := None;
                 DetectRoute.processingTime := clock w1 - startTime |}
              w1) as (response & -> & Hw & _).
  exact Hw.
Qed.


(** [POST] after the body was read. *)
Lemma POST_handles (request_json : M World Json.t) (w : World) :
  POST request_json w
  = match request_json w with
    | (Returned body, w1) =>
        match handle (clock w) body w1 with
        | (Returned response, w2) => (Returned response, w2)
        | (Thrown e, w2) =>
            DetectRoute.respond toISOString 500 false None
              (Some match e with
                    | ErrorObject message => message
                    | OtherValue => DetectRoute.internal_server_error
                    end) w2
        end
    | (Thrown e, w1) =>
        DetectRoute.respond toISOString 500 false None
          (Some match e with
                | ErrorObject message => message
                | OtherValue => DetectRoute.internal_server_error
                end) w1
    end.
Proof.
  unfold POST, DetectRoute.POST, try_catch, bind.
  cbn [DetectRoute.Date_now].
  destruct (request_json w) as [[body|e] w1]; reflexivity.
Qed.

(** A body without [url] and without [urls], or with [urls] of length
    zero: the route asks for one of them. *)
Lemma handle_nothing (startTime : Z) (body : Json.t) (w : World) :
  body <> Json.Null ->
  Json.truthy (Json.get (Js.lit "url") body) = false ->
  Json.truthy (Json.get (Js.lit "urls") body) = false
  \/ DetectRoute.length_is_zero (Json.get (Js.lit "urls") body) = true ->
  handle startTime body w
  = DetectRoute.respond toISOString 400 false None
      (Some DetectRoute.url_required) w.
Proof.
  intros Hb Hu Hn. unfold handle, DetectRoute.handle. cbv zeta.
  assert (Hc : (negb (Json.truthy (Json.get (Js.lit "url") body))
                && (negb (Json.truthy (Json.get (Js.lit "urls") body))
                    || DetectRoute.length_is_zero
                         (Json.get (Js.lit "urls") body)))%bool = true).
  { rewrite Hu. cbn [negb andb]. destruct Hn as [-> | ->];
      [reflexivity | apply orb_true_r]. }
  destruct body; [contradiction| | | | |]; rewrite Hc; reflexivity.
Qed.

(** A body without [url] and with [urls]: the part of the route for
    [urls]. *)
Lemma handle_urls (startTime : Z) (body : Json.t) (w : World) :
  Json.truthy (Json.get (Js.lit "url") body) = false ->
  Json.truthy (Json.get (Js.lit "urls") body) = true ->
  DetectRoute.length_is_zero (Json.get (Js.lit "urls") body) = false ->
  handle startTime body w
  = handleUrls startTime (Json.get (Js.lit "urls") body)
               (Json.get (Js.lit "options") body) w.
Proof.
  intros Hu Hs Hz. unfold handle, DetectRoute.handle. cbv zeta.
  destruct body as [|b|s text|s|items|fields]; try discriminate Hs.
  rewrite Hu, Hs, Hz. cbn [negb andb orb].
  destruct (Json.get (Js.lit "url") (Json.Object fields)) as [u|];
    reflexivity.
Qed.

End RouteFacts.

(** X26: for a body without [url] and without options whose [urls] is a
    non-empty array, [POST] looks at the first ten entries only, drops
    those that, as strings, are no [http] or [https] URL, and gives the
    others, in order, to [detectBatch] of the exported detector, whose
    state the request changes.  It answers 200 with one result per URL
    kept, at most ten, each the answer of [detect] for that URL; when no
    entry is kept it answers with status 500 and the message of
    [handleMultipleUrls] that there is no valid URL. *)
Theorem POST_batch_keeps_valid_urls {H : Host}
        (syntaxErrorMessage : jsstring)
        (extractor : option Json.t -> jsstring -> PlatformType.t
                     -> M World PlatformMetadata.t)
        (extraction_turns : option Json.t -> jsstring -> PlatformType.t
                            -> nat)
        (applyLearning :
           StrategyDecider.t -> ContentType.t
           -> StrategyDecider.DecisionContext -> Z
           -> StrategyDecider.StrategyDecision)
        (toISOString : Z -> jsstring)
        (cannot_read_null slice_is_no_function filter_is_no_function
         : jsstring)
        (string_is_positive : jsstring -> bool)
        (body : Json.t) (all : list Json.t) (w : World) :
  Json.truthy (Json.get (Js.lit "url") body) = false ->
  Json.get (Js.lit "urls") body = Some (Json.Array all) ->
  all <> [] ->
  Json.truthy (Json.get (Js.lit "options") body) = false ->
  let shared :=
    DetectRoute.platformDetector syntaxErrorMessage extractor
                                 applyLearning in
  let turns := extraction_turns DetectRoute.default_timeout in
  let valid :=
    List.map Json.toString
             (filter DetectRoute.isValid (firstn 10 all)) in
  let answered :=
    DetectRoute.POST syntaxErrorMessage extractor extraction_turns
      applyLearning toISOString cannot_read_null slice_is_no_function
      filter_is_no_function string_is_positive (ret body) w in
  (valid = [] ->
   answered
   = (Returned {| DetectRoute.status := 500;
                  DetectRoute.success := false;
                  DetectRoute.data := None;
                  DetectRoute.error := Some DetectRoute.no_valid_url;
                  DetectRoute.timestamp := toISOString (clock w) |}, w))
  /\ (valid <> [] ->
      exists rs w',
        detectBatch shared turns valid w = (Returned rs, w')
        /\ List.length rs = List.length valid
        /\ (List.length rs <= 10)%nat
        /\ Forall2 (answers shared turns) valid rs
        /\ answered
           = (Returned
                {| DetectRoute.status := 200;
                   DetectRoute.success := true;
                   DetectRoute.data :=
                     Some {| DetectRoute.result := None;
                             DetectRoute.results := Some rs;
                             DetectRoute.processingTime :=
                               clock w' - clock w |};
                   DetectRoute.error := None;
                   DetectRoute.timestamp := toISOString (clock w') |},
              w')).
Proof.
  intros Hu Hall Hne Ho. cbv zeta.
  assert (Hp : (Json.truthy (Some (Json.Array all))
                && DetectRoute.length_is_positive string_is_positive
                     (Some (Json.Array all)))%bool = true)
    by (destruct all; [contradiction | reflexivity]).
  assert (Hpost :
            DetectRoute.POST syntaxErrorMessage extractor extraction_turns
              applyLearning toISOString cannot_read_null
              slice_is_no_function filter_is_no_function
              string_is_positive (ret body) w
            = match
                DetectRoute.handleMultipleUrls syntaxErrorMessage extractor
                  extraction_turns applyLearning (firstn 10 all)
                  (Json.get (Js.lit "options") body) w
              with
              | (Returned rs, w') =>
                  (Returned
                     {| DetectRoute.status := 200;
                        DetectRoute.success := true;
                        DetectRoute.data :=
                          Some {| DetectRoute.result := None;
                                  DetectRoute.results := Some rs;
                                  DetectRoute.processingTime :=
                                    clock w' - clock w |};
                        DetectRoute.error := None;
                        DetectRoute.timestamp := toISOString (clock w') |},
                   w')
              | (Thrown e, w') =>
                  DetectRoute.respond toISOString 500 false None
                    (Some match e with
                          | ErrorObject message => message
                          | OtherValue => DetectRoute.internal_server_error
                          end) w'
              end).
  { rewrite POST_handles. unfold ret.
    rewrite handle_urls;
      [|exact Hu | rewrite Hall; reflexivity
       |rewrite Hall; destruct all; [contradiction | reflexivity]].
    rewrite Hall. unfold DetectRoute.handleUrls.
    rewrite Hp. cbv zeta. unfold bind.
    change (JsArray.slice 0 DetectRoute.maxBatchSize all)
      with (firstn 10 all).
    destruct (DetectRoute.handleMultipleUrls _ _ _ _ _ _ _)
      as [[rs|e] w']; reflexivity. }
  rewrite Hpost. clear Hpost.
  rewrite handleMultipleUrls_shared by exact Ho.
  destruct (filter DetectRoute.isValid (firstn 10 all)) as [|u valid]
    eqn:Ev.
  - split; [intros _; reflexivity | intros Hc; contradiction Hc].
    reflexivity.
  - split; [discriminate|]. intros _.
    destruct (detectBatch_by_answers
                (DetectRoute.platformDetector syntaxErrorMessage extractor
                   applyLearning)
                (extraction_turns DetectRoute.default_timeout) 4
                (List.map Json.toString (u :: valid)) w)
      as (rs & w' & Hb & Hl & Ha).
    exists rs, w'. unfold detectBatch. rewrite Hb.
    split; [reflexivity|]. split; [|split; [|split]].
    + exact Hl.
    + rewrite Hl, length_map, <- Ev.
      eapply Nat.le_trans; [apply filter_length_le|].
      apply firstn_le_length.
    + exact Ha.
    + reflexivity.
Qed.

Lemma POST_batch_keeps_valid_urls_witness :
  exists rs w',
    DetectRoute.POST (H := ModelHost) (Js.lit "bad pattern")
      (fun _ => quiet_extract) (fun _ _ _ => 2%nat) no_learning
      fixed_toISOString [] [] [] (fun _ => false) (ret batch_request)
      (initial default_config 0)
    = (Returned
         {| DetectRoute.status := 200;
            DetectRoute.success := true;
            DetectRoute.data :=
              Some {| DetectRoute.result := None;
                      DetectRoute.results := Some rs;
                      DetectRoute.processingTime :=
                        clock w' - clock (initial default_config 0) |};
            DetectRoute.error := None;
            DetectRoute.timestamp := fixed_toISOString (clock w') |}, w')
    /\ List.length rs = 2%nat.
Proof.
  assert (Hu : Json.truthy (Json.get (Js.lit "url") batch_request) = false)
    by reflexivity.
  assert (Hl : Json.get (Js.lit "urls") batch_request
               = Some (Json.Array batch_urls))
    by reflexivity.
  assert (Hne : batch_urls <> []) by discriminate.
  assert (Ho : Json.truthy (Json.get (Js.lit "options") batch_request)
               = false) by reflexivity.
  destruct (POST_batch_keeps_valid_urls (H := ModelHost)
              (Js.lit "bad pattern") (fun _ => quiet_extract)
              (fun _ _ _ => 2%nat) no_learning fixed_toISOString [] [] []
              (fun _ => false) batch_request batch_urls
              (initial default_config 0) Hu Hl Hne Ho)
    as [_ Hvalid].
  destruct Hvalid as (rs & w' & _ & Hlen & _ & _ & Hr);
    [vm_compute; discriminate|].
  exists rs, w'. split; [exact Hr|].
  rewrite Hlen. vm_compute. reflexivity.
Defined.

(** X27: [POST] always returns a response and never throws, whatever
    JSON value the body is and whatever reading the body does.  The
    response is either a success with status 200 and data, or an error
    with status 400 or 500, a message and no data.  A body that cannot be
    read gives 500, and so does the body [null], with the message of the
    engine for a property of [null].  Any other body without a truthy
    [url], whose [urls] is falsy or has length zero, gives 400 with the
    message that asks for one of them; one whose [urls] is truthy and has
    a length that is neither zero nor positive (a number, for one) gives
    400 with the message of an invalid request; and one whose [urls] has a
    positive length and is no array gives 500.  In all these cases the
    state of the detector is as reading the body left it. *)
Theorem POST_always_responds {H : Host}
        (syntaxErrorMessage : jsstring)
        (extractor : option Json.t -> jsstring -> PlatformType.t
                     -> M World PlatformMetadata.t)
        (extraction_turns : option Json.t -> jsstring -> PlatformType.t
                            -> nat)
        (applyLearning :
           StrategyDecider.t -> ContentType.t
           -> StrategyDecider.DecisionContext -> Z
           -> StrategyDecider.StrategyDecision)
        (toISOString : Z -> jsstring)
        (cannot_read_null slice_is_no_function filter_is_no_function
         : jsstring)
        (string_is_positive : jsstring -> bool)
        (request_json : M World Json.t) (w : World) :
  exists response w',
    DetectRoute.POST syntaxErrorMessage extractor extraction_turns
      applyLearning toISOString cannot_read_null slice_is_no_function
      filter_is_no_function string_is_positive request_json w
    = (Returned response, w')
    /\ well_formed response
    /\ (forall e w1,
          request_json w = (Thrown e, w1) ->
          DetectRoute.status response = 500 /\ w' = w1)
    /\ (forall w1,
          request_json w = (Returned Json.Null, w1) ->
          DetectRoute.status response = 500
          /\ DetectRoute.error response = Some cannot_read_null
          /\ w' = w1)
    /\ (forall body w1,
          request_json w = (Returned body, w1) ->
          body <> Json.Null ->
          Json.truthy (Json.get (Js.lit "url") body) = false ->
          let urls := Json.get (Js.lit "urls") body in
          (Json.truthy urls = false \/ DetectRoute.length_is_zero urls = true
           -> DetectRoute.status response = 400
              /\ DetectRoute.error response = Some DetectRoute.url_required
              /\ w' = w1)
          /\ (Json.truthy urls = true ->
              DetectRoute.length_is_zero urls = false ->
              DetectRoute.length_is_positive string_is_positive urls
              = false ->
              DetectRoute.status response = 400
              /\ DetectRoute.error response
                 = Some DetectRoute.invalid_request
              /\ w' = w1)
          /\ (Json.truthy urls = true ->
              DetectRoute.length_is_positive string_is_positive urls
              = true ->
              (forall items, urls <> Some (Json.Array items)) ->
              DetectRoute.status response = 500 /\ w' = w1)).
Proof.
  rewrite POST_handles.
  destruct (request_json w) as [[body|e] w1].
  - pose proof (handle_well_formed syntaxErrorMessage extractor
                  extraction_turns applyLearning toISOString
                  cannot_read_null slice_is_no_function
                  filter_is_no_function string_is_positive (clock w) body
                  w1) as Hwf.
    assert (Hcases :
              forall response w2,
                (DetectRoute.handle syntaxErrorMessage extractor
                   extraction_turns applyLearning toISOString
                   cannot_read_null slice_is_no_function
                   filter_is_no_function string_is_positive (clock w) body
                   w1 = (Returned response, w2)
                 \/ exists e,
                     DetectRoute.handle syntaxErrorMessage extractor
                       extraction_turns applyLearning toISOString
                       cannot_read_null slice_is_no_function
                       filter_is_no_function string_is_positive (clock w)
                       body w1 = (Thrown e, w2)
                     /\ DetectRoute.respond toISOString 500 false None
                          (Some match e with
                                | ErrorObject message => message
                                | OtherValue =>
                                    DetectRoute.internal_server_error
                                end) w2
                        = (Returned response, w2)) ->
                (body = Json.Null ->
                 DetectRoute.status response = 500
                 /\ DetectRoute.error response = Some cannot_read_null
                 /\ w2 = w1)
                /\ (body <> Json.Null ->
                    Json.truthy (Json.get (Js.lit "url") body) = false ->
                    let urls := Json.get (Js.lit "urls") body in
                    (Json.truthy urls = false
                     \/ DetectRoute.length_is_zero urls = true
                     -> DetectRoute.status response = 400
                        /\ DetectRoute.error response
                           = Some DetectRoute.url_required
                        /\ w2 = w1)
                    /\ (Json.truthy urls = true ->
                        DetectRoute.length_is_zero urls = false ->
                        DetectRoute.length_is_positive string_is_positive
                                                       urls = false ->
                        DetectRoute.status response = 400
                        /\ DetectRoute.error response
                           = Some DetectRoute.invalid_request
                        /\ w2 = w1)
                    /\ (Json.truthy urls = true ->
                        DetectRoute.length_is_positive string_is_positive
                                                       urls = true ->
                        (forall items, urls <> Some (Json.Array items)) ->
                        DetectRoute.status response = 500 /\ w2 = w1))).
    { intros response w2 Hh. split.
      - intros ->. destruct Hh as [Hh | (e & Hh & Hr)].
        + discriminate Hh.
        + injection Hh as <- <-. injection Hr as <-.
          repeat split.
      - intros Hb Hu. cbv zeta. split; [|split].
        + intros Hn.
          rewrite (handle_nothing syntaxErrorMessage extractor
                     extraction_turns applyLearning toISOString
                     cannot_read_null slice_is_no_function
                     filter_is_no_function string_is_positive (clock w)
                     body w1 Hb Hu Hn) in Hh.
          destruct Hh as [Hh | (e & Hh & _)]; [|discriminate Hh].
          injection Hh as <- <-. repeat split.
        + intros Ht Hz Hp.
          rewrite (handle_urls syntaxErrorMessage extractor
                     extraction_turns applyLearning toISOString
                     cannot_read_null slice_is_no_function
                     filter_is_no_function string_is_positive (clock w)
                     body w1 Hu Ht Hz) in Hh.
          unfold DetectRoute.handleUrls in Hh.
          rewrite Ht, Hp in Hh. cbn [andb] in Hh.
          destruct Hh as [Hh | (e & Hh & _)]; [|discriminate Hh].
          injection Hh as <- <-. repeat split.
        + intros Ht Hp Hna.
          assert (Hz : DetectRoute.length_is_zero
                         (Json.get (Js.lit "urls") body) = false).
          { destruct (Json.get (Js.lit "urls") body)
              as [[| | | |items|fields]|]; try reflexivity.
            - destruct s; [discriminate Ht | reflexivity].
            - destruct items; [discriminate Hp | reflexivity].
            - simpl in Hp |- *.
              destruct (Json.lookup (Js.lit "length") fields)
                as [[| |[| |]| | |]|]; try reflexivity.
              discriminate Hp. }
          rewrite (handle_urls syntaxErrorMessage extractor
                     extraction_turns applyLearning toISOString
                     cannot_read_null slice_is_no_function
                     filter_is_no_function string_is_positive (clock w)
                     body w1 Hu Ht Hz) in Hh.
          unfold DetectRoute.handleUrls in Hh.
          rewrite Ht, Hp in Hh. cbn [andb] in Hh.
          destruct (Json.get (Js.lit "urls") body)
            as [[| | | |items|fields]|];
            try (exfalso; apply (Hna items); reflexivity);
            (destruct Hh as [Hh | (e & Hh & Hr)];
             [discriminate Hh|];
             injection Hh as <- <-; injection Hr as <-;
             split; reflexivity). }
    destruct (DetectRoute.handle syntaxErrorMessage extractor
                extraction_turns applyLearning toISOString
                cannot_read_null slice_is_no_function
                filter_is_no_function string_is_positive (clock w) body
                w1) as [[response|e] w2] eqn:Eh.
    + exists response, w2. split; [reflexivity|].
      split; [exact Hwf|].
      split; [discriminate|].
      destruct (Hcases response w2 (or_introl eq_refl)) as [Hnull Hrest].
      split.
      * intros w1' [= -> <-]. apply Hnull. reflexivity.
      * intros body' w1' [= <- <-]. apply Hrest.
    + destruct (respond_error toISOString 500
                  match e with
                  | ErrorObject message => message
                  | OtherValue => DetectRoute.internal_server_error
                  end w2 (or_intror eq_refl))
        as (response & Hr & Hw & Hs & He).
      exists response, w2. split; [exact Hr|].
      split; [exact Hw|].
      split; [discriminate|].
      destruct (Hcases response w2
                  (or_intror (ex_intro _ e (conj eq_refl Hr))))
        as [Hnull Hrest].
      split.
      * intros w1' [= -> <-]. apply Hnull. reflexivity.
      * intros body' w1' [= <- <-]. apply Hrest.
  - destruct (respond_error toISOString 500
                match e with
                | ErrorObject message => message
                | OtherValue => DetectRoute.internal_server_error
                end w1 (or_intror eq_refl))
      as (response & Hr & Hw & Hs & He).
    exists response, w1. split; [exact Hr|].
    split; [exact Hw|].
    split; [intros e' w1' [= <- <-]; split; [exact Hs | reflexivity]|].
    split; [discriminate|]. discriminate.
Qed.
